(** * Command-buffer recording of dawn_native: the D3D12 and Vulkan back ends

    A shallow embedding of
      - src/dawn_native/d3d12/CommandBufferD3D12.cpp
      - src/dawn_native/vulkan/CommandBufferVk.cpp
    and the properties of the recorders stated in the design document.

    Conventions.
      - C++ unsigned integers are [Z] with the wrap-around written out
        ([u32], [u64]); [std::bitset<N>] is a [Z] read with [Z.testbit] and
        walked, like [IterateBitSet], from bit 0 upwards over its N bits.
      - Objects that the C++ code compares by address (pipelines, bind
        groups, buffers, textures) carry that address as a field.
      - Output parameters and mutated receivers become returned values; the
        native command list is the list of calls made on it, oldest first.
      - [ASSERT] and [UNREACHABLE] abort (outcome [Fatal]); [DAWN_TRY] and
        [DAWN_VALIDATION_ERROR] return an error to the caller ([Err]). *)

From stdpp Require Import base numbers list option strings gmap.
From Stdlib Require Import ZArith Lia SpecFloat.

Local Open Scope Z_scope.
Set Warnings "-register-all".

(** ** Outcomes and the recording monad *)

(** [ResultOrError<T>] and, with [T := unit], [MaybeError]. *)
Inductive ResultOrError (T : Type) : Type :=
| Success (value : T)
| Error (msg : string).
Arguments Success {T} value.
Arguments Error {T} msg.

(** How a call ends: normally, with an error handed back to the caller, or
    by aborting the process. *)
Inductive Outcome (A : Type) : Type :=
| Ok (a : A)
| Err (msg : string)
| Fatal (why : string).
Arguments Ok {A} a.
Arguments Err {A} msg.
Arguments Fatal {A} why.

(** A computation over a mutable world [W].  The world is returned on every
    path: what was appended to the command list before a failure stays
    appended. *)
Definition Rec (W A : Type) : Type := W -> Outcome A * W.

Definition ret {W A} (a : A) : Rec W A := fun w => (Ok a, w).

Definition bind {W A B} (m : Rec W A) (k : A -> Rec W B) : Rec W B :=
  fun w =>
    match m w with
    | (Ok a, w') => k a w'
    | (Err e, w') => (Err e, w')
    | (Fatal y, w') => (Fatal y, w')
    end.

Definition fail {W A} (msg : string) : Rec W A := fun w => (Err msg, w).

(** [DAWN_TRY] and [DAWN_TRY_ASSIGN]: an error is handed on to the caller. *)
Definition try {A} (result : ResultOrError A) : Outcome A :=
  match result with
  | Success value => Ok value
  | Error msg => Err msg
  end.
Definition abort {W A} (why : string) : Rec W A := fun w => (Fatal why, w).

(** [ASSERT(condition)]. *)
Definition ASSERT {W} (condition : bool) (what : string) : Rec W unit :=
  if condition then ret tt else abort what.

Declare Scope rec_scope.
Delimit Scope rec_scope with rec.
Notation "'do' x <- m ; k" := (bind m (fun x => k))
  (at level 10, x pattern, m at level 100, k at level 200) : rec_scope.
Notation "m ;' k" := (bind m (fun _ => k))
  (at level 100, k at level 200, right associativity) : rec_scope.

(** [for (x : xs) body(x)], stopping at the first failure. *)
Fixpoint forEach {W X} (xs : list X) (body : X -> Rec W unit) : Rec W unit :=
  match xs with
  | [] => ret tt
  | x :: rest => bind (body x) (fun _ => forEach rest body)
  end.

(** [for (x : xs) acc = body(acc, x)], stopping at the first failure. *)
Fixpoint foldRec {W X S} (xs : list X) (body : S -> X -> Rec W S) (acc : S) : Rec W S :=
  match xs with
  | [] => ret acc
  | x :: rest => bind (body acc x) (fun acc' => foldRec rest body acc')
  end.

(** ** Traces

    [trace] reads the list of recorded calls off a world.  A computation
    [records P] when, from any world, all it does to the trace is append
    calls that satisfy [P]; it is [errorFree] when it never hands an error
    back. *)
Definition records {W E X} (trace : W -> list E) (P : E -> Prop) (m : Rec W X) : Prop :=
  forall w, exists new, trace (snd (m w)) = trace w ++ new /\ Forall P new.

(** A computation that may do anything to the world but take calls back:
    what was recorded before it stays, in place. *)
Definition appends {W E X} (trace : W -> list E) (m : Rec W X) : Prop :=
  records trace (fun _ => True) m.

Definition errorFree {W X} (m : Rec W X) : Prop :=
  forall w e, fst (m w) <> Err e.

(** ** Machine integers and bit sets *)

Definition u32 (z : Z) : Z := z mod 2 ^ 32.
Definition u64 (z : Z) : Z := z mod 2 ^ 64.

(** The value of a 32-bit signed integer ([LONG], [int32_t]) that is given
    [z]: the two's complement reading of its low 32 bits. *)
Definition i32 (z : Z) : Z := (z + 2 ^ 31) mod 2 ^ 32 - 2 ^ 31.

(** [IterateBitSet(bits)] for a [std::bitset<width>]: the indices of the set
    bits in increasing order. *)
Definition IterateBitSet (width : nat) (bits : Z) : list Z :=
  List.filter (Z.testbit bits) (map Z.of_nat (seq 0 width)).

(** [bits.set(i)] and [bits[i]]. *)
Definition bitset_set (bits i : Z) : Z := Z.lor bits (Z.shiftl 1 i).
Definition bitset_test (bits i : Z) : bool := Z.testbit bits i.

(** ** Constants

    [common/Constants.h] and the generated [webgpu_cpp.h] are not among the
    sources.  The recorders use the limits only as array sizes and bit-set
    widths and the usage flags only as masks, so both are parameters. *)
Class Constants : Type := {
  kMaxBindGroups : nat;
  kMaxBindingsPerGroup : nat;
  kMaxVertexBuffers : nat;
  kMaxColorAttachments : nat;
  BufferUsage_CopySrc : Z;
  BufferUsage_CopyDst : Z;
  BufferUsage_Storage : Z;
  TextureUsage_CopySrc : Z;
  TextureUsage_CopyDst : Z;
  TextureUsage_Storage : Z;
  TextureUsage_OutputAttachment : Z;
}.

(** ** Front-end enumerations used by both back ends *)

Inductive IndexFormat : Type := Uint16 | Uint32.
Inductive LoadOp : Type := LoadOp_Clear | LoadOp_Load.
Inductive StoreOp : Type := StoreOp_Store | StoreOp_Clear.

Inductive BindingType : Type :=
| UniformBuffer
| StorageBuffer
| ReadonlyStorageBuffer
| Sampler
| SampledTexture
| StorageTexture
| ReadonlyStorageTexture
| WriteonlyStorageTexture
| AccelerationContainer.

#[global] Instance IndexFormat_eq_dec : EqDecision IndexFormat.
Proof. solve_decision. Defined.
#[global] Instance LoadOp_eq_dec : EqDecision LoadOp.
Proof. solve_decision. Defined.
#[global] Instance StoreOp_eq_dec : EqDecision StoreOp.
Proof. solve_decision. Defined.
#[global] Instance BindingType_eq_dec : EqDecision BindingType.
Proof. solve_decision. Defined.

(** A buffer object: its address, GPU virtual address and size. *)
Record Buffer : Type := {
  buffer_addr : positive;
  GetVA : Z;
  GetSize : Z;
}.


(** ** Invariants of the world

    A computation [preserves R] when the world it leaves, on every path, is
    related by [R] to the world it started from. *)
Definition preserves {W X} (R : W -> W -> Prop) (m : Rec W X) : Prop :=
  forall w, R w (snd (m w)).

(** * Front-end objects read by the recorders

    The classes of [dawn_native] itself ([Commands.h], [Texture.h],
    [BindGroup.h], [PassResourceUsage.h], ...) are not among the sources; what
    follows lists, per object, the members the two recorders read. *)

(** 32-bit IEEE floats ([float]). *)
Definition float : Type := spec_float.
Definition float_zero : float := S754_zero false.
Definition float_one : float := S754_finite false 8388608 (-23).
Definition float_add (x y : float) : float := SFadd 24 128 x y.
Definition float_neg (x : float) : float := SFopp x.
Definition float_of_u32 (n : Z) : float := binary_normalize 24 128 n 0 false.

Record Extent3D : Type := { width : Z; height : Z; depth : Z }.
Record Origin3D : Type := { x : Z; y : Z; z : Z }.
Record Color : Type := { r : float; g : float; b : float; a : float }.

Record Format : Type := {
  format : positive;
  HasDepth : bool;
  HasStencil : bool;
  isCompressed : bool;
  blockByteSize : Z;
  blockWidth : Z;
  blockHeight : Z;
}.

Record Texture : Type := {
  texture_addr : positive;
  GetFormat : Format;
  GetNumMipLevels : Z;
  GetArrayLayers : Z;
  Texture_GetSize : Extent3D;
  GetMipLevelPhysicalSize : Z -> Extent3D;
}.

Record TextureView : Type := {
  view_addr : positive;
  view_GetFormat : Format;
  GetTexture : Texture;
  GetBaseMipLevel : Z;
  GetLevelCount : Z;
  GetBaseArrayLayer : Z;
  GetLayerCount : Z;
}.

Record BufferCopy : Type := {
  bc_buffer : Buffer;
  bc_offset : Z;
  bc_rowPitch : Z;
  bc_imageHeight : Z;
}.

Record TextureCopy : Type := {
  tc_texture : Texture;
  tc_mipLevel : Z;
  tc_arrayLayer : Z;
  tc_origin : Origin3D;
}.

(** Bind groups and layouts. *)
Record BindGroupLayout : Type := {
  hasDynamicOffset : Z;
  types : Z -> BindingType;
  GetCbvUavSrvDescriptorCount : Z;
  GetSamplerDescriptorCount : Z;
}.

Record BufferBinding : Type := {
  bb_buffer : Buffer;
  bb_offset : Z;
  bb_size : Z;
}.

Record BindGroup : Type := {
  group_addr : positive;
  GetLayout : BindGroupLayout;
  GetBindingAsBufferBinding : Z -> BufferBinding;
}.

Record PipelineLayout : Type := {
  layout_addr : positive;
  GetBindGroupLayoutsMask : Z;
  InheritedGroupsMask : positive -> Z;
  GetDynamicRootParameterIndex : Z -> Z -> Z;
  GetCbvUavSrvRootParameterIndex : Z -> Z;
  GetSamplerRootParameterIndex : Z -> Z;
}.

(** Pipelines.  [pipeline_addr] is also the native handle. *)
Record RenderPipeline : Type := {
  pipeline_addr : positive;
  RenderPipeline_GetLayout : PipelineLayout;
  GetVertexBufferSlotsUsed : Z;
  GetVertexBuffer_arrayStride : Z -> Z;
  GetVertexStateDescriptor_indexFormat : IndexFormat;
  GetD3D12PrimitiveTopology : Z;
}.

Record ComputePipeline : Type := {
  compute_pipeline_addr : positive;
  ComputePipeline_GetLayout : PipelineLayout;
}.

Inductive ShaderStage : Type := RayGeneration | RayClosestHit | RayMiss.

Record RayTracingShaderBindingTable : Type := {
  GetGroupBufferHandle : positive;
  GetShaderGroupHandleSize : Z;
  GetOffset : ShaderStage -> Z;
}.

Record RayTracingPipeline : Type := {
  rt_pipeline_addr : positive;
  RayTracingPipeline_GetLayout : PipelineLayout;
  GetShaderBindingTable : RayTracingShaderBindingTable;
}.

(** The immutable part of a ray-tracing acceleration container; whether it
    is built or updated is state of the world. *)
Record RayTracingAccelerationContainer : Type := {
  container_addr : positive;
  GetLevel : Z;
  GetFlags : Z;
  GetGeometries_size : Z;
  GetInstances_size : Z;
}.

(** [BeginRenderPassCmd]. *)
Record RenderPassColorAttachmentInfo : Type := {
  ca_view : TextureView;
  ca_resolveTarget : option TextureView;
  ca_loadOp : LoadOp;
  ca_storeOp : StoreOp;
  ca_clearColor : Color;
}.

Record RenderPassDepthStencilAttachmentInfo : Type := {
  ds_view : TextureView;
  depthLoadOp : LoadOp;
  depthStoreOp : StoreOp;
  stencilLoadOp : LoadOp;
  stencilStoreOp : StoreOp;
  clearDepth : float;
  clearStencil : Z;
}.

Record AttachmentState : Type := {
  GetColorAttachmentsMask : Z;
  HasDepthStencilAttachment : bool;
  GetSampleCount : Z;
}.

Record BeginRenderPassCmd : Type := {
  attachmentState : AttachmentState;
  colorAttachments : Z -> RenderPassColorAttachmentInfo;
  depthStencilAttachment : RenderPassDepthStencilAttachmentInfo;
  rp_width : Z;
  rp_height : Z;
}.

(** [PassResourceUsage]: the buffers and textures of a pass, each with the
    usage it must be in.  The two pairs of parallel vectors of the C++ struct
    are lists of pairs. *)
Record PassResourceUsage : Type := {
  usage_buffers : list (Buffer * Z);
  usage_textures : list (Texture * Z);
}.

(** The command stream: one constructor per [Command] tag, carrying the
    fixed-size record and its trailing data ([NextCommand] followed by
    [NextData]). *)
Inductive Command : Type :=
| BeginComputePass
| BeginRayTracingPass
| BeginRenderPass (cmd : BeginRenderPassCmd)
| BuildRayTracingAccelerationContainer (container : RayTracingAccelerationContainer)
| CopyRayTracingAccelerationContainer (srcContainer dstContainer : RayTracingAccelerationContainer)
| UpdateRayTracingAccelerationContainer (container : RayTracingAccelerationContainer)
| CopyBufferToBuffer (source : Buffer) (sourceOffset : Z) (destination : Buffer)
    (destinationOffset size : Z)
| CopyBufferToTexture (source : BufferCopy) (destination : TextureCopy) (copySize : Extent3D)
| CopyTextureToBuffer (source : TextureCopy) (destination : BufferCopy) (copySize : Extent3D)
| CopyTextureToTexture (source destination : TextureCopy) (copySize : Extent3D)
| Dispatch (x y z : Z)
| DispatchIndirect (indirectBuffer : Buffer) (indirectOffset : Z)
| Draw (vertexCount instanceCount firstVertex firstInstance : Z)
| DrawIndexed (indexCount instanceCount firstIndex baseVertex firstInstance : Z)
| DrawIndirect (indirectBuffer : Buffer) (indirectOffset : Z)
| DrawIndexedIndirect (indirectBuffer : Buffer) (indirectOffset : Z)
| EndComputePass
| EndRayTracingPass
| EndRenderPass
| ExecuteBundles (bundles : list (list Command))
| InsertDebugMarker (label : string)
| PopDebugGroup
| PushDebugGroup (label : string)
| SetComputePipeline (pipeline : ComputePipeline)
| SetRayTracingPipeline (pipeline : RayTracingPipeline)
| SetRenderPipeline (pipeline : RenderPipeline)
| SetStencilReference (reference : Z)
| SetViewport (x y width height minDepth maxDepth : float)
| SetScissorRect (x y width height : Z)
| SetBlendColor (color : Color)
| SetBindGroup (index : Z) (group : BindGroup) (dynamicOffsets : list Z)
| SetIndexBuffer (buffer : Buffer) (offset : Z)
| SetVertexBuffer (slot : Z) (buffer : Buffer) (offset : Z)
| TraceRays (width height depth : Z).

(** *** Content-initialisation tracking of textures

    One flag per (texture, mip level, array layer); a texture starts with
    no flag set. *)
Definition InitFlags : Type := gmap (positive * Z * Z) bool.

Definition subresources (baseMipLevel levelCount baseArrayLayer layerCount : Z)
  : list (Z * Z) :=
  list_prod (seqZ baseMipLevel levelCount) (seqZ baseArrayLayer layerCount).

(** Modelled from the spec: [TextureBase::IsSubresourceContentInitialized]
    (Texture.cpp is not among the sources).  The tracker keeps a boolean per
    (mip level, array layer); a range is initialised when every flag in it
    is set. *)
Definition isSubresourceContentInitialized (flags : InitFlags) (texture : Texture)
    (baseMipLevel levelCount baseArrayLayer layerCount : Z) : bool :=
  forallb (fun '(level, layer) =>
             default false (flags !! (texture_addr texture, level, layer)))
          (subresources baseMipLevel levelCount baseArrayLayer layerCount).

(** Modelled from the spec: [TextureBase::SetIsSubresourceContentInitialized]
    (Texture.cpp is not among the sources), the pure bookkeeping update of
    the flags of a range. *)
Definition setIsSubresourceContentInitialized (flags : InitFlags) (isInitialized : bool)
    (texture : Texture) (baseMipLevel levelCount baseArrayLayer layerCount : Z)
  : InitFlags :=
  foldr (fun '(level, layer) acc =>
           <[(texture_addr texture, level, layer) := isInitialized]> acc)
        flags
        (subresources baseMipLevel levelCount baseArrayLayer layerCount).

(** Modelled from the spec: [IsCompleteSubresourceCopiedTo] (CommandBuffer.cpp
    of the front end is not among the sources): the copy extent equals the
    full extent of the destination subresource. *)
Definition IsCompleteSubresourceCopiedTo (texture : Texture) (copySize : Extent3D)
    (mipLevel : Z) : bool :=
  let extent := GetMipLevelPhysicalSize texture mipLevel in
  (depth extent =? depth copySize) && (width extent =? width copySize)
  && (height extent =? height copySize).


(** ** The transitions a pass needs

    [tracked] maps a resource to its tracked usage (0 when it has none
    yet).  Going through the resources of a pass in order, a resource whose
    tracked usage differs from the required one needs a transition from the
    one to the other, and is tracked in the required usage from then on. *)
Fixpoint neededTransitions (tracked : gmap positive Z) (entries : list (positive * Z))
  : list (positive * Z * Z) :=
  match entries with
  | [] => []
  | (address, usage) :: rest =>
    let current := default 0 (tracked !! address) in
    if current =? usage then neededTransitions tracked rest
    else (address, current, usage)
           :: neededTransitions (<[address := usage]> tracked) rest
  end.

Fixpoint trackedAfter (tracked : gmap positive Z) (entries : list (positive * Z))
  : gmap positive Z :=
  match entries with
  | [] => tracked
  | (address, usage) :: rest =>
    let current := default 0 (tracked !! address) in
    if current =? usage then trackedAfter tracked rest
    else trackedAfter (<[address := usage]> tracked) rest
  end.

Definition bufferEntries (usages : PassResourceUsage) : list (positive * Z) :=
  map (fun entry => (buffer_addr (fst entry), snd entry)) (usage_buffers usages).

Definition textureEntries (usages : PassResourceUsage) : list (positive * Z) :=
  map (fun entry => (texture_addr (fst entry), snd entry)) (usage_textures usages).

(** *** Bind group tracking shared by the back ends

    [BindGroupTracker.h] and [BindGroupAndStorageBarrierTracker.h] are not
    among the sources; the back-end trackers derive from them and [Apply]
    reads their members. *)
Section TrackerBase.
Context `{Constants}.

Record BindGroupTracker : Type := {
  mDirtyBindGroups : Z;
  mDirtyBindGroupsObjectChangedOrIsDynamic : Z;
  mBindGroupLayoutsMask : Z;
  mBindGroups : list (option BindGroup);
  mDynamicOffsetCounts : list Z;
  mDynamicOffsets : list (list Z);
  mPipelineLayout : option PipelineLayout;
  mLastAppliedPipelineLayout : option PipelineLayout;
  mBuffersNeedingBarrier : list Z;
  mBindingTypes : list (Z -> BindingType);
  mBuffers : list (Z -> Buffer);
}.

(** [array[i]] for an index that a bit-set walk produced. *)
Definition at_ {X} (array : list X) (i : Z) : option X := array !! Z.to_nat i.

Definition BindGroupTracker_init : BindGroupTracker :=
  {| mDirtyBindGroups := 0;
     mDirtyBindGroupsObjectChangedOrIsDynamic := 0;
     mBindGroupLayoutsMask := 0;
     mBindGroups := replicate kMaxBindGroups None;
     mDynamicOffsetCounts := replicate kMaxBindGroups 0;
     mDynamicOffsets := replicate kMaxBindGroups [];
     mPipelineLayout := None;
     mLastAppliedPipelineLayout := None;
     mBuffersNeedingBarrier := replicate kMaxBindGroups 0;
     mBindingTypes := replicate kMaxBindGroups (fun _ => UniformBuffer);
     mBuffers := replicate kMaxBindGroups
                   (fun _ => {| buffer_addr := 1%positive; GetVA := 0; GetSize := 0 |}) |}.

(** The bindings of a layout that are storage buffers, as a bit set. *)
Definition storageBufferBindings (layout : BindGroupLayout) : Z :=
  fold_left (fun bits binding =>
               if decide (types layout binding = StorageBuffer)
               then bitset_set bits binding else bits)
            (map Z.of_nat (seq 0 kMaxBindingsPerGroup)) 0.

(** Modelled from the spec: [OnSetBindGroup] of the tracker base classes.
    A slot holds the bind group, its dynamic offsets and two dirty flags:
    the group object changed, or only dynamic offsets are present (which
    needs no descriptor re-realisation, only an offset update).  Slots the
    current pipeline layout does not use are not dirtied.  For a changed
    group the storage buffers that need a hazard transition are noted. *)
Definition OnSetBindGroup (t : BindGroupTracker) (index : Z) (bindGroup : BindGroup)
    (dynamicOffsets : list Z) : BindGroupTracker :=
  let changed :=
    bool_decide (group_addr <$> mjoin (at_ (mBindGroups t) index)
                 <> Some (group_addr bindGroup)) in
  let used := bitset_test (mBindGroupLayoutsMask t) index in
  let hasOffsets := 0 <? Z.of_nat (length dynamicOffsets) in
  {| mDirtyBindGroups :=
       if used && changed then bitset_set (mDirtyBindGroups t) index
       else mDirtyBindGroups t;
     mDirtyBindGroupsObjectChangedOrIsDynamic :=
       if used && (changed || hasOffsets)
       then bitset_set (mDirtyBindGroupsObjectChangedOrIsDynamic t) index
       else mDirtyBindGroupsObjectChangedOrIsDynamic t;
     mBindGroupLayoutsMask := mBindGroupLayoutsMask t;
     mBindGroups := <[Z.to_nat index := Some bindGroup]> (mBindGroups t);
     mDynamicOffsetCounts :=
       <[Z.to_nat index := Z.of_nat (length dynamicOffsets)]> (mDynamicOffsetCounts t);
     mDynamicOffsets := <[Z.to_nat index := dynamicOffsets]> (mDynamicOffsets t);
     mPipelineLayout := mPipelineLayout t;
     mLastAppliedPipelineLayout := mLastAppliedPipelineLayout t;
     mBuffersNeedingBarrier :=
       if changed
       then <[Z.to_nat index := storageBufferBindings (GetLayout bindGroup)]>
              (mBuffersNeedingBarrier t)
       else mBuffersNeedingBarrier t;
     mBindingTypes :=
       if changed
       then <[Z.to_nat index := types (GetLayout bindGroup)]> (mBindingTypes t)
       else mBindingTypes t;
     mBuffers :=
       if changed
       then <[Z.to_nat index :=
                fun binding => bb_buffer (GetBindingAsBufferBinding bindGroup binding)]>
              (mBuffers t)
       else mBuffers t |}.

Definition setDirty (t : BindGroupTracker) (dirty dirtyOrDynamic : Z) : BindGroupTracker :=
  {| mDirtyBindGroups := dirty;
     mDirtyBindGroupsObjectChangedOrIsDynamic := dirtyOrDynamic;
     mBindGroupLayoutsMask := mBindGroupLayoutsMask t;
     mBindGroups := mBindGroups t;
     mDynamicOffsetCounts := mDynamicOffsetCounts t;
     mDynamicOffsets := mDynamicOffsets t;
     mPipelineLayout := mPipelineLayout t;
     mLastAppliedPipelineLayout := mLastAppliedPipelineLayout t;
     mBuffersNeedingBarrier := mBuffersNeedingBarrier t;
     mBindingTypes := mBindingTypes t;
     mBuffers := mBuffers t |}.

Definition setPipelineLayout (t : BindGroupTracker) (layout : option PipelineLayout)
    (mask : Z) (lastApplied : option PipelineLayout) : BindGroupTracker :=
  {| mDirtyBindGroups := mDirtyBindGroups t;
     mDirtyBindGroupsObjectChangedOrIsDynamic := mDirtyBindGroupsObjectChangedOrIsDynamic t;
     mBindGroupLayoutsMask := mask;
     mBindGroups := mBindGroups t;
     mDynamicOffsetCounts := mDynamicOffsetCounts t;
     mDynamicOffsets := mDynamicOffsets t;
     mPipelineLayout := layout;
     mLastAppliedPipelineLayout := lastApplied;
     mBuffersNeedingBarrier := mBuffersNeedingBarrier t;
     mBindingTypes := mBindingTypes t;
     mBuffers := mBuffers t |}.

(** Modelled from the spec: [OnSetPipeline] of the tracker base class.  A
    pipeline with another layout than the last applied one dirties the slots
    of its layout (all of them, or, where bind groups can be inherited, the
    ones the previous layout does not share). *)
Definition OnSetPipeline (CanInheritBindGroups : bool) (t : BindGroupTracker)
    (layout : PipelineLayout) : BindGroupTracker :=
  if decide (layout_addr <$> mLastAppliedPipelineLayout t = Some (layout_addr layout))
  then setPipelineLayout t (Some layout) (mBindGroupLayoutsMask t)
         (mLastAppliedPipelineLayout t)
  else
    let mask := GetBindGroupLayoutsMask layout in
    let t := setPipelineLayout t (Some layout) mask (mLastAppliedPipelineLayout t) in
    match mLastAppliedPipelineLayout t with
    | Some last =>
      if CanInheritBindGroups then
        let dirtiedGroups := Z.lnot (InheritedGroupsMask layout (layout_addr last)) in
        setDirty t
          (Z.land (Z.lor (mDirtyBindGroups t) dirtiedGroups) mask)
          (Z.land (Z.lor (mDirtyBindGroupsObjectChangedOrIsDynamic t) dirtiedGroups) mask)
      else setDirty t mask mask
    | None => setDirty t mask mask
    end.

(** Modelled from the spec: [DidApply] of the tracker base class, called at
    the end of every [Apply]: it clears the dirty bits. *)
Definition DidApply (t : BindGroupTracker) : BindGroupTracker :=
  setPipelineLayout (setDirty t 0 0) (mPipelineLayout t) (mBindGroupLayoutsMask t)
    (mPipelineLayout t).

End TrackerBase.
(** * The D3D12 back end *)
Module D3D12.

Inductive DXGI_FORMAT : Type :=
| DXGI_FORMAT_UNKNOWN
| DXGI_FORMAT_R16_UINT
| DXGI_FORMAT_R32_UINT.

#[global] Instance DXGI_FORMAT_eq_dec : EqDecision DXGI_FORMAT.
Proof. solve_decision. Defined.

(** [DXGIIndexFormat]; the [default: UNREACHABLE()] arm has no value of
    [IndexFormat] left to take. *)
Definition DXGIIndexFormat (format : IndexFormat) : DXGI_FORMAT :=
  match format with
  | Uint16 => DXGI_FORMAT_R16_UINT
  | Uint32 => DXGI_FORMAT_R32_UINT
  end.

Record D3D12_VERTEX_BUFFER_VIEW : Type := {
  vb_BufferLocation : Z;
  vb_SizeInBytes : Z;
  vb_StrideInBytes : Z;
}.

Record D3D12_INDEX_BUFFER_VIEW : Type := {
  ib_BufferLocation : Z;
  ib_SizeInBytes : Z;
  ib_Format : DXGI_FORMAT;
}.

#[global] Instance D3D12_INDEX_BUFFER_VIEW_eq_dec : EqDecision D3D12_INDEX_BUFFER_VIEW.
Proof. solve_decision. Defined.

(** The input-assembler calls the trackers make on the command list. *)
Inductive IACall : Type :=
| IASetVertexBuffers (StartSlot NumViews : Z) (pViews : list D3D12_VERTEX_BUFFER_VIEW)
| IASetIndexBuffer (pView : D3D12_INDEX_BUFFER_VIEW).

Section WithConstants.
Context `{Constants}.

(** *** VertexBufferTracker *)

Record VertexBufferTracker : Type := {
  mLastAppliedRenderPipeline : option positive;
  mStartSlot : Z;
  mEndSlot : Z;
  mD3D12BufferViews : list D3D12_VERTEX_BUFFER_VIEW;
}.

Definition zeroView : D3D12_VERTEX_BUFFER_VIEW :=
  {| vb_BufferLocation := 0; vb_SizeInBytes := 0; vb_StrideInBytes := 0 |}.

(** The member initialisers. *)
Definition VertexBufferTracker_init : VertexBufferTracker :=
  {| mLastAppliedRenderPipeline := None;
     mStartSlot := Z.of_nat kMaxVertexBuffers;
     mEndSlot := 0;
     mD3D12BufferViews := replicate kMaxVertexBuffers zeroView |}.

Definition setLocationAndSize (location size : Z) (v : D3D12_VERTEX_BUFFER_VIEW)
  : D3D12_VERTEX_BUFFER_VIEW :=
  {| vb_BufferLocation := location;
     vb_SizeInBytes := size;
     vb_StrideInBytes := vb_StrideInBytes v |}.

Definition setStride (stride : Z) (v : D3D12_VERTEX_BUFFER_VIEW)
  : D3D12_VERTEX_BUFFER_VIEW :=
  {| vb_BufferLocation := vb_BufferLocation v;
     vb_SizeInBytes := vb_SizeInBytes v;
     vb_StrideInBytes := stride |}.

(** [VertexBufferTracker::OnSetVertexBuffer].  [SizeInBytes] is a 32-bit
    [UINT] assigned from a 64-bit difference.  A [slot] outside the array is
    undefined behaviour in C++; here it leaves the array as it is. *)
Definition OnSetVertexBuffer (t : VertexBufferTracker) (slot : Z) (buffer : Buffer)
    (offset : Z) : VertexBufferTracker :=
  {| mLastAppliedRenderPipeline := mLastAppliedRenderPipeline t;
     mStartSlot := Z.min (mStartSlot t) slot;
     mEndSlot := Z.max (mEndSlot t) (u32 (slot + 1));
     mD3D12BufferViews :=
       alter (setLocationAndSize (u64 (GetVA buffer + offset))
                                 (u32 (u64 (GetSize buffer - offset))))
             (Z.to_nat slot) (mD3D12BufferViews t) |}.

(** The loop of [Apply] over the slots the pipeline uses: it widens the
    local range and refreshes the strides. *)
Definition widenStep (stride : Z -> Z)
    (acc : Z * Z * list D3D12_VERTEX_BUFFER_VIEW) (slot : Z)
  : Z * Z * list D3D12_VERTEX_BUFFER_VIEW :=
  let '(startSlot, endSlot, views) := acc in
  (Z.min startSlot slot,
   Z.max endSlot (u32 (slot + 1)),
   alter (setStride (stride slot)) (Z.to_nat slot) views).

(** [VertexBufferTracker::Apply]: the tracker afterwards and the calls made
    on the command list. *)
Definition VertexBufferTracker_Apply (t : VertexBufferTracker)
    (renderPipeline : option RenderPipeline)
  : Outcome (VertexBufferTracker * list IACall) :=
  match renderPipeline with
  | None => Fatal "ASSERT(renderPipeline != nullptr)"
  | Some p =>
    let vertexBufferSlotsUsed := GetVertexBufferSlotsUsed p in
    let startSlot := mStartSlot t in
    let endSlot := mEndSlot t in
    let '(startSlot, endSlot, views, last) :=
      if decide (mLastAppliedRenderPipeline t = Some (pipeline_addr p))
      then (startSlot, endSlot, mD3D12BufferViews t, mLastAppliedRenderPipeline t)
      else
        let '(s, e, v) :=
          fold_left (widenStep (GetVertexBuffer_arrayStride p))
                    (IterateBitSet kMaxVertexBuffers vertexBufferSlotsUsed)
                    (startSlot, endSlot, mD3D12BufferViews t) in
        (s, e, v, Some (pipeline_addr p)) in
    if endSlot <=? startSlot then
      Ok ({| mLastAppliedRenderPipeline := last;
             mStartSlot := mStartSlot t;
             mEndSlot := mEndSlot t;
             mD3D12BufferViews := views |}, [])
    else
      let count := endSlot - startSlot in
      Ok ({| mLastAppliedRenderPipeline := last;
             mStartSlot := Z.of_nat kMaxVertexBuffers;
             mEndSlot := 0;
             mD3D12BufferViews := views |},
          [IASetVertexBuffers startSlot count
             (take (Z.to_nat count) (drop (Z.to_nat startSlot) views))])
  end.

(** A client of the tracker: [SetVertexBuffer] records and draws (each draw
    calls [Apply] with the pipeline last set). *)
Inductive VertexOp : Type :=
| VSet (slot : Z) (buffer : Buffer) (offset : Z)
| VApply (p : RenderPipeline).

Definition vertexStep (t : VertexBufferTracker) (op : VertexOp) : VertexBufferTracker :=
  match op with
  | VSet slot buffer offset => OnSetVertexBuffer t slot buffer offset
  | VApply p =>
    match VertexBufferTracker_Apply t (Some p) with
    | Ok (t', _) => t'
    | _ => t
    end
  end.

Definition vertexRun (ops : list VertexOp) : VertexBufferTracker :=
  fold_left vertexStep ops VertexBufferTracker_init.

(** The slots set since the last [Apply] of [ops]. *)
Fixpoint slotsSetSince (acc : list Z) (ops : list VertexOp) : list Z :=
  match ops with
  | [] => acc
  | VSet slot _ _ :: rest => slotsSetSince (slot :: acc) rest
  | VApply _ :: rest => slotsSetSince [] rest
  end.

(** Inputs the front end lets through: slots index the view array. *)
Definition slotInRange (slot : Z) : Prop := 0 <= slot < Z.of_nat kMaxVertexBuffers.

Definition vertexOpValid (op : VertexOp) : Prop :=
  match op with
  | VSet slot _ _ => slotInRange slot
  | VApply _ => True
  end.

(** The bind call [c] covers slot [s]. *)
Definition covers (calls : list IACall) (s : Z) : Prop :=
  exists start count views,
    calls = [IASetVertexBuffers start count views] /\ start <= s < start + count.

(** The representation invariant of the tracker. *)
Definition vb_inv (t : VertexBufferTracker) : Prop :=
  0 <= mStartSlot t <= Z.of_nat kMaxVertexBuffers /\
  0 <= mEndSlot t <= Z.of_nat kMaxVertexBuffers /\
  length (mD3D12BufferViews t) = kMaxVertexBuffers.

(** *** IndexBufferTracker *)

Record IndexBufferTracker : Type := {
  mLastAppliedIndexFormat : DXGI_FORMAT;
  mD3D12BufferView : D3D12_INDEX_BUFFER_VIEW;
}.

Definition IndexBufferTracker_init : IndexBufferTracker :=
  {| mLastAppliedIndexFormat := DXGI_FORMAT_UNKNOWN;
     mD3D12BufferView :=
       {| ib_BufferLocation := 0; ib_SizeInBytes := 0; ib_Format := DXGI_FORMAT_UNKNOWN |} |}.

(** [IndexBufferTracker::OnSetIndexBuffer]: the last applied format is
    forgotten whatever the buffer and offset are. *)
Definition OnSetIndexBuffer (t : IndexBufferTracker) (buffer : Buffer) (offset : Z)
  : IndexBufferTracker :=
  {| mLastAppliedIndexFormat := DXGI_FORMAT_UNKNOWN;
     mD3D12BufferView :=
       {| ib_BufferLocation := u64 (GetVA buffer + offset);
          ib_SizeInBytes := u32 (u64 (GetSize buffer - offset));
          ib_Format := ib_Format (mD3D12BufferView t) |} |}.

(** [IndexBufferTracker::OnSetPipeline]. *)
Definition IndexBufferTracker_OnSetPipeline (t : IndexBufferTracker) (pipeline : RenderPipeline)
  : IndexBufferTracker :=
  {| mLastAppliedIndexFormat := mLastAppliedIndexFormat t;
     mD3D12BufferView :=
       {| ib_BufferLocation := ib_BufferLocation (mD3D12BufferView t);
          ib_SizeInBytes := ib_SizeInBytes (mD3D12BufferView t);
          ib_Format := DXGIIndexFormat (GetVertexStateDescriptor_indexFormat pipeline) |} |}.

(** [IndexBufferTracker::Apply]. *)
Definition IndexBufferTracker_Apply (t : IndexBufferTracker)
  : IndexBufferTracker * list IACall :=
  if decide (ib_Format (mD3D12BufferView t) = mLastAppliedIndexFormat t) then (t, [])
  else
    ({| mLastAppliedIndexFormat := ib_Format (mD3D12BufferView t);
        mD3D12BufferView := mD3D12BufferView t |},
     [IASetIndexBuffer (mD3D12BufferView t)]).

End WithConstants.


(** ** The recording context and the calls made during recording *)

Inductive D3D12_RESOURCE_BARRIER : Type :=
| BufferTransition (buffer : positive) (StateBefore StateAfter : Z)
| TextureTransition (texture : positive) (StateBefore StateAfter : Z).

(** The trace of a recording: the calls on the command list, in the order
    they are made, together with the calls on the descriptor allocator (each
    with what it returned) and on the content-initialisation tracker of
    textures. *)
Inductive Event : Type :=
| Call_Populate (group : positive) (result : ResultOrError bool)
| Call_AllocateAndSwitchShaderVisibleHeaps (result : ResultOrError unit)
| Call_EnsureSubresourceContentInitialized (texture : positive)
    (baseMipLevel levelCount baseArrayLayer layerCount : Z)
| Call_SetIsSubresourceContentInitialized (isInitialized : bool) (texture : positive)
    (baseMipLevel levelCount baseArrayLayer layerCount : Z)
| SetDescriptorHeaps (NumDescriptorHeaps : Z) (heaps : positive * positive)
| SetGraphicsRootConstantBufferView (RootParameterIndex BufferLocation : Z)
| SetComputeRootConstantBufferView (RootParameterIndex BufferLocation : Z)
| SetGraphicsRootUnorderedAccessView (RootParameterIndex BufferLocation : Z)
| SetComputeRootUnorderedAccessView (RootParameterIndex BufferLocation : Z)
| SetGraphicsRootShaderResourceView (RootParameterIndex BufferLocation : Z)
| SetComputeRootShaderResourceView (RootParameterIndex BufferLocation : Z)
| SetGraphicsRootDescriptorTable (RootParameterIndex BaseDescriptor : Z)
| SetComputeRootDescriptorTable (RootParameterIndex BaseDescriptor : Z)
| ResourceBarrier (barriers : list D3D12_RESOURCE_BARRIER)
| ClearSubresources (texture : positive)
    (baseMipLevel levelCount baseArrayLayer layerCount : Z)
| InputAssembler (call : IACall)
| CopyBufferRegion (dst : positive) (dstOffset : Z) (src : positive) (srcOffset size : Z)
| CopyTextureRegionFromBuffer (texture : positive) (mipLevel arrayLayer : Z)
    (textureOffset : Origin3D) (buffer : positive) (bufferSize : Extent3D)
    (offset rowPitch : Z) (bufferOffset : Origin3D) (copySize : Extent3D)
| CopyTextureRegionToBuffer (buffer : positive) (bufferSize : Extent3D)
    (offset rowPitch : Z) (bufferOffset : Origin3D)
    (texture : positive) (mipLevel arrayLayer : Z) (textureOffset : Origin3D)
    (copySize : Extent3D)
| CopyTextureRegion (dst : positive) (dstMipLevel dstArrayLayer : Z) (dstOrigin : Origin3D)
    (src : positive) (srcMipLevel srcArrayLayer : Z) (srcOrigin : Origin3D)
    (copySize : Extent3D)
| CopyResource (dst src : positive)
| D3D12Dispatch (x y z : Z)
| ExecuteIndirect (signature : positive) (buffer : positive) (offset : Z)
| SetComputeRootSignature (rootSignature : positive)
| SetGraphicsRootSignature (rootSignature : positive)
| SetPipelineState (pipelineState : positive)
| IASetPrimitiveTopology (topology : Z)
| DrawInstanced (vertexCount instanceCount firstVertex firstInstance : Z)
| DrawIndexedInstanced (indexCount instanceCount firstIndex baseVertex firstInstance : Z)
| pixSetMarkerOnCommandList (label : string)
| pixBeginEventOnCommandList (label : string)
| pixEndEventOnCommandList
| Call_CreateRenderTargetView (texture view : positive) (heap : positive) (index : Z)
| Call_CreateDepthStencilView (texture view : positive) (heap : positive) (index : Z)
| D3D12BeginRenderPass (NumRenderTargets : Z) (hasDepthStencil : bool) (Flags : Z)
| D3D12EndRenderPass
| ClearRenderTargetView (RenderTargetView : positive * Z) (ColorRGBA : Color)
| ClearDepthStencilView (DepthStencilView : positive * Z) (ClearFlags : Z)
    (Depth : float) (Stencil : Z)
| OMSetRenderTargets (NumRenderTargetDescriptors : Z)
    (pRenderTargetDescriptors : list (positive * Z))
    (pDepthStencilDescriptor : option (positive * Z))
| RSSetViewports (TopLeftX TopLeftY Width Height MinDepth MaxDepth : float)
| RSSetScissorRects (left top right bottom : Z)
| OMSetBlendFactor (BlendFactor : Color)
| OMSetStencilRef (StencilRef : Z)
| ResolveSubresource (pDstResource : positive) (dstMipLevel dstArrayLayer : Z)
    (pSrcResource : positive) (SrcSubresource : Z) (Format : Z).

(** The shader-visible descriptor allocator and the bind groups' descriptor
    allocations, as far as [Apply] depends on them
    ([ShaderVisibleDescriptorAllocatorD3D12.h] and [BindGroupD3D12.h] are not
    among the sources).  [Populate] answers [Success false] when the heaps
    are exhausted. *)
Class ShaderVisibleDescriptorAllocator (A : Type) : Type := {
  Populate : BindGroup -> A -> ResultOrError bool * A;
  AllocateAndSwitchShaderVisibleHeaps : A -> ResultOrError unit * A;
  GetShaderVisibleHeaps : A -> option positive * option positive;
  GetBaseCbvUavSrvDescriptor : BindGroup -> A -> Z;
  GetBaseSamplerDescriptor : BindGroup -> A -> Z;
}.

(** [TextureCopySplit]: the pieces a buffer-texture copy is split into. *)
Record CopyInfo : Type := {
  info_textureOffset : Origin3D;
  info_bufferOffset : Origin3D;
  info_bufferSize : Extent3D;
  info_copySize : Extent3D;
}.

Record TextureCopySplit : Type := {
  split_offset : Z;
  split_copies : list CopyInfo;
}.

(** Values of [d3d12.h]. *)
Definition D3D12_RESOURCE_STATE_RESOLVE_DEST : Z := 4096.
Definition D3D12_RESOURCE_STATE_RESOLVE_SOURCE : Z := 8192.
Definition D3D12_DESCRIPTOR_HEAP_TYPE_RTV : Z := 2.
Definition D3D12_DESCRIPTOR_HEAP_TYPE_DSV : Z := 3.
Definition D3D12_CLEAR_FLAG_DEPTH : Z := 1.
Definition D3D12_CLEAR_FLAG_STENCIL : Z := 2.

(** [OMSetRenderTargetArgs]: CPU descriptor handles, each a heap and an
    index into it. *)
Record OMSetRenderTargetArgs : Type := {
  numRTVs : Z;
  RTVs : list (positive * Z);
  dsv : option (positive * Z);
}.

(** What the recorder asks of the device and of the front end
    ([TextureCopySplitter.h], [DeviceD3D12.h], [DescriptorHeapAllocator.h],
    [PlatformFunctions.h], [TextureD3D12.h] and the front end's
    [CommandBuffer.h] are not among the sources).  The heap handle that
    [AllocateCPUHeap] hands back may hold no heap ([Get() == nullptr]). *)
Class Device : Type := {
  ComputeTextureCopySplit :
    Origin3D -> Extent3D -> Format -> Z -> Z -> Z -> TextureCopySplit;
  IsPIXEventRuntimeLoaded : bool;
  UseD3D12RenderPass : bool;
  GetDispatchIndirectSignature : positive;
  GetDrawIndirectSignature : positive;
  GetDrawIndexedIndirectSignature : positive;
  AllocateCPUHeap : Z -> Z -> ResultOrError (option positive);
  View_GetD3D12Format : TextureView -> Z;
  Texture_GetD3D12Format : Texture -> Z;
  LazyClearRenderPassAttachments :
    BeginRenderPassCmd -> InitFlags -> BeginRenderPassCmd * InitFlags;
}.

(** [RenderPassBuilder] ([RenderPassBuilderD3D12.h] is not among the
    sources): the calls [SetupRenderPass] makes on it and what
    [RecordRenderPass] and [EmulateBeginRenderPass] read back. *)
Class RenderPassBuilder (B : Type) : Type := {
  newRenderPassBuilder : OMSetRenderTargetArgs -> bool -> B;
  SetRenderTargetBeginningAccess : B -> Z -> LoadOp -> Color -> Z -> B;
  SetRenderTargetEndingAccess : B -> Z -> StoreOp -> B;
  SetRenderTargetEndingAccessResolve : B -> Z -> StoreOp -> TextureView -> TextureView -> B;
  SetDepthAccess : B -> LoadOp -> StoreOp -> float -> Z -> B;
  SetDepthNoAccess : B -> B;
  SetStencilAccess : B -> LoadOp -> StoreOp -> Z -> Z -> B;
  SetStencilNoAccess : B -> B;
  SetDepthStencilNoAccess : B -> B;
  GetColorAttachmentCount : B -> Z;
  Builder_HasDepth : B -> bool;
  GetRenderPassFlags : B -> Z;
  GetRenderTargetViews : B -> list (positive * Z);
  renderTargetCpuDescriptor : B -> Z -> positive * Z;
  renderTargetBeginningClear : B -> Z -> option Color;
  depthStencilCpuDescriptor : B -> positive * Z;
  depthBeginningClear : B -> option float;
  stencilBeginningClear : B -> option Z;
}.

Section WithAllocator.
Context `{Constants}.
Context `{Device}.
Context {A : Type} `{ShaderVisibleDescriptorAllocator A}.

(** What recording mutates: the allocator, the command list (with the
    other logged calls), the tracked state of each buffer and texture, and
    the content-initialisation flags. *)
Record World : Type := {
  mAllocator : A;
  commandList : list Event;
  bufferState : gmap positive Z;
  textureState : gmap positive Z;
  initFlags : InitFlags;
}.

(** The world with [new] appended to the trace. *)
Definition appendCommands (w : World) (new : list Event) : World :=
  {| mAllocator := mAllocator w;
     commandList := commandList w ++ new;
     bufferState := bufferState w;
     textureState := textureState w;
     initFlags := initFlags w |}.

Definition emit (e : Event) : Rec World unit :=
  fun w => (Ok tt, appendCommands w [e]).

(** A call on the allocator under [DAWN_TRY], logged with its result. *)
Definition callAllocator {X} (f : A -> ResultOrError X * A) (log : ResultOrError X -> Event)
  : Rec World X :=
  fun w =>
    let '(result, allocator) := f (mAllocator w) in
    (try result,
     {| mAllocator := allocator;
        commandList := commandList w ++ [log result];
        bufferState := bufferState w;
        textureState := textureState w;
        initFlags := initFlags w |}).

Definition readAllocator {X} (f : A -> X) : Rec World X :=
  fun w => (Ok (f (mAllocator w)), w).

(** Dereferencing a pointer that may be null. *)
Definition deref {W X} (pointer : option X) (what : string) : Rec W X :=
  match pointer with
  | Some x => ret x
  | None => abort what
  end.

(** Modelled from the spec: [Buffer::TrackUsageAndGetResourceBarrier]
    (BufferD3D12.cpp is not among the sources).  The tracked state is compared
    with the required one; if they differ, a transition is handed back and
    the tracked state updated. *)
Definition Buffer_TrackUsageAndGetResourceBarrier (buffer : Buffer) (usage : Z)
  : Rec World (option D3D12_RESOURCE_BARRIER) :=
  fun w =>
    let current := default 0 (bufferState w !! buffer_addr buffer) in
    if current =? usage then (Ok None, w)
    else
      (Ok (Some (BufferTransition (buffer_addr buffer) current usage)),
       {| mAllocator := mAllocator w;
          commandList := commandList w;
          bufferState := <[buffer_addr buffer := usage]> (bufferState w);
          textureState := textureState w;
          initFlags := initFlags w |}).

(** Modelled from the spec: [Texture::TrackUsageAndGetResourceBarrier]
    (TextureD3D12.cpp is not among the sources), as for buffers. *)
Definition Texture_TrackUsageAndGetResourceBarrier (texture : Texture) (usage : Z)
  : Rec World (option D3D12_RESOURCE_BARRIER) :=
  fun w =>
    let current := default 0 (textureState w !! texture_addr texture) in
    if current =? usage then (Ok None, w)
    else
      (Ok (Some (TextureTransition (texture_addr texture) current usage)),
       {| mAllocator := mAllocator w;
          commandList := commandList w;
          bufferState := bufferState w;
          textureState := <[texture_addr texture := usage]> (textureState w);
          initFlags := initFlags w |}).

(** Modelled from the spec: [TrackUsageAndTransitionNow] of buffers and
    textures: the transition, when one is needed, is recorded at once, as a
    barrier call of its own. *)
Definition Buffer_TrackUsageAndTransitionNow (buffer : Buffer) (usage : Z)
  : Rec World unit :=
  (do barrier <- Buffer_TrackUsageAndGetResourceBarrier buffer usage;
   match barrier with
   | Some b => emit (ResourceBarrier [b])
   | None => ret tt
   end)%rec.

Definition Texture_TrackUsageAndTransitionNow (texture : Texture) (usage : Z)
  : Rec World unit :=
  (do barrier <- Texture_TrackUsageAndGetResourceBarrier texture usage;
   match barrier with
   | Some b => emit (ResourceBarrier [b])
   | None => ret tt
   end)%rec.

Definition setInitFlags (flags : InitFlags) : Rec World unit :=
  fun w =>
    (Ok tt,
     {| mAllocator := mAllocator w;
        commandList := commandList w;
        bufferState := bufferState w;
        textureState := textureState w;
        initFlags := flags |}).

Definition IsSubresourceContentInitialized (texture : Texture)
    (baseMipLevel levelCount baseArrayLayer layerCount : Z) : Rec World bool :=
  fun w =>
    (Ok (isSubresourceContentInitialized (initFlags w) texture
           baseMipLevel levelCount baseArrayLayer layerCount), w).

(** [texture->SetIsSubresourceContentInitialized(...)]: the call is logged
    and the flags updated. *)
Definition SetIsSubresourceContentInitialized (isInitialized : bool) (texture : Texture)
    (baseMipLevel levelCount baseArrayLayer layerCount : Z) : Rec World unit :=
  (emit (Call_SetIsSubresourceContentInitialized isInitialized (texture_addr texture)
           baseMipLevel levelCount baseArrayLayer layerCount) ;'
   fun w =>
     setInitFlags
       (setIsSubresourceContentInitialized (initFlags w) isInitialized texture
          baseMipLevel levelCount baseArrayLayer layerCount) w)%rec.

(** Modelled from the spec: [Texture::EnsureSubresourceContentInitialized]
    (TextureD3D12.cpp is not among the sources).  If a subresource of the
    range is not marked valid yet, a clear is recorded and the range marked
    valid; on a valid range nothing is recorded.  The call itself is
    logged. *)
Definition EnsureSubresourceContentInitialized (texture : Texture)
    (baseMipLevel levelCount baseArrayLayer layerCount : Z) : Rec World unit :=
  (emit (Call_EnsureSubresourceContentInitialized (texture_addr texture)
           baseMipLevel levelCount baseArrayLayer layerCount) ;'
   do initialized <- IsSubresourceContentInitialized texture
                       baseMipLevel levelCount baseArrayLayer layerCount;
   if initialized then ret tt
   else
     emit (ClearSubresources (texture_addr texture)
             baseMipLevel levelCount baseArrayLayer layerCount) ;'
     fun w =>
       setInitFlags
         (setIsSubresourceContentInitialized (initFlags w) true texture
            baseMipLevel levelCount baseArrayLayer layerCount) w)%rec.

(** ** BindGroupStateTracker *)

Record BindGroupStateTracker : Type := {
  base : BindGroupTracker;
  mInCompute : bool;
}.

Definition SetInComputePass (t : BindGroupStateTracker) (inCompute_ : bool)
  : BindGroupStateTracker :=
  {| base := base t; mInCompute := inCompute_ |}.

(** [BindGroupStateTracker::SetID3D12DescriptorHeaps]. *)
Definition SetID3D12DescriptorHeaps : Rec World unit :=
  (do descriptorHeaps <- readAllocator GetShaderVisibleHeaps;
   do heap0 <- deref (fst descriptorHeaps) "ASSERT(descriptorHeaps[0] != nullptr)";
   do heap1 <- deref (snd descriptorHeaps) "ASSERT(descriptorHeaps[1] != nullptr)";
   emit (SetDescriptorHeaps 2 (heap0, heap1)))%rec.

(** [ToBackend(mBindGroups[index])->Populate(mAllocator)], under
    [DAWN_TRY_ASSIGN]. *)
Definition PopulateBindGroup (t : BindGroupTracker) (index : Z) : Rec World bool :=
  (do group <- deref (mjoin (at_ (mBindGroups t) index)) "mBindGroups[index] is null";
   callAllocator (Populate group) (Call_Populate (group_addr group)))%rec.

(** The first loop of [Apply]: populate the dirty groups in order and stop
    at the first one that does not fit. *)
Fixpoint populateDirtyBindGroups (t : BindGroupTracker) (indices : list Z)
  : Rec World bool :=
  match indices with
  | [] => ret true
  | index :: rest =>
    (do didCreateBindGroups <- PopulateBindGroup t index;
     if didCreateBindGroups : bool then populateDirtyBindGroups t rest else ret false)%rec
  end.

(** The root-parameter call for one dynamic buffer binding. *)
Definition setRootBufferView (inCompute : bool) (type : BindingType)
    (parameterIndex bufferLocation : Z) : Rec World unit :=
  match type with
  | UniformBuffer =>
    if inCompute then emit (SetComputeRootConstantBufferView parameterIndex bufferLocation)
    else emit (SetGraphicsRootConstantBufferView parameterIndex bufferLocation)
  | StorageBuffer =>
    if inCompute then emit (SetComputeRootUnorderedAccessView parameterIndex bufferLocation)
    else emit (SetGraphicsRootUnorderedAccessView parameterIndex bufferLocation)
  | ReadonlyStorageBuffer =>
    if inCompute then emit (SetComputeRootShaderResourceView parameterIndex bufferLocation)
    else emit (SetGraphicsRootShaderResourceView parameterIndex bufferLocation)
  | SampledTexture | Sampler | StorageTexture | ReadonlyStorageTexture
  | WriteonlyStorageTexture | AccelerationContainer =>
    abort "UNREACHABLE()"
  end.

(** The dynamic bindings of a layout, each with its position in the array
    of dynamic offsets ([currentDynamicBufferIndex]). *)
Definition dynamicBindings (layout : BindGroupLayout) : list (Z * Z) :=
  let bindings := IterateBitSet kMaxBindingsPerGroup (hasDynamicOffset layout) in
  zip bindings (seqZ 0 (Z.of_nat (length bindings))).

(** [BindGroupStateTracker::ApplyBindGroup]. *)
Definition ApplyBindGroup (t : BindGroupStateTracker)
    (pipelineLayout : option PipelineLayout) (index : Z) (group : BindGroup)
    (dynamicOffsetCount : Z) (dynamicOffsets : list Z) : Rec World unit :=
  ((if dynamicOffsetCount =? 0 then ret tt
    else
      let layout := GetLayout group in
      forEach (dynamicBindings layout)
        (fun '(bindingIndex, currentDynamicBufferIndex) =>
           do pipelineLayout <- deref pipelineLayout "pipelineLayout is null";
           let parameterIndex :=
             GetDynamicRootParameterIndex pipelineLayout index bindingIndex in
           let binding := GetBindingAsBufferBinding group bindingIndex in
           let dynamicOffset :=
             nth (Z.to_nat currentDynamicBufferIndex) dynamicOffsets 0 in
           let offset := u64 (bb_offset binding + dynamicOffset) in
           let bufferLocation := u64 (GetVA (bb_buffer binding) + offset) in
           setRootBufferView (mInCompute t) (types layout bindingIndex)
             parameterIndex bufferLocation)) ;'
   if negb (bitset_test (mDirtyBindGroups (base t)) index) then ret tt
   else
     let cbvUavSrvCount := GetCbvUavSrvDescriptorCount (GetLayout group) in
     let samplerCount := GetSamplerDescriptorCount (GetLayout group) in
     (if 0 <? cbvUavSrvCount then
        do pipelineLayout <- deref pipelineLayout "pipelineLayout is null";
        let parameterIndex := GetCbvUavSrvRootParameterIndex pipelineLayout index in
        do baseDescriptor <- readAllocator (GetBaseCbvUavSrvDescriptor group);
        if mInCompute t
        then emit (SetComputeRootDescriptorTable parameterIndex baseDescriptor)
        else emit (SetGraphicsRootDescriptorTable parameterIndex baseDescriptor)
      else ret tt) ;'
     (if 0 <? samplerCount then
        do pipelineLayout <- deref pipelineLayout "pipelineLayout is null";
        let parameterIndex := GetSamplerRootParameterIndex pipelineLayout index in
        do baseDescriptor <- readAllocator (GetBaseSamplerDescriptor group);
        if mInCompute t
        then emit (SetComputeRootDescriptorTable parameterIndex baseDescriptor)
        else emit (SetGraphicsRootDescriptorTable parameterIndex baseDescriptor)
      else ret tt))%rec.

(** Both dirty sets widened to the whole bind group layout mask. *)
Definition markAllDirty (t : BindGroupStateTracker) : BindGroupStateTracker :=
  let mask := mBindGroupLayoutsMask (base t) in
  {| base :=
       setDirty (base t)
         (Z.lor (mDirtyBindGroups (base t)) mask)
         (Z.lor (mDirtyBindGroupsObjectChangedOrIsDynamic (base t)) mask);
     mInCompute := mInCompute t |}.

(** The second loop of [Apply]: every group of the layout mask is
    populated again, and none may fail to fit. *)
Definition repopulateBindGroups (t : BindGroupTracker) (indices : list Z)
  : Rec World unit :=
  forEach indices
    (fun index =>
       do didCreateBindGroups <- PopulateBindGroup t index;
       if didCreateBindGroups : bool then ret tt
       else abort "ASSERT(didCreateBindGroups)")%rec.

(** The heap switch of [Apply], taken when a dirty group did not fit. *)
Definition switchHeapsAndRepopulate (t : BindGroupStateTracker)
  : Rec World BindGroupStateTracker :=
  (callAllocator AllocateAndSwitchShaderVisibleHeaps
     Call_AllocateAndSwitchShaderVisibleHeaps ;'
   let t := markAllDirty t in
   SetID3D12DescriptorHeaps ;'
   repopulateBindGroups (base t)
     (IterateBitSet kMaxBindGroups (mBindGroupLayoutsMask (base t))) ;'
   ret t)%rec.

(** The third loop of [Apply]: the bindings of every group that changed or
    has dynamic offsets. *)
Definition applyDirtyBindGroups (t : BindGroupStateTracker) : Rec World unit :=
  forEach (IterateBitSet kMaxBindGroups
             (mDirtyBindGroupsObjectChangedOrIsDynamic (base t)))
    (fun index =>
       do group <- deref (mjoin (at_ (mBindGroups (base t)) index))
                     "mBindGroups[index] is null";
       ApplyBindGroup t (mPipelineLayout (base t)) index group
         (default 0 (at_ (mDynamicOffsetCounts (base t)) index))
         (default [] (at_ (mDynamicOffsets (base t)) index)))%rec.

(** The storage-buffer transitions of a compute pass, at the end of
    [Apply].  Every [case] other than [StorageBuffer] falls through to
    [default: UNREACHABLE()]. *)
Definition transitionStorageBuffers (t : BindGroupTracker) : Rec World unit :=
  forEach (IterateBitSet kMaxBindGroups (mBindGroupLayoutsMask t))
    (fun index =>
       forEach (IterateBitSet kMaxBindingsPerGroup
                  (default 0 (at_ (mBuffersNeedingBarrier t) index)))
         (fun binding =>
            match default (fun _ => UniformBuffer) (at_ (mBindingTypes t) index) binding with
            | StorageBuffer =>
              (do buffers <- deref (at_ (mBuffers t) index) "mBuffers[index]";
               Buffer_TrackUsageAndTransitionNow (buffers binding) BufferUsage_Storage)%rec
            | _ => abort "UNREACHABLE()"
            end)).

(** [BindGroupStateTracker::Apply]. *)
Definition Apply (t : BindGroupStateTracker) : Rec World BindGroupStateTracker :=
  (do didCreateBindGroups <-
     populateDirtyBindGroups (base t)
       (IterateBitSet kMaxBindGroups (mDirtyBindGroups (base t)));
   do t <- (if didCreateBindGroups : bool then ret t else switchHeapsAndRepopulate t);
   applyDirtyBindGroups t ;'
   (if mInCompute t then transitionStorageBuffers (base t) else ret tt) ;'
   ret {| base := DidApply (base t); mInCompute := mInCompute t |})%rec.

End WithAllocator.

Section Recorder.
Context `{Constants}.
Context `{Device}.
Context {A : Type} `{ShaderVisibleDescriptorAllocator A}.

(** [CanUseCopyResource]. *)
Definition CanUseCopyResource (sourceNumMipLevels : Z) (srcSize dstSize copySize : Extent3D)
  : bool :=
  (sourceNumMipLevels =? 1) && (width srcSize =? width dstSize)
  && (height srcSize =? height dstSize) && (depth srcSize =? depth dstSize)
  && (width srcSize =? width copySize) && (height srcSize =? height copySize)
  && (depth srcSize =? depth copySize).

(** The lambda [PrepareResourcesForSubmission] of [RecordCommands]: the
    barriers of a pass are collected in a vector and recorded by one
    [ResourceBarrier] call. *)
Definition collectBufferBarrier
    (acc : list D3D12_RESOURCE_BARRIER * Z) (entry : Buffer * Z)
  : Rec (World (A := A)) (list D3D12_RESOURCE_BARRIER * Z) :=
  let '(barriers, bufferUsages) := acc in
  let '(buffer, usage) := entry in
  (do barrier <- Buffer_TrackUsageAndGetResourceBarrier buffer usage;
   ret (match barrier with
        | Some b => barriers ++ [b]
        | None => barriers
        end,
        Z.lor bufferUsages usage))%rec.

Definition collectTextureBarrier
    (acc : list D3D12_RESOURCE_BARRIER * Z) (entry : Texture * Z)
  : Rec (World (A := A)) (list D3D12_RESOURCE_BARRIER * Z) :=
  let '(barriers, textureUsages) := acc in
  let '(texture, usage) := entry in
  (do barrier <- Texture_TrackUsageAndGetResourceBarrier texture usage;
   ret (match barrier with
        | Some b => barriers ++ [b]
        | None => barriers
        end,
        Z.lor textureUsages usage))%rec.

Definition ensureNonAttachmentInitialized (entry : Texture * Z)
  : Rec (World (A := A)) unit :=
  let '(texture, usage) := entry in
  if Z.land usage TextureUsage_OutputAttachment =? 0 then
    EnsureSubresourceContentInitialized texture
      0 (GetNumMipLevels texture) 0 (GetArrayLayers texture)
  else ret tt.

Definition PrepareResourcesForSubmission (usages : PassResourceUsage)
  : Rec (World (A := A)) bool :=
  (do (barriers, bufferUsages) <-
     foldRec (usage_buffers usages) collectBufferBarrier ([], 0);
   forEach (usage_textures usages) ensureNonAttachmentInitialized ;'
   do (barriers, textureUsages) <-
     foldRec (usage_textures usages) collectTextureBarrier (barriers, 0);
   (if 0 <? Z.of_nat (length barriers) then emit (ResourceBarrier barriers) else ret tt) ;'
   ret (negb (Z.land bufferUsages BufferUsage_Storage =? 0)
        || negb (Z.land textureUsages TextureUsage_Storage =? 0)))%rec.

(** The copy records of [RecordCommands]. *)
Definition RecordCopyBufferToBuffer (source : Buffer) (sourceOffset : Z)
    (destination : Buffer) (destinationOffset size : Z) : Rec (World (A := A)) unit :=
  (Buffer_TrackUsageAndTransitionNow source BufferUsage_CopySrc ;'
   Buffer_TrackUsageAndTransitionNow destination BufferUsage_CopyDst ;'
   emit (CopyBufferRegion (buffer_addr destination) destinationOffset
           (buffer_addr source) sourceOffset size))%rec.

Definition RecordCopyBufferToTexture (source : BufferCopy) (destination : TextureCopy)
    (copySize : Extent3D) : Rec (World (A := A)) unit :=
  let buffer := bc_buffer source in
  let texture := tc_texture destination in
  ((if IsCompleteSubresourceCopiedTo texture copySize (tc_mipLevel destination) then
      SetIsSubresourceContentInitialized true texture
        (tc_mipLevel destination) 1 (tc_arrayLayer destination) 1
    else
      EnsureSubresourceContentInitialized texture
        (tc_mipLevel destination) 1 (tc_arrayLayer destination) 1) ;'
   Buffer_TrackUsageAndTransitionNow buffer BufferUsage_CopySrc ;'
   Texture_TrackUsageAndTransitionNow texture TextureUsage_CopyDst ;'
   let copySplit :=
     ComputeTextureCopySplit (tc_origin destination) copySize (GetFormat texture)
       (bc_offset source) (bc_rowPitch source) (bc_imageHeight source) in
   forEach (split_copies copySplit)
     (fun info =>
        emit (CopyTextureRegionFromBuffer (texture_addr texture)
                (tc_mipLevel destination) (tc_arrayLayer destination)
                (info_textureOffset info)
                (buffer_addr buffer) (info_bufferSize info) (split_offset copySplit)
                (bc_rowPitch source) (info_bufferOffset info) (info_copySize info))))%rec.

Definition RecordCopyTextureToBuffer (source : TextureCopy) (destination : BufferCopy)
    (copySize : Extent3D) : Rec (World (A := A)) unit :=
  let texture := tc_texture source in
  let buffer := bc_buffer destination in
  (EnsureSubresourceContentInitialized texture
     (tc_mipLevel source) 1 (tc_arrayLayer source) 1 ;'
   Texture_TrackUsageAndTransitionNow texture TextureUsage_CopySrc ;'
   Buffer_TrackUsageAndTransitionNow buffer BufferUsage_CopyDst ;'
   let copySplit :=
     ComputeTextureCopySplit (tc_origin source) copySize (GetFormat texture)
       (bc_offset destination) (bc_rowPitch destination) (bc_imageHeight destination) in
   forEach (split_copies copySplit)
     (fun info =>
        emit (CopyTextureRegionToBuffer
                (buffer_addr buffer) (info_bufferSize info) (split_offset copySplit)
                (bc_rowPitch destination) (info_bufferOffset info)
                (texture_addr texture) (tc_mipLevel source) (tc_arrayLayer source)
                (info_textureOffset info) (info_copySize info))))%rec.

Definition RecordCopyTextureToTexture (source destination : TextureCopy)
    (copySize : Extent3D) : Rec (World (A := A)) unit :=
  let src := tc_texture source in
  let dst := tc_texture destination in
  (EnsureSubresourceContentInitialized src
     (tc_mipLevel source) 1 (tc_arrayLayer source) 1 ;'
   (if IsCompleteSubresourceCopiedTo dst copySize (tc_mipLevel destination) then
      SetIsSubresourceContentInitialized true dst
        (tc_mipLevel destination) 1 (tc_arrayLayer destination) 1
    else
      EnsureSubresourceContentInitialized dst
        (tc_mipLevel destination) 1 (tc_arrayLayer destination) 1) ;'
   Texture_TrackUsageAndTransitionNow src TextureUsage_CopySrc ;'
   Texture_TrackUsageAndTransitionNow dst TextureUsage_CopyDst ;'
   if CanUseCopyResource (GetNumMipLevels src) (Texture_GetSize src)
        (Texture_GetSize dst) copySize
   then emit (CopyResource (texture_addr dst) (texture_addr src))
   else
     emit (CopyTextureRegion
             (texture_addr dst) (tc_mipLevel destination) (tc_arrayLayer destination)
             (tc_origin destination)
             (texture_addr src) (tc_mipLevel source) (tc_arrayLayer source)
             (tc_origin source) copySize))%rec.

End Recorder.

Section RecordCommands.
Context `{Constants}.
Context `{Device}.
Context {A : Type} `{ShaderVisibleDescriptorAllocator A}.
Context {B : Type} `{RenderPassBuilder B}.

Local Abbreviation World := (World (A := A)).

Definition lift {X} (result : ResultOrError X) : Rec World X := fun w => (try result, w).

(** ** Beginning and ending a render pass *)

(** [GetSubpassOMSetRenderTargetArgs]. *)
Definition GetSubpassOMSetRenderTargetArgs (renderPass : BeginRenderPassCmd)
  : Rec World OMSetRenderTargetArgs :=
  let colorIndices :=
    IterateBitSet kMaxColorAttachments
      (GetColorAttachmentsMask (attachmentState renderPass)) in
  let rtvCount := Z.of_nat (length colorIndices) in
  (do rtvHeap <- lift (AllocateCPUHeap D3D12_DESCRIPTOR_HEAP_TYPE_RTV rtvCount);
   do rtvHeap <- deref rtvHeap "ASSERT(rtvHeap.Get() != nullptr)";
   do rtvs <-
     foldRec colorIndices
       (fun rtvs i =>
          let rtvIndex := Z.of_nat (length rtvs) in
          let view := ca_view (colorAttachments renderPass i) in
          ASSERT (rtvIndex <? rtvCount) "ASSERT(rtvIndex < rtvCount)" ;'
          emit (Call_CreateRenderTargetView (texture_addr (GetTexture view))
                  (view_addr view) rtvHeap rtvIndex) ;'
          ret (rtvs ++ [(rtvHeap, rtvIndex)]))
       [];
   if HasDepthStencilAttachment (attachmentState renderPass) then
     do dsvHeap <- lift (AllocateCPUHeap D3D12_DESCRIPTOR_HEAP_TYPE_DSV 1);
     do dsvHeap <- deref dsvHeap "ASSERT(dsvHeap.Get() != nullptr)";
     let view := ds_view (depthStencilAttachment renderPass) in
     emit (Call_CreateDepthStencilView (texture_addr (GetTexture view))
             (view_addr view) dsvHeap 0) ;'
     ret {| numRTVs := rtvCount; RTVs := rtvs; dsv := Some (dsvHeap, 0) |}
   else ret {| numRTVs := rtvCount; RTVs := rtvs; dsv := None |})%rec.

(** [CommandBuffer::SetupRenderPass]. *)
Definition SetupRenderPass (renderPass : BeginRenderPassCmd) (renderPassBuilder : B)
  : Rec World B :=
  (do renderPassBuilder <-
     foldRec (IterateBitSet kMaxColorAttachments
                (GetColorAttachmentsMask (attachmentState renderPass)))
       (fun builder i =>
          let attachmentInfo := colorAttachments renderPass i in
          let view := ca_view attachmentInfo in
          let builder :=
            SetRenderTargetBeginningAccess builder i (ca_loadOp attachmentInfo)
              (ca_clearColor attachmentInfo) (View_GetD3D12Format view) in
          match ca_resolveTarget attachmentInfo with
          | Some resolveDestinationView =>
            Texture_TrackUsageAndTransitionNow (GetTexture resolveDestinationView)
              D3D12_RESOURCE_STATE_RESOLVE_DEST ;'
            ret (SetRenderTargetEndingAccessResolve builder i (ca_storeOp attachmentInfo)
                   view resolveDestinationView)
          | None => ret (SetRenderTargetEndingAccess builder i (ca_storeOp attachmentInfo))
          end)
       renderPassBuilder;
   if HasDepthStencilAttachment (attachmentState renderPass) then
     let attachmentInfo := depthStencilAttachment renderPass in
     let view := ds_view attachmentInfo in
     let hasDepth := HasDepth (GetFormat (GetTexture view)) in
     let hasStencil := HasStencil (GetFormat (GetTexture view)) in
     let builder :=
       if hasDepth then
         SetDepthAccess renderPassBuilder (depthLoadOp attachmentInfo)
           (depthStoreOp attachmentInfo) (clearDepth attachmentInfo)
           (View_GetD3D12Format view)
       else SetDepthNoAccess renderPassBuilder in
     ret (if hasStencil then
            SetStencilAccess builder (stencilLoadOp attachmentInfo)
              (stencilStoreOp attachmentInfo) (clearStencil attachmentInfo)
              (View_GetD3D12Format view)
          else SetStencilNoAccess builder)
   else ret (SetDepthStencilNoAccess renderPassBuilder))%rec.

(** [CommandBuffer::EmulateBeginRenderPass]. *)
Definition EmulateBeginRenderPass (renderPassBuilder : B) : Rec World unit :=
  (forEach (seqZ 0 (GetColorAttachmentCount renderPassBuilder))
     (fun i =>
        match renderTargetBeginningClear renderPassBuilder i with
        | Some color =>
          emit (ClearRenderTargetView (renderTargetCpuDescriptor renderPassBuilder i) color)
        | None => ret tt
        end) ;'
   (if Builder_HasDepth renderPassBuilder then
      let '(depthFlag, depthClear) :=
        match depthBeginningClear renderPassBuilder with
        | Some depth => (D3D12_CLEAR_FLAG_DEPTH, depth)
        | None => (0, float_zero)
        end in
      let '(stencilFlag, stencilClear) :=
        match stencilBeginningClear renderPassBuilder with
        | Some stencil => (D3D12_CLEAR_FLAG_STENCIL, stencil)
        | None => (0, 0)
        end in
      let clearFlags := Z.lor depthFlag stencilFlag in
      if clearFlags =? 0 then ret tt
      else emit (ClearDepthStencilView (depthStencilCpuDescriptor renderPassBuilder)
                   clearFlags depthClear stencilClear)
    else ret tt) ;'
   emit (OMSetRenderTargets (GetColorAttachmentCount renderPassBuilder)
           (GetRenderTargetViews renderPassBuilder)
           (if Builder_HasDepth renderPassBuilder
            then Some (depthStencilCpuDescriptor renderPassBuilder) else None)))%rec.

(** [ResolveMultisampledRenderPass]. *)
Definition ResolveMultisampledRenderPass (renderPass : BeginRenderPassCmd) : Rec World unit :=
  forEach (IterateBitSet kMaxColorAttachments
             (GetColorAttachmentsMask (attachmentState renderPass)))
    (fun i =>
       match ca_resolveTarget (colorAttachments renderPass i) with
       | None => ret tt
       | Some resolveTarget =>
         let colorTexture := GetTexture (ca_view (colorAttachments renderPass i)) in
         let resolveTexture := GetTexture resolveTarget in
         (Texture_TrackUsageAndTransitionNow colorTexture
            D3D12_RESOURCE_STATE_RESOLVE_SOURCE ;'
          Texture_TrackUsageAndTransitionNow resolveTexture
            D3D12_RESOURCE_STATE_RESOLVE_DEST ;'
          emit (ResolveSubresource (texture_addr resolveTexture)
                  (GetBaseMipLevel resolveTarget) (GetBaseArrayLayer resolveTarget)
                  (texture_addr colorTexture) 0 (Texture_GetD3D12Format colorTexture)))%rec
       end).

(** ** The pass loops

    As in the Vulkan back end, [Loop] names the loop that reads the next
    command.  The binding tracker is a local of [RecordCommands] that every
    pass receives by pointer; the other trackers are locals of
    [RecordRenderPass]. *)
Record TopState : Type := {
  nextPassNumber : nat;
  bindingTracker : BindGroupStateTracker;
}.

Record RenderPassState : Type := {
  renderPass : BeginRenderPassCmd;
  lastPipeline : option RenderPipeline;
  vertexBufferTracker : VertexBufferTracker;
  indexBufferTracker : IndexBufferTracker;
}.

Inductive Loop : Type :=
| InRecordCommands (top : TopState)
| InRecordComputePass (top : TopState)
| InRecordRenderPass (top : TopState) (pass : RenderPassState).

Definition withBindingTracker (top : TopState) (t : BindGroupStateTracker) : TopState :=
  {| nextPassNumber := nextPassNumber top; bindingTracker := t |}.

Definition passEnded (top : TopState) : Loop :=
  InRecordCommands
    {| nextPassNumber := S (nextPassNumber top); bindingTracker := bindingTracker top |}.

Definition trackerOnSetBindGroup (t : BindGroupStateTracker) (index : Z) (group : BindGroup)
    (dynamicOffsets : list Z) : BindGroupStateTracker :=
  {| base := OnSetBindGroup (base t) index group dynamicOffsets;
     mInCompute := mInCompute t |}.

Definition trackerOnSetPipeline (t : BindGroupStateTracker) (layout : PipelineLayout)
  : BindGroupStateTracker :=
  {| base := OnSetPipeline false (base t) layout; mInCompute := mInCompute t |}.

Definition RecordInsertDebugMarker (label : string) : Rec World unit :=
  if IsPIXEventRuntimeLoaded then emit (pixSetMarkerOnCommandList label) else ret tt.
Definition RecordPopDebugGroup : Rec World unit :=
  if IsPIXEventRuntimeLoaded then emit pixEndEventOnCommandList else ret tt.
Definition RecordPushDebugGroup (label : string) : Rec World unit :=
  if IsPIXEventRuntimeLoaded then emit (pixBeginEventOnCommandList label) else ret tt.

(** One turn of the loop of [RecordComputePass]. *)
Definition RecordComputePass_step (top : TopState) (cmd : Command) : Rec World Loop :=
  match cmd with
  | Dispatch x y z =>
    (do t <- Apply (bindingTracker top);
     emit (D3D12Dispatch x y z) ;'
     ret (InRecordComputePass (withBindingTracker top t)))%rec
  | DispatchIndirect indirectBuffer indirectOffset =>
    (do t <- Apply (bindingTracker top);
     emit (ExecuteIndirect GetDispatchIndirectSignature (buffer_addr indirectBuffer)
             indirectOffset) ;'
     ret (InRecordComputePass (withBindingTracker top t)))%rec
  | EndComputePass => ret (passEnded top)
  | SetComputePipeline pipeline =>
    let layout := ComputePipeline_GetLayout pipeline in
    (emit (SetComputeRootSignature (layout_addr layout)) ;'
     emit (SetPipelineState (compute_pipeline_addr pipeline)) ;'
     ret (InRecordComputePass
            (withBindingTracker top (trackerOnSetPipeline (bindingTracker top) layout))))%rec
  | SetBindGroup index group dynamicOffsets =>
    ret (InRecordComputePass
           (withBindingTracker top
              (trackerOnSetBindGroup (bindingTracker top) index group dynamicOffsets)))
  | InsertDebugMarker label =>
    (RecordInsertDebugMarker label ;' ret (InRecordComputePass top))%rec
  | PopDebugGroup => (RecordPopDebugGroup ;' ret (InRecordComputePass top))%rec
  | PushDebugGroup label =>
    (RecordPushDebugGroup label ;' ret (InRecordComputePass top))%rec
  | _ => abort "UNREACHABLE()"
  end.

(** [vertexBufferTracker.Apply(commandList, lastPipeline)] and
    [indexBufferTracker.Apply(commandList)] inside the recorder. *)
Definition applyVertexBuffers (pass : RenderPassState) : Rec World RenderPassState :=
  match VertexBufferTracker_Apply (vertexBufferTracker pass) (lastPipeline pass) with
  | Ok (tracker, calls) =>
    (forEach calls (fun call => emit (InputAssembler call)) ;'
     ret {| renderPass := renderPass pass;
            lastPipeline := lastPipeline pass;
            vertexBufferTracker := tracker;
            indexBufferTracker := indexBufferTracker pass |})%rec
  | Err msg => fail msg
  | Fatal why => abort why
  end.

Definition applyIndexBuffer (pass : RenderPassState) : Rec World RenderPassState :=
  let '(tracker, calls) := IndexBufferTracker_Apply (indexBufferTracker pass) in
  (forEach calls (fun call => emit (InputAssembler call)) ;'
   ret {| renderPass := renderPass pass;
          lastPipeline := lastPipeline pass;
          vertexBufferTracker := vertexBufferTracker pass;
          indexBufferTracker := tracker |})%rec.

(** The lambda [EncodeRenderBundleCommand] of [RecordRenderPass]. *)
Definition EncodeRenderBundleCommand (state : TopState * RenderPassState) (cmd : Command)
  : Rec World (TopState * RenderPassState) :=
  let '(top, pass) := state in
  match cmd with
  | Draw vertexCount instanceCount firstVertex firstInstance =>
    (do t <- Apply (bindingTracker top);
     do pass <- applyVertexBuffers pass;
     emit (DrawInstanced vertexCount instanceCount firstVertex firstInstance) ;'
     ret (withBindingTracker top t, pass))%rec
  | DrawIndexed indexCount instanceCount firstIndex baseVertex firstInstance =>
    (do t <- Apply (bindingTracker top);
     do pass <- applyIndexBuffer pass;
     do pass <- applyVertexBuffers pass;
     emit (DrawIndexedInstanced indexCount instanceCount firstIndex baseVertex
             firstInstance) ;'
     ret (withBindingTracker top t, pass))%rec
  | DrawIndirect indirectBuffer indirectOffset =>
    (do t <- Apply (bindingTracker top);
     do pass <- applyVertexBuffers pass;
     emit (ExecuteIndirect GetDrawIndirectSignature (buffer_addr indirectBuffer)
             indirectOffset) ;'
     ret (withBindingTracker top t, pass))%rec
  | DrawIndexedIndirect indirectBuffer indirectOffset =>
    (do t <- Apply (bindingTracker top);
     do pass <- applyIndexBuffer pass;
     do pass <- applyVertexBuffers pass;
     emit (ExecuteIndirect GetDrawIndexedIndirectSignature (buffer_addr indirectBuffer)
             indirectOffset) ;'
     ret (withBindingTracker top t, pass))%rec
  | InsertDebugMarker label => (RecordInsertDebugMarker label ;' ret (top, pass))%rec
  | PopDebugGroup => (RecordPopDebugGroup ;' ret (top, pass))%rec
  | PushDebugGroup label => (RecordPushDebugGroup label ;' ret (top, pass))%rec
  | SetRenderPipeline pipeline =>
    let layout := RenderPipeline_GetLayout pipeline in
    (emit (SetGraphicsRootSignature (layout_addr layout)) ;'
     emit (SetPipelineState (pipeline_addr pipeline)) ;'
     emit (IASetPrimitiveTopology (GetD3D12PrimitiveTopology pipeline)) ;'
     ret (withBindingTracker top (trackerOnSetPipeline (bindingTracker top) layout),
          {| renderPass := renderPass pass;
             lastPipeline := Some pipeline;
             vertexBufferTracker := vertexBufferTracker pass;
             indexBufferTracker :=
               IndexBufferTracker_OnSetPipeline (indexBufferTracker pass) pipeline |}))%rec
  | SetBindGroup index group dynamicOffsets =>
    ret (withBindingTracker top
           (trackerOnSetBindGroup (bindingTracker top) index group dynamicOffsets),
         pass)
  | SetIndexBuffer buffer offset =>
    ret (top,
         {| renderPass := renderPass pass;
            lastPipeline := lastPipeline pass;
            vertexBufferTracker := vertexBufferTracker pass;
            indexBufferTracker := OnSetIndexBuffer (indexBufferTracker pass) buffer offset |})
  | SetVertexBuffer slot buffer offset =>
    ret (top,
         {| renderPass := renderPass pass;
            lastPipeline := lastPipeline pass;
            vertexBufferTracker :=
              OnSetVertexBuffer (vertexBufferTracker pass) slot buffer offset;
            indexBufferTracker := indexBufferTracker pass |})
  | _ => abort "UNREACHABLE()"
  end.

(** The prologue of [RecordRenderPass], up to its loop. *)
Definition RecordRenderPass_begin (renderPassCmd : BeginRenderPassCmd) (passHasUAV : bool)
  : Rec World RenderPassState :=
  (do args <- GetSubpassOMSetRenderTargetArgs renderPassCmd;
   do renderPassBuilder <-
     SetupRenderPass renderPassCmd (newRenderPassBuilder args passHasUAV);
   (if UseD3D12RenderPass then
      emit (D3D12BeginRenderPass (GetColorAttachmentCount renderPassBuilder)
              (Builder_HasDepth renderPassBuilder) (GetRenderPassFlags renderPassBuilder))
    else EmulateBeginRenderPass renderPassBuilder) ;'
   emit (RSSetViewports float_zero float_zero (float_of_u32 (rp_width renderPassCmd))
           (float_of_u32 (rp_height renderPassCmd)) float_zero float_one) ;'
   emit (RSSetScissorRects 0 0 (i32 (rp_width renderPassCmd))
           (i32 (rp_height renderPassCmd))) ;'
   emit (OMSetBlendFactor
           {| r := float_zero; g := float_zero; b := float_zero; a := float_zero |}) ;'
   ret {| renderPass := renderPassCmd;
          lastPipeline := None;
          vertexBufferTracker := VertexBufferTracker_init;
          indexBufferTracker := IndexBufferTracker_init |})%rec.

(** One turn of the loop of [RecordRenderPass]. *)
Definition RecordRenderPass_step (top : TopState) (pass : RenderPassState) (cmd : Command)
  : Rec World Loop :=
  match cmd with
  | EndRenderPass =>
    ((if UseD3D12RenderPass then emit D3D12EndRenderPass
      else if 1 <? GetSampleCount (attachmentState (renderPass pass))
      then ResolveMultisampledRenderPass (renderPass pass)
      else ret tt) ;'
     ret (passEnded top))%rec
  | SetStencilReference reference =>
    (emit (OMSetStencilRef reference) ;' ret (InRecordRenderPass top pass))%rec
  | SetViewport x y width height minDepth maxDepth =>
    (emit (RSSetViewports x y width height minDepth maxDepth) ;'
     ret (InRecordRenderPass top pass))%rec
  | SetScissorRect x y width height =>
    (* the fields of [SetScissorRectCmd] are [uint32_t], so the sums wrap;
       those of [D3D12_RECT] are [LONG] *)
    (emit (RSSetScissorRects (i32 x) (i32 y) (i32 (u32 (x + width)))
             (i32 (u32 (y + height)))) ;'
     ret (InRecordRenderPass top pass))%rec
  | SetBlendColor color =>
    (emit (OMSetBlendFactor color) ;' ret (InRecordRenderPass top pass))%rec
  | ExecuteBundles bundles =>
    (do (top, pass) <-
       foldRec bundles
         (fun state bundle => foldRec bundle EncodeRenderBundleCommand state) (top, pass);
     ret (InRecordRenderPass top pass))%rec
  | _ =>
    (do (top, pass) <- EncodeRenderBundleCommand (top, pass) cmd;
     ret (InRecordRenderPass top pass))%rec
  end.

Definition setInitFlagsAfter (result : BeginRenderPassCmd * InitFlags)
  : Rec World BeginRenderPassCmd :=
  (setInitFlags (snd result) ;' ret (fst result))%rec.

(** One turn of the loop of [RecordCommands]. *)
Definition RecordCommands_step (passResourceUsages : list PassResourceUsage)
    (top : TopState) (cmd : Command) : Rec World Loop :=
  let usagesOfPass : Rec World PassResourceUsage :=
    deref (passResourceUsages !! nextPassNumber top) "passResourceUsages[nextPassNumber]" in
  match cmd with
  | BeginComputePass =>
    (do usages <- usagesOfPass;
     PrepareResourcesForSubmission usages ;'
     ret (InRecordComputePass
            (withBindingTracker top (SetInComputePass (bindingTracker top) true))))%rec
  | BeginRenderPass beginRenderPassCmd =>
    (do usages <- usagesOfPass;
     do passHasUAV <- PrepareResourcesForSubmission usages;
     let top := withBindingTracker top (SetInComputePass (bindingTracker top) false) in
     do beginRenderPassCmd <-
       (fun w => setInitFlagsAfter
                   (LazyClearRenderPassAttachments beginRenderPassCmd (initFlags w)) w);
     do pass <- RecordRenderPass_begin beginRenderPassCmd passHasUAV;
     ret (InRecordRenderPass top pass))%rec
  | CopyBufferToBuffer source sourceOffset destination destinationOffset size =>
    (RecordCopyBufferToBuffer source sourceOffset destination destinationOffset size ;'
     ret (InRecordCommands top))%rec
  | CopyBufferToTexture source destination copySize =>
    (RecordCopyBufferToTexture source destination copySize ;' ret (InRecordCommands top))%rec
  | CopyTextureToBuffer source destination copySize =>
    (RecordCopyTextureToBuffer source destination copySize ;' ret (InRecordCommands top))%rec
  | CopyTextureToTexture source destination copySize =>
    (RecordCopyTextureToTexture source destination copySize ;' ret (InRecordCommands top))%rec
  | _ => abort "UNREACHABLE()"
  end.

Definition recordStep (passResourceUsages : list PassResourceUsage) (loop : Loop)
    (cmd : Command) : Rec World Loop :=
  match loop with
  | InRecordCommands top => RecordCommands_step passResourceUsages top cmd
  | InRecordComputePass top => RecordComputePass_step top cmd
  | InRecordRenderPass top pass => RecordRenderPass_step top pass cmd
  end.

(** When [NextCommandId] finds the stream exhausted, every loop of this
    back end returns normally. *)
Fixpoint recordFrom (passResourceUsages : list PassResourceUsage) (loop : Loop)
    (mCommands : list Command) : Rec World unit :=
  match mCommands with
  | [] => ret tt
  | cmd :: rest =>
    bind (recordStep passResourceUsages loop cmd)
         (fun loop' => recordFrom passResourceUsages loop' rest)
  end.

(** [CommandBuffer::RecordCommands]. *)
Definition RecordCommands (passResourceUsages : list PassResourceUsage)
    (mCommands : list Command) : Rec World unit :=
  (SetID3D12DescriptorHeaps ;'
   recordFrom passResourceUsages
     (InRecordCommands
        {| nextPassNumber := 0;
           bindingTracker := {| base := BindGroupTracker_init; mInCompute := false |} |})
     mCommands)%rec.

End RecordCommands.

(** ** The calls expected of [ApplyBindGroup] *)
Section ExpectedCalls.
Context `{Constants}.
Context {A : Type} `{ShaderVisibleDescriptorAllocator A}.

(** The root-parameter call that carries the location of a dynamic buffer
    binding; there is none for a binding that is not a buffer. *)
Definition rootBufferViewCall (inCompute : bool) (type : BindingType)
    (parameterIndex bufferLocation : Z) : option Event :=
  match type with
  | UniformBuffer =>
    Some (if inCompute then SetComputeRootConstantBufferView parameterIndex bufferLocation
          else SetGraphicsRootConstantBufferView parameterIndex bufferLocation)
  | StorageBuffer =>
    Some (if inCompute then SetComputeRootUnorderedAccessView parameterIndex bufferLocation
          else SetGraphicsRootUnorderedAccessView parameterIndex bufferLocation)
  | ReadonlyStorageBuffer =>
    Some (if inCompute then SetComputeRootShaderResourceView parameterIndex bufferLocation
          else SetGraphicsRootShaderResourceView parameterIndex bufferLocation)
  | _ => None
  end.

(** One call per dynamic binding of the group, in binding order, each at
    base location + binding offset + dynamic offset. *)
Definition dynamicOffsetCalls (inCompute : bool) (pipelineLayout : PipelineLayout)
    (index : Z) (group : BindGroup) (dynamicOffsets : list Z) : list Event :=
  omap (fun '(bindingIndex, k) =>
          let binding := GetBindingAsBufferBinding group bindingIndex in
          rootBufferViewCall inCompute (types (GetLayout group) bindingIndex)
            (GetDynamicRootParameterIndex pipelineLayout index bindingIndex)
            (u64 (GetVA (bb_buffer binding)
                  + u64 (bb_offset binding + nth (Z.to_nat k) dynamicOffsets 0))))
       (dynamicBindings (GetLayout group)).

(** The descriptor tables of a group: the view table, then the sampler
    table, each only when the layout has such descriptors. *)
Definition descriptorTableCalls (inCompute : bool) (allocator : A)
    (pipelineLayout : PipelineLayout) (index : Z) (group : BindGroup) : list Event :=
  let table parameterIndex baseDescriptor :=
    if inCompute then SetComputeRootDescriptorTable parameterIndex baseDescriptor
    else SetGraphicsRootDescriptorTable parameterIndex baseDescriptor in
  (if 0 <? GetCbvUavSrvDescriptorCount (GetLayout group)
   then [table (GetCbvUavSrvRootParameterIndex pipelineLayout index)
               (GetBaseCbvUavSrvDescriptor group allocator)]
   else [])
  ++ (if 0 <? GetSamplerDescriptorCount (GetLayout group)
      then [table (GetSamplerRootParameterIndex pipelineLayout index)
                  (GetBaseSamplerDescriptor group allocator)]
      else []).

(** What validation guarantees of a bind group layout: only buffer
    bindings have dynamic offsets. *)
Definition dynamicBindingsAreBuffers (layout : BindGroupLayout) : Prop :=
  forall binding,
    binding ∈ IterateBitSet kMaxBindingsPerGroup (hasDynamicOffset layout) ->
    types layout binding = UniformBuffer \/ types layout binding = StorageBuffer
    \/ types layout binding = ReadonlyStorageBuffer.

(** Classification of the trace. *)
Definition isDescriptorTable (e : Event) : bool :=
  match e with
  | SetGraphicsRootDescriptorTable _ _ | SetComputeRootDescriptorTable _ _ => true
  | _ => false
  end.

Definition isAllocatorCall (e : Event) : bool :=
  match e with
  | Call_Populate _ _ | Call_AllocateAndSwitchShaderVisibleHeaps _
  | SetDescriptorHeaps _ _ => true
  | _ => false
  end.

Definition notAllocatorCall (e : Event) : Prop := isAllocatorCall e = false.

(** A population that fitted. *)
Definition populatedGroup (group : BindGroup) : Event :=
  Call_Populate (group_addr group) (Success true).

(** The groups behind a list of indices, when none of them is null. *)
Definition groupsAt (t : BindGroupTracker) (indices : list Z) : option (list BindGroup) :=
  mapM (fun index => mjoin (at_ (mBindGroups t) index)) indices.

(** The part of [Apply] after the heaps are settled: the third loop, the
    storage-buffer transitions of a compute pass, and [DidApply]. *)
Definition bindingPhase (t : BindGroupStateTracker)
  : Rec (World (A := A)) BindGroupStateTracker :=
  (applyDirtyBindGroups t ;'
   (if mInCompute t then transitionStorageBuffers (base t) else ret tt) ;'
   ret {| base := DidApply (base t); mInCompute := mInCompute t |})%rec.

(** The array members of a tracker have [kMaxBindGroups] entries. *)
Definition trackerArraysSized (t : BindGroupTracker) : Prop :=
  length (mBindGroups t) = kMaxBindGroups /\
  length (mDynamicOffsetCounts t) = kMaxBindGroups /\
  length (mDynamicOffsets t) = kMaxBindGroups.

(** ** Classification of the trace, and the barrier of a pass *)

Definition isBarrierCall (e : Event) : bool :=
  match e with
  | ResourceBarrier _ => true
  | _ => false
  end.

(** The calls on the initialisation tracker of a texture. *)
Definition isTrackerCall (e : Event) : bool :=
  match e with
  | Call_EnsureSubresourceContentInitialized _ _ _ _ _
  | Call_SetIsSubresourceContentInitialized _ _ _ _ _ _ => true
  | _ => false
  end.

Definition notTrackerCall (e : Event) : Prop := isTrackerCall e = false.

Definition isCopyCall (e : Event) : bool :=
  match e with
  | CopyBufferRegion _ _ _ _ _ | CopyTextureRegionFromBuffer _ _ _ _ _ _ _ _ _ _
  | CopyTextureRegionToBuffer _ _ _ _ _ _ _ _ _ _ | CopyTextureRegion _ _ _ _ _ _ _ _ _
  | CopyResource _ _ => true
  | _ => false
  end.

Definition bufferTransition (transition : positive * Z * Z) : D3D12_RESOURCE_BARRIER :=
  let '(buffer, before, after) := transition in BufferTransition buffer before after.

Definition textureTransition (transition : positive * Z * Z) : D3D12_RESOURCE_BARRIER :=
  let '(texture, before, after) := transition in TextureTransition texture before after.

(** The transitions a pass needs, buffers first. *)
Definition passTransitions (w : World (A := A)) (usages : PassResourceUsage)
  : list D3D12_RESOURCE_BARRIER :=
  map bufferTransition (neededTransitions (bufferState w) (bufferEntries usages))
  ++ map textureTransition (neededTransitions (textureState w) (textureEntries usages)).

(** The one barrier call of [PrepareResourcesForSubmission], made when a
    transition is needed. *)
Definition passBarrierCalls (w : World (A := A)) (usages : PassResourceUsage) : list Event :=
  match passTransitions w usages with
  | [] => []
  | transitions => [ResourceBarrier transitions]
  end.

(** The call on the tracker for the destination of a copy. *)
Definition destinationCall (texture : Texture) (copySize : Extent3D) (mipLevel arrayLayer : Z)
  : Event :=
  if IsCompleteSubresourceCopiedTo texture copySize mipLevel
  then Call_SetIsSubresourceContentInitialized true (texture_addr texture)
         mipLevel 1 arrayLayer 1
  else Call_EnsureSubresourceContentInitialized (texture_addr texture)
         mipLevel 1 arrayLayer 1.

End ExpectedCalls.

End D3D12.

(** * The Vulkan back end *)
Module Vulkan.

Inductive VkIndexType : Type := VK_INDEX_TYPE_UINT16 | VK_INDEX_TYPE_UINT32.

Inductive VkPipelineBindPoint : Type :=
| VK_PIPELINE_BIND_POINT_GRAPHICS
| VK_PIPELINE_BIND_POINT_COMPUTE
| VK_PIPELINE_BIND_POINT_RAY_TRACING_NV.

(** Values of [vulkan_core.h]. *)
Definition VK_ACCELERATION_STRUCTURE_TYPE_TOP_LEVEL_NV : Z := 0.
Definition VK_ACCELERATION_STRUCTURE_TYPE_BOTTOM_LEVEL_NV : Z := 1.
Definition VK_BUILD_ACCELERATION_STRUCTURE_ALLOW_UPDATE_BIT_NV : Z := 1.

(** [VulkanIndexType]; the [default: UNREACHABLE()] arm has no value of
    [IndexFormat] left to take. *)
Definition VulkanIndexType (format : IndexFormat) : VkIndexType :=
  match format with
  | Uint16 => VK_INDEX_TYPE_UINT16
  | Uint32 => VK_INDEX_TYPE_UINT32
  end.

Record VkBufferImageCopy : Type := {
  region_bufferOffset : Z;
  region_bufferRowLength : Z;
  region_bufferImageHeight : Z;
  imageSubresource_mipLevel : Z;
  imageSubresource_baseArrayLayer : Z;
  region_imageOffset : Origin3D;
  region_imageExtent : Extent3D;
}.

Record VkImageCopy : Type := {
  srcSubresource_aspectMask : Z;
  srcSubresource_mipLevel : Z;
  srcSubresource_baseArrayLayer : Z;
  srcOffset : Origin3D;
  dstSubresource_aspectMask : Z;
  dstSubresource_mipLevel : Z;
  dstSubresource_baseArrayLayer : Z;
  dstOffset : Origin3D;
  extent : Extent3D;
}.

Record VkViewport : Type := {
  viewport_x : float;
  viewport_y : float;
  viewport_width : float;
  viewport_height : float;
  viewport_minDepth : float;
  viewport_maxDepth : float;
}.

Inductive VkClearValue : Type :=
| ClearColorValue (color : Color)
| ClearDepthStencilValue (depth : float) (stencil : Z).

(** [RenderPassCacheQuery]: what [SetColor], [SetDepthStencil] and
    [SetSampleCount] stored. *)
Record RenderPassCacheQuery : Type := {
  query_color : gmap Z (positive * LoadOp * bool);
  query_depthStencil : option (positive * LoadOp * LoadOp);
  query_sampleCount : Z;
}.

Definition emptyQuery : RenderPassCacheQuery :=
  {| query_color := ∅; query_depthStencil := None; query_sampleCount := 0 |}.

Definition Query_SetColor (query : RenderPassCacheQuery) (index : Z) (format : positive)
    (loadOp : LoadOp) (hasResolveTarget : bool) : RenderPassCacheQuery :=
  {| query_color := <[index := (format, loadOp, hasResolveTarget)]> (query_color query);
     query_depthStencil := query_depthStencil query;
     query_sampleCount := query_sampleCount query |}.

Definition Query_SetDepthStencil (query : RenderPassCacheQuery) (format : positive)
    (depthLoadOp stencilLoadOp : LoadOp) : RenderPassCacheQuery :=
  {| query_color := query_color query;
     query_depthStencil := Some (format, depthLoadOp, stencilLoadOp);
     query_sampleCount := query_sampleCount query |}.

Definition Query_SetSampleCount (query : RenderPassCacheQuery) (sampleCount : Z)
  : RenderPassCacheQuery :=
  {| query_color := query_color query;
     query_depthStencil := query_depthStencil query;
     query_sampleCount := sampleCount |}.

Record VkFramebufferCreateInfo : Type := {
  fb_renderPass : positive;
  fb_attachmentCount : Z;
  fb_pAttachments : list positive;
  fb_width : Z;
  fb_height : Z;
  fb_layers : Z;
}.

Record VkRenderPassBeginInfo : Type := {
  begin_renderPass : positive;
  begin_framebuffer : positive;
  begin_renderArea : Z * Z * Z * Z;
  begin_clearValueCount : Z;
  begin_pClearValues : list VkClearValue;
}.

Inductive VkBarrier : Type :=
| BufferMemoryBarrier (buffer : positive) (lastUsage usage : Z)
| ImageMemoryBarrier (texture : positive) (lastUsage usage : Z)
| AccelerationStructureBarrier (dstIncludesRayTracingShader : bool).

(** The trace of a recording: the [vkCmd*] calls on the command buffer, in
    the order they are made, together with the calls on the
    content-initialisation tracker of textures, on the fenced deleter and on
    acceleration containers. *)
Inductive Event : Type :=
| Call_EnsureSubresourceContentInitialized (texture : positive)
    (baseMipLevel levelCount baseArrayLayer layerCount : Z)
| Call_SetIsSubresourceContentInitialized (isInitialized : bool) (texture : positive)
    (baseMipLevel levelCount baseArrayLayer layerCount : Z)
| Call_DeleteWhenUnused (framebuffer : positive)
| Call_DestroyScratchBuildMemory (container : positive)
| Call_tempBuffers_emplace_back (buffer : positive)
| ClearSubresources (texture : positive)
    (baseMipLevel levelCount baseArrayLayer layerCount : Z)
| CmdPipelineBarrier (barrier : VkBarrier)
| CmdBindDescriptorSets (bindPoint : VkPipelineBindPoint) (layout : positive)
    (firstSet : Z) (set : positive) (dynamicOffsetCount : Z)
    (pDynamicOffsets : option (list Z))
| CmdBuildAccelerationStructureNV (type flags instanceCount geometryCount : Z)
    (hasInstanceData update : bool) (dst : positive) (src : option positive)
    (updateScratch : bool)
| CmdCopyAccelerationStructureNV (dst src : positive)
| CmdCopyBuffer (src dst : positive) (srcOffset dstOffset size : Z)
| CmdCopyBufferToImage (srcBuffer dstImage : positive) (region : VkBufferImageCopy)
| CmdCopyImageToBuffer (srcImage dstBuffer : positive) (region : VkBufferImageCopy)
| CmdCopyImage (srcImage dstImage : positive) (region : VkImageCopy)
| CmdBeginRenderPass (beginInfo : VkRenderPassBeginInfo)
| CmdEndRenderPass
| CmdSetLineWidth (lineWidth : float)
| CmdSetDepthBounds (minDepthBounds maxDepthBounds : float)
| CmdSetStencilReference (reference : Z)
| CmdSetBlendConstants (blendConstants : Color)
| CmdSetViewport (viewport : VkViewport)
| CmdSetScissor (x y width height : Z)
| CmdDispatch (x y z : Z)
| CmdDispatchIndirect (buffer : positive) (offset : Z)
| CmdBindPipeline (bindPoint : VkPipelineBindPoint) (pipeline : positive)
| CmdDebugMarkerInsertEXT (label : string)
| CmdDebugMarkerBeginEXT (label : string)
| CmdDebugMarkerEndEXT
| CmdTraceRaysNV (sbtBuffer : positive)
    (rayGenOffset rayMissOffset rayClosestHitOffset groupHandleSize : Z)
    (width height depth : Z)
| CmdDraw (vertexCount instanceCount firstVertex firstInstance : Z)
| CmdDrawIndexed (indexCount instanceCount firstIndex baseVertex firstInstance : Z)
| CmdDrawIndirect (buffer : positive) (offset : Z)
| CmdDrawIndexedIndirect (buffer : positive) (offset : Z)
| CmdBindIndexBuffer (buffer : positive) (offset : Z) (indexType : VkIndexType)
| CmdBindVertexBuffers (firstBinding : Z) (buffer : positive) (offset : Z).

(** What the recorder asks of the device ([DeviceVk.h], [RenderPassCache.h]
    and [UtilsVulkan.h] are not among the sources). *)
Class Device : Type := {
  GetRenderPass : RenderPassCacheQuery -> ResultOrError positive;
  CreateFramebuffer : VkFramebufferCreateInfo -> ResultOrError positive;
  CreateBuffer : Z -> Z -> Buffer;
  debugMarker : bool;
  UseTemporaryBufferInCompressedTextureToTextureCopy : bool;
  ComputeBufferImageCopyRegion : BufferCopy -> TextureCopy -> Extent3D -> VkBufferImageCopy;
  ComputeTextureCopyExtent : TextureCopy -> Extent3D -> Extent3D;
  GetVkAspectMask : Texture -> Z;
}.

(** What recording mutates: the command buffer (with the other logged
    calls), the content-initialisation flags, the tracked usage of each
    buffer and texture, and the build and update state of acceleration
    containers. *)
Record World : Type := {
  commands : list Event;
  initFlags : InitFlags;
  bufferLastUsage : gmap positive Z;
  textureLastUsage : gmap positive Z;
  buildState : gmap positive bool;
  updateState : gmap positive bool;
}.

(** The world with [new] appended to the trace. *)
Definition appendCommands (w : World) (new : list Event) : World :=
  {| commands := commands w ++ new;
     initFlags := initFlags w;
     bufferLastUsage := bufferLastUsage w;
     textureLastUsage := textureLastUsage w;
     buildState := buildState w;
     updateState := updateState w |}.

Definition emit (e : Event) : Rec World unit :=
  fun w => (Ok tt, appendCommands w [e]).

Definition setInitFlags (flags : InitFlags) : Rec World unit :=
  fun w =>
    (Ok tt,
     {| commands := commands w;
        initFlags := flags;
        bufferLastUsage := bufferLastUsage w;
        textureLastUsage := textureLastUsage w;
        buildState := buildState w;
        updateState := updateState w |}).

Definition deref {X} (pointer : option X) (what : string) : Rec World X :=
  match pointer with
  | Some x => ret x
  | None => abort what
  end.

(** Where the C++ code handles a [MaybeError] of the device with
    [DAWN_TRY]. *)
Definition lift {X} (result : ResultOrError X) : Rec World X := fun w => (try result, w).

Definition IsSubresourceContentInitialized (texture : Texture)
    (baseMipLevel levelCount baseArrayLayer layerCount : Z) : Rec World bool :=
  fun w =>
    (Ok (isSubresourceContentInitialized (initFlags w) texture
           baseMipLevel levelCount baseArrayLayer layerCount), w).

(** [texture->SetIsSubresourceContentInitialized(...)]: the call is logged
    and the flags updated. *)
Definition SetIsSubresourceContentInitialized (isInitialized : bool) (texture : Texture)
    (baseMipLevel levelCount baseArrayLayer layerCount : Z) : Rec World unit :=
  (emit (Call_SetIsSubresourceContentInitialized isInitialized (texture_addr texture)
           baseMipLevel levelCount baseArrayLayer layerCount) ;'
   fun w =>
     setInitFlags
       (setIsSubresourceContentInitialized (initFlags w) isInitialized texture
          baseMipLevel levelCount baseArrayLayer layerCount) w)%rec.

(** Modelled from the spec: [Texture::EnsureSubresourceContentInitialized]
    (TextureVk.cpp is not among the sources).  If a subresource of the range
    is not marked valid yet, a clear is recorded and the range marked valid;
    on a valid range nothing is recorded.  The call itself is logged. *)
Definition EnsureSubresourceContentInitialized (texture : Texture)
    (baseMipLevel levelCount baseArrayLayer layerCount : Z) : Rec World unit :=
  (emit (Call_EnsureSubresourceContentInitialized (texture_addr texture)
           baseMipLevel levelCount baseArrayLayer layerCount) ;'
   do initialized <- IsSubresourceContentInitialized texture
                       baseMipLevel levelCount baseArrayLayer layerCount;
   if initialized then ret tt
   else
     emit (ClearSubresources (texture_addr texture)
             baseMipLevel levelCount baseArrayLayer layerCount) ;'
     fun w =>
       setInitFlags
         (setIsSubresourceContentInitialized (initFlags w) true texture
            baseMipLevel levelCount baseArrayLayer layerCount) w)%rec.

(** Modelled from the spec: [Buffer::TransitionUsageNow] (BufferVk.cpp is
    not among the sources).  The tracked usage is compared with the required
    one; if they differ, a transition is recorded at once, as a barrier call
    of its own, and the tracked usage updated. *)
Definition Buffer_TransitionUsageNow (buffer : Buffer) (usage : Z) : Rec World unit :=
  fun w =>
    let last := default 0 (bufferLastUsage w !! buffer_addr buffer) in
    if last =? usage then (Ok tt, w)
    else
      (Ok tt,
       {| commands :=
            commands w
            ++ [CmdPipelineBarrier (BufferMemoryBarrier (buffer_addr buffer) last usage)];
          initFlags := initFlags w;
          bufferLastUsage := <[buffer_addr buffer := usage]> (bufferLastUsage w);
          textureLastUsage := textureLastUsage w;
          buildState := buildState w;
          updateState := updateState w |}).

(** Modelled from the spec: [Texture::TransitionUsageNow] (TextureVk.cpp is
    not among the sources), as for buffers. *)
Definition Texture_TransitionUsageNow (texture : Texture) (usage : Z) : Rec World unit :=
  fun w =>
    let last := default 0 (textureLastUsage w !! texture_addr texture) in
    if last =? usage then (Ok tt, w)
    else
      (Ok tt,
       {| commands :=
            commands w
            ++ [CmdPipelineBarrier (ImageMemoryBarrier (texture_addr texture) last usage)];
          initFlags := initFlags w;
          bufferLastUsage := bufferLastUsage w;
          textureLastUsage := <[texture_addr texture := usage]> (textureLastUsage w);
          buildState := buildState w;
          updateState := updateState w |}).

(** Acceleration containers: [IsBuilt], [IsUpdated], [SetBuildState] and
    [SetUpdateState]. *)
Definition IsBuilt (container : RayTracingAccelerationContainer) : Rec World bool :=
  fun w => (Ok (default false (buildState w !! container_addr container)), w).

Definition IsUpdated (container : RayTracingAccelerationContainer) : Rec World bool :=
  fun w => (Ok (default false (updateState w !! container_addr container)), w).

Definition SetBuildState (container : RayTracingAccelerationContainer) (state : bool)
  : Rec World unit :=
  fun w =>
    (Ok tt,
     {| commands := commands w;
        initFlags := initFlags w;
        bufferLastUsage := bufferLastUsage w;
        textureLastUsage := textureLastUsage w;
        buildState := <[container_addr container := state]> (buildState w);
        updateState := updateState w |}).

Definition SetUpdateState (container : RayTracingAccelerationContainer) (state : bool)
  : Rec World unit :=
  fun w =>
    (Ok tt,
     {| commands := commands w;
        initFlags := initFlags w;
        bufferLastUsage := bufferLastUsage w;
        textureLastUsage := textureLastUsage w;
        buildState := buildState w;
        updateState := <[container_addr container := state]> (updateState w) |}).


Section Recorder.
Context `{Constants}.
Context `{Device}.

(** [HasSameTextureCopyExtent]. *)
Definition HasSameTextureCopyExtent (srcCopy dstCopy : TextureCopy) (copySize : Extent3D)
  : bool :=
  let imageExtentSrc := ComputeTextureCopyExtent srcCopy copySize in
  let imageExtentDst := ComputeTextureCopyExtent dstCopy copySize in
  (width imageExtentSrc =? width imageExtentDst)
  && (height imageExtentSrc =? height imageExtentDst)
  && (depth imageExtentSrc =? depth imageExtentDst).

(** [ComputeImageCopyRegion]. *)
Definition ComputeImageCopyRegion (srcCopy dstCopy : TextureCopy) (copySize : Extent3D)
  : Rec World VkImageCopy :=
  (ASSERT (HasSameTextureCopyExtent srcCopy dstCopy copySize)
     "ASSERT(HasSameTextureCopyExtent(srcCopy, dstCopy, copySize))" ;'
   ret {| srcSubresource_aspectMask := GetVkAspectMask (tc_texture srcCopy);
          srcSubresource_mipLevel := tc_mipLevel srcCopy;
          srcSubresource_baseArrayLayer := tc_arrayLayer srcCopy;
          srcOffset := tc_origin srcCopy;
          dstSubresource_aspectMask := GetVkAspectMask (tc_texture dstCopy);
          dstSubresource_mipLevel := tc_mipLevel dstCopy;
          dstSubresource_baseArrayLayer := tc_arrayLayer dstCopy;
          dstOffset := tc_origin dstCopy;
          extent := ComputeTextureCopyExtent dstCopy copySize |})%rec.

(** [ApplyDescriptorSets]. *)
Definition ApplyDescriptorSets (bindPoint : VkPipelineBindPoint) (pipelineLayout : positive)
    (bindGroupsToApply : Z) (bindGroups : list (option BindGroup))
    (dynamicOffsetCounts : list Z) (dynamicOffsets : list (list Z)) : Rec World unit :=
  forEach (IterateBitSet kMaxBindGroups bindGroupsToApply)
    (fun dirtyIndex =>
       do group <- deref (mjoin (at_ bindGroups dirtyIndex)) "bindGroups[dirtyIndex] is null";
       let count := default 0 (at_ dynamicOffsetCounts dirtyIndex) in
       let dynamicOffset :=
         if 0 <? count then Some (default [] (at_ dynamicOffsets dirtyIndex)) else None in
       emit (CmdBindDescriptorSets bindPoint pipelineLayout dirtyIndex
               (group_addr group) count dynamicOffset))%rec.

Definition applyTrackedDescriptorSets (t : BindGroupTracker) (bindPoint : VkPipelineBindPoint)
  : Rec World unit :=
  (do layout <- deref (mPipelineLayout t) "mPipelineLayout is null";
   ApplyDescriptorSets bindPoint (layout_addr layout)
     (mDirtyBindGroupsObjectChangedOrIsDynamic t) (mBindGroups t)
     (mDynamicOffsetCounts t) (mDynamicOffsets t))%rec.

(** [RenderDescriptorSetTracker::Apply]. *)
Definition RenderDescriptorSetTracker_Apply (t : BindGroupTracker)
    (bindPoint : VkPipelineBindPoint) : Rec World BindGroupTracker :=
  (applyTrackedDescriptorSets t bindPoint ;' ret (DidApply t))%rec.

(** The storage-buffer transitions of the compute and ray-tracing trackers;
    [needsNoBarrier] tells the binding types whose [case] ends in [break]
    without a transition, the remaining ones reach [UNREACHABLE()]. *)
Definition transitionStorageBuffers (needsNoBarrier : BindingType -> bool)
    (t : BindGroupTracker) : Rec World unit :=
  forEach (IterateBitSet kMaxBindGroups (mBindGroupLayoutsMask t))
    (fun index =>
       forEach (IterateBitSet kMaxBindingsPerGroup
                  (default 0 (at_ (mBuffersNeedingBarrier t) index)))
         (fun binding =>
            let type := default (fun _ => UniformBuffer) (at_ (mBindingTypes t) index) binding in
            match type with
            | StorageBuffer =>
              (do buffers <- deref (at_ (mBuffers t) index) "mBuffers[index]";
               Buffer_TransitionUsageNow (buffers binding) BufferUsage_Storage)%rec
            | _ => if needsNoBarrier type then ret tt else abort "UNREACHABLE()"
            end)).

(** [ComputeDescriptorSetTracker::Apply]: every [case] but [StorageBuffer]
    falls through to [default: UNREACHABLE()]. *)
Definition ComputeDescriptorSetTracker_Apply (t : BindGroupTracker)
    (bindPoint : VkPipelineBindPoint) : Rec World BindGroupTracker :=
  (applyTrackedDescriptorSets t bindPoint ;'
   transitionStorageBuffers (fun _ => false) t ;'
   ret (DidApply t))%rec.

(** [RayTracingDescriptorSetTracker::Apply]. *)
Definition RayTracingDescriptorSetTracker_Apply (t : BindGroupTracker)
    (bindPoint : VkPipelineBindPoint) : Rec World BindGroupTracker :=
  (applyTrackedDescriptorSets t bindPoint ;'
   transitionStorageBuffers
     (fun type =>
        match type with
        | StorageTexture | UniformBuffer | ReadonlyStorageBuffer | Sampler
        | SampledTexture | AccelerationContainer => true
        | _ => false
        end) t ;'
   ret (DidApply t))%rec.

(** ** RecordBeginRenderPass *)

(** The body of the first loop: one colour attachment. *)
Definition queryColorAttachment (renderPass : BeginRenderPassCmd)
    (query : RenderPassCacheQuery) (i : Z) : Rec World RenderPassCacheQuery :=
  let attachmentInfo := colorAttachments renderPass i in
  let view := ca_view attachmentInfo in
  let hasResolveTarget := bool_decide (ca_resolveTarget attachmentInfo <> None) in
  (ASSERT (GetLayerCount view =? 1) "ASSERT(view->GetLayerCount() == 1)" ;'
   ASSERT (GetLevelCount view =? 1) "ASSERT(view->GetLevelCount() == 1)" ;'
   do initialized <- IsSubresourceContentInitialized (GetTexture view)
                       (GetBaseMipLevel view) 1 (GetBaseArrayLayer view) 1;
   let loadOp :=
     if bool_decide (ca_loadOp attachmentInfo = LoadOp_Load) && negb initialized
     then LoadOp_Clear else ca_loadOp attachmentInfo in
   match ca_resolveTarget attachmentInfo with
   | Some resolveView =>
     SetIsSubresourceContentInitialized true (GetTexture resolveView)
       (GetBaseMipLevel resolveView) (GetLevelCount resolveView)
       (GetBaseArrayLayer resolveView) (GetLayerCount resolveView)
   | None => ret tt
   end ;'
   match ca_storeOp attachmentInfo with
   | StoreOp_Store =>
     SetIsSubresourceContentInitialized true (GetTexture view)
       (GetBaseMipLevel view) 1 (GetBaseArrayLayer view) 1
   | StoreOp_Clear =>
     SetIsSubresourceContentInitialized false (GetTexture view)
       (GetBaseMipLevel view) 1 (GetBaseArrayLayer view) 1
   end ;'
   ret (Query_SetColor query i (format (view_GetFormat view)) loadOp hasResolveTarget))%rec.

(** The load operations and clear values of a depth-stencil attachment
    whose content is not initialised. *)
Definition clearUninitializedDepthStencil (attachmentInfo : RenderPassDepthStencilAttachmentInfo)
  : RenderPassDepthStencilAttachmentInfo :=
  let viewFormat := GetFormat (GetTexture (ds_view attachmentInfo)) in
  let upgradeDepth :=
    HasDepth viewFormat && bool_decide (depthLoadOp attachmentInfo = LoadOp_Load) in
  let upgradeStencil :=
    HasStencil viewFormat && bool_decide (stencilLoadOp attachmentInfo = LoadOp_Load) in
  {| ds_view := ds_view attachmentInfo;
     depthLoadOp := if upgradeDepth then LoadOp_Clear else depthLoadOp attachmentInfo;
     depthStoreOp := depthStoreOp attachmentInfo;
     stencilLoadOp := if upgradeStencil then LoadOp_Clear else stencilLoadOp attachmentInfo;
     stencilStoreOp := stencilStoreOp attachmentInfo;
     clearDepth := if upgradeDepth then float_zero else clearDepth attachmentInfo;
     clearStencil := if upgradeStencil then 0 else clearStencil attachmentInfo |}.

Definition setDepthStencilAttachment (renderPass : BeginRenderPassCmd)
    (attachmentInfo : RenderPassDepthStencilAttachmentInfo) : BeginRenderPassCmd :=
  {| attachmentState := attachmentState renderPass;
     colorAttachments := colorAttachments renderPass;
     depthStencilAttachment := attachmentInfo;
     rp_width := rp_width renderPass;
     rp_height := rp_height renderPass |}.

(** The depth-stencil attachment.  [attachmentInfo] is a reference into the
    command, so the upgraded load operations and clear values are written
    back to it. *)
Definition queryDepthStencilAttachment (renderPass : BeginRenderPassCmd)
    (query : RenderPassCacheQuery) : Rec World (BeginRenderPassCmd * RenderPassCacheQuery) :=
  if HasDepthStencilAttachment (attachmentState renderPass) then
    let attachmentInfo := depthStencilAttachment renderPass in
    let view := ds_view attachmentInfo in
    (do initialized <- IsSubresourceContentInitialized (GetTexture view)
                         (GetBaseMipLevel view) (GetLevelCount view)
                         (GetBaseArrayLayer view) (GetLayerCount view);
     let attachmentInfo :=
       if initialized then attachmentInfo
       else clearUninitializedDepthStencil attachmentInfo in
     let query :=
       Query_SetDepthStencil query (format (GetFormat (GetTexture view)))
         (depthLoadOp attachmentInfo) (stencilLoadOp attachmentInfo) in
     (if bool_decide (depthStoreOp attachmentInfo = StoreOp_Store)
         && bool_decide (stencilStoreOp attachmentInfo = StoreOp_Store)
      then SetIsSubresourceContentInitialized true (GetTexture view)
             (GetBaseMipLevel view) (GetLevelCount view)
             (GetBaseArrayLayer view) (GetLayerCount view)
      else if bool_decide (depthStoreOp attachmentInfo = StoreOp_Clear)
              && bool_decide (stencilStoreOp attachmentInfo = StoreOp_Clear)
      then SetIsSubresourceContentInitialized false (GetTexture view)
             (GetBaseMipLevel view) (GetLevelCount view)
             (GetBaseArrayLayer view) (GetLayerCount view)
      else ret tt) ;'
     ret (setDepthStencilAttachment renderPass attachmentInfo, query))%rec
  else ret (renderPass, query).

(** The first block of [RecordBeginRenderPass]: the query for the render
    pass cache, built while the initialisation flags are read and updated. *)
Definition buildRenderPassQuery (renderPass : BeginRenderPassCmd)
  : Rec World (BeginRenderPassCmd * RenderPassCacheQuery) :=
  (do query <-
     foldRec (IterateBitSet kMaxColorAttachments
                (GetColorAttachmentsMask (attachmentState renderPass)))
       (queryColorAttachment renderPass) emptyQuery;
   do (renderPass, query) <- queryDepthStencilAttachment renderPass query;
   ret (renderPass,
        Query_SetSampleCount query (GetSampleCount (attachmentState renderPass))))%rec.

(** The second block: the attachments of the framebuffer and the clear
    values, in the order colour, depth-stencil, resolve targets. *)
Definition framebufferAttachments (renderPass : BeginRenderPassCmd) : list positive :=
  let colorIndices :=
    IterateBitSet kMaxColorAttachments
      (GetColorAttachmentsMask (attachmentState renderPass)) in
  map (fun i => view_addr (ca_view (colorAttachments renderPass i))) colorIndices
  ++ (if HasDepthStencilAttachment (attachmentState renderPass)
      then [view_addr (ds_view (depthStencilAttachment renderPass))] else [])
  ++ omap (fun i => view_addr <$> ca_resolveTarget (colorAttachments renderPass i))
          colorIndices.

Definition framebufferClearValues (renderPass : BeginRenderPassCmd) : list VkClearValue :=
  map (fun i => ClearColorValue (ca_clearColor (colorAttachments renderPass i)))
      (IterateBitSet kMaxColorAttachments
         (GetColorAttachmentsMask (attachmentState renderPass)))
  ++ (if HasDepthStencilAttachment (attachmentState renderPass)
      then [ClearDepthStencilValue (clearDepth (depthStencilAttachment renderPass))
              (clearStencil (depthStencilAttachment renderPass))]
      else []).

(** [RecordBeginRenderPass]; the command comes back as it was left. *)
Definition RecordBeginRenderPass (renderPass : BeginRenderPassCmd)
  : Rec World BeginRenderPassCmd :=
  (do (renderPass, query) <- buildRenderPassQuery renderPass;
   do renderPassVK <- lift (GetRenderPass query);
   let attachments := framebufferAttachments renderPass in
   let attachmentCount := Z.of_nat (length attachments) in
   let createInfo :=
     {| fb_renderPass := renderPassVK;
        fb_attachmentCount := attachmentCount;
        fb_pAttachments := attachments;
        fb_width := rp_width renderPass;
        fb_height := rp_height renderPass;
        fb_layers := 1 |} in
   do framebuffer <- lift (CreateFramebuffer createInfo);
   emit (Call_DeleteWhenUnused framebuffer) ;'
   emit (CmdBeginRenderPass
           {| begin_renderPass := renderPassVK;
              begin_framebuffer := framebuffer;
              begin_renderArea := (0, 0, rp_width renderPass, rp_height renderPass);
              begin_clearValueCount := attachmentCount;
              begin_pClearValues := framebufferClearValues renderPass |}) ;'
   ret renderPass)%rec.

(** ** CommandBuffer::RecordCopyImageWithTemporaryBuffer *)
Definition RecordCopyImageWithTemporaryBuffer (srcCopy dstCopy : TextureCopy)
    (copySize : Extent3D) : Rec World unit :=
  let fmt := GetFormat (tc_texture srcCopy) in
  (ASSERT (bool_decide (format (GetFormat (tc_texture srcCopy))
                        = format (GetFormat (tc_texture dstCopy))))
     "ASSERT(srcCopy.texture->GetFormat().format == dstCopy.texture->GetFormat().format)" ;'
   ASSERT (width copySize mod blockWidth fmt =? 0)
     "ASSERT(copySize.width % format.blockWidth == 0)" ;'
   ASSERT (height copySize mod blockHeight fmt =? 0)
     "ASSERT(copySize.height % format.blockHeight == 0)" ;'
   let tempBufferSize :=
     u32 (u32 (u32 (width copySize / blockWidth fmt * height copySize) / blockHeight fmt)
          * blockByteSize fmt) in
   let tempBuffer :=
     CreateBuffer tempBufferSize (Z.lor BufferUsage_CopySrc BufferUsage_CopyDst) in
   let tempBufferCopy :=
     {| bc_buffer := tempBuffer;
        bc_offset := 0;
        bc_rowPitch := u32 (width copySize / blockWidth fmt * blockByteSize fmt);
        bc_imageHeight := height copySize |} in
   Buffer_TransitionUsageNow tempBuffer BufferUsage_CopyDst ;'
   emit (CmdCopyImageToBuffer (texture_addr (tc_texture srcCopy)) (buffer_addr tempBuffer)
           (ComputeBufferImageCopyRegion tempBufferCopy srcCopy copySize)) ;'
   Buffer_TransitionUsageNow tempBuffer BufferUsage_CopySrc ;'
   emit (CmdCopyBufferToImage (buffer_addr tempBuffer) (texture_addr (tc_texture dstCopy))
           (ComputeBufferImageCopyRegion tempBufferCopy dstCopy copySize)) ;'
   emit (Call_tempBuffers_emplace_back (buffer_addr tempBuffer)))%rec.

End Recorder.

Section RecordCommands.
Context `{Constants}.
Context `{Device}.

(** ** The lambda TransitionForPass of RecordCommands *)
Definition transitionBufferForPass (entry : Buffer * Z) : Rec World unit :=
  let '(buffer, usage) := entry in Buffer_TransitionUsageNow buffer usage.

Definition transitionTextureForPass (entry : Texture * Z) : Rec World unit :=
  let '(texture, usage) := entry in
  ((if Z.land usage TextureUsage_OutputAttachment =? 0 then
      EnsureSubresourceContentInitialized texture
        0 (GetNumMipLevels texture) 0 (GetArrayLayers texture)
    else ret tt) ;'
   Texture_TransitionUsageNow texture usage)%rec.

Definition TransitionForPass (usages : PassResourceUsage) : Rec World unit :=
  (forEach (usage_buffers usages) transitionBufferForPass ;'
   forEach (usage_textures usages) transitionTextureForPass)%rec.

(** ** The records of the top-level loop *)

(** [case Command::BuildRayTracingAccelerationContainer]; the result is the
    new value of [hasBottomLevelContainerBuild]. *)
Definition RecordBuildRayTracingAccelerationContainer
    (container : RayTracingAccelerationContainer) (hasBottomLevelContainerBuild : bool)
  : Rec World bool :=
  (do built <- IsBuilt container;
   if built : bool then fail "Acceleration Container is already built"
   else if GetLevel container =? VK_ACCELERATION_STRUCTURE_TYPE_BOTTOM_LEVEL_NV then
     emit (CmdBuildAccelerationStructureNV
             VK_ACCELERATION_STRUCTURE_TYPE_BOTTOM_LEVEL_NV (GetFlags container)
             0 (GetGeometries_size container) false false
             (container_addr container) None false) ;'
     SetBuildState container true ;'
     ret true
   else if GetLevel container =? VK_ACCELERATION_STRUCTURE_TYPE_TOP_LEVEL_NV then
     (if hasBottomLevelContainerBuild
      then emit (CmdPipelineBarrier (AccelerationStructureBarrier false))
      else ret tt) ;'
     emit (CmdBuildAccelerationStructureNV
             VK_ACCELERATION_STRUCTURE_TYPE_TOP_LEVEL_NV (GetFlags container)
             (GetInstances_size container) 0 true false
             (container_addr container) None false) ;'
     emit (CmdPipelineBarrier (AccelerationStructureBarrier true)) ;'
     SetBuildState container true ;'
     ret hasBottomLevelContainerBuild
   else ret hasBottomLevelContainerBuild)%rec.

(** [case Command::UpdateRayTracingAccelerationContainer]; the result is the
    new value of [hasBottomLevelContainerUpdate]. *)
Definition RecordUpdateRayTracingAccelerationContainer
    (container : RayTracingAccelerationContainer) (hasBottomLevelContainerUpdate : bool)
  : Rec World bool :=
  if Z.land (GetFlags container) VK_BUILD_ACCELERATION_STRUCTURE_ALLOW_UPDATE_BIT_NV =? 0
  then fail "Acceleration Container does not support Updates"
  else
    (do built <- IsBuilt container;
     if negb built then fail "Acceleration Container must be built before updating"
     else
       do updated <- IsUpdated container;
       (if built && negb updated then
          emit (Call_DestroyScratchBuildMemory (container_addr container)) ;'
          SetUpdateState container true
        else ret tt) ;'
       if GetLevel container =? VK_ACCELERATION_STRUCTURE_TYPE_BOTTOM_LEVEL_NV then
         emit (CmdBuildAccelerationStructureNV
                 VK_ACCELERATION_STRUCTURE_TYPE_BOTTOM_LEVEL_NV (GetFlags container)
                 0 (GetGeometries_size container) false true
                 (container_addr container) (Some (container_addr container)) true) ;'
         ret true
       else if GetLevel container =? VK_ACCELERATION_STRUCTURE_TYPE_TOP_LEVEL_NV then
         (if hasBottomLevelContainerUpdate
          then emit (CmdPipelineBarrier (AccelerationStructureBarrier false))
          else ret tt) ;'
         emit (CmdBuildAccelerationStructureNV
                 VK_ACCELERATION_STRUCTURE_TYPE_TOP_LEVEL_NV (GetFlags container)
                 (GetInstances_size container) 0 true true
                 (container_addr container) (Some (container_addr container)) true) ;'
         emit (CmdPipelineBarrier (AccelerationStructureBarrier true)) ;'
         ret hasBottomLevelContainerUpdate
       else ret hasBottomLevelContainerUpdate)%rec.

Definition RecordCopyBufferToBuffer (source : Buffer) (sourceOffset : Z)
    (destination : Buffer) (destinationOffset size : Z) : Rec World unit :=
  (Buffer_TransitionUsageNow source BufferUsage_CopySrc ;'
   Buffer_TransitionUsageNow destination BufferUsage_CopyDst ;'
   emit (CmdCopyBuffer (buffer_addr source) (buffer_addr destination)
           sourceOffset destinationOffset size))%rec.

Definition RecordCopyBufferToTexture (src : BufferCopy) (dst : TextureCopy)
    (copySize : Extent3D) : Rec World unit :=
  let region := ComputeBufferImageCopyRegion src dst copySize in
  let mipLevel := imageSubresource_mipLevel region in
  let baseArrayLayer := imageSubresource_baseArrayLayer region in
  ((if IsCompleteSubresourceCopiedTo (tc_texture dst) copySize mipLevel then
      SetIsSubresourceContentInitialized true (tc_texture dst) mipLevel 1 baseArrayLayer 1
    else
      EnsureSubresourceContentInitialized (tc_texture dst) mipLevel 1 baseArrayLayer 1) ;'
   Buffer_TransitionUsageNow (bc_buffer src) BufferUsage_CopySrc ;'
   Texture_TransitionUsageNow (tc_texture dst) TextureUsage_CopyDst ;'
   emit (CmdCopyBufferToImage (buffer_addr (bc_buffer src)) (texture_addr (tc_texture dst))
           region))%rec.

Definition RecordCopyTextureToBuffer (src : TextureCopy) (dst : BufferCopy)
    (copySize : Extent3D) : Rec World unit :=
  let region := ComputeBufferImageCopyRegion dst src copySize in
  (EnsureSubresourceContentInitialized (tc_texture src)
     (imageSubresource_mipLevel region) 1 (imageSubresource_baseArrayLayer region) 1 ;'
   Texture_TransitionUsageNow (tc_texture src) TextureUsage_CopySrc ;'
   Buffer_TransitionUsageNow (bc_buffer dst) BufferUsage_CopyDst ;'
   emit (CmdCopyImageToBuffer (texture_addr (tc_texture src)) (buffer_addr (bc_buffer dst))
           region))%rec.

Definition RecordCopyTextureToTexture (src dst : TextureCopy) (copySize : Extent3D)
  : Rec World unit :=
  (EnsureSubresourceContentInitialized (tc_texture src)
     (tc_mipLevel src) 1 (tc_arrayLayer src) 1 ;'
   (if IsCompleteSubresourceCopiedTo (tc_texture dst) copySize (tc_mipLevel dst) then
      SetIsSubresourceContentInitialized true (tc_texture dst)
        (tc_mipLevel dst) 1 (tc_arrayLayer dst) 1
    else
      EnsureSubresourceContentInitialized (tc_texture dst)
        (tc_mipLevel dst) 1 (tc_arrayLayer dst) 1) ;'
   Texture_TransitionUsageNow (tc_texture src) TextureUsage_CopySrc ;'
   Texture_TransitionUsageNow (tc_texture dst) TextureUsage_CopyDst ;'
   let copyUsingTemporaryBuffer :=
     UseTemporaryBufferInCompressedTextureToTextureCopy
     && isCompressed (GetFormat (tc_texture src))
     && negb (HasSameTextureCopyExtent src dst copySize) in
   if negb copyUsingTemporaryBuffer then
     do region <- ComputeImageCopyRegion src dst copySize;
     emit (CmdCopyImage (texture_addr (tc_texture src)) (texture_addr (tc_texture dst))
             region)
   else RecordCopyImageWithTemporaryBuffer src dst copySize)%rec.

(** ** The pass loops

    [RecordCommands] runs one loop over the command stream and, inside a
    pass, [RecordRenderPass], [RecordComputePass] or [RecordRayTracingPass]
    run theirs over the same iterator.  [Loop] names the loop that reads the
    next command together with the local variables of the functions on the
    call stack. *)
Record TopState : Type := {
  nextPassNumber : nat;
  hasBottomLevelContainerBuild : bool;
  hasBottomLevelContainerUpdate : bool;
}.

Record RenderPassState : Type := {
  descriptorSets : BindGroupTracker;
  lastPipeline : option RenderPipeline;
}.

Inductive Loop : Type :=
| InRecordCommands (top : TopState)
| InRecordRenderPass (top : TopState) (pass : RenderPassState)
| InRecordComputePass (top : TopState) (descriptorSets : BindGroupTracker)
| InRecordRayTracingPass (top : TopState) (descriptorSets : BindGroupTracker)
    (usedPipeline : option RayTracingPipeline).

Definition passEnded (top : TopState) : Loop :=
  InRecordCommands
    {| nextPassNumber := S (nextPassNumber top);
       hasBottomLevelContainerBuild := hasBottomLevelContainerBuild top;
       hasBottomLevelContainerUpdate := hasBottomLevelContainerUpdate top |}.

(** The debug-marker records, the same in every pass. *)
Definition RecordInsertDebugMarker (label : string) : Rec World unit :=
  if debugMarker then emit (CmdDebugMarkerInsertEXT label) else ret tt.
Definition RecordPopDebugGroup : Rec World unit :=
  if debugMarker then emit CmdDebugMarkerEndEXT else ret tt.
Definition RecordPushDebugGroup (label : string) : Rec World unit :=
  if debugMarker then emit (CmdDebugMarkerBeginEXT label) else ret tt.

(** The lambda [EncodeRenderBundleCommand] of [RecordRenderPass]. *)
Definition EncodeRenderBundleCommand (pass : RenderPassState) (cmd : Command)
  : Rec World RenderPassState :=
  let applyThen (e : Event) : Rec World RenderPassState :=
    (do sets <- RenderDescriptorSetTracker_Apply (descriptorSets pass)
                  VK_PIPELINE_BIND_POINT_GRAPHICS;
     emit e ;'
     ret {| descriptorSets := sets; lastPipeline := lastPipeline pass |})%rec in
  match cmd with
  | Draw vertexCount instanceCount firstVertex firstInstance =>
    applyThen (CmdDraw vertexCount instanceCount firstVertex firstInstance)
  | DrawIndexed indexCount instanceCount firstIndex baseVertex firstInstance =>
    applyThen (CmdDrawIndexed indexCount instanceCount firstIndex baseVertex firstInstance)
  | DrawIndirect indirectBuffer indirectOffset =>
    applyThen (CmdDrawIndirect (buffer_addr indirectBuffer) indirectOffset)
  | DrawIndexedIndirect indirectBuffer indirectOffset =>
    applyThen (CmdDrawIndexedIndirect (buffer_addr indirectBuffer) indirectOffset)
  | InsertDebugMarker label => (RecordInsertDebugMarker label ;' ret pass)%rec
  | PopDebugGroup => (RecordPopDebugGroup ;' ret pass)%rec
  | PushDebugGroup label => (RecordPushDebugGroup label ;' ret pass)%rec
  | SetBindGroup index group dynamicOffsets =>
    ret {| descriptorSets := OnSetBindGroup (descriptorSets pass) index group dynamicOffsets;
           lastPipeline := lastPipeline pass |}
  | SetIndexBuffer buffer offset =>
    (do pipeline <- deref (lastPipeline pass) "ASSERT(lastPipeline != nullptr)";
     let indexType := VulkanIndexType (GetVertexStateDescriptor_indexFormat pipeline) in
     emit (CmdBindIndexBuffer (buffer_addr buffer) offset indexType) ;'
     ret pass)%rec
  | SetRenderPipeline pipeline =>
    (emit (CmdBindPipeline VK_PIPELINE_BIND_POINT_GRAPHICS (pipeline_addr pipeline)) ;'
     ret {| descriptorSets :=
              OnSetPipeline true (descriptorSets pass) (RenderPipeline_GetLayout pipeline);
            lastPipeline := Some pipeline |})%rec
  | SetVertexBuffer slot buffer offset =>
    (emit (CmdBindVertexBuffers slot (buffer_addr buffer) offset) ;' ret pass)%rec
  | _ => abort "UNREACHABLE()"
  end.

(** The prologue of [RecordRenderPass], up to its loop. *)
Definition RecordRenderPass_begin (renderPassCmd : BeginRenderPassCmd)
  : Rec World RenderPassState :=
  (do renderPassCmd <- RecordBeginRenderPass renderPassCmd;
   emit (CmdSetLineWidth float_one) ;'
   emit (CmdSetDepthBounds float_zero float_one) ;'
   emit (CmdSetStencilReference 0) ;'
   emit (CmdSetBlendConstants
           {| r := float_zero; g := float_zero; b := float_zero; a := float_zero |}) ;'
   emit (CmdSetViewport
           {| viewport_x := float_zero;
              viewport_y := float_of_u32 (rp_height renderPassCmd);
              viewport_width := float_of_u32 (rp_width renderPassCmd);
              viewport_height := float_neg (float_of_u32 (rp_height renderPassCmd));
              viewport_minDepth := float_zero;
              viewport_maxDepth := float_one |}) ;'
   emit (CmdSetScissor 0 0 (rp_width renderPassCmd) (rp_height renderPassCmd)) ;'
   ret {| descriptorSets := BindGroupTracker_init; lastPipeline := None |})%rec.

(** One turn of the loop of [RecordRenderPass]. *)
Definition RecordRenderPass_step (top : TopState) (pass : RenderPassState) (cmd : Command)
  : Rec World Loop :=
  match cmd with
  | EndRenderPass => (emit CmdEndRenderPass ;' ret (passEnded top))%rec
  | SetBlendColor color =>
    (emit (CmdSetBlendConstants color) ;' ret (InRecordRenderPass top pass))%rec
  | SetStencilReference reference =>
    (emit (CmdSetStencilReference reference) ;' ret (InRecordRenderPass top pass))%rec
  | SetViewport x y width height minDepth maxDepth =>
    (emit (CmdSetViewport
             {| viewport_x := x;
                viewport_y := float_add y height;
                viewport_width := width;
                viewport_height := float_neg height;
                viewport_minDepth := minDepth;
                viewport_maxDepth := maxDepth |}) ;'
     ret (InRecordRenderPass top pass))%rec
  | SetScissorRect x y width height =>
    (emit (CmdSetScissor x y width height) ;' ret (InRecordRenderPass top pass))%rec
  | ExecuteBundles bundles =>
    (do pass <- foldRec bundles
                  (fun pass bundle => foldRec bundle EncodeRenderBundleCommand pass) pass;
     ret (InRecordRenderPass top pass))%rec
  | _ =>
    (do pass <- EncodeRenderBundleCommand pass cmd; ret (InRecordRenderPass top pass))%rec
  end.

(** One turn of the loop of [RecordComputePass]. *)
Definition RecordComputePass_step (top : TopState) (sets : BindGroupTracker) (cmd : Command)
  : Rec World Loop :=
  match cmd with
  | EndComputePass => ret (passEnded top)
  | Dispatch x y z =>
    (do sets <- ComputeDescriptorSetTracker_Apply sets VK_PIPELINE_BIND_POINT_COMPUTE;
     emit (CmdDispatch x y z) ;'
     ret (InRecordComputePass top sets))%rec
  | DispatchIndirect indirectBuffer indirectOffset =>
    (do sets <- ComputeDescriptorSetTracker_Apply sets VK_PIPELINE_BIND_POINT_COMPUTE;
     emit (CmdDispatchIndirect (buffer_addr indirectBuffer) indirectOffset) ;'
     ret (InRecordComputePass top sets))%rec
  | SetBindGroup index group dynamicOffsets =>
    ret (InRecordComputePass top (OnSetBindGroup sets index group dynamicOffsets))
  | SetComputePipeline pipeline =>
    (emit (CmdBindPipeline VK_PIPELINE_BIND_POINT_COMPUTE (compute_pipeline_addr pipeline)) ;'
     ret (InRecordComputePass top
            (OnSetPipeline true sets (ComputePipeline_GetLayout pipeline))))%rec
  | InsertDebugMarker label =>
    (RecordInsertDebugMarker label ;' ret (InRecordComputePass top sets))%rec
  | PopDebugGroup => (RecordPopDebugGroup ;' ret (InRecordComputePass top sets))%rec
  | PushDebugGroup label =>
    (RecordPushDebugGroup label ;' ret (InRecordComputePass top sets))%rec
  | _ => abort "UNREACHABLE()"
  end.

(** One turn of the loop of [RecordRayTracingPass]. *)
Definition RecordRayTracingPass_step (top : TopState) (sets : BindGroupTracker)
    (usedPipeline : option RayTracingPipeline) (cmd : Command) : Rec World Loop :=
  match cmd with
  | EndRayTracingPass => ret (passEnded top)
  | TraceRays width height depth =>
    (do pipeline <- deref usedPipeline "ASSERT(usedPipeline != nullptr)";
     let sbt := GetShaderBindingTable pipeline in
     do sets <- RayTracingDescriptorSetTracker_Apply sets
                  VK_PIPELINE_BIND_POINT_RAY_TRACING_NV;
     emit (CmdTraceRaysNV (GetGroupBufferHandle sbt)
             (GetOffset sbt RayGeneration) (GetOffset sbt RayMiss)
             (GetOffset sbt RayClosestHit) (GetShaderGroupHandleSize sbt)
             width height depth) ;'
     ret (InRecordRayTracingPass top sets usedPipeline))%rec
  | SetBindGroup index group dynamicOffsets =>
    ret (InRecordRayTracingPass top (OnSetBindGroup sets index group dynamicOffsets)
           usedPipeline)
  | SetRayTracingPipeline pipeline =>
    (emit (CmdBindPipeline VK_PIPELINE_BIND_POINT_RAY_TRACING_NV
             (rt_pipeline_addr pipeline)) ;'
     ret (InRecordRayTracingPass top
            (OnSetPipeline true sets (RayTracingPipeline_GetLayout pipeline))
            (Some pipeline)))%rec
  | InsertDebugMarker label =>
    (RecordInsertDebugMarker label ;' ret (InRecordRayTracingPass top sets usedPipeline))%rec
  | PopDebugGroup =>
    (RecordPopDebugGroup ;' ret (InRecordRayTracingPass top sets usedPipeline))%rec
  | PushDebugGroup label =>
    (RecordPushDebugGroup label ;' ret (InRecordRayTracingPass top sets usedPipeline))%rec
  | _ => abort "UNREACHABLE()"
  end.

(** One turn of the loop of [RecordCommands]. *)
Definition RecordCommands_step (passResourceUsages : list PassResourceUsage)
    (top : TopState) (cmd : Command) : Rec World Loop :=
  let usagesOfPass : Rec World PassResourceUsage :=
    deref (passResourceUsages !! nextPassNumber top) "passResourceUsages[nextPassNumber]" in
  match cmd with
  | BuildRayTracingAccelerationContainer container =>
    (do hasBuild <- RecordBuildRayTracingAccelerationContainer container
                      (hasBottomLevelContainerBuild top);
     ret (InRecordCommands
            {| nextPassNumber := nextPassNumber top;
               hasBottomLevelContainerBuild := hasBuild;
               hasBottomLevelContainerUpdate := hasBottomLevelContainerUpdate top |}))%rec
  | CopyRayTracingAccelerationContainer srcContainer dstContainer =>
    (emit (CmdCopyAccelerationStructureNV (container_addr dstContainer)
             (container_addr srcContainer)) ;'
     ret (InRecordCommands top))%rec
  | UpdateRayTracingAccelerationContainer container =>
    (do hasUpdate <- RecordUpdateRayTracingAccelerationContainer container
                       (hasBottomLevelContainerUpdate top);
     ret (InRecordCommands
            {| nextPassNumber := nextPassNumber top;
               hasBottomLevelContainerBuild := hasBottomLevelContainerBuild top;
               hasBottomLevelContainerUpdate := hasUpdate |}))%rec
  | CopyBufferToBuffer source sourceOffset destination destinationOffset size =>
    (RecordCopyBufferToBuffer source sourceOffset destination destinationOffset size ;'
     ret (InRecordCommands top))%rec
  | CopyBufferToTexture source destination copySize =>
    (RecordCopyBufferToTexture source destination copySize ;' ret (InRecordCommands top))%rec
  | CopyTextureToBuffer source destination copySize =>
    (RecordCopyTextureToBuffer source destination copySize ;' ret (InRecordCommands top))%rec
  | CopyTextureToTexture source destination copySize =>
    (RecordCopyTextureToTexture source destination copySize ;' ret (InRecordCommands top))%rec
  | BeginRenderPass cmd =>
    (do usages <- usagesOfPass;
     TransitionForPass usages ;'
     do pass <- RecordRenderPass_begin cmd;
     ret (InRecordRenderPass top pass))%rec
  | BeginComputePass =>
    (do usages <- usagesOfPass;
     TransitionForPass usages ;'
     ret (InRecordComputePass top BindGroupTracker_init))%rec
  | BeginRayTracingPass =>
    (do usages <- usagesOfPass;
     TransitionForPass usages ;'
     ret (InRecordRayTracingPass top BindGroupTracker_init None))%rec
  | _ => abort "UNREACHABLE()"
  end.

Definition recordStep (passResourceUsages : list PassResourceUsage) (loop : Loop)
    (cmd : Command) : Rec World Loop :=
  match loop with
  | InRecordCommands top => RecordCommands_step passResourceUsages top cmd
  | InRecordRenderPass top pass => RecordRenderPass_step top pass cmd
  | InRecordComputePass top sets => RecordComputePass_step top sets cmd
  | InRecordRayTracingPass top sets usedPipeline =>
    RecordRayTracingPass_step top sets usedPipeline cmd
  end.

(** When [NextCommandId] finds the stream exhausted: [RecordCommands]
    returns, while the pass loops of this back end end in [UNREACHABLE()]. *)
Definition streamEnded (loop : Loop) : Rec World unit :=
  match loop with
  | InRecordCommands _ => ret tt
  | _ => abort "UNREACHABLE()"
  end.

Fixpoint recordFrom (passResourceUsages : list PassResourceUsage) (loop : Loop)
    (mCommands : list Command) : Rec World unit :=
  match mCommands with
  | [] => streamEnded loop
  | cmd :: rest =>
    bind (recordStep passResourceUsages loop cmd)
         (fun loop' => recordFrom passResourceUsages loop' rest)
  end.

(** [CommandBuffer::RecordCommands]. *)
Definition RecordCommands (passResourceUsages : list PassResourceUsage)
    (mCommands : list Command) : Rec World unit :=
  recordFrom passResourceUsages
    (InRecordCommands
       {| nextPassNumber := 0;
          hasBottomLevelContainerBuild := false;
          hasBottomLevelContainerUpdate := false |})
    mCommands.

End RecordCommands.

(** ** What [RecordBeginRenderPass] does to the initialisation flags *)
Section ExpectedMarks.
Context `{Constants}.

(** The world with [new] appended to the trace and the flags replaced. *)
Definition updateWorld (w : World) (new : list Event) (flags : InitFlags) : World :=
  {| commands := commands w ++ new;
     initFlags := flags;
     bufferLastUsage := bufferLastUsage w;
     textureLastUsage := textureLastUsage w;
     buildState := buildState w;
     updateState := updateState w |}.

(** The call that marks [levelCount] levels and [layerCount] layers of a
    view, from its base level and layer. *)
Definition markCall (isInitialized : bool) (view : TextureView) (levelCount layerCount : Z)
  : Event :=
  Call_SetIsSubresourceContentInitialized isInitialized (texture_addr (GetTexture view))
    (GetBaseMipLevel view) levelCount (GetBaseArrayLayer view) layerCount.

Definition markFlags (isInitialized : bool) (view : TextureView) (levelCount layerCount : Z)
    (flags : InitFlags) : InitFlags :=
  setIsSubresourceContentInitialized flags isInitialized (GetTexture view)
    (GetBaseMipLevel view) levelCount (GetBaseArrayLayer view) layerCount.

(** A colour attachment: the resolve target, if there is one, is marked
    valid; then the attachment is marked by its store operation. *)
Definition colorAttachmentMarks (info : RenderPassColorAttachmentInfo) : list Event :=
  match ca_resolveTarget info with
  | Some resolveView =>
    [markCall true resolveView (GetLevelCount resolveView) (GetLayerCount resolveView)]
  | None => []
  end
  ++ [markCall (bool_decide (ca_storeOp info = StoreOp_Store)) (ca_view info) 1 1].

Definition colorAttachmentFlags (info : RenderPassColorAttachmentInfo) (flags : InitFlags)
  : InitFlags :=
  markFlags (bool_decide (ca_storeOp info = StoreOp_Store)) (ca_view info) 1 1
    match ca_resolveTarget info with
    | Some resolveView =>
      markFlags true resolveView (GetLevelCount resolveView) (GetLayerCount resolveView)
        flags
    | None => flags
    end.

(** The depth-stencil attachment: marked valid when both aspects are
    stored, not valid when both are discarded, and left alone otherwise. *)
Definition depthStencilMark (info : RenderPassDepthStencilAttachmentInfo) : option bool :=
  match depthStoreOp info, stencilStoreOp info with
  | StoreOp_Store, StoreOp_Store => Some true
  | StoreOp_Clear, StoreOp_Clear => Some false
  | _, _ => None
  end.

Definition depthStencilMarks (info : RenderPassDepthStencilAttachmentInfo) : list Event :=
  match depthStencilMark info with
  | Some isInitialized =>
    [markCall isInitialized (ds_view info)
       (GetLevelCount (ds_view info)) (GetLayerCount (ds_view info))]
  | None => []
  end.

Definition depthStencilFlags (info : RenderPassDepthStencilAttachmentInfo)
    (flags : InitFlags) : InitFlags :=
  match depthStencilMark info with
  | Some isInitialized =>
    markFlags isInitialized (ds_view info)
      (GetLevelCount (ds_view info)) (GetLayerCount (ds_view info)) flags
  | None => flags
  end.

(** The load operation recorded for an attachment or aspect that was
    requested with [requested]. *)
Definition effectiveLoadOp (initialized : bool) (requested : LoadOp) : LoadOp :=
  if initialized then requested else LoadOp_Clear.

(** The colour views of a pass are single subresources. *)
Definition colorViewsAreSingle (renderPass : BeginRenderPassCmd) : Prop :=
  forall i,
    i ∈ IterateBitSet kMaxColorAttachments
          (GetColorAttachmentsMask (attachmentState renderPass)) ->
    GetLayerCount (ca_view (colorAttachments renderPass i)) = 1
    /\ GetLevelCount (ca_view (colorAttachments renderPass i)) = 1.

(** All the marks of a pass, in the order they are made. *)
Definition renderPassMarks (renderPass : BeginRenderPassCmd) : list Event :=
  flat_map (fun i => colorAttachmentMarks (colorAttachments renderPass i))
    (IterateBitSet kMaxColorAttachments
       (GetColorAttachmentsMask (attachmentState renderPass)))
  ++ (if HasDepthStencilAttachment (attachmentState renderPass)
      then depthStencilMarks (depthStencilAttachment renderPass) else []).

Definition isMarkCall (e : Event) : bool :=
  match e with
  | Call_SetIsSubresourceContentInitialized _ _ _ _ _ _ => true
  | _ => false
  end.

End ExpectedMarks.

(** ** The pipeline bound in a render pass *)

(** The commands of a render pass as [EncodeRenderBundleCommand] and the
    loop of [RecordRenderPass] meet them: the bundles of an
    [ExecuteBundles] are replayed in place. *)
Definition replayBundles (cmds : list Command) : list Command :=
  flat_map (fun cmd =>
              match cmd with
              | ExecuteBundles bundles => concat bundles
              | _ => [cmd]
              end) cmds.

(** The pipeline of the last [SetRenderPipeline] among [cmds], or [before]
    when there is none. *)
Definition boundPipeline (before : option RenderPipeline) (cmds : list Command)
  : option RenderPipeline :=
  fold_left (fun last cmd =>
               match cmd with
               | SetRenderPipeline pipeline => Some pipeline
               | _ => last
               end) (replayBundles cmds) before.

(** Whether the loop reading the stream is the one of [RecordRenderPass],
    and the pipeline it holds. *)
Definition renderPassPipeline (loop : Loop) : option (option RenderPipeline) :=
  match loop with
  | InRecordRenderPass _ pass => Some (lastPipeline pass)
  | _ => None
  end.

(** ** Acceleration containers *)

Definition containerBuilt (w : World) (container : RayTracingAccelerationContainer) : bool :=
  default false (buildState w !! container_addr container).

Definition allowsUpdate (container : RayTracingAccelerationContainer) : bool :=
  negb (Z.land (GetFlags container) VK_BUILD_ACCELERATION_STRUCTURE_ALLOW_UPDATE_BIT_NV =? 0).

(** ** Classification of the trace *)

Definition isBarrierCall (e : Event) : bool :=
  match e with
  | CmdPipelineBarrier _ => true
  | _ => false
  end.

(** The calls on the initialisation tracker of a texture. *)
Definition isTrackerCall (e : Event) : bool :=
  match e with
  | Call_EnsureSubresourceContentInitialized _ _ _ _ _
  | Call_SetIsSubresourceContentInitialized _ _ _ _ _ _ => true
  | _ => false
  end.

Definition notTrackerCall (e : Event) : Prop := isTrackerCall e = false.

Definition isCopyCall (e : Event) : bool :=
  match e with
  | CmdCopyBuffer _ _ _ _ _ | CmdCopyBufferToImage _ _ _ | CmdCopyImageToBuffer _ _ _
  | CmdCopyImage _ _ _ => true
  | _ => false
  end.

Definition bufferBarrier (transition : positive * Z * Z) : Event :=
  let '(buffer, lastUsage, usage) := transition in
  CmdPipelineBarrier (BufferMemoryBarrier buffer lastUsage usage).

Definition imageBarrier (transition : positive * Z * Z) : Event :=
  let '(texture, lastUsage, usage) := transition in
  CmdPipelineBarrier (ImageMemoryBarrier texture lastUsage usage).

(** The barrier calls of [TransitionForPass]: one for each transition
    that is needed, buffers first. *)
Definition passBarrierCalls (w : World) (usages : PassResourceUsage) : list Event :=
  map bufferBarrier (neededTransitions (bufferLastUsage w) (bufferEntries usages))
  ++ map imageBarrier (neededTransitions (textureLastUsage w) (textureEntries usages)).

(** The call on the tracker for the destination of a copy. *)
Definition destinationCall (texture : Texture) (copySize : Extent3D) (mipLevel arrayLayer : Z)
  : Event :=
  if IsCompleteSubresourceCopiedTo texture copySize mipLevel
  then Call_SetIsSubresourceContentInitialized true (texture_addr texture)
         mipLevel 1 arrayLayer 1
  else Call_EnsureSubresourceContentInitialized (texture_addr texture)
         mipLevel 1 arrayLayer 1.

(** ** What the loops carry along a stream *)

(** The locals of [RecordCommands] while [loop] reads the stream. *)
Definition topOf (loop : Loop) : TopState :=
  match loop with
  | InRecordCommands top
  | InRecordRenderPass top _
  | InRecordComputePass top _
  | InRecordRayTracingPass top _ _ => top
  end.

Definition endsPass (cmd : Command) : bool :=
  match cmd with
  | EndRenderPass | EndComputePass | EndRayTracingPass => true
  | _ => false
  end.

Definition beginsPass (cmd : Command) : bool :=
  match cmd with
  | BeginRenderPass _ | BeginComputePass | BeginRayTracingPass => true
  | _ => false
  end.

Definition buildsBottomLevel (cmd : Command) : bool :=
  match cmd with
  | BuildRayTracingAccelerationContainer container =>
    GetLevel container =? VK_ACCELERATION_STRUCTURE_TYPE_BOTTOM_LEVEL_NV
  | _ => false
  end.

Definition updatesBottomLevel (cmd : Command) : bool :=
  match cmd with
  | UpdateRayTracingAccelerationContainer container =>
    GetLevel container =? VK_ACCELERATION_STRUCTURE_TYPE_BOTTOM_LEVEL_NV
  | _ => false
  end.

(** The pipeline of the last [SetRayTracingPipeline] among [cmds], or
    [before] when there is none. *)
Definition usedRayTracingPipeline (before : option RayTracingPipeline)
    (cmds : list Command) : option RayTracingPipeline :=
  fold_left (fun used cmd =>
               match cmd with
               | SetRayTracingPipeline pipeline => Some pipeline
               | _ => used
               end) cmds before.

(** The calls that destroy the scratch build memory of [container]. *)
Definition isScratchDestroy (container : positive) (e : Event) : bool :=
  match e with
  | Call_DestroyScratchBuildMemory destroyed => bool_decide (destroyed = container)
  | _ => false
  end.

(** Containers marked built stay marked built, and containers marked
    updated stay marked updated. *)
Definition containerStatesKept (w w' : World) : Prop :=
  (forall container, buildState w !! container = Some true ->
                     buildState w' !! container = Some true)
  /\ (forall container, updateState w !! container = Some true ->
                        updateState w' !! container = Some true).

(** What a turn of a loop does about the scratch memory of [container]: it
    destroys it at most once, not at all when the container is marked
    updated, and marks the container updated when it does. *)
Definition scratchStep {X} (container : positive) (m : Rec World X) : Prop :=
  forall w, exists new,
    commands (m w).2 = commands w ++ new
    /\ (length (List.filter (isScratchDestroy container) new) <= 1)%nat
    /\ (updateState w !! container = Some true ->
        List.filter (isScratchDestroy container) new = [])
    /\ (List.filter (isScratchDestroy container) new <> [] ->
        updateState (m w).2 !! container = Some true)
    /\ (updateState w !! container = Some true ->
        updateState (m w).2 !! container = Some true).

(** The calls [TransitionForPass] makes: the barriers, and for the textures
    the calls on the initialisation tracker with the clears they record. *)
Definition isPreparationCall (e : Event) : bool :=
  match e with
  | CmdPipelineBarrier _
  | Call_EnsureSubresourceContentInitialized _ _ _ _ _
  | ClearSubresources _ _ _ _ _ => true
  | _ => false
  end.

(** ** What [RecordBeginRenderPass] computes, from the flags at its start *)
Section ExpectedRenderPass.
Context `{Constants}.

(** Whether the tracker holds the range of a view as initialised; a colour
    attachment is one level and one layer from the base of its view. *)
Definition viewInitialized (flags : InitFlags) (view : TextureView) : bool :=
  isSubresourceContentInitialized flags (GetTexture view)
    (GetBaseMipLevel view) (GetLevelCount view)
    (GetBaseArrayLayer view) (GetLayerCount view).

Definition colorViewInitialized (flags : InitFlags) (view : TextureView) : bool :=
  isSubresourceContentInitialized flags (GetTexture view)
    (GetBaseMipLevel view) 1 (GetBaseArrayLayer view) 1.

(** The flags after the turns of the colour attachments [indices]. *)
Definition colorFlagsAfter (renderPass : BeginRenderPassCmd) (indices : list Z)
    (flags : InitFlags) : InitFlags :=
  fold_left (fun flags i => colorAttachmentFlags (colorAttachments renderPass i) flags)
    indices flags.

(** The query after the turns of the colour attachments [indices]: each is
    entered with the load operation its subresource calls for when its turn
    comes. *)
Fixpoint colorQueryAfter (renderPass : BeginRenderPassCmd) (indices : list Z)
    (query : RenderPassCacheQuery) (flags : InitFlags) : RenderPassCacheQuery :=
  match indices with
  | [] => query
  | i :: rest =>
    let info := colorAttachments renderPass i in
    let view := ca_view info in
    colorQueryAfter renderPass rest
      (Query_SetColor query i (format (view_GetFormat view))
         (effectiveLoadOp (colorViewInitialized flags view) (ca_loadOp info))
         (bool_decide (ca_resolveTarget info <> None)))
      (colorAttachmentFlags info flags)
  end.

(** The depth-stencil attachment as the function leaves it in the command. *)
Definition depthStencilAfter (renderPass : BeginRenderPassCmd) (flags : InitFlags)
  : RenderPassDepthStencilAttachmentInfo :=
  let info := depthStencilAttachment renderPass in
  if viewInitialized flags (ds_view info) then info
  else clearUninitializedDepthStencil info.

(** The flags, the command and the query of the render pass cache when
    [RecordBeginRenderPass] has gone through the attachments, from the flags
    [flags] at its start. *)
Definition renderPassFlags (renderPass : BeginRenderPassCmd) (flags : InitFlags)
  : InitFlags :=
  let flags1 :=
    colorFlagsAfter renderPass
      (IterateBitSet kMaxColorAttachments
         (GetColorAttachmentsMask (attachmentState renderPass))) flags in
  if HasDepthStencilAttachment (attachmentState renderPass)
  then depthStencilFlags (depthStencilAttachment renderPass) flags1
  else flags1.

Definition renderPassAfter (renderPass : BeginRenderPassCmd) (flags : InitFlags)
  : BeginRenderPassCmd :=
  let flags1 :=
    colorFlagsAfter renderPass
      (IterateBitSet kMaxColorAttachments
         (GetColorAttachmentsMask (attachmentState renderPass))) flags in
  if HasDepthStencilAttachment (attachmentState renderPass)
  then setDepthStencilAttachment renderPass (depthStencilAfter renderPass flags1)
  else renderPass.

Definition renderPassQuery (renderPass : BeginRenderPassCmd) (flags : InitFlags)
  : RenderPassCacheQuery :=
  let indices :=
    IterateBitSet kMaxColorAttachments
      (GetColorAttachmentsMask (attachmentState renderPass)) in
  let query := colorQueryAfter renderPass indices emptyQuery flags in
  let info' := depthStencilAfter renderPass (colorFlagsAfter renderPass indices flags) in
  Query_SetSampleCount
    (if HasDepthStencilAttachment (attachmentState renderPass)
     then Query_SetDepthStencil query
            (format (GetFormat (GetTexture (ds_view (depthStencilAttachment renderPass)))))
            (depthLoadOp info') (stencilLoadOp info')
     else query)
    (GetSampleCount (attachmentState renderPass)).

(** A range of subresources: a texture and the (level, layer) pairs of
    the range.  Two ranges are disjoint when they are of different textures
    or share no pair. *)
Definition SubresourceRange : Type := positive * list (Z * Z).

Definition viewRange (view : TextureView) (levelCount layerCount : Z) : SubresourceRange :=
  (texture_addr (GetTexture view),
   subresources (GetBaseMipLevel view) levelCount (GetBaseArrayLayer view) layerCount).

Definition rangesDisjoint (r1 r2 : SubresourceRange) : Prop :=
  r1.1 <> r2.1 \/ forall subresource, subresource ∈ r1.2 -> subresource ∉ r2.2.

Fixpoint pairwiseDisjoint (ranges : list SubresourceRange) : Prop :=
  match ranges with
  | [] => True
  | range :: rest => Forall (rangesDisjoint range) rest /\ pairwiseDisjoint rest
  end.

(** The ranges a pass marks: for each colour attachment the subresource of
    its view and the range of its resolve target, then the range of the
    depth-stencil view. *)
Definition colorAttachmentRanges (info : RenderPassColorAttachmentInfo)
  : list SubresourceRange :=
  viewRange (ca_view info) 1 1
  :: match ca_resolveTarget info with
     | Some resolveView =>
       [viewRange resolveView (GetLevelCount resolveView) (GetLayerCount resolveView)]
     | None => []
     end.

Definition attachmentRanges (renderPass : BeginRenderPassCmd) : list SubresourceRange :=
  flat_map (fun i => colorAttachmentRanges (colorAttachments renderPass i))
    (IterateBitSet kMaxColorAttachments
       (GetColorAttachmentsMask (attachmentState renderPass)))
  ++ (if HasDepthStencilAttachment (attachmentState renderPass)
      then let view := ds_view (depthStencilAttachment renderPass) in
           [viewRange view (GetLevelCount view) (GetLayerCount view)]
      else []).

(** No two attachments of the pass share a subresource. *)
Definition attachmentsDoNotOverlap (renderPass : BeginRenderPassCmd) : Prop :=
  pairwiseDisjoint (attachmentRanges renderPass).

End ExpectedRenderPass.

End Vulkan.

(** * Sample inputs

    Concrete objects on which the statements below are exercised. *)
Module Samples.

(** The limits and usage flags of the Dawn headers of this revision. *)
Definition dawnConstants : Constants :=
  {| kMaxBindGroups := 4;
     kMaxBindingsPerGroup := 16;
     kMaxVertexBuffers := 16;
     kMaxColorAttachments := 4;
     BufferUsage_CopySrc := 4;
     BufferUsage_CopyDst := 8;
     BufferUsage_Storage := 128;
     TextureUsage_CopySrc := 1;
     TextureUsage_CopyDst := 2;
     TextureUsage_Storage := 8;
     TextureUsage_OutputAttachment := 16 |}.

Definition bufferA : Buffer := {| buffer_addr := 11; GetVA := 4096; GetSize := 1024 |}.
Definition bufferB : Buffer := {| buffer_addr := 12; GetVA := 8192; GetSize := 512 |}.

Definition slot0Layout : PipelineLayout :=
  {| layout_addr := 21;
     GetBindGroupLayoutsMask := 1;
     InheritedGroupsMask := fun _ => 0;
     GetDynamicRootParameterIndex := fun group binding => 4 * group + binding;
     GetCbvUavSrvRootParameterIndex := fun group => 16 + group;
     GetSamplerRootParameterIndex := fun group => 20 + group |}.

(** A pipeline with 16-bit indices that reads vertex buffers 1 and 2. *)
Definition pipeline16 : RenderPipeline :=
  {| pipeline_addr := 31;
     RenderPipeline_GetLayout := slot0Layout;
     GetVertexBufferSlotsUsed := 6;
     GetVertexBuffer_arrayStride := fun slot => 16 * (slot + 1);
     GetVertexStateDescriptor_indexFormat := Uint16;
     GetD3D12PrimitiveTopology := 4 |}.

Definition vertexOps : list D3D12.VertexOp :=
  [D3D12.VSet 3 bufferA 0; D3D12.VApply pipeline16; D3D12.VSet 5 bufferB 64].

(** Modelled from the spec: a shader-visible heap as a bounded pool from
    which the descriptors of a bind group are realised; realising fails when
    the pool is exhausted, and switching to a new heap generation forgets
    every earlier realisation. *)
Record PoolAllocator : Type := {
  pool_capacity : Z;
  pool_used : Z;
  pool_generation : positive;
  pool_realized : list (positive * Z);
}.

Definition descriptorCount (group : BindGroup) : Z :=
  GetCbvUavSrvDescriptorCount (GetLayout group) + GetSamplerDescriptorCount (GetLayout group).

Definition pool_base (group : BindGroup) (a : PoolAllocator) : option Z :=
  snd <$> List.find (fun entry => Pos.eqb (fst entry) (group_addr group)) (pool_realized a).

Definition pool_Populate (group : BindGroup) (a : PoolAllocator)
  : ResultOrError bool * PoolAllocator :=
  match pool_base group a with
  | Some _ => (Success true, a)
  | None =>
    if pool_used a + descriptorCount group <=? pool_capacity a then
      (Success true,
       {| pool_capacity := pool_capacity a;
          pool_used := pool_used a + descriptorCount group;
          pool_generation := pool_generation a;
          pool_realized := (group_addr group, pool_used a) :: pool_realized a |})
    else (Success false, a)
  end.

Definition pool_Switch (a : PoolAllocator) : ResultOrError unit * PoolAllocator :=
  (Success tt,
   {| pool_capacity := pool_capacity a;
      pool_used := 0;
      pool_generation := Pos.succ (pool_generation a);
      pool_realized := [] |}).

Definition poolAllocator : D3D12.ShaderVisibleDescriptorAllocator PoolAllocator :=
  {| D3D12.Populate := pool_Populate;
     D3D12.AllocateAndSwitchShaderVisibleHeaps := pool_Switch;
     D3D12.GetShaderVisibleHeaps :=
       fun a => (Some (xO (pool_generation a)), Some (xI (pool_generation a)));
     D3D12.GetBaseCbvUavSrvDescriptor := fun group a => default 0 (pool_base group a);
     D3D12.GetBaseSamplerDescriptor :=
       fun group a =>
         default 0 (pool_base group a) + GetCbvUavSrvDescriptorCount (GetLayout group) |}.

Definition emptyWorld (capacity : Z) : D3D12.World (A := PoolAllocator) :=
  {| D3D12.mAllocator :=
       {| pool_capacity := capacity; pool_used := 0; pool_generation := 1;
          pool_realized := [] |};
     D3D12.commandList := [];
     D3D12.bufferState := ∅;
     D3D12.textureState := ∅;
     D3D12.initFlags := ∅ |}.

(** A layout with a dynamic uniform buffer at binding 0 and a sampled
    texture at binding 1 (two view descriptors, no sampler), and two groups
    of that layout. *)
Definition dynamicLayout : BindGroupLayout :=
  {| hasDynamicOffset := 1;
     types := fun binding => if binding =? 0 then UniformBuffer else SampledTexture;
     GetCbvUavSrvDescriptorCount := 2;
     GetSamplerDescriptorCount := 0 |}.

Definition groupG : BindGroup :=
  {| group_addr := 41;
     GetLayout := dynamicLayout;
     GetBindingAsBufferBinding :=
       fun _ => {| bb_buffer := bufferA; bb_offset := 16; bb_size := 256 |} |}.

Definition groupH : BindGroup :=
  {| group_addr := 42;
     GetLayout := dynamicLayout;
     GetBindingAsBufferBinding :=
       fun _ => {| bb_buffer := bufferB; bb_offset := 0; bb_size := 256 |} |}.

(** A pipeline layout that uses slots 0 and 1. *)
Definition twoGroupLayout : PipelineLayout :=
  {| layout_addr := 22;
     GetBindGroupLayoutsMask := 3;
     InheritedGroupsMask := fun _ => 0;
     GetDynamicRootParameterIndex := fun group binding => 4 * group + binding;
     GetCbvUavSrvRootParameterIndex := fun group => 16 + group;
     GetSamplerRootParameterIndex := fun group => 20 + group |}.

(** A render-pass tracker after [SetRenderPipeline] with a layout that uses
    slot 0 only, then after [SetBindGroup(0, groupG)] with one dynamic
    offset. *)
Definition trackerWithPipeline : D3D12.BindGroupStateTracker :=
  D3D12.trackerOnSetPipeline
    {| D3D12.base := BindGroupTracker_init (H := dawnConstants);
       D3D12.mInCompute := false |}
    slot0Layout.

Definition trackerWithGroup : D3D12.BindGroupStateTracker :=
  D3D12.trackerOnSetBindGroup (H := dawnConstants) trackerWithPipeline 0 groupG [256].

(** A render-pass tracker with groups in slots 0 and 1, and a heap with
    room for one more descriptor only. *)
Definition trackerTwoGroups : D3D12.BindGroupStateTracker :=
  D3D12.trackerOnSetBindGroup (H := dawnConstants)
    (D3D12.trackerOnSetBindGroup (H := dawnConstants)
       (D3D12.trackerOnSetPipeline
          {| D3D12.base := BindGroupTracker_init (H := dawnConstants);
             D3D12.mInCompute := false |}
          twoGroupLayout)
       0 groupG [256])
    1 groupH [0].

Definition crowdedWorld : D3D12.World (A := PoolAllocator) :=
  {| D3D12.mAllocator :=
       {| pool_capacity := 4; pool_used := 3; pool_generation := 1;
          pool_realized := [(40%positive, 0)] |};
     D3D12.commandList := [];
     D3D12.bufferState := ∅;
     D3D12.textureState := ∅;
     D3D12.initFlags := ∅ |}.

(** *** Vulkan *)

Definition rgba8 : Format :=
  {| format := 37; HasDepth := false; HasStencil := false; isCompressed := false;
     blockByteSize := 4; blockWidth := 1; blockHeight := 1 |}.

Definition depth24stencil8 : Format :=
  {| format := 129; HasDepth := true; HasStencil := true; isCompressed := false;
     blockByteSize := 4; blockWidth := 1; blockHeight := 1 |}.

Definition extent64 : Extent3D := {| width := 64; height := 64; depth := 1 |}.

Definition texture2D (address : positive) (viewFormat : Format) : Texture :=
  {| texture_addr := address;
     GetFormat := viewFormat;
     GetNumMipLevels := 1;
     GetArrayLayers := 1;
     Texture_GetSize := extent64;
     GetMipLevelPhysicalSize := fun _ => extent64 |}.

Definition colorTexture : Texture := texture2D 51 rgba8.
Definition resolveTexture : Texture := texture2D 52 rgba8.
Definition depthTexture : Texture := texture2D 53 depth24stencil8.

Definition wholeView (address : positive) (texture : Texture) : TextureView :=
  {| view_addr := address;
     view_GetFormat := GetFormat texture;
     GetTexture := texture;
     GetBaseMipLevel := 0;
     GetLevelCount := 1;
     GetBaseArrayLayer := 0;
     GetLayerCount := 1 |}.

Definition red : Color :=
  {| r := float_one; g := float_zero; b := float_zero; a := float_one |}.

(** A colour attachment that asks to keep what the texture holds and to
    discard the result, and one that stores the result and resolves it. *)
Definition loadAndDiscard : RenderPassColorAttachmentInfo :=
  {| ca_view := wholeView 61 colorTexture;
     ca_resolveTarget := None;
     ca_loadOp := LoadOp_Load;
     ca_storeOp := StoreOp_Clear;
     ca_clearColor := red |}.

Definition loadStoreAndResolve : RenderPassColorAttachmentInfo :=
  {| ca_view := wholeView 61 colorTexture;
     ca_resolveTarget := Some (wholeView 62 resolveTexture);
     ca_loadOp := LoadOp_Load;
     ca_storeOp := StoreOp_Store;
     ca_clearColor := red |}.

Definition depthLoadAndStore : RenderPassDepthStencilAttachmentInfo :=
  {| ds_view := wholeView 63 depthTexture;
     depthLoadOp := LoadOp_Load;
     depthStoreOp := StoreOp_Store;
     stencilLoadOp := LoadOp_Load;
     stencilStoreOp := StoreOp_Store;
     clearDepth := float_one;
     clearStencil := 7 |}.

(** A pass with colour attachment 0 and a depth-stencil attachment. *)
Definition samplePass (color : RenderPassColorAttachmentInfo) : BeginRenderPassCmd :=
  {| attachmentState :=
       {| GetColorAttachmentsMask := 1; HasDepthStencilAttachment := true;
          GetSampleCount := 1 |};
     colorAttachments := fun _ => color;
     depthStencilAttachment := depthLoadAndStore;
     rp_width := 64;
     rp_height := 64 |}.

(** A device whose calls succeed. *)
Definition vulkanDevice : Vulkan.Device :=
  {| Vulkan.GetRenderPass := fun _ => Success 71%positive;
     Vulkan.CreateFramebuffer := fun _ => Success 72%positive;
     Vulkan.CreateBuffer :=
       fun size _ => {| buffer_addr := 73; GetVA := 0; GetSize := size |};
     Vulkan.debugMarker := false;
     Vulkan.UseTemporaryBufferInCompressedTextureToTextureCopy := false;
     Vulkan.ComputeBufferImageCopyRegion :=
       fun bufferCopy textureCopy copySize =>
         {| Vulkan.region_bufferOffset := bc_offset bufferCopy;
            Vulkan.region_bufferRowLength := bc_rowPitch bufferCopy;
            Vulkan.region_bufferImageHeight := bc_imageHeight bufferCopy;
            Vulkan.imageSubresource_mipLevel := tc_mipLevel textureCopy;
            Vulkan.imageSubresource_baseArrayLayer := tc_arrayLayer textureCopy;
            Vulkan.region_imageOffset := tc_origin textureCopy;
            Vulkan.region_imageExtent := copySize |};
     Vulkan.ComputeTextureCopyExtent := fun _ copySize => copySize;
     Vulkan.GetVkAspectMask := fun _ => 1 |}.

(** Nothing recorded yet, no texture initialised, nothing built. *)
Definition vulkanWorld : Vulkan.World :=
  {| Vulkan.commands := [];
     Vulkan.initFlags := ∅;
     Vulkan.bufferLastUsage := ∅;
     Vulkan.textureLastUsage := ∅;
     Vulkan.buildState := ∅;
     Vulkan.updateState := ∅ |}.

(** A bottom-level acceleration container without the allow-update flag. *)
Definition bottomContainer : RayTracingAccelerationContainer :=
  {| container_addr := 81;
     GetLevel := 1;
     GetFlags := 0;
     GetGeometries_size := 1;
     GetInstances_size := 0 |}.

Definition firstPass : Vulkan.TopState :=
  {| Vulkan.nextPassNumber := 0;
     Vulkan.hasBottomLevelContainerBuild := false;
     Vulkan.hasBottomLevelContainerUpdate := false |}.

Definition noUsages : PassResourceUsage := {| usage_buffers := []; usage_textures := [] |}.

(** A pass that reads [bufferA] and [bufferB] as storage buffers. *)
Definition twoBufferUsages : PassResourceUsage :=
  {| usage_buffers := [(bufferA, 128); (bufferB, 128)]; usage_textures := [] |}.

(** Both buffers were last written by a copy. *)
Definition copiedBuffersWorld : Vulkan.World :=
  {| Vulkan.commands := [];
     Vulkan.initFlags := ∅;
     Vulkan.bufferLastUsage := <[11%positive := 8]> (<[12%positive := 8]> ∅);
     Vulkan.textureLastUsage := ∅;
     Vulkan.buildState := ∅;
     Vulkan.updateState := ∅ |}.

(** *** D3D12 *)

(** A device that records with native render passes, and a render pass
    builder that keeps nothing. *)
Definition d3d12Device : D3D12.Device :=
  {| D3D12.ComputeTextureCopySplit :=
       fun origin copySize _ offset _ _ =>
         {| D3D12.split_offset := offset;
            D3D12.split_copies :=
              [{| D3D12.info_textureOffset := origin;
                  D3D12.info_bufferOffset := {| x := 0; y := 0; z := 0 |};
                  D3D12.info_bufferSize := copySize;
                  D3D12.info_copySize := copySize |}] |};
     D3D12.IsPIXEventRuntimeLoaded := false;
     D3D12.UseD3D12RenderPass := true;
     D3D12.GetDispatchIndirectSignature := 91;
     D3D12.GetDrawIndirectSignature := 92;
     D3D12.GetDrawIndexedIndirectSignature := 93;
     D3D12.AllocateCPUHeap := fun _ _ => Success (Some 94%positive);
     D3D12.View_GetD3D12Format := fun _ => 28;
     D3D12.Texture_GetD3D12Format := fun _ => 28;
     D3D12.LazyClearRenderPassAttachments := fun cmd flags => (cmd, flags) |}.

Definition unitBuilder : D3D12.RenderPassBuilder unit :=
  {| D3D12.newRenderPassBuilder := fun _ _ => tt;
     D3D12.SetRenderTargetBeginningAccess := fun _ _ _ _ _ => tt;
     D3D12.SetRenderTargetEndingAccess := fun _ _ _ => tt;
     D3D12.SetRenderTargetEndingAccessResolve := fun _ _ _ _ _ => tt;
     D3D12.SetDepthAccess := fun _ _ _ _ _ => tt;
     D3D12.SetDepthNoAccess := fun _ => tt;
     D3D12.SetStencilAccess := fun _ _ _ _ _ => tt;
     D3D12.SetStencilNoAccess := fun _ => tt;
     D3D12.SetDepthStencilNoAccess := fun _ => tt;
     D3D12.GetColorAttachmentCount := fun _ => 0;
     D3D12.Builder_HasDepth := fun _ => false;
     D3D12.GetRenderPassFlags := fun _ => 0;
     D3D12.GetRenderTargetViews := fun _ => [];
     D3D12.renderTargetCpuDescriptor := fun _ _ => (94%positive, 0);
     D3D12.renderTargetBeginningClear := fun _ _ => None;
     D3D12.depthStencilCpuDescriptor := fun _ => (94%positive, 0);
     D3D12.depthBeginningClear := fun _ => None;
     D3D12.stencilBeginningClear := fun _ => None |}.

Definition d3d12FirstPass : D3D12.TopState :=
  {| D3D12.nextPassNumber := 0;
     D3D12.bindingTracker :=
       {| D3D12.base := BindGroupTracker_init (H := dawnConstants);
          D3D12.mInCompute := false |} |}.

End Samples.

(** ** More sample objects *)
Module MoreSamples.

(** A top-level acceleration container with the allow-update flag. *)
Definition topContainer : RayTracingAccelerationContainer :=
  {| container_addr := 82;
     GetLevel := 0;
     GetFlags := 1;
     GetGeometries_size := 0;
     GetInstances_size := 1 |}.

(** A block-compressed format: blocks of 4 by 4 texels, 8 bytes each. *)
Definition bc1 : Format :=
  {| format := 71; HasDepth := false; HasStencil := false; isCompressed := true;
     blockByteSize := 8; blockWidth := 4; blockHeight := 4 |}.

Definition compressedSource : TextureCopy :=
  {| tc_texture := Samples.texture2D 54 bc1;
     tc_mipLevel := 0;
     tc_arrayLayer := 0;
     tc_origin := {| x := 0; y := 0; z := 0 |} |}.

Definition compressedDestination : TextureCopy :=
  {| tc_texture := Samples.texture2D 55 bc1;
     tc_mipLevel := 0;
     tc_arrayLayer := 0;
     tc_origin := {| x := 0; y := 0; z := 0 |} |}.

(** Two blocks by two blocks. *)
Definition extent8 : Extent3D := {| width := 8; height := 8; depth := 1 |}.

(** An allocator that is out of memory: every population reports an
    error. *)
Definition failingAllocator : D3D12.ShaderVisibleDescriptorAllocator unit :=
  {| D3D12.Populate := fun _ a => (Error "out of descriptor memory", a);
     D3D12.AllocateAndSwitchShaderVisibleHeaps := fun a => (Success tt, a);
     D3D12.GetShaderVisibleHeaps := fun _ => (Some 1%positive, Some 2%positive);
     D3D12.GetBaseCbvUavSrvDescriptor := fun _ _ => 0;
     D3D12.GetBaseSamplerDescriptor := fun _ _ => 0 |}.

Definition failingWorld : D3D12.World (A := unit) :=
  {| D3D12.mAllocator := tt;
     D3D12.commandList := [];
     D3D12.bufferState := ∅;
     D3D12.textureState := ∅;
     D3D12.initFlags := ∅ |}.

End MoreSamples.
(* ===================================================================== *)
(** * Properties *)
(* ===================================================================== *)

(** ** Bit sets *)

Lemma IterateBitSet_spec (width : nat) (bits s : Z) :
  s ∈ IterateBitSet width bits <->
  0 <= s < Z.of_nat width /\ Z.testbit bits s = true.
Proof.
  unfold IterateBitSet. rewrite list_elem_of_In, filter_In, in_map_iff.
  split.
  - intros [(n & <- & Hn%in_seq) Hb]. split; [lia | done].
  - intros [Hs Hb]. split; [| done].
    exists (Z.to_nat s). split; [lia |]. apply in_seq. lia.
Qed.

(** ** D3D12 vertex buffer tracker *)
Section VertexBufferTrackerFacts.
Import D3D12.
Context `{Constants}.
Hypothesis kMaxVertexBuffers_fits : Z.of_nat kMaxVertexBuffers < 2 ^ 32.

Lemma u32_succ_slot (slot : Z) : slotInRange slot -> u32 (slot + 1) = slot + 1.
Proof. unfold slotInRange, u32. intros Hs. apply Z.mod_small. lia. Qed.

Lemma vb_inv_init : vb_inv VertexBufferTracker_init.
Proof. unfold vb_inv; simpl. rewrite length_replicate. lia. Qed.

Lemma vb_inv_OnSetVertexBuffer t slot buffer offset :
  slotInRange slot -> vb_inv t -> vb_inv (OnSetVertexBuffer t slot buffer offset).
Proof.
  intros Hs (Hst & He & Hl). pose proof Hs as Hs'. unfold slotInRange in Hs'.
  unfold vb_inv; simpl. rewrite (u32_succ_slot _ Hs), length_alter. lia.
Qed.

Lemma OnSetVertexBuffer_range t slot buffer offset :
  slotInRange slot ->
  let t' := OnSetVertexBuffer t slot buffer offset in
  mStartSlot t' <= slot < mEndSlot t' /\
  mStartSlot t' <= mStartSlot t /\ mEndSlot t <= mEndSlot t'.
Proof. intros Hs; simpl. rewrite (u32_succ_slot _ Hs). lia. Qed.

(** The widening loop: the range only grows, stays inside the array, covers
    every slot walked, and leaves each of them with the pipeline's stride. *)
Lemma widen_fold (stride : Z -> Z) (slots : list Z) s0 e0 v0 :
  Forall slotInRange slots ->
  0 <= s0 <= Z.of_nat kMaxVertexBuffers -> 0 <= e0 <= Z.of_nat kMaxVertexBuffers ->
  length v0 = kMaxVertexBuffers ->
  exists s e v,
    fold_left (widenStep stride) slots (s0, e0, v0) = (s, e, v) /\
    0 <= s <= s0 /\ e0 <= e <= Z.of_nat kMaxVertexBuffers /\
    length v = kMaxVertexBuffers /\
    forall slot, slot ∈ slots ->
      s <= slot < e /\
      exists view, v !! Z.to_nat slot = Some view /\ vb_StrideInBytes view = stride slot.
Proof.
  induction slots as [| x slots IH] using rev_ind; intros Hall Hs He Hl.
  - exists s0, e0, v0. simpl. split; [done |]. split; [lia |]. split; [lia |].
    split; [done |]. intros slot Hin. inversion Hin.
  - apply Forall_app in Hall as [Hall Hx]. rewrite Forall_singleton in Hx.
    destruct (IH Hall Hs He Hl) as (s & e & v & Hf & Hsb & Heb & Hlv & Hcov).
    rewrite fold_left_app, Hf. simpl.
    pose proof Hx as Hx'. unfold slotInRange in Hx'.
    eexists _, _, _. split; [reflexivity |].
    rewrite (u32_succ_slot _ Hx), length_alter.
    assert (Hin_range : forall slot, slot ∈ slots -> s <= slot < e)
      by (intros slot Hin; by destruct (Hcov _ Hin)).
    split; [lia |]. split; [lia |]. split; [done |].
    intros slot [Hin | ->%list_elem_of_singleton]%elem_of_app.
    + specialize (Hin_range _ Hin). split; [lia |].
      destruct (Hcov _ Hin) as [_ (view & Hv & Hst)].
      destruct (decide (x = slot)) as [-> | Hne].
      * exists (setStride (stride slot) view). split; [| done].
        by rewrite list_lookup_alter_eq, Hv.
      * exists view. split; [| done]. rewrite list_lookup_alter_ne; [done |].
        rewrite Forall_forall in Hall. specialize (Hall _ Hin).
        unfold slotInRange in Hall. lia.
    + split; [lia |].
      assert (Z.to_nat x < length v)%nat as Hlt by lia.
      destruct (lookup_lt_is_Some_2 _ _ Hlt) as [view Hv].
      exists (setStride (stride x) view). split; [| done].
      by rewrite list_lookup_alter_eq, Hv.
Qed.

Lemma IterateBitSet_slotInRange (bits : Z) :
  Forall slotInRange (IterateBitSet kMaxVertexBuffers bits).
Proof.
  apply Forall_forall. intros s Hs%IterateBitSet_spec. unfold slotInRange. lia.
Qed.

(** What one [Apply] does from a tracker that satisfies the invariant. *)
Lemma VertexBufferTracker_Apply_spec (t : VertexBufferTracker) (p : RenderPipeline) :
  vb_inv t ->
  exists t' calls,
    VertexBufferTracker_Apply t (Some p) = Ok (t', calls) /\
    vb_inv t' /\
    mEndSlot t' <= mStartSlot t' /\
    (calls = [] \/
     exists start count,
       0 < count /\
       calls = [IASetVertexBuffers start count
                  (take (Z.to_nat count) (drop (Z.to_nat start) (mD3D12BufferViews t')))]) /\
    (forall s, mStartSlot t <= s < mEndSlot t -> covers calls s) /\
    (mLastAppliedRenderPipeline t <> Some (pipeline_addr p) ->
     forall s, s ∈ IterateBitSet kMaxVertexBuffers (GetVertexBufferSlotsUsed p) ->
       covers calls s /\
       exists v, mD3D12BufferViews t' !! Z.to_nat s = Some v /\
                 vb_StrideInBytes v = GetVertexBuffer_arrayStride p s).
Proof.
  intros (Hs & He & Hl). unfold VertexBufferTracker_Apply.
  destruct (decide (mLastAppliedRenderPipeline t = Some (pipeline_addr p))) as [Hsame | Hdiff].
  - destruct (Z.leb_spec (mEndSlot t) (mStartSlot t)) as [Hempty | Hdirty].
    + eexists _, _. split; [reflexivity |]. simpl.
      split; [by unfold vb_inv |]. split; [done |]. split; [by left |].
      split; [intros s Hr; lia | done].
    + eexists _, _. split; [reflexivity |]. simpl.
      split; [unfold vb_inv; simpl; lia |]. split; [lia |].
      split; [right; eexists _, _; split; [| reflexivity]; lia |].
      split; [| done].
      intros s Hr. eexists _, _, _. split; [reflexivity |]. lia.
  - destruct (widen_fold (GetVertexBuffer_arrayStride p)
                (IterateBitSet kMaxVertexBuffers (GetVertexBufferSlotsUsed p))
                (mStartSlot t) (mEndSlot t) (mD3D12BufferViews t)
                (IterateBitSet_slotInRange _) Hs He Hl)
      as (s' & e' & v' & Hf & Hsb & Heb & Hlv & Hcov).
    rewrite Hf.
    destruct (Z.leb_spec e' s') as [Hempty | Hdirty].
    + eexists _, _. split; [reflexivity |]. simpl.
      split; [by unfold vb_inv |]. split; [lia |]. split; [by left |].
      split; [intros s Hr; lia |].
      intros _ s Hin. destruct (Hcov _ Hin) as [Hr _]. lia.
    + eexists _, _. split; [reflexivity |]. simpl.
      split; [unfold vb_inv; simpl; lia |]. split; [lia |].
      split; [right; eexists _, _; split; [| reflexivity]; lia |].
      split.
      * intros s Hr. eexists _, _, _. split; [reflexivity |]. lia.
      * intros _ s Hin. destruct (Hcov _ Hin) as [Hr Hv]. split; [| done].
        eexists _, _, _. split; [reflexivity |]. lia.
Qed.

(** Running a client keeps the invariant, and the dirty range always holds
    the slots set since the last [Apply]. *)
Lemma vertexRun_invariant (ops : list VertexOp) (t0 : VertexBufferTracker) (acc : list Z) :
  Forall vertexOpValid ops ->
  vb_inv t0 ->
  (forall s, s ∈ acc -> mStartSlot t0 <= s < mEndSlot t0) ->
  let t := fold_left vertexStep ops t0 in
  vb_inv t /\ forall s, s ∈ slotsSetSince acc ops -> mStartSlot t <= s < mEndSlot t.
Proof.
  revert t0 acc. induction ops as [| op ops IH]; intros t0 acc Hall Hinv Hacc.
  - done.
  - apply Forall_cons in Hall as [Hop Hall].
    change (fold_left vertexStep (op :: ops) t0)
      with (fold_left vertexStep ops (vertexStep t0 op)).
    destruct op as [slot buffer offset | p]; cbn [slotsSetSince vertexStep].
    + simpl in Hop. apply IH; [done | by apply vb_inv_OnSetVertexBuffer |].
      pose proof (OnSetVertexBuffer_range t0 slot buffer offset Hop) as (Hslot & Hlo & Hhi).
      intros s [-> | Hin]%elem_of_cons; [done |].
      specialize (Hacc _ Hin). lia.
    + destruct (VertexBufferTracker_Apply_spec t0 p Hinv) as (t' & calls & -> & Hinv' & _).
      apply IH; [done | done |]. intros s Hin. inversion Hin.
Qed.

(** C7. After any sequence of SetVertexBuffer and Apply calls, an Apply
    issues at most one IASetVertexBuffers call, exactly one when the dirty
    range is not empty; the call is one contiguous range of the tracker's
    views that covers every slot set since the previous Apply; afterwards the
    dirty range is empty.  When the pipeline differs from the last applied
    one, the range bound also covers every slot the new pipeline uses and
    those views carry the pipeline's strides. *)
Theorem vertex_dirty_range_soundness (ops : list VertexOp) (p : RenderPipeline) :
  Forall vertexOpValid ops ->
  exists t' calls,
    VertexBufferTracker_Apply (vertexRun ops) (Some p) = Ok (t', calls) /\
    (calls = [] \/
     exists start count,
       0 < count /\
       calls = [IASetVertexBuffers start count
                  (take (Z.to_nat count) (drop (Z.to_nat start) (mD3D12BufferViews t')))]) /\
    (mStartSlot (vertexRun ops) < mEndSlot (vertexRun ops) -> calls <> []) /\
    (forall s, s ∈ slotsSetSince [] ops -> covers calls s) /\
    mEndSlot t' <= mStartSlot t' /\
    (mLastAppliedRenderPipeline (vertexRun ops) <> Some (pipeline_addr p) ->
     forall s, s ∈ IterateBitSet kMaxVertexBuffers (GetVertexBufferSlotsUsed p) ->
       covers calls s /\
       exists v, mD3D12BufferViews t' !! Z.to_nat s = Some v /\
                 vb_StrideInBytes v = GetVertexBuffer_arrayStride p s).
Proof.
  intros Hall.
  destruct (vertexRun_invariant ops VertexBufferTracker_init [] Hall vb_inv_init)
    as [Hinv Hsince]; [intros s Hin; inversion Hin |].
  fold (vertexRun ops) in Hinv, Hsince.
  destruct (VertexBufferTracker_Apply_spec (vertexRun ops) p Hinv)
    as (t' & calls & Happly & _ & Hempty & Hone & Hcover & Hpipe).
  exists t', calls. split; [done |]. split; [done |]. split.
  - intros Hdirty ->.
    destruct (Hcover (mStartSlot (vertexRun ops))) as (? & ? & ? & Hnil & _); [lia | done].
  - split; [| done]. intros s Hin. apply Hcover, Hsince, Hin.
Qed.

End VertexBufferTrackerFacts.

Section VertexBufferTrackerSample.
Import D3D12 Samples.
#[local] Existing Instance dawnConstants.

Lemma vertex_dirty_range_soundness_sample :
  Forall vertexOpValid vertexOps /\
  exists t' views,
    VertexBufferTracker_Apply (vertexRun vertexOps) (Some pipeline16)
    = Ok (t', [IASetVertexBuffers 5 1 views]) /\
    mEndSlot t' <= mStartSlot t'.
Proof.
  assert (Hvalid : Forall vertexOpValid vertexOps).
  { repeat constructor; unfold slotInRange; simpl; lia. }
  split; [exact Hvalid |].
  assert (Hfits : Z.of_nat kMaxVertexBuffers < 2 ^ 32) by (simpl; lia).
  destruct (vertex_dirty_range_soundness Hfits vertexOps pipeline16 Hvalid)
    as (t' & calls & Happly & _ & _ & _ & Hempty & _).
  exists t'. vm_compute in Happly. injection Happly as <- <-.
  eexists. split; [vm_compute; reflexivity | exact Hempty].
Defined.

End VertexBufferTrackerSample.

(** ** D3D12 index buffer tracker *)
Section IndexBufferTrackerFacts.
Import D3D12.

(** [Apply] compares formats only. *)
Lemma IndexBufferTracker_Apply_clean (t : IndexBufferTracker) :
  ib_Format (mD3D12BufferView t) = mLastAppliedIndexFormat t ->
  IndexBufferTracker_Apply t = (t, []).
Proof. intros Heq. unfold IndexBufferTracker_Apply. by rewrite decide_True. Qed.

Lemma IndexBufferTracker_Apply_dirty (t : IndexBufferTracker) :
  ib_Format (mD3D12BufferView t) <> mLastAppliedIndexFormat t ->
  IndexBufferTracker_Apply t =
    ({| mLastAppliedIndexFormat := ib_Format (mD3D12BufferView t);
        mD3D12BufferView := mD3D12BufferView t |},
     [IASetIndexBuffer (mD3D12BufferView t)]).
Proof. intros Hne. unfold IndexBufferTracker_Apply. by rewrite decide_False. Qed.

Lemma DXGIIndexFormat_known (format : IndexFormat) :
  DXGIIndexFormat format <> DXGI_FORMAT_UNKNOWN.
Proof. by destruct format. Qed.

(** C8, as the code has it.  The tracker compares the index format with the
    last applied one, and SetIndexBuffer forgets the last applied format:
    an Apply binds exactly once when a SetIndexBuffer came since the last
    Apply (whatever buffer and offset it named) or the format of the
    pipeline differs from the last applied one, and binds nothing otherwise;
    in particular a second Apply in a row binds nothing. *)
Theorem index_buffer_apply_when_dirty (t : IndexBufferTracker) :
  (ib_Format (mD3D12BufferView t) = mLastAppliedIndexFormat t ->
   IndexBufferTracker_Apply t = (t, [])) /\
  (ib_Format (mD3D12BufferView t) <> mLastAppliedIndexFormat t ->
   snd (IndexBufferTracker_Apply t) = [IASetIndexBuffer (mD3D12BufferView t)]) /\
  IndexBufferTracker_Apply (fst (IndexBufferTracker_Apply t))
  = (fst (IndexBufferTracker_Apply t), []) /\
  (forall (pipeline : RenderPipeline) (buffer : Buffer) (offset : Z),
     let t1 := OnSetIndexBuffer (IndexBufferTracker_OnSetPipeline t pipeline) buffer offset in
     snd (IndexBufferTracker_Apply t1) = [IASetIndexBuffer (mD3D12BufferView t1)]) /\
  (forall pipeline : RenderPipeline,
     let t1 := fst (IndexBufferTracker_Apply t) in
     let t2 := IndexBufferTracker_OnSetPipeline t1 pipeline in
     snd (IndexBufferTracker_Apply t2)
     = if decide (DXGIIndexFormat (GetVertexStateDescriptor_indexFormat pipeline)
                  = mLastAppliedIndexFormat t1)
       then [] else [IASetIndexBuffer (mD3D12BufferView t2)]).
Proof.
  split; [apply IndexBufferTracker_Apply_clean |].
  split; [intros Hne; by rewrite IndexBufferTracker_Apply_dirty |].
  split.
  { unfold IndexBufferTracker_Apply at 2 3.
    destruct (decide (ib_Format (mD3D12BufferView t) = mLastAppliedIndexFormat t));
      simpl; by apply IndexBufferTracker_Apply_clean. }
  split.
  - intros pipeline buffer offset t1. rewrite IndexBufferTracker_Apply_dirty; [done |].
    simpl. apply DXGIIndexFormat_known.
  - intros pipeline t1 t2. unfold IndexBufferTracker_Apply at 1.
    subst t2; simpl. by destruct (decide _).
Qed.

(** C8, where the specification as worded fails: a SetIndexBuffer that
    names the buffer and offset already bound leaves the native descriptor
    equal to the one last applied, and the next Apply binds it again. *)
Lemma index_buffer_rebinds_equal_descriptor :
  let t0 :=
    OnSetIndexBuffer
      (IndexBufferTracker_OnSetPipeline IndexBufferTracker_init Samples.pipeline16)
      Samples.bufferA 0 in
  let t1 := fst (IndexBufferTracker_Apply t0) in
  let t2 := OnSetIndexBuffer t1 Samples.bufferA 0 in
  snd (IndexBufferTracker_Apply t0) = [IASetIndexBuffer (mD3D12BufferView t1)] /\
  mD3D12BufferView t2 = mD3D12BufferView t1 /\
  snd (IndexBufferTracker_Apply t2) = [IASetIndexBuffer (mD3D12BufferView t1)].
Proof. vm_compute. repeat split. Qed.

End IndexBufferTrackerFacts.

(** ** Lists *)

Lemma filter_none {E} (f : E -> bool) (l : list E) :
  Forall (fun e => f e = false) l -> List.filter f l = [].
Proof.
  induction 1 as [| e l He _ IH]; [done |]. simpl. by rewrite He.
Qed.

Lemma neededTransitions_cons tracked address usage rest :
  neededTransitions tracked ((address, usage) :: rest)
  = neededTransitions tracked [(address, usage)]
    ++ neededTransitions (trackedAfter tracked [(address, usage)]) rest.
Proof.
  cbn [neededTransitions trackedAfter].
  by destruct (default 0 (tracked !! address) =? usage).
Qed.

(** ** The recording monad *)
Section RecFacts.
Context {W : Type}.

Lemma bind_Ok {X Y} (m : Rec W X) (k : X -> Rec W Y) w x w' :
  m w = (Ok x, w') -> bind m k w = k x w'.
Proof. intros Hm. unfold bind. by rewrite Hm. Qed.

Lemma bind_Err {X Y} (m : Rec W X) (k : X -> Rec W Y) w e w' :
  m w = (Err e, w') -> bind m k w = (Err e, w').
Proof. intros Hm. unfold bind. by rewrite Hm. Qed.

Lemma bind_Fatal {X Y} (m : Rec W X) (k : X -> Rec W Y) w y w' :
  m w = (Fatal y, w') -> bind m k w = (Fatal y, w').
Proof. intros Hm. unfold bind. by rewrite Hm. Qed.

Lemma bind_inv_Ok {X Y} (m : Rec W X) (k : X -> Rec W Y) w y w'' :
  bind m k w = (Ok y, w'') -> exists x w', m w = (Ok x, w') /\ k x w' = (Ok y, w'').
Proof.
  unfold bind. destruct (m w) as [[x | e | f] w'] eqn:Hm; [eauto | done | done].
Qed.

Lemma bind_cases {X Y} (m : Rec W X) (k : X -> Rec W Y) w :
  (exists x w', m w = (Ok x, w') /\ bind m k w = k x w') \/
  (exists e w', m w = (Err e, w') /\ bind m k w = (Err e, w')) \/
  (exists y w', m w = (Fatal y, w') /\ bind m k w = (Fatal y, w')).
Proof.
  unfold bind. destruct (m w) as [[x | e | y] w']; eauto 8.
Qed.

Lemma forEach_cons {X} (x : X) rest (body : X -> Rec W unit) (w : W) :
  forEach (x :: rest) body w = bind (body x) (fun _ => forEach rest body) w.
Proof. reflexivity. Qed.

Lemma foldRec_cons {X S} (x : X) rest (body : S -> X -> Rec W S) acc (w : W) :
  foldRec (x :: rest) body acc w
  = bind (body acc x) (fun acc' => foldRec rest body acc') w.
Proof. reflexivity. Qed.

Section Records.
Context {E : Type} (trace : W -> list E).

Lemma records_weaken {X} (P Q : E -> Prop) (m : Rec W X) :
  (forall e, P e -> Q e) -> records trace P m -> records trace Q m.
Proof.
  intros HPQ Hm w. destruct (Hm w) as (new & Htrace & Hall).
  exists new. split; [done |]. eapply Forall_impl; eauto.
Qed.

Lemma records_ret {X} (P : E -> Prop) (x : X) : records trace P (ret x).
Proof. intros w. exists []. simpl. by rewrite app_nil_r. Qed.

Lemma records_fail {X} (P : E -> Prop) msg : records trace P (fail (A := X) msg).
Proof. intros w. exists []. simpl. by rewrite app_nil_r. Qed.

Lemma records_abort {X} (P : E -> Prop) why : records trace P (abort (A := X) why).
Proof. intros w. exists []. simpl. by rewrite app_nil_r. Qed.

Lemma records_ASSERT (P : E -> Prop) condition what :
  records trace P (ASSERT condition what).
Proof. destruct condition; [apply records_ret | apply records_abort]. Qed.

Lemma records_bind {X Y} (P : E -> Prop) (m : Rec W X) (k : X -> Rec W Y) :
  records trace P m -> (forall x, records trace P (k x)) -> records trace P (bind m k).
Proof.
  intros Hm Hk w. destruct (Hm w) as (new1 & Htrace1 & Hall1).
  unfold bind. destruct (m w) as [[x | e | y] w'] eqn:Hmw; simpl in *.
  - destruct (Hk x w') as (new2 & Htrace2 & Hall2).
    exists (new1 ++ new2). rewrite Htrace2, Htrace1, app_assoc.
    split; [done | by apply Forall_app].
  - by exists new1.
  - by exists new1.
Qed.

Lemma records_forEach {X} (P : E -> Prop) (xs : list X) (body : X -> Rec W unit) :
  (forall x, x ∈ xs -> records trace P (body x)) -> records trace P (forEach xs body).
Proof.
  induction xs as [| x xs IH]; intros Hbody; simpl.
  - apply records_ret.
  - apply records_bind; [apply Hbody; by left |].
    intros _. apply IH. intros x' Hin. apply Hbody. by right.
Qed.

Lemma records_foldRec {X S} (P : E -> Prop) (xs : list X) (body : S -> X -> Rec W S) acc :
  (forall acc x, x ∈ xs -> records trace P (body acc x)) ->
  records trace P (foldRec xs body acc).
Proof.
  revert acc. induction xs as [| x xs IH]; intros acc Hbody; simpl.
  - apply records_ret.
  - apply records_bind; [apply Hbody; by left |].
    intros acc'. apply IH. intros acc'' x' Hin. apply Hbody. by right.
Qed.

End Records.

Lemma errorFree_ret {X} (x : X) : errorFree (W := W) (ret x).
Proof. by intros w e. Qed.

Lemma errorFree_abort {X} why : errorFree (W := W) (abort (A := X) why).
Proof. by intros w e. Qed.

Lemma errorFree_ASSERT condition what : errorFree (W := W) (ASSERT condition what).
Proof. destruct condition; [apply errorFree_ret | apply errorFree_abort]. Qed.

Lemma errorFree_bind {X Y} (m : Rec W X) (k : X -> Rec W Y) :
  errorFree m -> (forall x, errorFree (k x)) -> errorFree (bind m k).
Proof.
  intros Hm Hk w e. specialize (Hm w). unfold bind.
  destruct (m w) as [[x | e' | y] w']; simpl in *; [apply Hk | | done].
  by destruct (Hm e').
Qed.

Lemma errorFree_forEach {X} (xs : list X) (body : X -> Rec W unit) :
  (forall x, errorFree (body x)) -> errorFree (forEach xs body).
Proof.
  intros Hbody. induction xs as [| x xs IH]; simpl.
  - apply errorFree_ret.
  - apply errorFree_bind; [apply Hbody | intros _; apply IH].
Qed.

End RecFacts.

Lemma omap_cons_Some {X Y} (f : X -> option Y) (x : X) (l : list X) (y : Y) :
  f x = Some y -> omap f (x :: l) = y :: omap f l.
Proof. intros Hf. simpl. by rewrite Hf. Qed.

Lemma omap_cons_None {X Y} (f : X -> option Y) (x : X) (l : list X) :
  f x = None -> omap f (x :: l) = omap f l.
Proof. intros Hf. simpl. by rewrite Hf. Qed.

(** ** D3D12: applying bind groups *)
Section ApplyBindGroupFacts.
Import D3D12.
Context `{Constants}.
Context `{Device}.
Context {A : Type} `{ShaderVisibleDescriptorAllocator A}.

Local Abbreviation World := (World (A := A)).

Lemma appendCommands_nil (w : World) : appendCommands w [] = w.
Proof. destruct w; unfold appendCommands; simpl. by rewrite app_nil_r. Qed.

Lemma appendCommands_app (w : World) (l1 l2 : list Event) :
  appendCommands (appendCommands w l1) l2 = appendCommands w (l1 ++ l2).
Proof. unfold appendCommands; simpl. by rewrite app_assoc. Qed.

Lemma setRootBufferView_call inCompute type parameterIndex bufferLocation call (w : World) :
  rootBufferViewCall inCompute type parameterIndex bufferLocation = Some call ->
  setRootBufferView inCompute type parameterIndex bufferLocation w
  = (Ok tt, appendCommands w [call]).
Proof.
  destruct type, inCompute; simpl; intros [= <-]; reflexivity.
Qed.

Lemma rootBufferViewCall_buffer inCompute type parameterIndex bufferLocation :
  type = UniformBuffer \/ type = StorageBuffer \/ type = ReadonlyStorageBuffer ->
  is_Some (rootBufferViewCall inCompute type parameterIndex bufferLocation).
Proof. intros [-> | [-> | ->]]; simpl; eauto. Qed.

(** The loop over the dynamic bindings records exactly the expected calls. *)
Lemma applyDynamicOffsets_spec inCompute (pipelineLayout : PipelineLayout) index group
    dynamicOffsets (bindings : list (Z * Z)) (w : World) :
  (forall bindingIndex k, (bindingIndex, k) ∈ bindings ->
     types (GetLayout group) bindingIndex = UniformBuffer
     \/ types (GetLayout group) bindingIndex = StorageBuffer
     \/ types (GetLayout group) bindingIndex = ReadonlyStorageBuffer) ->
  forEach bindings
    (fun '(bindingIndex, currentDynamicBufferIndex) =>
       bind (deref (Some pipelineLayout) "pipelineLayout is null")
         (fun pipelineLayout =>
            setRootBufferView inCompute (types (GetLayout group) bindingIndex)
              (GetDynamicRootParameterIndex pipelineLayout index bindingIndex)
              (u64 (GetVA (bb_buffer (GetBindingAsBufferBinding group bindingIndex))
                    + u64 (bb_offset (GetBindingAsBufferBinding group bindingIndex)
                           + nth (Z.to_nat currentDynamicBufferIndex) dynamicOffsets 0))))) w
  = (Ok tt,
     appendCommands w
       (omap (fun '(bindingIndex, k) =>
                rootBufferViewCall inCompute (types (GetLayout group) bindingIndex)
                  (GetDynamicRootParameterIndex pipelineLayout index bindingIndex)
                  (u64 (GetVA (bb_buffer (GetBindingAsBufferBinding group bindingIndex))
                        + u64 (bb_offset (GetBindingAsBufferBinding group bindingIndex)
                               + nth (Z.to_nat k) dynamicOffsets 0))))
             bindings)).
Proof.
  revert w. induction bindings as [| [bindingIndex k] rest IH]; intros w Htypes.
  - simpl. by rewrite appendCommands_nil.
  - destruct (rootBufferViewCall_buffer inCompute (types (GetLayout group) bindingIndex)
                (GetDynamicRootParameterIndex pipelineLayout index bindingIndex)
                (u64 (GetVA (bb_buffer (GetBindingAsBufferBinding group bindingIndex))
                      + u64 (bb_offset (GetBindingAsBufferBinding group bindingIndex)
                             + nth (Z.to_nat k) dynamicOffsets 0))))
      as [call Hcall]; [apply (Htypes bindingIndex k); by left |].
    erewrite omap_cons_Some; [| exact Hcall].
    change (forEach ((bindingIndex, k) :: rest) ?body)
      with (bind (body (bindingIndex, k)) (fun _ => forEach rest body)).
    erewrite bind_Ok; last first.
    { unfold bind, deref, ret. by apply setRootBufferView_call. }
    rewrite IH; [by rewrite appendCommands_app |].
    intros b' k' Hin. apply (Htypes b' k'). by right.
Qed.

Lemma dynamicBindings_types (layout : BindGroupLayout) bindingIndex k :
  dynamicBindingsAreBuffers layout ->
  (bindingIndex, k) ∈ dynamicBindings layout ->
  types layout bindingIndex = UniformBuffer \/ types layout bindingIndex = StorageBuffer
  \/ types layout bindingIndex = ReadonlyStorageBuffer.
Proof.
  intros Hwf Hin. apply Hwf. unfold dynamicBindings in Hin.
  apply elem_of_zip_l in Hin. exact Hin.
Qed.

(** What [ApplyBindGroup] records: the dynamic offsets whenever the group
    has any, whatever their values, and the descriptor tables only when the
    group object is dirty. *)
Lemma ApplyBindGroup_spec (t : BindGroupStateTracker) (pipelineLayout : PipelineLayout)
    index group dynamicOffsetCount dynamicOffsets (w : World) :
  dynamicBindingsAreBuffers (GetLayout group) ->
  ApplyBindGroup t (Some pipelineLayout) index group dynamicOffsetCount dynamicOffsets w
  = (Ok tt,
     appendCommands w
       ((if dynamicOffsetCount =? 0 then []
         else dynamicOffsetCalls (mInCompute t) pipelineLayout index group dynamicOffsets)
        ++ (if bitset_test (mDirtyBindGroups (base t)) index
            then descriptorTableCalls (mInCompute t) (mAllocator w) pipelineLayout index group
            else []))).
Proof.
  intros Hwf. unfold ApplyBindGroup.
  assert (Hoffsets :
    (if dynamicOffsetCount =? 0 then ret tt
     else forEach (dynamicBindings (GetLayout group))
            (fun '(bindingIndex, currentDynamicBufferIndex) =>
               bind (deref (Some pipelineLayout) "pipelineLayout is null")
                 (fun pipelineLayout =>
                    setRootBufferView (mInCompute t) (types (GetLayout group) bindingIndex)
                      (GetDynamicRootParameterIndex pipelineLayout index bindingIndex)
                      (u64 (GetVA (bb_buffer (GetBindingAsBufferBinding group bindingIndex))
                            + u64 (bb_offset (GetBindingAsBufferBinding group bindingIndex)
                                   + nth (Z.to_nat currentDynamicBufferIndex)
                                       dynamicOffsets 0)))))) w
    = (Ok tt,
       appendCommands w
         (if dynamicOffsetCount =? 0 then []
          else dynamicOffsetCalls (mInCompute t) pipelineLayout index group dynamicOffsets))).
  { destruct (dynamicOffsetCount =? 0).
    - unfold ret. by rewrite appendCommands_nil.
    - apply applyDynamicOffsets_spec. intros b k Hin. by eapply dynamicBindings_types. }
  erewrite bind_Ok; [| exact Hoffsets]. clear Hoffsets.
  destruct (bitset_test (mDirtyBindGroups (base t)) index); simpl.
  - unfold descriptorTableCalls.
    destruct (0 <? GetCbvUavSrvDescriptorCount (GetLayout group)),
             (0 <? GetSamplerDescriptorCount (GetLayout group)),
             (mInCompute t);
      unfold bind, deref, ret, readAllocator, emit; simpl;
      rewrite ?appendCommands_app, ?appendCommands_nil, ?app_nil_r; reflexivity.
  - unfold ret. by rewrite app_nil_r.
Qed.

End ApplyBindGroupFacts.

(** ** Bit sets with no or one bit set *)

Lemma IterateBitSet_0 (width : nat) : IterateBitSet width 0 = [].
Proof.
  unfold IterateBitSet. induction (map Z.of_nat (seq 0 width)) as [| i l IH]; [done |].
  simpl. by rewrite Z.bits_0.
Qed.

Lemma filter_testbit_pow2 (i : Z) (l : list Z) :
  0 <= i -> NoDup l ->
  List.filter (Z.testbit (2 ^ i)) l = if decide (i ∈ l) then [i] else [].
Proof.
  intros Hi. induction l as [| j l IH]; intros Hnd.
  - by rewrite decide_False by (intros Hin; inversion Hin).
  - apply NoDup_cons in Hnd as [Hj Hnd]. simpl.
    rewrite Z.pow2_bits_eqb by done. destruct (Z.eqb_spec i j) as [-> | Hne].
    + rewrite IH by done. rewrite decide_False by done.
      rewrite decide_True by (by left). done.
    + rewrite IH by done. destruct (decide (i ∈ l)) as [Hin | Hout].
      * rewrite decide_True by (by right). done.
      * rewrite decide_False; [done |]. by intros [-> | ?]%elem_of_cons.
Qed.

Lemma IterateBitSet_single (width : nat) (i : Z) :
  0 <= i < Z.of_nat width -> IterateBitSet width (bitset_set 0 i) = [i].
Proof.
  intros Hi. unfold IterateBitSet, bitset_set.
  rewrite Z.lor_0_l, Z.shiftl_1_l, filter_testbit_pow2; [| lia |].
  - rewrite decide_True; [done |]. apply list_elem_of_In, in_map_iff.
    exists (Z.to_nat i). split; [lia |]. apply in_seq. lia.
  - apply NoDup_fmap_2; [intros ? ? ?; lia | apply NoDup_seq].
Qed.

(** ** D3D12: Apply on a tracker whose group objects are all clean *)
Section ApplyFacts.
Import D3D12.
Context `{Constants}.
Context {A : Type} `{ShaderVisibleDescriptorAllocator A}.

Local Abbreviation World := (World (A := A)).

(** What [Apply] leaves of the tracker: the bindings are kept and both
    dirty sets are empty. *)
Lemma Apply_Ok_tracker (t t' : BindGroupStateTracker) (w w' : World) :
  Apply t w = (Ok t', w') ->
  mInCompute t' = mInCompute t /\
  mDirtyBindGroups (base t') = 0 /\
  mDirtyBindGroupsObjectChangedOrIsDynamic (base t') = 0 /\
  mBindGroupLayoutsMask (base t') = mBindGroupLayoutsMask (base t) /\
  mBindGroups (base t') = mBindGroups (base t) /\
  mDynamicOffsetCounts (base t') = mDynamicOffsetCounts (base t) /\
  mDynamicOffsets (base t') = mDynamicOffsets (base t) /\
  mPipelineLayout (base t') = mPipelineLayout (base t).
Proof.
  unfold Apply. intros Happly.
  apply bind_inv_Ok in Happly as (did & w1 & _ & Happly).
  apply bind_inv_Ok in Happly as (t1 & w2 & Hswitch & Happly).
  apply bind_inv_Ok in Happly as ([] & w3 & _ & Happly).
  apply bind_inv_Ok in Happly as ([] & w4 & _ & Happly).
  unfold ret in Happly. injection Happly as <- _.
  assert (Ht1 : t1 = t \/ t1 = markAllDirty t).
  { destruct did.
    - unfold ret in Hswitch. injection Hswitch as -> _. by left.
    - unfold switchHeapsAndRepopulate in Hswitch.
      apply bind_inv_Ok in Hswitch as (? & ? & _ & Hswitch).
      apply bind_inv_Ok in Hswitch as (? & ? & _ & Hswitch).
      apply bind_inv_Ok in Hswitch as (? & ? & _ & Hswitch).
      unfold ret in Hswitch. injection Hswitch as <- _. by right. }
  destruct Ht1 as [-> | ->]; simpl; done.
Qed.

(** With no dirty group object and outside a compute pass, [Apply] is its
    third loop. *)
Lemma Apply_without_dirty_groups (t : BindGroupStateTracker) (w w' : World) :
  mDirtyBindGroups (base t) = 0 ->
  mInCompute t = false ->
  applyDirtyBindGroups t w = (Ok tt, w') ->
  Apply t w = (Ok {| base := DidApply (base t); mInCompute := false |}, w').
Proof.
  intros Hdirty Hcompute Hloop. unfold Apply.
  rewrite Hdirty, IterateBitSet_0. simpl populateDirtyBindGroups.
  unfold bind at 1, ret at 1. unfold bind at 1, ret at 1.
  erewrite bind_Ok; [| exact Hloop]. rewrite Hcompute.
  reflexivity.
Qed.

End ApplyFacts.

Section DynamicOffsets.
Import D3D12.
Context `{Constants}.
Context `{Device}.
Context {A : Type} `{ShaderVisibleDescriptorAllocator A}.

Local Abbreviation World := (World (A := A)).

Lemma at_insert {X} (array : list X) (index : Z) (x : X) :
  0 <= index < Z.of_nat (length array) ->
  at_ (<[Z.to_nat index := x]> array) index = Some x.
Proof. intros Hi. unfold at_. apply list_lookup_insert_eq. lia. Qed.

(** Setting again the group a slot already holds: the group object stays
    clean and the slot is flagged exactly when offsets came with it. *)
Lemma OnSetBindGroup_same_group (t : BindGroupTracker) (index : Z) (G : BindGroup)
    (offsets : list Z) :
  0 <= index < Z.of_nat kMaxBindGroups ->
  trackerArraysSized t ->
  mjoin (at_ (mBindGroups t) index) = Some G ->
  bitset_test (mBindGroupLayoutsMask t) index = true ->
  mDirtyBindGroups t = 0 ->
  mDirtyBindGroupsObjectChangedOrIsDynamic t = 0 ->
  let t' := OnSetBindGroup t index G offsets in
  mDirtyBindGroups t' = 0 /\
  mDirtyBindGroupsObjectChangedOrIsDynamic t'
  = (if decide (offsets = []) then 0 else bitset_set 0 index) /\
  mjoin (at_ (mBindGroups t') index) = Some G /\
  at_ (mDynamicOffsetCounts t') index = Some (Z.of_nat (length offsets)) /\
  at_ (mDynamicOffsets t') index = Some offsets /\
  mPipelineLayout t' = mPipelineLayout t.
Proof.
  intros Hindex (Hgroups & Hcounts & Hoffsets) Hbound Hused Hdirty Hdyn. simpl.
  rewrite Hbound, Hused, Hdirty, Hdyn. simpl.
  rewrite bool_decide_eq_false_2 by (intros Hne; by apply Hne). simpl.
  rewrite !at_insert by lia. repeat split; try done.
  destruct offsets; simpl; first [done | by rewrite decide_False].
Qed.

(** C6, as the code has it.  Apply walks the slots flagged as changed or
    carrying dynamic offsets.  For such a slot ApplyBindGroup records the
    root binding of every dynamic buffer whenever the group has offsets,
    without comparing them with earlier values, and records descriptor
    tables only when the group object is dirty.  So after SetBindGroup(G),
    Draw, a second SetBindGroup with the same group and offsets followed by
    a Draw records exactly the dynamic-offset root bindings (none when there
    are no offsets) and no descriptor table, while a Draw with no
    SetBindGroup since the previous one records no binding at all. *)
Theorem dynamic_offsets_reapplied_when_flagged
    (t0 t2 : BindGroupStateTracker) (pipelineLayout : PipelineLayout) (index : Z)
    (G : BindGroup) (offsets : list Z) (w w1 : World) :
  trackerArraysSized (base t0) ->
  0 <= index < Z.of_nat kMaxBindGroups ->
  bitset_test (mBindGroupLayoutsMask (base t0)) index = true ->
  mPipelineLayout (base t0) = Some pipelineLayout ->
  mInCompute t0 = false ->
  dynamicBindingsAreBuffers (GetLayout G) ->
  Apply (trackerOnSetBindGroup t0 index G offsets) w = (Ok t2, w1) ->
  (forall (t : BindGroupStateTracker) (w : World),
     ApplyBindGroup t (Some pipelineLayout) index G (Z.of_nat (length offsets)) offsets w
     = (Ok tt,
        appendCommands w
          ((if decide (offsets = []) then []
            else dynamicOffsetCalls (mInCompute t) pipelineLayout index G offsets)
           ++ (if bitset_test (mDirtyBindGroups (base t)) index
               then descriptorTableCalls (mInCompute t) (mAllocator w)
                      pipelineLayout index G
               else [])))) /\
  (exists t4,
     Apply (trackerOnSetBindGroup t2 index G offsets) w1
     = (Ok t4,
        appendCommands w1
          (if decide (offsets = []) then []
           else dynamicOffsetCalls false pipelineLayout index G offsets))) /\
  (exists t4, Apply t2 w1 = (Ok t4, w1)).
Proof.
  intros Hsized Hindex Hused Hlayout Hcompute Hwf Hfirst.
  assert (Hcount : (Z.of_nat (length offsets) =? 0) = bool_decide (offsets = [])).
  { by destruct offsets. }
  split.
  { intros t w'. rewrite ApplyBindGroup_spec by done. rewrite Hcount.
    by destruct offsets. }
  apply Apply_Ok_tracker in Hfirst
    as (Hcompute2 & Hdirty2 & Hdyn2 & Hmask2 & Hgroups2 & Hcounts2 & Hoffsets2 & Hlayout2).
  simpl in Hcompute2, Hmask2, Hgroups2, Hcounts2, Hoffsets2, Hlayout2.
  destruct Hsized as (Hlg & Hlc & Hlo).
  assert (Hsized2 : trackerArraysSized (base t2)).
  { unfold trackerArraysSized.
    rewrite Hgroups2, Hcounts2, Hoffsets2, !length_insert. done. }
  assert (Hbound2 : mjoin (at_ (mBindGroups (base t2)) index) = Some G).
  { rewrite Hgroups2, at_insert by lia. done. }
  split.
  - destruct (OnSetBindGroup_same_group (base t2) index G offsets Hindex Hsized2 Hbound2)
      as (Hdirty3 & Hdyn3 & Hbound3 & Hcount3 & Hoffsets3 & Hlayout3);
      [by rewrite Hmask2 | done | done |].
    eexists. apply Apply_without_dirty_groups; [exact Hdirty3 | by rewrite <- Hcompute |].
    unfold applyDirtyBindGroups. cbn [base trackerOnSetBindGroup].
    rewrite Hdyn3. destruct (decide (offsets = [])) as [-> | Hne].
    + rewrite IterateBitSet_0. simpl. unfold ret. by rewrite appendCommands_nil.
    + rewrite IterateBitSet_single by done. cbn [forEach].
      rewrite Hbound3, Hcount3, Hoffsets3, Hlayout3, Hlayout2, Hlayout. simpl.
      erewrite bind_Ok; last first.
      { erewrite bind_Ok; [| reflexivity]. by apply ApplyBindGroup_spec. }
      cbn [base mInCompute trackerOnSetBindGroup].
      rewrite Hdirty3, Hcount, bool_decide_eq_false_2 by done.
      rewrite Hcompute2, Hcompute.
      unfold bitset_test, ret. rewrite Z.bits_0, app_nil_r. reflexivity.
  - eexists. apply Apply_without_dirty_groups; [done | by rewrite Hcompute2 |].
    unfold applyDirtyBindGroups. rewrite Hdyn2, IterateBitSet_0. reflexivity.
Qed.

End DynamicOffsets.

Section DynamicOffsetsSample.
Import D3D12 Samples.
#[local] Existing Instance dawnConstants.
#[local] Existing Instance poolAllocator.

Lemma dynamicLayout_buffers : dynamicBindingsAreBuffers dynamicLayout.
Proof.
  intros binding Hin.
  assert (Hbits : IterateBitSet kMaxBindingsPerGroup (hasDynamicOffset dynamicLayout) = [0])
    by reflexivity.
  rewrite Hbits in Hin. apply list_elem_of_singleton in Hin as ->. by left.
Qed.

(** The first Draw after SetBindGroup(0, groupG, [256]): the group is
    populated, its dynamic offset bound and its descriptor table set. *)
Lemma first_Apply_sample :
  exists t2 w1,
    Apply trackerWithGroup (emptyWorld 8) = (Ok t2, w1) /\
    commandList w1
    = [Call_Populate 41 (Success true);
       SetGraphicsRootConstantBufferView 0 4368;
       SetGraphicsRootDescriptorTable 16 0].
Proof. eexists _, _. split; vm_compute; reflexivity. Qed.

(** C6, where the specification as worded fails: slot 0 holds a group
    with a dynamic offset, yet the Draw that follows another Draw with no
    SetBindGroup in between applies nothing, so the dynamic-offset root
    binding is not reapplied on every Apply. *)
Lemma dynamic_offsets_not_reapplied_by_every_Apply :
  exists t2 w1 t3,
    Apply trackerWithGroup (emptyWorld 8) = (Ok t2, w1) /\
    mjoin (at_ (mBindGroups (base t2)) 0) = Some groupG /\
    at_ (mDynamicOffsetCounts (base t2)) 0 = Some 1 /\
    bitset_test (mBindGroupLayoutsMask (base t2)) 0 = true /\
    Apply t2 w1 = (Ok t3, w1).
Proof.
  eexists _, _, _. split; [vm_compute; reflexivity |].
  repeat split; vm_compute; reflexivity.
Qed.

Lemma dynamic_offsets_reapplied_sample :
  exists t2 w1 t4,
    Apply trackerWithGroup (emptyWorld 8) = (Ok t2, w1) /\
    Apply (trackerOnSetBindGroup t2 0 groupG [256]) w1
    = (Ok t4, appendCommands w1 [SetGraphicsRootConstantBufferView 0 4368]).
Proof.
  destruct first_Apply_sample as (t2 & w1 & Hfirst & _).
  assert (Hsized : trackerArraysSized (base trackerWithPipeline)) by (by vm_compute).
  assert (Hindex : 0 <= 0 < Z.of_nat kMaxBindGroups) by (simpl; lia).
  destruct (dynamic_offsets_reapplied_when_flagged trackerWithPipeline t2 slot0Layout 0
              groupG [256] (emptyWorld 8) w1 Hsized Hindex eq_refl eq_refl eq_refl
              dynamicLayout_buffers Hfirst) as (_ & (t4 & Hsecond) & _).
  exists t2, w1, t4. split; [exact Hfirst | exact Hsecond].
Defined.

End DynamicOffsetsSample.

(** ** D3D12: the heap switch of Apply *)
Section HeapSwitch.
Import D3D12.
Context `{Constants}.
Context {A : Type} `{ShaderVisibleDescriptorAllocator A}.

Local Abbreviation World := (World (A := A)).

(** *** What the primitives record *)

Lemma records_emit (P : Event -> Prop) (e : Event) :
  P e -> records (commandList (A := A)) P (emit e).
Proof. intros He w. exists [e]. split; [done | by constructor]. Qed.

Lemma records_silent {X} (P : Event -> Prop) (m : Rec World X) :
  (forall w, commandList (snd (m w)) = commandList w) -> records commandList P m.
Proof. intros Hm w. exists []. by rewrite Hm, app_nil_r. Qed.

Lemma records_deref {X} (P : Event -> Prop) (pointer : option X) what :
  records (commandList (A := A)) P (deref pointer what).
Proof. destruct pointer; [apply records_ret | apply records_abort]. Qed.

Lemma records_readAllocator {X} (P : Event -> Prop) (f : A -> X) :
  records commandList P (readAllocator f).
Proof. by apply records_silent. Qed.

Lemma records_Buffer_TrackUsageAndTransitionNow (P : Event -> Prop) buffer usage :
  (forall barriers, P (ResourceBarrier barriers)) ->
  records (commandList (A := A)) P (Buffer_TrackUsageAndTransitionNow buffer usage).
Proof.
  intros HP. apply records_bind.
  - apply records_silent. intros w. unfold Buffer_TrackUsageAndGetResourceBarrier.
    by destruct (_ =? _).
  - intros [b |]; [by apply records_emit | apply records_ret].
Qed.

Lemma errorFree_emit (e : Event) : errorFree (W := World) (emit e).
Proof. by intros w msg. Qed.

Lemma errorFree_deref {X} (pointer : option X) what :
  errorFree (W := World) (deref pointer what).
Proof. destruct pointer; [apply errorFree_ret | apply errorFree_abort]. Qed.

Lemma errorFree_readAllocator {X} (f : A -> X) : errorFree (W := World) (readAllocator f).
Proof. by intros w msg. Qed.

Lemma errorFree_Buffer_TrackUsageAndTransitionNow buffer usage :
  errorFree (W := World) (Buffer_TrackUsageAndTransitionNow buffer usage).
Proof.
  apply errorFree_bind.
  - intros w msg. unfold Buffer_TrackUsageAndGetResourceBarrier. by destruct (_ =? _).
  - intros [b |]; [apply errorFree_emit | apply errorFree_ret].
Qed.

(** *** The binding phase *)

Lemma records_setRootBufferView inCompute type parameterIndex bufferLocation :
  records (commandList (A := A)) notAllocatorCall
    (setRootBufferView inCompute type parameterIndex bufferLocation).
Proof.
  destruct type, inCompute; simpl;
    first [by apply records_emit | apply records_abort].
Qed.

Lemma errorFree_setRootBufferView inCompute type parameterIndex bufferLocation :
  errorFree (W := World) (setRootBufferView inCompute type parameterIndex bufferLocation).
Proof.
  destruct type, inCompute; simpl; first [apply errorFree_emit | apply errorFree_abort].
Qed.

Lemma records_ApplyBindGroup t pipelineLayout index group count offsets :
  records (commandList (A := A)) notAllocatorCall
    (ApplyBindGroup t pipelineLayout index group count offsets).
Proof.
  unfold ApplyBindGroup. apply records_bind.
  - destruct (count =? 0); [apply records_ret |].
    apply records_forEach. intros [bindingIndex k] _.
    apply records_bind; [apply records_deref |].
    intros pl. apply records_setRootBufferView.
  - intros _. destruct (negb _); [apply records_ret |].
    apply records_bind.
    + destruct (0 <? _); [| apply records_ret].
      apply records_bind; [apply records_deref |]. intros pl.
      apply records_bind; [apply records_readAllocator |]. intros d.
      destruct (mInCompute t); by apply records_emit.
    + intros _. destruct (0 <? _); [| apply records_ret].
      apply records_bind; [apply records_deref |]. intros pl.
      apply records_bind; [apply records_readAllocator |]. intros d.
      destruct (mInCompute t); by apply records_emit.
Qed.

Lemma errorFree_ApplyBindGroup t pipelineLayout index group count offsets :
  errorFree (W := World) (ApplyBindGroup t pipelineLayout index group count offsets).
Proof.
  unfold ApplyBindGroup. apply errorFree_bind.
  - destruct (count =? 0); [apply errorFree_ret |].
    apply errorFree_forEach. intros [bindingIndex k].
    apply errorFree_bind; [apply errorFree_deref |].
    intros pl. apply errorFree_setRootBufferView.
  - intros _. destruct (negb _); [apply errorFree_ret |].
    apply errorFree_bind.
    + destruct (0 <? _); [| apply errorFree_ret].
      apply errorFree_bind; [apply errorFree_deref |]. intros pl.
      apply errorFree_bind; [apply errorFree_readAllocator |]. intros d.
      destruct (mInCompute t); apply errorFree_emit.
    + intros _. destruct (0 <? _); [| apply errorFree_ret].
      apply errorFree_bind; [apply errorFree_deref |]. intros pl.
      apply errorFree_bind; [apply errorFree_readAllocator |]. intros d.
      destruct (mInCompute t); apply errorFree_emit.
Qed.

Lemma records_transitionStorageBuffers (t : BindGroupTracker) :
  records (commandList (A := A)) notAllocatorCall (transitionStorageBuffers t).
Proof.
  unfold transitionStorageBuffers. apply records_forEach. intros index _.
  apply records_forEach. intros binding _.
  destruct (default _ _ binding); try apply records_abort.
  apply records_bind; [apply records_deref |]. intros buffers.
  by apply records_Buffer_TrackUsageAndTransitionNow.
Qed.

Lemma errorFree_transitionStorageBuffers (t : BindGroupTracker) :
  errorFree (W := World) (transitionStorageBuffers t).
Proof.
  unfold transitionStorageBuffers. apply errorFree_forEach. intros index.
  apply errorFree_forEach. intros binding.
  destruct (default _ _ binding); try apply errorFree_abort.
  apply errorFree_bind; [apply errorFree_deref |]. intros buffers.
  apply errorFree_Buffer_TrackUsageAndTransitionNow.
Qed.

(** The binding phase makes no call on the allocator and switches no heap:
    it only records root bindings, descriptor tables and barriers; and it
    hands no error back. *)
Lemma records_bindingPhase (t : BindGroupStateTracker) :
  records (commandList (A := A)) notAllocatorCall (bindingPhase t).
Proof.
  unfold bindingPhase. apply records_bind.
  - apply records_forEach. intros index _.
    apply records_bind; [apply records_deref |]. intros group.
    apply records_ApplyBindGroup.
  - intros _. apply records_bind; [| intros _; apply records_ret].
    destruct (mInCompute t); [apply records_transitionStorageBuffers | apply records_ret].
Qed.

Lemma errorFree_bindingPhase (t : BindGroupStateTracker) : errorFree (bindingPhase t).
Proof.
  unfold bindingPhase. apply errorFree_bind.
  - apply errorFree_forEach. intros index.
    apply errorFree_bind; [apply errorFree_deref |]. intros group.
    apply errorFree_ApplyBindGroup.
  - intros _. apply errorFree_bind; [| intros _; apply errorFree_ret].
    destruct (mInCompute t); [apply errorFree_transitionStorageBuffers | apply errorFree_ret].
Qed.

(** *** The heap switch *)

Lemma callAllocator_spec {X} (f : A -> ResultOrError X * A) log (w : World) :
  exists w',
    callAllocator f log w = (try (f (mAllocator w)).1, w') /\
    mAllocator w' = (f (mAllocator w)).2 /\
    commandList w' = commandList w ++ [log (f (mAllocator w)).1].
Proof.
  unfold callAllocator. destruct (f (mAllocator w)) as [result allocator].
  by eexists.
Qed.

Lemma PopulateBindGroup_spec (t : BindGroupTracker) index (w : World) :
  match mjoin (at_ (mBindGroups t) index) with
  | None => PopulateBindGroup t index w = (Fatal "mBindGroups[index] is null", w)
  | Some group =>
    exists result w',
      PopulateBindGroup t index w = (try result, w') /\
      commandList w' = commandList w ++ [Call_Populate (group_addr group) result]
  end.
Proof.
  unfold PopulateBindGroup. destruct (mjoin _) as [group |]; [| done].
  simpl. destruct (callAllocator_spec (Populate group)
                     (Call_Populate (group_addr group)) w) as (w' & Hcall & _ & Htrace).
  exists (Populate group (mAllocator w)).1, w'. split; [| done].
  unfold bind. simpl. exact Hcall.
Qed.

Lemma SetID3D12DescriptorHeaps_spec (w : World) :
  match GetShaderVisibleHeaps (mAllocator w) with
  | (Some heap0, Some heap1) =>
    SetID3D12DescriptorHeaps w
    = (Ok tt, appendCommands w [SetDescriptorHeaps 2 (heap0, heap1)])
  | _ => exists why, SetID3D12DescriptorHeaps w = (Fatal why, w)
  end.
Proof.
  unfold SetID3D12DescriptorHeaps, bind, readAllocator. simpl.
  destruct (GetShaderVisibleHeaps (mAllocator w)) as [[heap0 |] [heap1 |]];
    simpl; eauto.
Qed.

(** The second loop: its outcome is read off the populations it logged.
    It ends well only when every group behind the indices was populated and
    fitted; running out of room again is the failed assertion; an error is
    one the allocator itself reported. *)
Lemma repopulateBindGroups_spec (t : BindGroupTracker) indices (w : World) :
  exists r w' pops,
    repopulateBindGroups t indices w = (r, w') /\
    commandList w' = commandList w ++ pops /\
    match r with
    | Ok _ =>
      exists groups, groupsAt t indices = Some groups /\ pops = populatedGroup <$> groups
    | Err msg =>
      exists groups g, pops = (populatedGroup <$> groups) ++ [Call_Populate g (Error msg)]
    | Fatal why =>
      (why = "ASSERT(didCreateBindGroups)"
       /\ exists groups g,
            pops = (populatedGroup <$> groups) ++ [Call_Populate g (Success false)])
      \/ (why = "mBindGroups[index] is null"
          /\ exists groups, pops = populatedGroup <$> groups)
    end.
Proof.
  revert w. induction indices as [| index rest IH]; intros w.
  - exists (Ok tt), w, []. split; [done |]. split; [by rewrite app_nil_r |].
    by exists [].
  - unfold repopulateBindGroups, groupsAt in *. cbn [forEach mapM].
    pose proof (PopulateBindGroup_spec t index w) as Hpop.
    destruct (mjoin (at_ (mBindGroups t) index)) as [group |].
    + destruct Hpop as (result & w1 & Hpop & Htrace1).
      destruct result as [[|] | msg]; simpl in Hpop.
      * destruct (IH w1) as (r & w' & pops & Hrest & Htrace & Hr).
        exists r, w', (populatedGroup group :: pops).
        split; [| split].
        -- erewrite bind_Ok; [exact Hrest |]. by erewrite bind_Ok; [| exact Hpop].
        -- by rewrite Htrace, Htrace1, <- app_assoc.
        -- destruct r as [[] | msg | why].
           ++ destruct Hr as (groups & -> & ->). by exists (group :: groups).
           ++ destruct Hr as (groups & g & ->). by exists (group :: groups), g.
           ++ destruct Hr as [(-> & groups & g & ->) | (-> & groups & ->)].
              ** left. split; [done |]. by exists (group :: groups), g.
              ** right. split; [done |]. by exists (group :: groups).
      * exists (Fatal "ASSERT(didCreateBindGroups)"), w1,
               [Call_Populate (group_addr group) (Success false)].
        split; [| split; [done |]].
        -- erewrite bind_Fatal; [done |]. by erewrite bind_Ok; [| exact Hpop].
        -- left. split; [done |]. by exists [], (group_addr group).
      * exists (Err msg), w1, [Call_Populate (group_addr group) (Error msg)].
        split; [| split; [done |]].
        -- erewrite bind_Err; [done |]. by erewrite bind_Err; [| exact Hpop].
        -- by exists [], (group_addr group).
    + exists (Fatal "mBindGroups[index] is null"), w, [].
      split; [| split; [by rewrite app_nil_r |]].
      * erewrite bind_Fatal; [done |]. by erewrite bind_Fatal; [| exact Hpop].
      * right. split; [done |]. by exists [].
Qed.

Lemma markAllDirty_covers_mask (t : BindGroupStateTracker) index :
  0 <= index ->
  bitset_test (mBindGroupLayoutsMask (base t)) index = true ->
  bitset_test (mDirtyBindGroups (base (markAllDirty t))) index = true
  /\ bitset_test (mDirtyBindGroupsObjectChangedOrIsDynamic (base (markAllDirty t))) index
     = true.
Proof.
  unfold bitset_test. intros Hindex Hmask. simpl.
  rewrite !Z.lor_spec, Hmask. by rewrite !orb_true_r.
Qed.

(** The heap switch, read off what it records. *)
Lemma switchHeapsAndRepopulate_spec (t : BindGroupStateTracker) (w1 : World) :
  let switched := AllocateAndSwitchShaderVisibleHeaps (mAllocator w1) in
  let maskIndices := IterateBitSet kMaxBindGroups (mBindGroupLayoutsMask (base t)) in
  exists r w2 rest,
    switchHeapsAndRepopulate t w1 = (r, w2)
    /\ commandList w2
       = commandList w1 ++ Call_AllocateAndSwitchShaderVisibleHeaps switched.1 :: rest
    /\ match switched.1 with
       | Error msg => r = Err msg /\ rest = []
       | Success _ =>
         (exists heap0 heap1 groups,
            GetShaderVisibleHeaps switched.2 = (Some heap0, Some heap1)
            /\ groupsAt (base t) maskIndices = Some groups
            /\ rest = SetDescriptorHeaps 2 (heap0, heap1) :: (populatedGroup <$> groups)
            /\ r = Ok (markAllDirty t))
         \/ (exists heaps groups g,
               rest = SetDescriptorHeaps 2 heaps
                      :: (populatedGroup <$> groups) ++ [Call_Populate g (Success false)]
               /\ r = Fatal "ASSERT(didCreateBindGroups)")
         \/ (exists heaps groups g msg,
               rest = SetDescriptorHeaps 2 heaps
                      :: (populatedGroup <$> groups) ++ [Call_Populate g (Error msg)]
               /\ r = Err msg)
         \/ (exists why,
               r = Fatal why /\ Forall (fun e => isAllocatorCall e = true) rest)
       end.
Proof.
  intros switched maskIndices. unfold switchHeapsAndRepopulate.
  destruct (callAllocator_spec AllocateAndSwitchShaderVisibleHeaps
              Call_AllocateAndSwitchShaderVisibleHeaps w1)
    as (wa & Hcall & Hallocator & Htrace).
  subst switched.
  destruct (AllocateAndSwitchShaderVisibleHeaps (mAllocator w1))
    as [[[] | msg] allocator]; simpl in *.
  2: { exists (Err msg), wa, []. split; [by erewrite bind_Err; [| exact Hcall] |].
       by split. }
  erewrite bind_Ok; [| exact Hcall].
  pose proof (SetID3D12DescriptorHeaps_spec wa) as Hheaps.
  rewrite Hallocator in Hheaps.
  destruct (GetShaderVisibleHeaps allocator) as [[heap0 |] [heap1 |]] eqn:Hget.
  2, 3, 4: destruct Hheaps as (why & Hwhy);
    exists (Fatal why), wa, []; split; [by erewrite bind_Fatal; [| exact Hwhy] |];
    split; [done |]; right; right; right; exists why; by split.
  erewrite bind_Ok; [| exact Hheaps].
  destruct (repopulateBindGroups_spec (base (markAllDirty t)) maskIndices
              (appendCommands wa [SetDescriptorHeaps 2 (heap0, heap1)]))
    as (r & w2 & pops & Hretry & Htrace2 & Hr).
  assert (Htrace3 : commandList w2
                    = commandList w1
                      ++ Call_AllocateAndSwitchShaderVisibleHeaps (Success tt)
                         :: SetDescriptorHeaps 2 (heap0, heap1) :: pops).
  { rewrite Htrace2. unfold appendCommands. cbn [commandList].
    rewrite Htrace. by rewrite <- !app_assoc. }
  change (IterateBitSet kMaxBindGroups (mBindGroupLayoutsMask (base (markAllDirty t))))
    with maskIndices.
  destruct r as [[] | msg | why].
  - destruct Hr as (groups & Hgroups & ->).
    exists (Ok (markAllDirty t)), w2, (SetDescriptorHeaps 2 (heap0, heap1)
                                         :: (populatedGroup <$> groups)).
    split; [by erewrite bind_Ok; [| exact Hretry] |]. split; [exact Htrace3 |].
    left. by exists heap0, heap1, groups.
  - destruct Hr as (groups & g & ->).
    exists (Err msg), w2, (SetDescriptorHeaps 2 (heap0, heap1)
                             :: (populatedGroup <$> groups) ++ [Call_Populate g (Error msg)]).
    split; [by erewrite bind_Err; [| exact Hretry] |]. split; [exact Htrace3 |].
    right; right; left. by exists (heap0, heap1), groups, g, msg.
  - destruct Hr as [(-> & groups & g & ->) | (-> & groups & ->)].
    + exists (Fatal "ASSERT(didCreateBindGroups)"), w2,
             (SetDescriptorHeaps 2 (heap0, heap1)
                :: (populatedGroup <$> groups) ++ [Call_Populate g (Success false)]).
      split; [by erewrite bind_Fatal; [| exact Hretry] |]. split; [exact Htrace3 |].
      right; left. by exists (heap0, heap1), groups, g.
    + exists (Fatal "mBindGroups[index] is null"), w2,
             (SetDescriptorHeaps 2 (heap0, heap1) :: (populatedGroup <$> groups)).
      split; [by erewrite bind_Fatal; [| exact Hretry] |]. split; [exact Htrace3 |].
      right; right; right. exists "mBindGroups[index] is null". split; [done |].
      constructor; [done |]. apply Forall_fmap, Forall_forall. by intros group _.
Qed.

(** C1. D3D12, [BindGroupStateTracker::Apply]: when a dirty bind group does
    not fit in the shader-visible heaps (the first loop ends with
    [didCreateBindGroups = false]), the next thing recorded is the call that
    allocates and switches the heaps.  If that call reports an error, Apply
    returns it and records nothing more.  Otherwise both dirty sets are
    widened to the whole bind group layout mask, and one of these holds:
    - the new heaps are set on the command list, then every group of the
      mask is populated and fits, and only then the bindings are recorded,
      from the tracker with every group dirty; nothing after the
      populations touches the allocator or the heaps, and Apply returns no
      error;
    - a group does not fit again: it is the last thing recorded and Apply
      stops on the failed assertion, which is no error handed to the caller;
    - the allocator itself reports an error while populating: it is the
      last thing recorded and Apply returns that error;
    - a heap or a group is null: Apply stops on it, and no binding is
      recorded. *)
Theorem heap_switch_on_exhaustion (t : BindGroupStateTracker) (w w1 : World) :
  populateDirtyBindGroups (base t)
    (IterateBitSet kMaxBindGroups (mDirtyBindGroups (base t))) w = (Ok false, w1) ->
  let switched := AllocateAndSwitchShaderVisibleHeaps (mAllocator w1) in
  let maskIndices := IterateBitSet kMaxBindGroups (mBindGroupLayoutsMask (base t)) in
  exists rest,
    commandList (Apply t w).2
    = commandList w1 ++ Call_AllocateAndSwitchShaderVisibleHeaps switched.1 :: rest
    /\ (forall index,
          index ∈ maskIndices ->
          bitset_test (mDirtyBindGroups (base (markAllDirty t))) index = true
          /\ bitset_test (mDirtyBindGroupsObjectChangedOrIsDynamic
                            (base (markAllDirty t))) index = true)
    /\ match switched.1 with
       | Error msg => (Apply t w).1 = Err msg /\ rest = []
       | Success _ =>
         (exists heap0 heap1 groups w2 bindings,
            GetShaderVisibleHeaps switched.2 = (Some heap0, Some heap1)
            /\ groupsAt (base t) maskIndices = Some groups
            /\ rest = SetDescriptorHeaps 2 (heap0, heap1)
                        :: (populatedGroup <$> groups) ++ bindings
            /\ Forall notAllocatorCall bindings
            /\ commandList w2
               = commandList w1
                 ++ Call_AllocateAndSwitchShaderVisibleHeaps switched.1
                    :: SetDescriptorHeaps 2 (heap0, heap1) :: (populatedGroup <$> groups)
            /\ Apply t w = bindingPhase (markAllDirty t) w2
            /\ forall msg, (Apply t w).1 <> Err msg)
         \/ (exists heaps groups g,
               rest = SetDescriptorHeaps 2 heaps
                      :: (populatedGroup <$> groups) ++ [Call_Populate g (Success false)]
               /\ (Apply t w).1 = Fatal "ASSERT(didCreateBindGroups)")
         \/ (exists heaps groups g msg,
               rest = SetDescriptorHeaps 2 heaps
                      :: (populatedGroup <$> groups) ++ [Call_Populate g (Error msg)]
               /\ (Apply t w).1 = Err msg)
         \/ (exists why,
               (Apply t w).1 = Fatal why
               /\ Forall (fun e => isAllocatorCall e = true) rest)
       end.
Proof.
  intros Hfirst switched maskIndices.
  assert (HApply : Apply t w = bind (switchHeapsAndRepopulate t) bindingPhase w1).
  { unfold Apply. by erewrite bind_Ok; [| exact Hfirst]. }
  assert (Hdirty : forall index,
            index ∈ maskIndices ->
            bitset_test (mDirtyBindGroups (base (markAllDirty t))) index = true
            /\ bitset_test (mDirtyBindGroupsObjectChangedOrIsDynamic
                              (base (markAllDirty t))) index = true).
  { intros index Hin. apply IterateBitSet_spec in Hin as [Hrange Hbit].
    apply markAllDirty_covers_mask; [lia | done]. }
  destruct (switchHeapsAndRepopulate_spec t w1) as (r & w2 & rest & Hswitch & Htrace & Hr).
  fold switched maskIndices in Htrace, Hr.
  rewrite HApply.
  destruct (switched.1) as [[] | msg].
  2: { destruct Hr as [-> ->]. exists [].
       erewrite bind_Err; [| exact Hswitch]. by split. }
  destruct Hr as [(heap0 & heap1 & groups & Hget & Hgroups & -> & ->)
                 | [(heaps & groups & g & -> & ->)
                   | [(heaps & groups & g & msg & -> & ->) | (why & -> & Hrest)]]].
  - erewrite bind_Ok; [| exact Hswitch].
    destruct (records_bindingPhase (markAllDirty t) w2) as (bindings & Hbindings & Hall).
    exists (SetDescriptorHeaps 2 (heap0, heap1) :: (populatedGroup <$> groups) ++ bindings).
    split; [| split; [exact Hdirty |]].
    + rewrite Hbindings, Htrace. by rewrite <- !app_assoc.
    + left. exists heap0, heap1, groups, w2, bindings.
      split; [done |]. split; [exact Hgroups |]. split; [done |].
      split; [exact Hall |]. split; [exact Htrace |]. split; [done |].
      intros msg. apply errorFree_bindingPhase.
  - erewrite bind_Fatal; [| exact Hswitch]. eexists. split; [exact Htrace |].
    split; [exact Hdirty |]. right; left. by exists heaps, groups, g.
  - erewrite bind_Err; [| exact Hswitch]. eexists. split; [exact Htrace |].
    split; [exact Hdirty |]. right; right; left. by exists heaps, groups, g, msg.
  - erewrite bind_Fatal; [| exact Hswitch]. eexists. split; [exact Htrace |].
    split; [exact Hdirty |]. right; right; right. by exists why.
Qed.

End HeapSwitch.

Section HeapSwitchSample.
Import D3D12 Samples.
#[local] Existing Instance dawnConstants.
#[local] Existing Instance poolAllocator.

(** Group 41 does not fit in the crowded heap; after the switch both groups
    are populated in the new heaps, and then bound. *)
Lemma heap_switch_on_exhaustion_sample :
  exists w1 bindings,
    populateDirtyBindGroups (base trackerTwoGroups)
      (IterateBitSet kMaxBindGroups (mDirtyBindGroups (base trackerTwoGroups)))
      crowdedWorld = (Ok false, w1)
    /\ commandList w1 = [Call_Populate 41 (Success false)]
    /\ commandList (Apply trackerTwoGroups crowdedWorld).2
       = [Call_Populate 41 (Success false);
          Call_AllocateAndSwitchShaderVisibleHeaps (Success tt);
          SetDescriptorHeaps 2 (4%positive, 5%positive);
          Call_Populate 41 (Success true);
          Call_Populate 42 (Success true)] ++ bindings
    /\ Forall notAllocatorCall bindings.
Proof.
  set (w1 := (populateDirtyBindGroups (base trackerTwoGroups)
                (IterateBitSet kMaxBindGroups (mDirtyBindGroups (base trackerTwoGroups)))
                crowdedWorld).2).
  assert (Hfirst : populateDirtyBindGroups (base trackerTwoGroups)
                     (IterateBitSet kMaxBindGroups
                        (mDirtyBindGroups (base trackerTwoGroups)))
                     crowdedWorld = (Ok false, w1)) by (vm_compute; reflexivity).
  destruct (heap_switch_on_exhaustion trackerTwoGroups crowdedWorld w1 Hfirst)
    as (rest & Htrace & _ & Hcases).
  change (AllocateAndSwitchShaderVisibleHeaps (mAllocator w1)).1 with (Success tt)
    in Hcases, Htrace.
  cbv iota in Hcases.
  destruct Hcases as [(heap0 & heap1 & groups & w2 & bindings & Hheaps & Hgroups & -> & Hall
                       & _)
                     | [(heaps & groups & g & _ & Hresult)
                       | [(heaps & groups & g & msg & _ & Hresult)
                         | (why & Hresult & _)]]].
  - exists w1, bindings. split; [exact Hfirst |]. split; [reflexivity |].
    split; [| exact Hall]. rewrite Htrace.
    vm_compute in Hheaps. vm_compute in Hgroups.
    injection Hheaps as <- <-. injection Hgroups as <-. reflexivity.
  - vm_compute in Hresult. discriminate Hresult.
  - vm_compute in Hresult. discriminate Hresult.
  - vm_compute in Hresult. discriminate Hresult.
Defined.

End HeapSwitchSample.

(** ** Vulkan: the initialisation flags around a render pass *)
Section InitFlagsFacts.

Lemma setIsSubresourceContentInitialized_lookup_in flags isInitialized texture
    baseMipLevel levelCount baseArrayLayer layerCount level layer :
  (level, layer) ∈ subresources baseMipLevel levelCount baseArrayLayer layerCount ->
  setIsSubresourceContentInitialized flags isInitialized texture
    baseMipLevel levelCount baseArrayLayer layerCount
  !! (texture_addr texture, level, layer) = Some isInitialized.
Proof.
  unfold setIsSubresourceContentInitialized, InitFlags in *.
  induction (subresources _ _ _ _) as [| [level' layer'] rest IH]; intros Hin.
  - by apply elem_of_nil in Hin.
  - simpl. destruct (decide ((level', layer') = (level, layer))) as [[= -> ->] | Hne].
    + by rewrite lookup_insert_eq.
    + rewrite lookup_insert_ne by congruence. apply IH.
      apply elem_of_cons in Hin as [Heq | Hin]; [congruence | done].
Qed.

Lemma setIsSubresourceContentInitialized_lookup_other flags isInitialized texture
    baseMipLevel levelCount baseArrayLayer layerCount address level layer :
  address <> texture_addr texture
  \/ (level, layer) ∉ subresources baseMipLevel levelCount baseArrayLayer layerCount ->
  setIsSubresourceContentInitialized flags isInitialized texture
    baseMipLevel levelCount baseArrayLayer layerCount
  !! (address, level, layer) = flags !! (address, level, layer).
Proof.
  unfold setIsSubresourceContentInitialized, InitFlags in *.
  induction (subresources _ _ _ _) as [| [level' layer'] rest IH]; intros Hother.
  - done.
  - simpl. rewrite lookup_insert_ne.
    + apply IH. destruct Hother as [Hne | Hnotin]; [by left | right].
      by apply not_elem_of_cons in Hnotin as [_ Hnotin].
    + intros [= <- <- <-]. destruct Hother as [Hne | Hnotin]; [done |].
      apply Hnotin. by left.
Qed.

(** A range that was just marked reads back as marked; marking as not
    valid needs the range to hold a subresource. *)
Lemma isSubresourceContentInitialized_after_set flags isInitialized texture
    baseMipLevel levelCount baseArrayLayer layerCount :
  (isInitialized = false -> 0 < levelCount /\ 0 < layerCount) ->
  isSubresourceContentInitialized
    (setIsSubresourceContentInitialized flags isInitialized texture
       baseMipLevel levelCount baseArrayLayer layerCount)
    texture baseMipLevel levelCount baseArrayLayer layerCount = isInitialized.
Proof.
  intros Hnonempty. unfold isSubresourceContentInitialized.
  destruct isInitialized.
  - apply forallb_forall. intros [level layer] Hin.
    apply list_elem_of_In in Hin.
    by erewrite setIsSubresourceContentInitialized_lookup_in.
  - destruct (Hnonempty eq_refl) as [Hlevels Hlayers].
    apply not_true_is_false. intros Hall.
    rewrite forallb_forall in Hall.
    specialize (Hall (baseMipLevel, baseArrayLayer)).
    assert (Hin : (baseMipLevel, baseArrayLayer)
                  ∈ subresources baseMipLevel levelCount baseArrayLayer layerCount).
    { unfold subresources. apply list_elem_of_In, in_prod_iff.
      split; apply list_elem_of_In, elem_of_seqZ; lia. }
    assert (Hflag := Hall (proj1 (list_elem_of_In _ _) Hin)). simpl in Hflag.
    rewrite (setIsSubresourceContentInitialized_lookup_in _ _ _ _ _ _ _ _ _ Hin) in Hflag.
    done.
Qed.

(** Marking one texture does not change what is read of another. *)
Lemma isSubresourceContentInitialized_other_texture flags isInitialized texture other
    baseMipLevel levelCount baseArrayLayer layerCount
    baseMipLevel' levelCount' baseArrayLayer' layerCount' :
  texture_addr other <> texture_addr texture ->
  isSubresourceContentInitialized
    (setIsSubresourceContentInitialized flags isInitialized texture
       baseMipLevel levelCount baseArrayLayer layerCount)
    other baseMipLevel' levelCount' baseArrayLayer' layerCount'
  = isSubresourceContentInitialized flags other
      baseMipLevel' levelCount' baseArrayLayer' layerCount'.
Proof.
  intros Hne. unfold isSubresourceContentInitialized.
  induction (subresources baseMipLevel' _ _ _) as [| [level layer] rest IH]; [done |].
  simpl. rewrite IH.
  by rewrite setIsSubresourceContentInitialized_lookup_other by (by left).
Qed.

End InitFlagsFacts.

Section RenderPassFacts.
Import Vulkan.
Context `{Constants}.
Context `{Device}.

Lemma updateWorld_nil (w : World) : updateWorld w [] (initFlags w) = w.
Proof. destruct w. unfold updateWorld. simpl. by rewrite app_nil_r. Qed.

Lemma updateWorld_updateWorld (w : World) new1 flags1 new2 flags2 :
  updateWorld (updateWorld w new1 flags1) new2 flags2
  = updateWorld w (new1 ++ new2) flags2.
Proof. unfold updateWorld. simpl. by rewrite app_assoc. Qed.

Lemma appendCommands_app_vk (w : World) (new more : list Event) :
  appendCommands (appendCommands w new) more = appendCommands w (new ++ more).
Proof. unfold appendCommands. cbn. by rewrite <- app_assoc. Qed.

Lemma SetIsSubresourceContentInitialized_spec isInitialized (view : TextureView)
    levelCount layerCount (w : World) :
  SetIsSubresourceContentInitialized isInitialized (GetTexture view)
    (GetBaseMipLevel view) levelCount (GetBaseArrayLayer view) layerCount w
  = (Ok tt,
     updateWorld w [markCall isInitialized view levelCount layerCount]
       (markFlags isInitialized view levelCount layerCount (initFlags w))).
Proof. reflexivity. Qed.

(** One turn of the loop over the colour attachments. *)
Lemma queryColorAttachment_spec (renderPass : BeginRenderPassCmd) query i (w : World) :
  let info := colorAttachments renderPass i in
  let view := ca_view info in
  GetLayerCount view = 1 ->
  GetLevelCount view = 1 ->
  queryColorAttachment renderPass query i w
  = (Ok (Query_SetColor query i (format (view_GetFormat view))
           (if bool_decide (ca_loadOp info = LoadOp_Load)
               && negb (isSubresourceContentInitialized (initFlags w) (GetTexture view)
                          (GetBaseMipLevel view) 1 (GetBaseArrayLayer view) 1)
            then LoadOp_Clear else ca_loadOp info)
           (bool_decide (ca_resolveTarget info <> None))),
     updateWorld w (colorAttachmentMarks info) (colorAttachmentFlags info (initFlags w))).
Proof.
  intros info view Hlayers Hlevels. unfold queryColorAttachment.
  fold info. fold view. rewrite Hlayers, Hlevels.
  unfold colorAttachmentMarks, colorAttachmentFlags.
  change (ASSERT (1 =? 1) ?what) with (ret (W := World) tt).
  erewrite bind_Ok; [| reflexivity]. erewrite bind_Ok; [| reflexivity].
  erewrite bind_Ok; [| reflexivity].
  destruct (ca_resolveTarget info) as [resolveView |].
  - erewrite bind_Ok; [| apply SetIsSubresourceContentInitialized_spec].
    destruct (ca_storeOp info).
    + erewrite bind_Ok; [| apply SetIsSubresourceContentInitialized_spec].
      by rewrite updateWorld_updateWorld.
    + erewrite bind_Ok; [| apply SetIsSubresourceContentInitialized_spec].
      by rewrite updateWorld_updateWorld.
  - erewrite bind_Ok; [| reflexivity].
    destruct (ca_storeOp info).
    + by erewrite bind_Ok; [| apply SetIsSubresourceContentInitialized_spec].
    + by erewrite bind_Ok; [| apply SetIsSubresourceContentInitialized_spec].
Qed.

Lemma depthStencilMark_upgraded (info : RenderPassDepthStencilAttachmentInfo) :
  depthStencilMark (clearUninitializedDepthStencil info) = depthStencilMark info.
Proof. reflexivity. Qed.

(** The depth-stencil attachment, when the pass has one. *)
Lemma queryDepthStencilAttachment_spec (renderPass : BeginRenderPassCmd) query (w : World) :
  let info := depthStencilAttachment renderPass in
  let view := ds_view info in
  let info' :=
    if isSubresourceContentInitialized (initFlags w) (GetTexture view)
         (GetBaseMipLevel view) (GetLevelCount view)
         (GetBaseArrayLayer view) (GetLayerCount view)
    then info else clearUninitializedDepthStencil info in
  HasDepthStencilAttachment (attachmentState renderPass) = true ->
  queryDepthStencilAttachment renderPass query w
  = (Ok (setDepthStencilAttachment renderPass info',
         Query_SetDepthStencil query (format (GetFormat (GetTexture view)))
           (depthLoadOp info') (stencilLoadOp info')),
     updateWorld w (depthStencilMarks info) (depthStencilFlags info (initFlags w))).
Proof.
  intros info view info' Hhas. unfold queryDepthStencilAttachment.
  rewrite Hhas. fold info. fold view.
  erewrite bind_Ok; [| reflexivity]. fold info'.
  assert (Hdepth : depthStoreOp info' = depthStoreOp info)
    by (unfold info'; by destruct (isSubresourceContentInitialized _ _ _ _ _ _)).
  assert (Hstencil : stencilStoreOp info' = stencilStoreOp info)
    by (unfold info'; by destruct (isSubresourceContentInitialized _ _ _ _ _ _)).
  rewrite Hdepth, Hstencil.
  unfold depthStencilMarks, depthStencilFlags, depthStencilMark. fold view.
  destruct (depthStoreOp info), (stencilStoreOp info); simpl bool_decide; cbn [andb].
  - by erewrite bind_Ok; [| apply SetIsSubresourceContentInitialized_spec].
  - erewrite bind_Ok; [| reflexivity]. by rewrite updateWorld_nil.
  - erewrite bind_Ok; [| reflexivity]. by rewrite updateWorld_nil.
  - by erewrite bind_Ok; [| apply SetIsSubresourceContentInitialized_spec].
Qed.

(** The loop over the colour attachments makes the marks of each
    attachment, in order. *)
Lemma colorAttachments_loop_spec (renderPass : BeginRenderPassCmd) indices query
    (w : World) :
  (forall i, i ∈ indices ->
             GetLayerCount (ca_view (colorAttachments renderPass i)) = 1
             /\ GetLevelCount (ca_view (colorAttachments renderPass i)) = 1) ->
  exists query',
    foldRec indices (queryColorAttachment renderPass) query w
    = (Ok query',
       updateWorld w
         (flat_map (fun i => colorAttachmentMarks (colorAttachments renderPass i)) indices)
         (fold_left (fun flags i => colorAttachmentFlags (colorAttachments renderPass i) flags)
            indices (initFlags w))).
Proof.
  revert query w. induction indices as [| i rest IH]; intros query w Hsingle.
  - exists query. simpl. by rewrite updateWorld_nil.
  - destruct (Hsingle i) as [Hlayers Hlevels]; [by left |].
    cbn [foldRec flat_map fold_left].
    erewrite bind_Ok; [| by apply queryColorAttachment_spec].
    edestruct IH as (query' & ->).
    { intros j Hin. apply Hsingle. by right. }
    exists query'. by rewrite updateWorld_updateWorld.
Qed.

(** The first block of [RecordBeginRenderPass] ends well, having made the
    marks of the pass and nothing else; the command comes back with its
    colour attachments as they were. *)
Lemma buildRenderPassQuery_spec (renderPass : BeginRenderPassCmd) (w : World) :
  colorViewsAreSingle renderPass ->
  exists renderPass' query flags,
    buildRenderPassQuery renderPass w
    = (Ok (renderPass', query), updateWorld w (renderPassMarks renderPass) flags)
    /\ colorAttachments renderPass' = colorAttachments renderPass
    /\ attachmentState renderPass' = attachmentState renderPass.
Proof.
  intros Hsingle. unfold buildRenderPassQuery, renderPassMarks.
  destruct (colorAttachments_loop_spec renderPass _ emptyQuery w Hsingle)
    as (query1 & Hloop).
  erewrite bind_Ok; [| exact Hloop].
  destruct (HasDepthStencilAttachment (attachmentState renderPass)) eqn:Hhas.
  - erewrite bind_Ok; [| by apply queryDepthStencilAttachment_spec].
    eexists _, _, _. rewrite updateWorld_updateWorld. by split.
  - unfold queryDepthStencilAttachment. rewrite Hhas.
    erewrite bind_Ok; [| reflexivity].
    eexists _, _, _. rewrite app_nil_r. by split.
Qed.

(** Nothing that follows the first block marks a texture, and nothing in
    the function can fail an assertion once the colour views are single. *)
Lemma RecordBeginRenderPass_marks (renderPass : BeginRenderPassCmd) (w : World) :
  colorViewsAreSingle renderPass ->
  exists tail,
    commands (RecordBeginRenderPass renderPass w).2
    = commands w ++ renderPassMarks renderPass ++ tail
    /\ Forall (fun e => isMarkCall e = false) tail
    /\ forall why, (RecordBeginRenderPass renderPass w).1 <> Fatal why.
Proof.
  intros Hsingle.
  destruct (buildRenderPassQuery_spec renderPass w Hsingle)
    as (renderPass' & query & flags & Hbuild & _).
  unfold RecordBeginRenderPass. erewrite bind_Ok; [| exact Hbuild].
  unfold lift, bind. cbn beta iota.
  destruct (GetRenderPass query) as [renderPassVK | msg]; cbn [try].
  2: { exists []. rewrite app_nil_r. by split. }
  destruct (CreateFramebuffer _) as [framebuffer | msg]; cbn [try].
  2: { exists []. rewrite app_nil_r. by split. }
  eexists [_; _]. cbn -[renderPassMarks]. rewrite <- !app_assoc.
  split; [done |]. split; [| done]. by repeat constructor.
Qed.

Lemma effectiveLoadOp_spec (initialized : bool) (requested : LoadOp) :
  (if bool_decide (requested = LoadOp_Load) && negb initialized
   then LoadOp_Clear else requested)
  = effectiveLoadOp initialized requested.
Proof. by destruct requested, initialized. Qed.

(** *** The whole of RecordBeginRenderPass *)

(** The loop over the colour attachments, with the query it builds. *)
Lemma colorAttachments_loop_query (renderPass : BeginRenderPassCmd) indices query
    (w : World) :
  (forall i, i ∈ indices ->
             GetLayerCount (ca_view (colorAttachments renderPass i)) = 1
             /\ GetLevelCount (ca_view (colorAttachments renderPass i)) = 1) ->
  foldRec indices (queryColorAttachment renderPass) query w
  = (Ok (colorQueryAfter renderPass indices query (initFlags w)),
     updateWorld w
       (flat_map (fun i => colorAttachmentMarks (colorAttachments renderPass i)) indices)
       (colorFlagsAfter renderPass indices (initFlags w))).
Proof.
  revert query w. induction indices as [| i rest IH]; intros query w Hsingle.
  - cbn. by rewrite updateWorld_nil.
  - destruct (Hsingle i) as [Hlayers Hlevels]; [by left |].
    cbn [foldRec flat_map colorQueryAfter]. unfold colorFlagsAfter. cbn [fold_left].
    erewrite bind_Ok; [| by apply queryColorAttachment_spec].
    rewrite IH by (intros j Hin; apply Hsingle; by right).
    rewrite effectiveLoadOp_spec. cbn [initFlags updateWorld].
    by rewrite updateWorld_updateWorld.
Qed.

(** [RecordBeginRenderPass], whatever the device answers: the marks are
    made and the flags updated first; the render pass is asked of the cache
    with the query built from the flags at the start; the last two calls
    delete the framebuffer when unused and begin the render pass. *)
Lemma RecordBeginRenderPass_spec (renderPass : BeginRenderPassCmd) (w : World) :
  colorViewsAreSingle renderPass ->
  let renderPass' := renderPassAfter renderPass (initFlags w) in
  let w1 :=
    updateWorld w (renderPassMarks renderPass)
      (renderPassFlags renderPass (initFlags w)) in
  RecordBeginRenderPass renderPass w
  = match GetRenderPass (renderPassQuery renderPass (initFlags w)) with
    | Error msg => (Err msg, w1)
    | Success renderPassVK =>
      match CreateFramebuffer
              {| fb_renderPass := renderPassVK;
                 fb_attachmentCount :=
                   Z.of_nat (length (framebufferAttachments renderPass'));
                 fb_pAttachments := framebufferAttachments renderPass';
                 fb_width := rp_width renderPass';
                 fb_height := rp_height renderPass';
                 fb_layers := 1 |} with
      | Error msg => (Err msg, w1)
      | Success framebuffer =>
        (Ok renderPass',
         appendCommands w1
           [Call_DeleteWhenUnused framebuffer;
            CmdBeginRenderPass
              {| begin_renderPass := renderPassVK;
                 begin_framebuffer := framebuffer;
                 begin_renderArea :=
                   (0, 0, rp_width renderPass', rp_height renderPass');
                 begin_clearValueCount :=
                   Z.of_nat (length (framebufferAttachments renderPass'));
                 begin_pClearValues := framebufferClearValues renderPass' |}])
      end
    end.
Proof.
  intros Hsingle renderPass' w1.
  assert (Hbuild : buildRenderPassQuery renderPass w
                   = (Ok (renderPass', renderPassQuery renderPass (initFlags w)), w1)).
  { unfold buildRenderPassQuery, renderPass', w1, renderPassAfter, renderPassQuery,
      renderPassFlags, renderPassMarks.
    erewrite bind_Ok; [| by apply colorAttachments_loop_query].
    destruct (HasDepthStencilAttachment (attachmentState renderPass)) eqn:Hhas.
    - erewrite bind_Ok; [| by apply queryDepthStencilAttachment_spec].
      cbn [initFlags updateWorld]. by rewrite updateWorld_updateWorld.
    - unfold queryDepthStencilAttachment. rewrite Hhas.
      erewrite bind_Ok; [| reflexivity]. by rewrite app_nil_r. }
  unfold RecordBeginRenderPass. erewrite bind_Ok; [| exact Hbuild].
  unfold lift, bind. cbn beta iota.
  destruct (GetRenderPass _) as [renderPassVK | msg]; cbn [try]; [| reflexivity].
  destruct (CreateFramebuffer _) as [framebuffer | msg]; cbn [try]; [| reflexivity].
  unfold emit, ret. by rewrite appendCommands_app_vk.
Qed.

Lemma RecordBeginRenderPass_flags (renderPass : BeginRenderPassCmd) (w : World) :
  colorViewsAreSingle renderPass ->
  initFlags (RecordBeginRenderPass renderPass w).2
  = renderPassFlags renderPass (initFlags w).
Proof.
  intros Hsingle. rewrite (RecordBeginRenderPass_spec renderPass w Hsingle).
  destruct (GetRenderPass _) as [renderPassVK | msg]; [| reflexivity].
  by destruct (CreateFramebuffer _) as [framebuffer | msg].
Qed.

(** *** Marks that do not reach a range *)

Lemma rangesDisjoint_sym (r1 r2 : SubresourceRange) :
  rangesDisjoint r1 r2 -> rangesDisjoint r2 r1.
Proof.
  intros [Hne | Hnone]; [by left | right].
  intros subresource Hin2 Hin1. by apply (Hnone subresource).
Qed.

Lemma pairwiseDisjoint_app (ranges1 ranges2 : list SubresourceRange) :
  pairwiseDisjoint (ranges1 ++ ranges2) ->
  pairwiseDisjoint ranges1 /\ pairwiseDisjoint ranges2
  /\ forall range, range ∈ ranges1 -> Forall (rangesDisjoint range) ranges2.
Proof.
  induction ranges1 as [| range1 rest IH]; cbn [app pairwiseDisjoint].
  - intros Hdisjoint. split; [done |]. split; [done |].
    intros range Hin. by apply elem_of_nil in Hin.
  - intros [Hhead Hrest]. apply Forall_app in Hhead as [Hhead1 Hhead2].
    destruct (IH Hrest) as (Hrest1 & Hranges2 & Hcross).
    split; [by split |]. split; [done |].
    intros range Hin. apply elem_of_cons in Hin as [-> | Hin]; [done | by apply Hcross].
Qed.

Lemma forallb_agree {A} (f g : A -> bool) (l : list A) :
  (forall x, x ∈ l -> f x = g x) -> forallb f l = forallb g l.
Proof.
  induction l as [| x rest IH]; intros Hagree; [done |].
  cbn [forallb]. rewrite (Hagree x) by (by left).
  rewrite IH; [done |]. intros y Hin. apply Hagree. by right.
Qed.

(** Marking a range does not change what is read of a range disjoint from
    it. *)
Lemma isSubresourceContentInitialized_frame flags isInitialized texture other
    baseMipLevel levelCount baseArrayLayer layerCount
    baseMipLevel' levelCount' baseArrayLayer' layerCount' :
  rangesDisjoint
    (texture_addr other, subresources baseMipLevel' levelCount' baseArrayLayer' layerCount')
    (texture_addr texture, subresources baseMipLevel levelCount baseArrayLayer layerCount) ->
  isSubresourceContentInitialized
    (setIsSubresourceContentInitialized flags isInitialized texture
       baseMipLevel levelCount baseArrayLayer layerCount)
    other baseMipLevel' levelCount' baseArrayLayer' layerCount'
  = isSubresourceContentInitialized flags other
      baseMipLevel' levelCount' baseArrayLayer' layerCount'.
Proof.
  intros Hdisjoint. unfold isSubresourceContentInitialized.
  apply forallb_agree. intros [level layer] Hin.
  rewrite setIsSubresourceContentInitialized_lookup_other; [done |].
  destruct Hdisjoint as [Hne | Hnone]; [by left | right]. by apply Hnone.
Qed.

Lemma colorAttachmentFlags_frame (info : RenderPassColorAttachmentInfo) flags texture
    baseMipLevel levelCount baseArrayLayer layerCount :
  Forall (rangesDisjoint
            (texture_addr texture,
             subresources baseMipLevel levelCount baseArrayLayer layerCount))
    (colorAttachmentRanges info) ->
  isSubresourceContentInitialized (colorAttachmentFlags info flags) texture
    baseMipLevel levelCount baseArrayLayer layerCount
  = isSubresourceContentInitialized flags texture
      baseMipLevel levelCount baseArrayLayer layerCount.
Proof.
  unfold colorAttachmentFlags, colorAttachmentRanges, markFlags. intros Hdisjoint.
  apply Forall_cons in Hdisjoint as [Hview Hresolve].
  rewrite isSubresourceContentInitialized_frame by exact Hview.
  destruct (ca_resolveTarget info) as [resolveView |]; [| done].
  apply Forall_cons in Hresolve as [Hresolve _].
  by rewrite isSubresourceContentInitialized_frame by exact Hresolve.
Qed.

Lemma colorFlagsAfter_frame (renderPass : BeginRenderPassCmd) indices flags texture
    baseMipLevel levelCount baseArrayLayer layerCount :
  Forall (rangesDisjoint
            (texture_addr texture,
             subresources baseMipLevel levelCount baseArrayLayer layerCount))
    (flat_map (fun i => colorAttachmentRanges (colorAttachments renderPass i)) indices) ->
  isSubresourceContentInitialized (colorFlagsAfter renderPass indices flags) texture
    baseMipLevel levelCount baseArrayLayer layerCount
  = isSubresourceContentInitialized flags texture
      baseMipLevel levelCount baseArrayLayer layerCount.
Proof.
  revert flags. induction indices as [| j rest IH]; intros flags Hdisjoint; [done |].
  cbn [flat_map] in Hdisjoint. apply Forall_app in Hdisjoint as [Hhead Hrest].
  unfold colorFlagsAfter. cbn [fold_left].
  change (fold_left _ rest ?start) with (colorFlagsAfter renderPass rest start).
  rewrite IH by done. by apply colorAttachmentFlags_frame.
Qed.

Lemma depthStencilFlags_frame (info : RenderPassDepthStencilAttachmentInfo) flags texture
    baseMipLevel levelCount baseArrayLayer layerCount :
  rangesDisjoint
    (texture_addr texture, subresources baseMipLevel levelCount baseArrayLayer layerCount)
    (viewRange (ds_view info) (GetLevelCount (ds_view info)) (GetLayerCount (ds_view info))) ->
  isSubresourceContentInitialized (depthStencilFlags info flags) texture
    baseMipLevel levelCount baseArrayLayer layerCount
  = isSubresourceContentInitialized flags texture
      baseMipLevel levelCount baseArrayLayer layerCount.
Proof.
  unfold depthStencilFlags, markFlags. intros Hdisjoint.
  destruct (depthStencilMark info); [| done].
  by apply isSubresourceContentInitialized_frame.
Qed.

Lemma attachment_range_listed (renderPass : BeginRenderPassCmd) indices i :
  i ∈ indices ->
  viewRange (ca_view (colorAttachments renderPass i)) 1 1
  ∈ flat_map (fun i => colorAttachmentRanges (colorAttachments renderPass i)) indices.
Proof.
  intros Hin. apply list_elem_of_In, in_flat_map. exists i.
  split; [by apply list_elem_of_In | by left].
Qed.

Lemma resolve_range_listed (renderPass : BeginRenderPassCmd) indices i resolveView :
  i ∈ indices ->
  ca_resolveTarget (colorAttachments renderPass i) = Some resolveView ->
  viewRange resolveView (GetLevelCount resolveView) (GetLayerCount resolveView)
  ∈ flat_map (fun i => colorAttachmentRanges (colorAttachments renderPass i)) indices.
Proof.
  intros Hin Hresolve. apply list_elem_of_In, in_flat_map. exists i.
  split; [by apply list_elem_of_In |].
  unfold colorAttachmentRanges. rewrite Hresolve. right. by left.
Qed.

(** *** One attachment among those of the pass *)

Lemma colorQueryAfter_other (renderPass : BeginRenderPassCmd) indices query flags i :
  i ∉ indices ->
  query_color (colorQueryAfter renderPass indices query flags) !! i
  = query_color query !! i.
Proof.
  revert query flags. induction indices as [| j rest IH]; intros query flags Hnot; [done |].
  apply not_elem_of_cons in Hnot as [Hne Hrest].
  cbn [colorQueryAfter]. rewrite IH by done. cbn [query_color Query_SetColor].
  by rewrite lookup_insert_ne.
Qed.

(** When the attachments do not overlap, a colour attachment is entered in
    the query with the load operation that the flags at the start call
    for. *)
Lemma colorQueryAfter_lookup (renderPass : BeginRenderPassCmd) indices query flags i :
  pairwiseDisjoint
    (flat_map (fun i => colorAttachmentRanges (colorAttachments renderPass i)) indices) ->
  i ∈ indices ->
  let info := colorAttachments renderPass i in
  query_color (colorQueryAfter renderPass indices query flags) !! i
  = Some (format (view_GetFormat (ca_view info)),
          effectiveLoadOp (colorViewInitialized flags (ca_view info)) (ca_loadOp info),
          bool_decide (ca_resolveTarget info <> None)).
Proof.
  intros Hdisjoint Hin. cbv zeta. revert query flags Hdisjoint Hin.
  induction indices as [| j rest IH]; intros query flags Hdisjoint Hin.
  - by apply elem_of_nil in Hin.
  - cbn [flat_map] in Hdisjoint.
    apply pairwiseDisjoint_app in Hdisjoint as (Hhead & Hrest & Hcross).
    cbn [colorQueryAfter].
    destruct (decide (i ∈ rest)) as [Hlater | Hnot].
    + rewrite IH by done. unfold colorViewInitialized.
      rewrite colorAttachmentFlags_frame; [done |].
      apply Forall_forall. intros range Hrange. apply rangesDisjoint_sym.
      eapply Forall_forall; [by apply Hcross |].
      by apply attachment_range_listed.
    + apply elem_of_cons in Hin as [-> | Hin]; [| done].
      rewrite colorQueryAfter_other by done. cbn [query_color Query_SetColor].
      by rewrite lookup_insert_eq.
Qed.

(** And after the turns of the colour attachments its subresource is valid
    exactly when its store operation is Store, and its resolve target is
    valid. *)
Lemma colorFlagsAfter_attachment (renderPass : BeginRenderPassCmd) indices flags i :
  pairwiseDisjoint
    (flat_map (fun i => colorAttachmentRanges (colorAttachments renderPass i)) indices) ->
  i ∈ indices ->
  let info := colorAttachments renderPass i in
  colorViewInitialized (colorFlagsAfter renderPass indices flags) (ca_view info)
  = bool_decide (ca_storeOp info = StoreOp_Store)
  /\ forall resolveView,
       ca_resolveTarget info = Some resolveView ->
       viewInitialized (colorFlagsAfter renderPass indices flags) resolveView = true.
Proof.
  intros Hdisjoint Hin. cbv zeta. revert flags Hdisjoint Hin.
  induction indices as [| j rest IH]; intros flags Hdisjoint Hin.
  - by apply elem_of_nil in Hin.
  - cbn [flat_map] in Hdisjoint.
    apply pairwiseDisjoint_app in Hdisjoint as (Hhead & Hrest & Hcross).
    unfold colorFlagsAfter. cbn [fold_left].
    change (fold_left _ rest ?start) with (colorFlagsAfter renderPass rest start).
    destruct (decide (i ∈ rest)) as [Hlater | Hnot]; [by apply IH |].
    apply elem_of_cons in Hin as [-> | Hin]; [| done].
    set (info := colorAttachments renderPass j) in *.
    unfold colorViewInitialized, viewInitialized. split.
    + rewrite colorFlagsAfter_frame by (apply Hcross; by left).
      unfold colorAttachmentFlags, markFlags.
      apply isSubresourceContentInitialized_after_set. lia.
    + intros resolveView Hresolve.
      assert (Hlisted : viewRange resolveView (GetLevelCount resolveView)
                          (GetLayerCount resolveView) ∈ colorAttachmentRanges info).
      { unfold colorAttachmentRanges. rewrite Hresolve. right. by left. }
      rewrite colorFlagsAfter_frame by (by apply Hcross).
      unfold colorAttachmentFlags, markFlags. rewrite Hresolve.
      unfold colorAttachmentRanges in Hhead. rewrite Hresolve in Hhead.
      destruct Hhead as [Hpair _]. apply Forall_cons in Hpair as [Hpair _].
      rewrite isSubresourceContentInitialized_frame
        by (by apply rangesDisjoint_sym).
      by apply isSubresourceContentInitialized_after_set.
Qed.

(** C2 (amended). Vulkan, [RecordBeginRenderPass], for a pass whose colour
    views are single subresources and whose attachments (colour views,
    resolve targets and the depth-stencil view) share no subresource;
    [flags] are the flags of the tracker when the function starts.
    The function makes the marks of the pass, asks the render pass cache
    for the render pass of [query] and, if the device reports no error,
    ends by recording [vkCmdBeginRenderPass] with that render pass and the
    clear values of the command as it leaves it.  In [query] a colour
    attachment has the load operation Clear when its subresource is not
    initialised in [flags], and the requested load operation when it is.
    For the depth-stencil attachment, an aspect of the format whose range
    is not all initialised in [flags] has Clear in [query], and a requested
    Load also sets the clear value of that aspect, handed to
    [vkCmdBeginRenderPass], to zero; an initialised attachment is left as
    requested.  When the function has returned, with or without an error,
    what the tracker holds follows the store operation alone: the colour
    subresource is valid exactly when the store operation is Store; the
    depth-stencil range is valid when both store operations are Store, not
    valid when both are Clear, and as it was when they differ. *)
Theorem uninitialized_load_recorded_as_clear (renderPass : BeginRenderPassCmd) (w : World) :
  colorViewsAreSingle renderPass ->
  attachmentsDoNotOverlap renderPass ->
  let flags := initFlags w in
  let query := renderPassQuery renderPass flags in
  let renderPass' := renderPassAfter renderPass flags in
  let w1 := updateWorld w (renderPassMarks renderPass) (renderPassFlags renderPass flags) in
  let after := (RecordBeginRenderPass renderPass w).2 in
  RecordBeginRenderPass renderPass w
  = match GetRenderPass query with
    | Error msg => (Err msg, w1)
    | Success renderPassVK =>
      match CreateFramebuffer
              {| fb_renderPass := renderPassVK;
                 fb_attachmentCount :=
                   Z.of_nat (length (framebufferAttachments renderPass'));
                 fb_pAttachments := framebufferAttachments renderPass';
                 fb_width := rp_width renderPass';
                 fb_height := rp_height renderPass';
                 fb_layers := 1 |} with
      | Error msg => (Err msg, w1)
      | Success framebuffer =>
        (Ok renderPass',
         appendCommands w1
           [Call_DeleteWhenUnused framebuffer;
            CmdBeginRenderPass
              {| begin_renderPass := renderPassVK;
                 begin_framebuffer := framebuffer;
                 begin_renderArea :=
                   (0, 0, rp_width renderPass', rp_height renderPass');
                 begin_clearValueCount :=
                   Z.of_nat (length (framebufferAttachments renderPass'));
                 begin_pClearValues := framebufferClearValues renderPass' |}])
      end
    end
  /\ (forall i,
        i ∈ IterateBitSet kMaxColorAttachments
              (GetColorAttachmentsMask (attachmentState renderPass)) ->
        let info := colorAttachments renderPass i in
        let view := ca_view info in
        query_color query !! i
        = Some (format (view_GetFormat view),
                effectiveLoadOp (colorViewInitialized flags view) (ca_loadOp info),
                bool_decide (ca_resolveTarget info <> None))
        /\ colorViewInitialized (initFlags after) view
           = bool_decide (ca_storeOp info = StoreOp_Store))
  /\ (HasDepthStencilAttachment (attachmentState renderPass) = true ->
      let info := depthStencilAttachment renderPass in
      let info' := depthStencilAttachment renderPass' in
      let view := ds_view info in
      let viewFormat := GetFormat (GetTexture view) in
      query_depthStencil query
      = Some (format viewFormat, depthLoadOp info', stencilLoadOp info')
      /\ last (framebufferClearValues renderPass')
         = Some (ClearDepthStencilValue (clearDepth info') (clearStencil info'))
      /\ (viewInitialized flags view = true -> info' = info)
      /\ (viewInitialized flags view = false ->
          (HasDepth viewFormat = true ->
           depthLoadOp info' = LoadOp_Clear
           /\ (depthLoadOp info = LoadOp_Load -> clearDepth info' = float_zero))
          /\ (HasStencil viewFormat = true ->
              stencilLoadOp info' = LoadOp_Clear
              /\ (stencilLoadOp info = LoadOp_Load -> clearStencil info' = 0)))
      /\ (depthStencilMark info = Some true -> viewInitialized (initFlags after) view = true)
      /\ (depthStencilMark info = Some false ->
          0 < GetLevelCount view -> 0 < GetLayerCount view ->
          viewInitialized (initFlags after) view = false)
      /\ (depthStencilMark info = None ->
          viewInitialized (initFlags after) view = viewInitialized flags view)).
Proof.
  intros Hsingle Hdistinct flags query renderPass' w1 after.
  unfold attachmentsDoNotOverlap, attachmentRanges in Hdistinct.
  apply pairwiseDisjoint_app in Hdistinct as (Hcolors & _ & Hdisjoint).
  assert (Hafter : initFlags after = renderPassFlags renderPass flags)
    by (by apply RecordBeginRenderPass_flags).
  split; [by apply RecordBeginRenderPass_spec |]. split.
  - intros i Hin info view. split.
    + unfold query, renderPassQuery. cbn [query_color Query_SetSampleCount].
      destruct (HasDepthStencilAttachment (attachmentState renderPass));
        cbn [query_color Query_SetDepthStencil]; by apply colorQueryAfter_lookup.
    + rewrite Hafter. unfold renderPassFlags, colorViewInitialized.
      pose proof (Hdisjoint _ (attachment_range_listed renderPass _ i Hin)) as Hrange.
      destruct (HasDepthStencilAttachment (attachmentState renderPass)).
      * apply Forall_cons in Hrange as [Hrange _].
        rewrite depthStencilFlags_frame by exact Hrange.
        by apply colorFlagsAfter_attachment.
      * by apply colorFlagsAfter_attachment.
  - intros Hhas info info' view viewFormat.
    assert (Hframe : forall flags0,
              viewInitialized
                (colorFlagsAfter renderPass
                   (IterateBitSet kMaxColorAttachments
                      (GetColorAttachmentsMask (attachmentState renderPass))) flags0) view
              = viewInitialized flags0 view).
    { intros flags0. unfold viewInitialized. apply colorFlagsAfter_frame.
      apply Forall_forall. intros range Hlisted. apply rangesDisjoint_sym.
      specialize (Hdisjoint range Hlisted). rewrite Hhas in Hdisjoint.
      by apply Forall_cons in Hdisjoint as [Hrange _]. }
    assert (Hinfo : info' = if viewInitialized flags view then info
                            else clearUninitializedDepthStencil info).
    { unfold info', renderPass', renderPassAfter. rewrite Hhas.
      cbn [depthStencilAttachment setDepthStencilAttachment].
      unfold depthStencilAfter. fold info. fold view. by rewrite Hframe. }
    split; [| split; [| split; [| split]]].
    + unfold query, renderPassQuery. rewrite Hhas.
      cbn [query_depthStencil Query_SetSampleCount Query_SetDepthStencil].
      unfold info', renderPass', renderPassAfter. rewrite Hhas. reflexivity.
    + unfold framebufferClearValues.
      assert (Hstate : attachmentState renderPass' = attachmentState renderPass)
        by (unfold renderPass', renderPassAfter; by rewrite Hhas).
      rewrite Hstate, Hhas. by rewrite last_snoc.
    + intros Hvalid. by rewrite Hinfo, Hvalid.
    + intros Hinvalid. rewrite Hinfo, Hinvalid.
      unfold clearUninitializedDepthStencil. fold view. fold viewFormat.
      cbn [depthLoadOp stencilLoadOp clearDepth clearStencil].
      split; intros ->; cbn [andb]; split.
      * by destruct (depthLoadOp info).
      * by intros ->.
      * by destruct (stencilLoadOp info).
      * by intros ->.
    + rewrite Hafter. unfold renderPassFlags. rewrite Hhas. fold info.
      unfold depthStencilFlags, markFlags, viewInitialized. fold view.
      split; [| split].
      * intros ->. by apply isSubresourceContentInitialized_after_set.
      * intros -> Hlevels Hlayers. by apply isSubresourceContentInitialized_after_set.
      * intros ->. apply Hframe.
Qed.

(** C4. Vulkan, [RecordBeginRenderPass], for a pass whose colour views are
    single subresources and whose attachments (colour views, resolve targets
    and the depth-stencil view) share no subresource.  The calls
    that mark textures are exactly these, in order: for each colour
    attachment of the mask, its resolve target (if it has one) marked valid,
    then the attachment marked valid for Store and not valid for Clear; then
    the depth-stencil attachment marked valid when both store operations are
    Store and not valid when both are Clear.  No assertion fails.  When the
    function has returned, with or without an error of the device, the
    tracker reads the subresource of each colour attachment as valid exactly
    when its store operation is Store, and reads its resolve target as valid
    whatever the store operation; it reads the range of the depth-stencil
    attachment as valid when both store operations are Store and as not
    valid when both are Clear. *)
Theorem render_pass_store_ops_update_tracker (renderPass : BeginRenderPassCmd) (w : World) :
  colorViewsAreSingle renderPass ->
  attachmentsDoNotOverlap renderPass ->
  let after := (RecordBeginRenderPass renderPass w).2 in
  (exists tail,
     commands after = commands w ++ renderPassMarks renderPass ++ tail
     /\ Forall (fun e => isMarkCall e = false) tail
     /\ forall why, (RecordBeginRenderPass renderPass w).1 <> Fatal why)
  /\ (forall i,
        i ∈ IterateBitSet kMaxColorAttachments
              (GetColorAttachmentsMask (attachmentState renderPass)) ->
        let info := colorAttachments renderPass i in
        let view := ca_view info in
        colorAttachmentMarks info
        = match ca_resolveTarget info with
          | Some resolveView =>
            [markCall true resolveView
               (GetLevelCount resolveView) (GetLayerCount resolveView)]
          | None => []
          end
          ++ [markCall match ca_storeOp info with
                       | StoreOp_Store => true
                       | StoreOp_Clear => false
                       end view 1 1]
        /\ colorViewInitialized (initFlags after) view
           = match ca_storeOp info with
             | StoreOp_Store => true
             | StoreOp_Clear => false
             end
        /\ forall resolveView,
             ca_resolveTarget info = Some resolveView ->
             viewInitialized (initFlags after) resolveView = true)
  /\ (HasDepthStencilAttachment (attachmentState renderPass) = true ->
      let info := depthStencilAttachment renderPass in
      let view := ds_view info in
      (depthStoreOp info = StoreOp_Store -> stencilStoreOp info = StoreOp_Store ->
       depthStencilMarks info
       = [markCall true view (GetLevelCount view) (GetLayerCount view)]
       /\ viewInitialized (initFlags after) view = true)
      /\ (depthStoreOp info = StoreOp_Clear -> stencilStoreOp info = StoreOp_Clear ->
          depthStencilMarks info
          = [markCall false view (GetLevelCount view) (GetLayerCount view)]
          /\ (0 < GetLevelCount view -> 0 < GetLayerCount view ->
              viewInitialized (initFlags after) view = false))).
Proof.
  intros Hsingle Hdistinct after.
  unfold attachmentsDoNotOverlap, attachmentRanges in Hdistinct.
  apply pairwiseDisjoint_app in Hdistinct as (Hcolors & _ & Hdisjoint).
  assert (Hafter : initFlags after = renderPassFlags renderPass (initFlags w))
    by (by apply RecordBeginRenderPass_flags).
  split; [by apply RecordBeginRenderPass_marks |]. split.
  - intros i Hin info view.
    split; [unfold colorAttachmentMarks; fold view; by destruct (ca_storeOp info) |].
    destruct (colorFlagsAfter_attachment renderPass _ (initFlags w) i Hcolors Hin)
      as [Hview Hresolve].
    fold info in Hview, Hresolve. fold view in Hview.
    rewrite Hafter. unfold renderPassFlags.
    destruct (HasDepthStencilAttachment (attachmentState renderPass)) eqn:Hhas.
    + split.
      * pose proof (Hdisjoint _ (attachment_range_listed renderPass _ i Hin)) as Hrange.
        apply Forall_cons in Hrange as [Hrange _].
        unfold colorViewInitialized. rewrite depthStencilFlags_frame by exact Hrange.
        unfold colorViewInitialized in Hview. rewrite Hview.
        by destruct (ca_storeOp info).
      * intros resolveView Htarget. unfold viewInitialized.
        pose proof (Hdisjoint _ (resolve_range_listed renderPass _ i resolveView
                                   Hin Htarget)) as Hrange.
        apply Forall_cons in Hrange as [Hrange _].
        rewrite depthStencilFlags_frame by exact Hrange. by apply Hresolve.
    + split; [| exact Hresolve]. rewrite Hview. by destruct (ca_storeOp info).
  - intros Hhas info view. rewrite Hafter. unfold renderPassFlags. rewrite Hhas.
    fold info.
    unfold depthStencilMarks, depthStencilFlags, depthStencilMark, markFlags,
      viewInitialized.
    fold view. split.
    + intros -> ->. split; [done |].
      by apply isSubresourceContentInitialized_after_set.
    + intros -> ->. split; [done |]. intros Hlevels Hlayers.
      by apply isSubresourceContentInitialized_after_set.
Qed.

(** X1. Vulkan, [RecordBeginRenderPass], when it ends well: the last call
    recorded is [vkCmdBeginRenderPass], and the clear values it is given for
    the colour attachments are the clear colours of the command as they
    were, whether or not a Load was turned into a Clear (only the depth and
    stencil clear values are set to zero for that). *)
Theorem color_clear_values_as_given (renderPass renderPass' : BeginRenderPassCmd)
    (w w' : World) :
  colorViewsAreSingle renderPass ->
  RecordBeginRenderPass renderPass w = (Ok renderPass', w') ->
  let colorIndices :=
    IterateBitSet kMaxColorAttachments
      (GetColorAttachmentsMask (attachmentState renderPass)) in
  exists beginInfo,
    last (commands w') = Some (CmdBeginRenderPass beginInfo)
    /\ take (length colorIndices) (begin_pClearValues beginInfo)
       = map (fun i => ClearColorValue (ca_clearColor (colorAttachments renderPass i)))
           colorIndices.
Proof.
  intros Hsingle Hrun colorIndices.
  destruct (buildRenderPassQuery_spec renderPass w Hsingle)
    as (renderPass1 & query & flags & Hbuild & Hcolors & Hstate).
  unfold RecordBeginRenderPass in Hrun. erewrite bind_Ok in Hrun; [| exact Hbuild].
  unfold lift, bind in Hrun. cbn beta iota in Hrun.
  destruct (GetRenderPass query) as [renderPassVK | msg]; cbn [try] in Hrun; [| done].
  destruct (CreateFramebuffer _) as [framebuffer | msg]; cbn [try] in Hrun; [| done].
  cbn -[framebufferClearValues framebufferAttachments renderPassMarks] in Hrun.
  injection Hrun as <- <-. eexists. unfold appendCommands at 1. cbn [commands].
  split; [by rewrite last_snoc |].
  cbn [begin_pClearValues]. unfold framebufferClearValues.
  rewrite Hcolors, Hstate. fold colorIndices.
  rewrite take_app_length'; [done |]. by rewrite length_map.
Qed.

End RenderPassFacts.

Section RenderPassSample.
Import Vulkan Samples.
#[local] Existing Instance dawnConstants.
#[local] Existing Instance vulkanDevice.

Lemma samplePass_single color :
  GetLayerCount (ca_view color) = 1 -> GetLevelCount (ca_view color) = 1 ->
  colorViewsAreSingle (samplePass color).
Proof. by intros Hlayers Hlevels i _. Qed.

Lemma samplePass_mask color :
  0 ∈ IterateBitSet kMaxColorAttachments
        (GetColorAttachmentsMask (attachmentState (samplePass color))).
Proof. vm_compute. by left. Qed.

(** C2, where the specification as worded fails: colour attachment 0
    asks for Load on a texture that is not initialised and for the result to
    be discarded.  It is recorded with Clear, and after
    [RecordBeginRenderPass] the tracker still reads the subresource as not
    valid. *)
Lemma upgraded_attachment_left_invalid_by_discard :
  ca_loadOp (colorAttachments (samplePass loadAndDiscard) 0) = LoadOp_Load
  /\ isSubresourceContentInitialized (initFlags vulkanWorld) colorTexture 0 1 0 1 = false
  /\ (exists renderPass' query w',
        buildRenderPassQuery (samplePass loadAndDiscard) vulkanWorld
        = (Ok (renderPass', query), w')
        /\ query_color query !! 0 = Some (37%positive, LoadOp_Clear, false))
  /\ exists renderPass' w',
       RecordBeginRenderPass (samplePass loadAndDiscard) vulkanWorld
       = (Ok renderPass', w')
       /\ isSubresourceContentInitialized (initFlags w') colorTexture 0 1 0 1 = false.
Proof.
  split; [reflexivity |]. split; [reflexivity |]. split.
  - eexists _, _, _. split; [vm_compute; reflexivity | vm_compute; reflexivity].
  - eexists _, _. split; [vm_compute; reflexivity | vm_compute; reflexivity].
Qed.

Lemma samplePass_distinct color :
  texture_addr (GetTexture (ca_view color)) = 51%positive ->
  ca_resolveTarget color = None
  \/ (exists resolveView,
        ca_resolveTarget color = Some resolveView
        /\ texture_addr (GetTexture resolveView) = 52%positive) ->
  attachmentsDoNotOverlap (samplePass color).
Proof.
  intros Hview Hresolve.
  unfold attachmentsDoNotOverlap, attachmentRanges, colorAttachmentRanges.
  change (IterateBitSet kMaxColorAttachments
            (GetColorAttachmentsMask (attachmentState (samplePass color)))) with [0].
  cbn [flat_map samplePass colorAttachments attachmentState HasDepthStencilAttachment
       depthStencilAttachment app].
  destruct Hresolve as [-> | (resolveView & -> & Hresolve)];
    cbn [app pairwiseDisjoint];
    repeat split;
    repeat (apply Forall_cons; split); try apply Forall_nil_2;
    left; unfold viewRange; cbn [fst]; rewrite ?Hview, ?Hresolve; discriminate.
Qed.

(** A pass that loads colour attachment 0 from a texture that is not
    initialised, stores the result and resolves it: the attachment is
    entered in the query with Clear, and when the function has returned the
    tracker reads its subresource as valid. *)
Lemma uninitialized_load_recorded_as_clear_sample :
  query_color (renderPassQuery (samplePass loadStoreAndResolve) (initFlags vulkanWorld))
  !! 0 = Some (37%positive, LoadOp_Clear, true)
  /\ isSubresourceContentInitialized
       (initFlags (RecordBeginRenderPass (samplePass loadStoreAndResolve) vulkanWorld).2)
       colorTexture 0 1 0 1 = true.
Proof.
  destruct (uninitialized_load_recorded_as_clear (samplePass loadStoreAndResolve)
              vulkanWorld
              (samplePass_single loadStoreAndResolve eq_refl eq_refl)
              (samplePass_distinct loadStoreAndResolve eq_refl
                 (or_intror (ex_intro _ _ (conj eq_refl eq_refl)))))
    as (_ & Hcolor & _).
  destruct (Hcolor 0 (samplePass_mask loadStoreAndResolve)) as [Hquery Hflags].
  split; [exact Hquery | exact Hflags].
Defined.

(** The same pass: its marks, and what the tracker reads of the colour
    attachment and of its resolve target when the function has returned. *)
Lemma render_pass_store_ops_update_tracker_sample :
  (exists tail,
     commands (RecordBeginRenderPass (samplePass loadStoreAndResolve) vulkanWorld).2
     = [Call_SetIsSubresourceContentInitialized true 52 0 1 0 1;
        Call_SetIsSubresourceContentInitialized true 51 0 1 0 1;
        Call_SetIsSubresourceContentInitialized true 53 0 1 0 1] ++ tail
     /\ Forall (fun e => isMarkCall e = false) tail)
  /\ isSubresourceContentInitialized
       (initFlags (RecordBeginRenderPass (samplePass loadStoreAndResolve) vulkanWorld).2)
       colorTexture 0 1 0 1 = true
  /\ isSubresourceContentInitialized
       (initFlags (RecordBeginRenderPass (samplePass loadStoreAndResolve) vulkanWorld).2)
       resolveTexture 0 1 0 1 = true.
Proof.
  destruct (render_pass_store_ops_update_tracker (samplePass loadStoreAndResolve)
              vulkanWorld
              (samplePass_single loadStoreAndResolve eq_refl eq_refl)
              (samplePass_distinct loadStoreAndResolve eq_refl
                 (or_intror (ex_intro _ _ (conj eq_refl eq_refl)))))
    as ((tail & Htrace & Htail & _) & Hcolor & _).
  destruct (Hcolor 0 (samplePass_mask loadStoreAndResolve)) as (_ & Hview & Hresolve).
  split; [exists tail; split; [exact Htrace | exact Htail] |].
  split; [exact Hview | exact (Hresolve _ eq_refl)].
Defined.

(** The clear values handed to [vkCmdBeginRenderPass] when Load was turned
    into Clear: the depth and stencil values are zero, the colour is the one
    of the command. *)
Lemma color_clear_value_kept_on_upgrade :
  exists renderPass' w',
    RecordBeginRenderPass (samplePass loadAndDiscard) vulkanWorld = (Ok renderPass', w')
    /\ last (commands w')
       = Some (CmdBeginRenderPass
                 {| begin_renderPass := 71;
                    begin_framebuffer := 72;
                    begin_renderArea := (0, 0, 64, 64);
                    begin_clearValueCount := 2;
                    begin_pClearValues :=
                      [ClearColorValue red; ClearDepthStencilValue float_zero 0] |})
    /\ ca_clearColor (colorAttachments renderPass' 0) = red
    /\ clearDepth (depthStencilAttachment (samplePass loadAndDiscard)) = float_one
    /\ clearDepth (depthStencilAttachment renderPass') = float_zero.
Proof.
  eexists _, _. split; [vm_compute; reflexivity |]. by vm_compute.
Qed.

Lemma color_clear_values_as_given_sample :
  exists beginInfo,
    last (commands (RecordBeginRenderPass (samplePass loadAndDiscard) vulkanWorld).2)
    = Some (CmdBeginRenderPass beginInfo)
    /\ take 1 (begin_pClearValues beginInfo) = [ClearColorValue red].
Proof.
  destruct (RecordBeginRenderPass (samplePass loadAndDiscard) vulkanWorld)
    as [[renderPass' | msg | why] w'] eqn:Hrun;
    [| vm_compute in Hrun; discriminate Hrun | vm_compute in Hrun; discriminate Hrun].
  exact (color_clear_values_as_given (samplePass loadAndDiscard) renderPass'
           vulkanWorld w' (samplePass_single loadAndDiscard eq_refl eq_refl) Hrun).
Defined.

End RenderPassSample.

(** ** Vulkan: the loops of RecordCommands *)
Section VulkanLoopFacts.
Import Vulkan.
Context `{Constants}.
Context `{Device}.

(** Recording a stream is recording a prefix of it, then the rest from
    where the prefix left the loops. *)
Lemma recordFrom_app usages loop (pre rest : list Command) (w : World) :
  recordFrom usages loop (pre ++ rest) w
  = bind (foldRec pre (recordStep usages) loop)
      (fun loop' => recordFrom usages loop' rest) w.
Proof.
  revert loop w. induction pre as [| cmd pre IH]; intros loop w; [reflexivity |].
  change (recordFrom usages loop ((cmd :: pre) ++ rest) w)
    with (bind (recordStep usages loop cmd)
            (fun loop' => recordFrom usages loop' (pre ++ rest)) w).
  change (foldRec (cmd :: pre) (recordStep usages) loop)
    with (bind (recordStep usages loop cmd)
            (fun loop' => foldRec pre (recordStep usages) loop')).
  unfold bind at 1 2 3.
  destruct (recordStep usages loop cmd w) as [[loop' | msg | why] w1];
    [| reflexivity | reflexivity].
  rewrite IH. reflexivity.
Qed.

Lemma RecordBuildRayTracingAccelerationContainer_spec container hasBuild (w : World) :
  if containerBuilt w container
  then RecordBuildRayTracingAccelerationContainer container hasBuild w
       = (Err "Acceleration Container is already built", w)
  else exists hasBuild' w',
         RecordBuildRayTracingAccelerationContainer container hasBuild w
         = (Ok hasBuild', w').
Proof.
  unfold RecordBuildRayTracingAccelerationContainer, containerBuilt, bind, IsBuilt.
  destruct (default false _); [done |].
  destruct (GetLevel container =? _); [by eexists _, _ |].
  destruct (GetLevel container =? _); [| by eexists _, _].
  destruct hasBuild; by eexists _, _.
Qed.

Lemma RecordUpdateRayTracingAccelerationContainer_spec container hasUpdate (w : World) :
  if allowsUpdate container
  then if containerBuilt w container
       then exists hasUpdate' w',
              RecordUpdateRayTracingAccelerationContainer container hasUpdate w
              = (Ok hasUpdate', w')
       else RecordUpdateRayTracingAccelerationContainer container hasUpdate w
            = (Err "Acceleration Container must be built before updating", w)
  else RecordUpdateRayTracingAccelerationContainer container hasUpdate w
       = (Err "Acceleration Container does not support Updates", w).
Proof.
  unfold RecordUpdateRayTracingAccelerationContainer, allowsUpdate, containerBuilt, bind,
    IsBuilt, IsUpdated.
  destruct (Z.land _ _ =? 0); [done |]. cbn [negb].
  destruct (default false (buildState w !! _)); [| done]. cbn [negb andb].
  destruct (default false (updateState w !! _)); cbn [negb];
    destruct (GetLevel container =? _); try (by eexists _, _);
    destruct (GetLevel container =? _); try (by eexists _, _);
    destruct hasUpdate; by eexists _, _.
Qed.

(** C9. Vulkan, [RecordCommands], at a build or update record met by the
    top-level loop after the records [pre].  A build of a container that is
    already built ends recording with the error "Acceleration Container is
    already built"; an update of a container whose flags lack the
    allow-update bit ends it with "Acceleration Container does not support
    Updates"; an update of a container that allows updates but is not built
    ends it with "Acceleration Container must be built before updating".
    In each case the result is an error handed to the caller, no failed
    assertion, nothing more is recorded and the rest of the stream is not
    read.  In every other case the record ends well. *)
Theorem acceleration_container_validation usages loop pre top container rest
    (w w1 : World) :
  foldRec pre (recordStep usages) loop w = (Ok (InRecordCommands top), w1) ->
  (if containerBuilt w1 container
   then recordFrom usages loop
          (pre ++ BuildRayTracingAccelerationContainer container :: rest) w
        = (Err "Acceleration Container is already built", w1)
   else exists hasBuild w2,
          RecordBuildRayTracingAccelerationContainer container
            (hasBottomLevelContainerBuild top) w1 = (Ok hasBuild, w2))
  /\ (if allowsUpdate container
      then if containerBuilt w1 container
           then exists hasUpdate w2,
                  RecordUpdateRayTracingAccelerationContainer container
                    (hasBottomLevelContainerUpdate top) w1 = (Ok hasUpdate, w2)
           else recordFrom usages loop
                  (pre ++ UpdateRayTracingAccelerationContainer container :: rest) w
                = (Err "Acceleration Container must be built before updating", w1)
      else recordFrom usages loop
             (pre ++ UpdateRayTracingAccelerationContainer container :: rest) w
           = (Err "Acceleration Container does not support Updates", w1)).
Proof.
  intros Hpre. split.
  - pose proof (RecordBuildRayTracingAccelerationContainer_spec container
                  (hasBottomLevelContainerBuild top) w1) as Hbuild.
    destruct (containerBuilt w1 container); [| exact Hbuild].
    rewrite recordFrom_app. erewrite bind_Ok; [| exact Hpre].
    cbn [recordFrom recordStep RecordCommands_step].
    erewrite bind_Err; [done |]. by erewrite bind_Err; [| exact Hbuild].
  - pose proof (RecordUpdateRayTracingAccelerationContainer_spec container
                  (hasBottomLevelContainerUpdate top) w1) as Hupdate.
    destruct (allowsUpdate container); [destruct (containerBuilt w1 container) |];
      [exact Hupdate | |];
      rewrite recordFrom_app; (erewrite bind_Ok; [| exact Hpre]);
      cbn [recordFrom recordStep RecordCommands_step];
      (erewrite bind_Err; [done |]); by erewrite bind_Err; [| exact Hupdate].
Qed.

(** *** The pipeline held by the loop of RecordRenderPass *)

Ltac invert_Ok H :=
  repeat (let x := fresh "x" in
          let w := fresh "w" in
          let Hm := fresh "Hm" in
          apply bind_inv_Ok in H as (x & w & Hm & H));
  unfold ret in H; injection H as <- <-.

Lemma boundPipeline_cons before cmd cmds :
  boundPipeline before (cmd :: cmds) = boundPipeline (boundPipeline before [cmd]) cmds.
Proof.
  unfold boundPipeline, replayBundles. cbn [flat_map].
  by rewrite app_nil_r, fold_left_app.
Qed.

Lemma EncodeRenderBundleCommand_lastPipeline pass cmd (w : World) pass' w' :
  EncodeRenderBundleCommand pass cmd w = (Ok pass', w') ->
  lastPipeline pass'
  = match cmd with
    | SetRenderPipeline pipeline => Some pipeline
    | _ => lastPipeline pass
    end.
Proof.
  intros Hrun.
  destruct cmd; unfold EncodeRenderBundleCommand in Hrun; cbv beta iota zeta in Hrun;
    try (unfold abort in Hrun; discriminate Hrun); by invert_Ok Hrun.
Qed.

Lemma replayed_bundle_lastPipeline bundle pass (w : World) pass' w' :
  foldRec bundle EncodeRenderBundleCommand pass w = (Ok pass', w') ->
  lastPipeline pass'
  = fold_left (fun last cmd =>
                 match cmd with
                 | SetRenderPipeline pipeline => Some pipeline
                 | _ => last
                 end) bundle (lastPipeline pass).
Proof.
  revert pass w. induction bundle as [| cmd bundle IH]; intros pass w Hrun.
  - by injection Hrun as <- <-.
  - cbn [foldRec] in Hrun. apply bind_inv_Ok in Hrun as (pass1 & w1 & Hcmd & Hrun).
    apply IH in Hrun as ->. cbn [fold_left].
    by rewrite (EncodeRenderBundleCommand_lastPipeline _ _ _ _ _ Hcmd).
Qed.

Lemma replayed_bundles_lastPipeline bundles pass (w : World) pass' w' :
  foldRec bundles (fun pass bundle => foldRec bundle EncodeRenderBundleCommand pass) pass w
  = (Ok pass', w') ->
  lastPipeline pass' = boundPipeline (lastPipeline pass) [ExecuteBundles bundles].
Proof.
  unfold boundPipeline, replayBundles. cbn [flat_map]. rewrite app_nil_r.
  revert pass w. induction bundles as [| bundle bundles IH]; intros pass w Hrun.
  - by injection Hrun as <- <-.
  - cbn [foldRec] in Hrun. apply bind_inv_Ok in Hrun as (pass1 & w1 & Hbundle & Hrun).
    apply IH in Hrun as ->. cbn [concat]. rewrite fold_left_app.
    by rewrite (replayed_bundle_lastPipeline _ _ _ _ _ Hbundle).
Qed.

(** A turn of the loop of [RecordRenderPass] that does not end the pass
    stays in the loop, and holds the pipeline of the last
    [SetRenderPipeline] so far. *)
Lemma RecordRenderPass_step_lastPipeline top pass cmd (w : World) loop' w' :
  cmd <> EndRenderPass ->
  RecordRenderPass_step top pass cmd w = (Ok loop', w') ->
  exists pass',
    loop' = InRecordRenderPass top pass'
    /\ lastPipeline pass' = boundPipeline (lastPipeline pass) [cmd].
Proof.
  intros Hcmd Hrun.
  destruct cmd; try done; unfold RecordRenderPass_step in Hrun;
    cbv beta iota in Hrun;
    try (apply bind_inv_Ok in Hrun as (pass1 & w1 & Hencode & Hrun);
         injection Hrun as <- <-; exists pass1; split; [done |];
         first [ by apply replayed_bundles_lastPipeline in Hencode
               | by apply EncodeRenderBundleCommand_lastPipeline in Hencode ]);
    invert_Ok Hrun; by exists pass.
Qed.

Lemma renderPass_loop_lastPipeline usages top pass cmds (w : World) loop' w' :
  EndRenderPass ∉ cmds ->
  foldRec cmds (recordStep usages) (InRecordRenderPass top pass) w = (Ok loop', w') ->
  exists pass',
    loop' = InRecordRenderPass top pass'
    /\ lastPipeline pass' = boundPipeline (lastPipeline pass) cmds.
Proof.
  revert pass w. induction cmds as [| cmd cmds IH]; intros pass w Hend Hrun.
  - injection Hrun as <- <-. by exists pass.
  - apply not_elem_of_cons in Hend as [Hcmd Hend].
    cbn [foldRec] in Hrun. apply bind_inv_Ok in Hrun as (loop1 & w1 & Hstep & Hrun).
    cbn [recordStep] in Hstep.
    apply RecordRenderPass_step_lastPipeline in Hstep as (pass1 & -> & Hlast); [| done].
    destruct (IH pass1 w1 Hend Hrun) as (pass' & -> & Hlast').
    exists pass'. split; [done |]. by rewrite boundPipeline_cons, <- Hlast.
Qed.

Lemma RecordRenderPass_begin_lastPipeline renderPassCmd (w : World) pass w' :
  RecordRenderPass_begin renderPassCmd w = (Ok pass, w') -> lastPipeline pass = None.
Proof. intros Hrun. unfold RecordRenderPass_begin in Hrun. by invert_Ok Hrun. Qed.

Lemma EncodeRenderBundleCommand_SetIndexBuffer pass buffer offset (w : World) :
  EncodeRenderBundleCommand pass (SetIndexBuffer buffer offset) w
  = match lastPipeline pass with
    | None => (Fatal "ASSERT(lastPipeline != nullptr)", w)
    | Some pipeline =>
      (Ok pass,
       appendCommands w
         [CmdBindIndexBuffer (buffer_addr buffer) offset
            (VulkanIndexType (GetVertexStateDescriptor_indexFormat pipeline))])
    end.
Proof. unfold EncodeRenderBundleCommand. by destruct (lastPipeline pass). Qed.

(** C10. Vulkan, [RecordRenderPass].  [EncodeRenderBundleCommand], which
    handles the records of the pass and of the bundles replayed in it, on
    [SetIndexBuffer]: with no pipeline held it stops on
    [ASSERT(lastPipeline != nullptr)], which is no error handed to the
    caller, and records nothing; with a pipeline held it binds the index
    buffer with the index type of that pipeline.  The pass starts with no
    pipeline held, and after the records [pre] of the pass the pipeline
    held is the one of the last [SetRenderPipeline] among them, bundles
    included.  So a [SetIndexBuffer] met when no [SetRenderPipeline] came
    before it in the pass stops recording on the assertion. *)
Theorem set_index_buffer_requires_pipeline usages top renderPassCmd pre buffer offset rest
    (w w1 : World) loop1 :
  EndRenderPass ∉ pre ->
  foldRec (BeginRenderPass renderPassCmd :: pre) (recordStep usages)
    (InRecordCommands top) w = (Ok loop1, w1) ->
  (exists pass,
     loop1 = InRecordRenderPass top pass
     /\ lastPipeline pass = boundPipeline None pre)
  /\ match boundPipeline None pre with
     | None =>
       recordFrom usages (InRecordCommands top)
         (BeginRenderPass renderPassCmd :: pre ++ SetIndexBuffer buffer offset :: rest) w
       = (Fatal "ASSERT(lastPipeline != nullptr)", w1)
     | Some pipeline =>
       recordStep usages loop1 (SetIndexBuffer buffer offset) w1
       = (Ok loop1,
          appendCommands w1
            [CmdBindIndexBuffer (buffer_addr buffer) offset
               (VulkanIndexType (GetVertexStateDescriptor_indexFormat pipeline))])
     end
  /\ forall pass (w' : World),
       EncodeRenderBundleCommand pass (SetIndexBuffer buffer offset) w'
       = match lastPipeline pass with
         | None => (Fatal "ASSERT(lastPipeline != nullptr)", w')
         | Some pipeline =>
           (Ok pass,
            appendCommands w'
              [CmdBindIndexBuffer (buffer_addr buffer) offset
                 (VulkanIndexType (GetVertexStateDescriptor_indexFormat pipeline))])
         end.
Proof.
  intros Hend Hpre.
  assert (Hloop : exists pass,
            loop1 = InRecordRenderPass top pass
            /\ lastPipeline pass = boundPipeline None pre).
  { cbn [foldRec] in Hpre. apply bind_inv_Ok in Hpre as (loop0 & w0 & Hbegin & Hpre).
    cbn [recordStep RecordCommands_step] in Hbegin.
    apply bind_inv_Ok in Hbegin as (usagesOfPass & wa & _ & Hbegin).
    apply bind_inv_Ok in Hbegin as ([] & wb & _ & Hbegin).
    apply bind_inv_Ok in Hbegin as (pass0 & wc & Hbegin & Hret).
    injection Hret as <- <-.
    apply RecordRenderPass_begin_lastPipeline in Hbegin.
    destruct (renderPass_loop_lastPipeline _ _ _ _ _ _ _ Hend Hpre)
      as (pass & -> & Hlast).
    exists pass. split; [done |]. by rewrite Hlast, Hbegin. }
  split; [exact Hloop |].
  split; [| intros pass w'; apply EncodeRenderBundleCommand_SetIndexBuffer].
  destruct Hloop as (pass & -> & Hlast).
  pose proof (EncodeRenderBundleCommand_SetIndexBuffer pass buffer offset w1) as Hset.
  rewrite Hlast in Hset.
  destruct (boundPipeline None pre) as [pipeline |].
  - cbn [recordStep]. unfold RecordRenderPass_step.
    by erewrite bind_Ok; [| exact Hset].
  - change (BeginRenderPass renderPassCmd :: pre ++ SetIndexBuffer buffer offset :: rest)
      with ((BeginRenderPass renderPassCmd :: pre) ++ SetIndexBuffer buffer offset :: rest).
    rewrite recordFrom_app. erewrite bind_Ok; [| exact Hpre].
    cbn [recordFrom recordStep]. unfold RecordRenderPass_step.
    erewrite bind_Fatal; [done |]. by erewrite bind_Fatal; [| exact Hset].
Qed.

End VulkanLoopFacts.

Section VulkanRecordsSample.
Import Vulkan Samples.
#[local] Existing Instance dawnConstants.
#[local] Existing Instance vulkanDevice.

(** Building the same container twice: the second build ends recording
    with the error, after the one build that was recorded. *)
Lemma acceleration_container_validation_sample :
  exists w1,
    RecordCommands []
      [BuildRayTracingAccelerationContainer bottomContainer;
       BuildRayTracingAccelerationContainer bottomContainer;
       UpdateRayTracingAccelerationContainer bottomContainer] vulkanWorld
    = (Err "Acceleration Container is already built", w1)
    /\ commands w1 = [CmdBuildAccelerationStructureNV 1 0 0 1 false false 81 None false].
Proof.
  set (w1 := (foldRec [BuildRayTracingAccelerationContainer bottomContainer]
                (recordStep []) (InRecordCommands firstPass) vulkanWorld).2).
  assert (Hpre : foldRec [BuildRayTracingAccelerationContainer bottomContainer]
                   (recordStep []) (InRecordCommands firstPass) vulkanWorld
                 = (Ok (InRecordCommands
                          {| nextPassNumber := 0;
                             hasBottomLevelContainerBuild := true;
                             hasBottomLevelContainerUpdate := false |}), w1))
    by (vm_compute; reflexivity).
  destruct (acceleration_container_validation [] (InRecordCommands firstPass)
              [BuildRayTracingAccelerationContainer bottomContainer] _ bottomContainer
              [UpdateRayTracingAccelerationContainer bottomContainer]
              vulkanWorld w1 Hpre) as [Hbuild _].
  change (containerBuilt w1 bottomContainer) with true in Hbuild.
  exists w1. split; [exact Hbuild | reflexivity].
Defined.

(** A pass that sets an index buffer first: recording stops on the
    assertion, after what beginning the pass recorded. *)
Lemma set_index_buffer_requires_pipeline_sample :
  exists w1,
    RecordCommands [noUsages]
      [BeginRenderPass (samplePass loadStoreAndResolve);
       SetIndexBuffer bufferA 0;
       EndRenderPass] vulkanWorld
    = (Fatal "ASSERT(lastPipeline != nullptr)", w1).
Proof.
  set (run := foldRec [BeginRenderPass (samplePass loadStoreAndResolve)]
                (recordStep [noUsages]) (InRecordCommands firstPass) vulkanWorld).
  assert (Hpre : run = (Ok (InRecordRenderPass firstPass
                              {| descriptorSets := BindGroupTracker_init;
                                 lastPipeline := None |}), run.2))
    by (vm_compute; reflexivity).
  destruct (set_index_buffer_requires_pipeline [noUsages] firstPass
              (samplePass loadStoreAndResolve) [] bufferA 0 [EndRenderPass]
              vulkanWorld run.2 _ (not_elem_of_nil _) Hpre) as (_ & Hstop & _).
  exists run.2. exact Hstop.
Defined.

End VulkanRecordsSample.

(** ** Vulkan: what the transitions and the tracker calls record *)
Section VulkanTraceFacts.
Import Vulkan.
Context `{Constants}.
Context `{Device}.

Lemma filter_bufferBarrier transitions :
  List.filter isBarrierCall (map bufferBarrier transitions) = map bufferBarrier transitions.
Proof.
  induction transitions as [| [[buffer lastUsage] usage] rest IH]; [done |].
  simpl. by rewrite IH.
Qed.

Lemma filter_imageBarrier transitions :
  List.filter isBarrierCall (map imageBarrier transitions) = map imageBarrier transitions.
Proof.
  induction transitions as [| [[texture lastUsage] usage] rest IH]; [done |].
  simpl. by rewrite IH.
Qed.

(** The loop over the buffers of a pass: one barrier call for each
    transition that is needed, and nothing else. *)
Lemma transition_buffers_spec (entries : list (Buffer * Z)) (w : World) :
  exists w',
    forEach entries transitionBufferForPass w = (Ok tt, w')
    /\ commands w'
       = commands w
         ++ map bufferBarrier
              (neededTransitions (bufferLastUsage w)
                 (map (fun entry => (buffer_addr (fst entry), snd entry)) entries))
    /\ textureLastUsage w' = textureLastUsage w
    /\ initFlags w' = initFlags w.
Proof.
  revert w. induction entries as [| [buffer usage] rest IH]; intros w.
  - exists w. simpl. by rewrite app_nil_r.
  - rewrite forEach_cons. cbn [map neededTransitions fst snd].
    unfold bind, transitionBufferForPass, Buffer_TransitionUsageNow.
    destruct (default 0 (bufferLastUsage w !! buffer_addr buffer) =? usage).
    + apply IH.
    + edestruct IH as (w' & -> & Htrace & Htextures & Hflags).
      exists w'. split; [done |]. rewrite Htrace. cbn [commands bufferLastUsage map].
      rewrite <- app_assoc. by split.
Qed.

Lemma EnsureSubresourceContentInitialized_spec texture baseMipLevel levelCount
    baseArrayLayer layerCount (w : World) :
  exists w' clears,
    EnsureSubresourceContentInitialized texture
      baseMipLevel levelCount baseArrayLayer layerCount w = (Ok tt, w')
    /\ commands w'
       = commands w
         ++ Call_EnsureSubresourceContentInitialized (texture_addr texture)
              baseMipLevel levelCount baseArrayLayer layerCount :: clears
    /\ Forall (fun e => isBarrierCall e = false /\ isTrackerCall e = false
                        /\ isCopyCall e = false) clears
    /\ bufferLastUsage w' = bufferLastUsage w
    /\ textureLastUsage w' = textureLastUsage w.
Proof.
  unfold EnsureSubresourceContentInitialized, bind, emit, IsSubresourceContentInitialized.
  cbn [initFlags appendCommands].
  destruct (isSubresourceContentInitialized _ _ _ _ _ _).
  - eexists _, []. split; [reflexivity |]. by split.
  - eexists _, [_]. split; [reflexivity |]. cbn [commands setInitFlags snd appendCommands].
    rewrite <- app_assoc. split; [done |]. split; [| done]. by repeat constructor.
Qed.

Lemma Texture_TransitionUsageNow_spec texture usage (w : World) :
  exists w',
    Texture_TransitionUsageNow texture usage w = (Ok tt, w')
    /\ commands w'
       = commands w
         ++ map imageBarrier
              (neededTransitions (textureLastUsage w) [(texture_addr texture, usage)])
    /\ textureLastUsage w'
       = trackedAfter (textureLastUsage w) [(texture_addr texture, usage)]
    /\ bufferLastUsage w' = bufferLastUsage w.
Proof.
  unfold Texture_TransitionUsageNow. cbn [neededTransitions trackedAfter].
  destruct (default 0 (textureLastUsage w !! texture_addr texture) =? usage).
  - exists w. simpl. by rewrite app_nil_r.
  - by eexists.
Qed.

Lemma Buffer_TransitionUsageNow_spec buffer usage (w : World) :
  exists w',
    Buffer_TransitionUsageNow buffer usage w = (Ok tt, w')
    /\ commands w'
       = commands w
         ++ map bufferBarrier
              (neededTransitions (bufferLastUsage w) [(buffer_addr buffer, usage)])
    /\ bufferLastUsage w'
       = trackedAfter (bufferLastUsage w) [(buffer_addr buffer, usage)]
    /\ textureLastUsage w' = textureLastUsage w.
Proof.
  unfold Buffer_TransitionUsageNow. cbn [neededTransitions trackedAfter].
  destruct (default 0 (bufferLastUsage w !! buffer_addr buffer) =? usage).
  - exists w. simpl. by rewrite app_nil_r.
  - by eexists.
Qed.

(** The loop over the textures of a pass: lazy clears and barrier calls
    take turns, and the barrier calls are one for each transition that is
    needed. *)
Lemma transition_textures_spec (entries : list (Texture * Z)) (w : World) :
  exists w' new,
    forEach entries transitionTextureForPass w = (Ok tt, w')
    /\ commands w' = commands w ++ new
    /\ List.filter isBarrierCall new
       = map imageBarrier
           (neededTransitions (textureLastUsage w)
              (map (fun entry => (texture_addr (fst entry), snd entry)) entries)).
Proof.
  revert w. induction entries as [| [texture usage] rest IH]; intros w.
  - exists w, []. simpl. by rewrite app_nil_r.
  - rewrite forEach_cons. cbn [map fst snd]. rewrite neededTransitions_cons.
    unfold transitionTextureForPass.
    assert (Hclear : exists w1 clears,
              (if Z.land usage TextureUsage_OutputAttachment =? 0
               then EnsureSubresourceContentInitialized texture
                      0 (GetNumMipLevels texture) 0 (GetArrayLayers texture)
               else ret tt) w = (Ok tt, w1)
              /\ commands w1 = commands w ++ clears
              /\ List.filter isBarrierCall clears = []
              /\ textureLastUsage w1 = textureLastUsage w).
    { destruct (Z.land usage TextureUsage_OutputAttachment =? 0).
      - destruct (EnsureSubresourceContentInitialized_spec texture
                    0 (GetNumMipLevels texture) 0 (GetArrayLayers texture) w)
          as (w1 & clears & Hrun & Htrace & Hclears & _ & Htextures).
        eexists w1, (_ :: clears). split; [exact Hrun |]. split; [exact Htrace |].
        split; [| done]. cbn [List.filter isBarrierCall].
        apply filter_none. eapply Forall_impl; [exact Hclears |]. by intros e (? & _).
      - exists w, []. simpl. by rewrite app_nil_r. }
    destruct Hclear as (w1 & clears & Hrun1 & Htrace1 & Hclears & Htextures1).
    destruct (Texture_TransitionUsageNow_spec texture usage w1)
      as (w2 & Hrun2 & Htrace2 & Htextures2 & _).
    destruct (IH w2) as (w' & new & Hrun & Htrace & Hnew).
    exists w', (clears
                ++ map imageBarrier
                     (neededTransitions (textureLastUsage w) [(texture_addr texture, usage)])
                ++ new).
    split; [| split].
    + erewrite bind_Ok; [exact Hrun |]. by erewrite bind_Ok; [| exact Hrun1].
    + rewrite Htrace, Htrace2, Htrace1, Htextures1. by rewrite <- !app_assoc.
    + rewrite !List.filter_app, Hclears, filter_imageBarrier, Hnew.
      by rewrite Htextures2, Htextures1, map_app.
Qed.

(** [TransitionForPass] ends well, and its barrier calls are one for each
    transition the pass needs. *)
Lemma TransitionForPass_spec (usages : PassResourceUsage) (w : World) :
  exists w' new,
    TransitionForPass usages w = (Ok tt, w')
    /\ commands w' = commands w ++ new
    /\ List.filter isBarrierCall new = passBarrierCalls w usages.
Proof.
  unfold TransitionForPass, passBarrierCalls, bufferEntries, textureEntries.
  destruct (transition_buffers_spec (usage_buffers usages) w)
    as (w1 & Hrun1 & Htrace1 & Htextures1 & _).
  destruct (transition_textures_spec (usage_textures usages) w1)
    as (w' & new & Hrun2 & Htrace2 & Hnew).
  eexists w', (_ ++ new). split; [| split].
  - by erewrite bind_Ok; [| exact Hrun1].
  - by rewrite Htrace2, Htrace1, <- app_assoc.
  - by rewrite List.filter_app, filter_bufferBarrier, Hnew, Htextures1.
Qed.

(** *** The copy records *)

Lemma records_emit_vk (P : Event -> Prop) (e : Event) :
  P e -> records commands P (emit e).
Proof. intros He w. exists [e]. split; [done | by constructor]. Qed.

Lemma records_Buffer_TransitionUsageNow (P : Event -> Prop) buffer usage :
  (forall barrier, P (CmdPipelineBarrier barrier)) ->
  records commands P (Buffer_TransitionUsageNow buffer usage).
Proof.
  intros HP w. unfold Buffer_TransitionUsageNow.
  destruct (_ =? _); [exists []; by rewrite app_nil_r |].
  eexists [_]. split; [done |]. by constructor.
Qed.

Lemma records_Texture_TransitionUsageNow (P : Event -> Prop) texture usage :
  (forall barrier, P (CmdPipelineBarrier barrier)) ->
  records commands P (Texture_TransitionUsageNow texture usage).
Proof.
  intros HP w. unfold Texture_TransitionUsageNow.
  destruct (_ =? _); [exists []; by rewrite app_nil_r |].
  eexists [_]. split; [done |]. by constructor.
Qed.


(** The call on the tracker for the destination of a copy is made, ends
    well, and comes with no copy call. *)
Lemma destination_step_spec texture copySize mipLevel arrayLayer (w : World) :
  exists w' before,
    (if IsCompleteSubresourceCopiedTo texture copySize mipLevel
     then SetIsSubresourceContentInitialized true texture mipLevel 1 arrayLayer 1
     else EnsureSubresourceContentInitialized texture mipLevel 1 arrayLayer 1) w
    = (Ok tt, w')
    /\ commands w' = commands w ++ before
    /\ List.filter isTrackerCall before
       = [destinationCall texture copySize mipLevel arrayLayer]
    /\ Forall (fun e => isCopyCall e = false) before.
Proof.
  unfold destinationCall.
  destruct (IsCompleteSubresourceCopiedTo texture copySize mipLevel).
  - eexists _, [_]. split; [reflexivity |]. split; [reflexivity |].
    split; [done |]. by repeat constructor.
  - destruct (EnsureSubresourceContentInitialized_spec texture mipLevel 1 arrayLayer 1 w)
      as (w' & clears & Hrun & Htrace & Hclears & _).
    eexists w', (_ :: clears). split; [exact Hrun |]. split; [exact Htrace |]. split.
    + cbn [List.filter isTrackerCall]. f_equal. apply filter_none.
      eapply Forall_impl; [exact Hclears |]. by intros e (_ & ? & _).
    + constructor; [done |]. eapply Forall_impl; [exact Hclears |]. by intros e (_ & _ & ?).
Qed.



End VulkanTraceFacts.

(** ** D3D12: the barrier of a pass and the tracker calls of the copies *)
Section D3D12TraceFacts.
Import D3D12.
Context `{Constants}.
Context `{Device}.
Context {A : Type} `{ShaderVisibleDescriptorAllocator A}.

Local Abbreviation World := (World (A := A)).

Lemma collectBufferBarrier_spec barriers bufferUsages buffer usage (w : World) :
  exists w',
    collectBufferBarrier (barriers, bufferUsages) (buffer, usage) w
    = (Ok (barriers
           ++ map bufferTransition
                (neededTransitions (bufferState w) [(buffer_addr buffer, usage)]),
           Z.lor bufferUsages usage), w')
    /\ commandList w' = commandList w
    /\ bufferState w' = trackedAfter (bufferState w) [(buffer_addr buffer, usage)]
    /\ textureState w' = textureState w.
Proof.
  unfold collectBufferBarrier, bind, Buffer_TrackUsageAndGetResourceBarrier.
  cbn [neededTransitions trackedAfter].
  destruct (default 0 (bufferState w !! buffer_addr buffer) =? usage); cbn [ret].
  - exists w. by rewrite app_nil_r.
  - by eexists.
Qed.

Lemma collectTextureBarrier_spec barriers textureUsages texture usage (w : World) :
  exists w',
    collectTextureBarrier (barriers, textureUsages) (texture, usage) w
    = (Ok (barriers
           ++ map textureTransition
                (neededTransitions (textureState w) [(texture_addr texture, usage)]),
           Z.lor textureUsages usage), w')
    /\ commandList w' = commandList w
    /\ textureState w' = trackedAfter (textureState w) [(texture_addr texture, usage)].
Proof.
  unfold collectTextureBarrier, bind, Texture_TrackUsageAndGetResourceBarrier.
  cbn [neededTransitions trackedAfter].
  destruct (default 0 (textureState w !! texture_addr texture) =? usage); cbn [ret].
  - exists w. by rewrite app_nil_r.
  - by eexists.
Qed.

(** The first loop of [PrepareResourcesForSubmission] collects the
    transitions the buffers need and records nothing. *)
Lemma collect_buffers_spec (entries : list (Buffer * Z)) barriers bufferUsages (w : World) :
  exists bufferUsages' w',
    foldRec entries collectBufferBarrier (barriers, bufferUsages) w
    = (Ok (barriers
           ++ map bufferTransition
                (neededTransitions (bufferState w)
                   (map (fun entry => (buffer_addr (fst entry), snd entry)) entries)),
           bufferUsages'), w')
    /\ commandList w' = commandList w
    /\ textureState w' = textureState w.
Proof.
  revert barriers bufferUsages w.
  induction entries as [| [buffer usage] rest IH]; intros barriers bufferUsages w.
  - exists bufferUsages, w. simpl. by rewrite app_nil_r.
  - rewrite foldRec_cons. cbn [map fst snd]. rewrite neededTransitions_cons.
    destruct (collectBufferBarrier_spec barriers bufferUsages buffer usage w)
      as (w1 & Hrun1 & Htrace1 & Hbuffers1 & Htextures1).
    erewrite bind_Ok; [| exact Hrun1].
    edestruct IH as (bufferUsages' & w' & -> & Htrace & Htextures).
    exists bufferUsages', w'. rewrite Hbuffers1, map_app, app_assoc.
    split; [done |]. by rewrite Htrace, Htextures.
Qed.

Lemma collect_textures_spec (entries : list (Texture * Z)) barriers textureUsages
    (w : World) :
  exists textureUsages' w',
    foldRec entries collectTextureBarrier (barriers, textureUsages) w
    = (Ok (barriers
           ++ map textureTransition
                (neededTransitions (textureState w)
                   (map (fun entry => (texture_addr (fst entry), snd entry)) entries)),
           textureUsages'), w')
    /\ commandList w' = commandList w.
Proof.
  revert barriers textureUsages w.
  induction entries as [| [texture usage] rest IH]; intros barriers textureUsages w.
  - exists textureUsages, w. simpl. by rewrite app_nil_r.
  - rewrite foldRec_cons. cbn [map fst snd]. rewrite neededTransitions_cons.
    destruct (collectTextureBarrier_spec barriers textureUsages texture usage w)
      as (w1 & Hrun1 & Htrace1 & Htextures1).
    erewrite bind_Ok; [| exact Hrun1].
    edestruct IH as (textureUsages' & w' & -> & Htrace).
    exists textureUsages', w'. rewrite Htextures1, map_app, app_assoc.
    split; [done |]. by rewrite Htrace.
Qed.

Lemma EnsureSubresourceContentInitialized_spec_d3d12 texture baseMipLevel levelCount
    baseArrayLayer layerCount (w : World) :
  exists w' clears,
    EnsureSubresourceContentInitialized texture
      baseMipLevel levelCount baseArrayLayer layerCount w = (Ok tt, w')
    /\ commandList w'
       = commandList w
         ++ Call_EnsureSubresourceContentInitialized (texture_addr texture)
              baseMipLevel levelCount baseArrayLayer layerCount :: clears
    /\ Forall (fun e => isBarrierCall e = false /\ isTrackerCall e = false
                        /\ isCopyCall e = false) clears
    /\ bufferState w' = bufferState w
    /\ textureState w' = textureState w.
Proof.
  unfold EnsureSubresourceContentInitialized, bind, emit, IsSubresourceContentInitialized.
  cbn [initFlags appendCommands].
  destruct (isSubresourceContentInitialized _ _ _ _ _ _).
  - eexists _, []. split; [reflexivity |]. by split.
  - eexists _, [_]. split; [reflexivity |].
    cbn [commandList setInitFlags snd appendCommands].
    rewrite <- app_assoc. split; [done |]. split; [| done]. by repeat constructor.
Qed.

(** The second loop records lazy clears only. *)
Lemma ensure_textures_spec (entries : list (Texture * Z)) (w : World) :
  exists w' clears,
    forEach entries ensureNonAttachmentInitialized w = (Ok tt, w')
    /\ commandList w' = commandList w ++ clears
    /\ Forall (fun e => isBarrierCall e = false) clears
    /\ bufferState w' = bufferState w
    /\ textureState w' = textureState w.
Proof.
  revert w. induction entries as [| [texture usage] rest IH]; intros w.
  - exists w, []. simpl. by rewrite app_nil_r.
  - rewrite forEach_cons. unfold ensureNonAttachmentInitialized at 1.
    destruct (Z.land usage TextureUsage_OutputAttachment =? 0).
    + destruct (EnsureSubresourceContentInitialized_spec_d3d12 texture
                  0 (GetNumMipLevels texture) 0 (GetArrayLayers texture) w)
        as (w1 & clears1 & Hrun1 & Htrace1 & Hclears1 & Hbuffers1 & Htextures1).
      destruct (IH w1) as (w' & clears & Hrun & Htrace & Hclears & Hbuffers & Htextures).
      eexists w', (_ :: clears1 ++ clears).
      split; [by erewrite bind_Ok; [| exact Hrun1] |].
      split; [rewrite Htrace, Htrace1, <- app_assoc; reflexivity |].
      split; [| by rewrite Hbuffers, Htextures].
      constructor; [done |]. apply Forall_app. split; [| done].
      eapply Forall_impl; [exact Hclears1 |]. by intros e (? & _).
    + destruct (IH w) as (w' & clears & Hrun & Hrest). exists w', clears.
      split; [| done]. by erewrite bind_Ok; [| reflexivity].
Qed.

(** [PrepareResourcesForSubmission] ends well.  It records the lazy
    clears of the textures of the pass and then, when a transition is
    needed, one [ResourceBarrier] call that holds every transition the pass
    needs. *)
Lemma PrepareResourcesForSubmission_spec (usages : PassResourceUsage) (w : World) :
  exists passHasUAV w' clears,
    PrepareResourcesForSubmission usages w = (Ok passHasUAV, w')
    /\ commandList w' = commandList w ++ clears ++ passBarrierCalls w usages
    /\ Forall (fun e => isBarrierCall e = false) clears.
Proof.
  unfold PrepareResourcesForSubmission, passBarrierCalls, passTransitions,
    bufferEntries, textureEntries.
  destruct (collect_buffers_spec (usage_buffers usages) [] 0 w)
    as (bufferUsages & w1 & Hrun1 & Htrace1 & Htextures1).
  erewrite bind_Ok; [| exact Hrun1]. cbn beta iota. rewrite app_nil_l.
  destruct (ensure_textures_spec (usage_textures usages) w1)
    as (w2 & clears & Hrun2 & Htrace2 & Hclears & _ & Htextures2).
  erewrite bind_Ok; [| exact Hrun2].
  destruct (collect_textures_spec (usage_textures usages)
              (map bufferTransition
                 (neededTransitions (bufferState w)
                    (map (fun entry => (buffer_addr (fst entry), snd entry))
                       (usage_buffers usages)))) 0 w2)
    as (textureUsages & w3 & Hrun3 & Htrace3).
  rewrite Htextures2, Htextures1 in Hrun3.
  erewrite bind_Ok; [| exact Hrun3]. cbn beta iota.
  assert (Htrace : commandList w3 = commandList w ++ clears)
    by (by rewrite Htrace3, Htrace2, Htrace1).
  clear Hrun1 Hrun2 Hrun3.
  destruct (_ ++ map textureTransition _) as [| transition transitions].
  - eexists _, w3, clears. cbn [length Z.of_nat Z.ltb Z.compare].
    erewrite bind_Ok; [| reflexivity].
    split; [reflexivity |]. split; [| done]. by rewrite app_nil_r.
  - assert (Hsome : (0 <? Z.of_nat (length (transition :: transitions))) = true)
      by (apply Z.ltb_lt; simpl; lia).
    rewrite Hsome. eexists _, _, clears.
    erewrite bind_Ok; [| reflexivity].
    split; [reflexivity |]. split; [| done].
    cbn [commandList appendCommands]. by rewrite Htrace, <- app_assoc.
Qed.
(** *** The copy records *)





End D3D12TraceFacts.

(** ** Both back ends: recording only appends *)

Section VulkanOrder.
Import Vulkan.
Context `{Constants}.
Context `{Device}.

Lemma records_silent_vk {X} (P : Event -> Prop) (m : Rec World X) :
  (forall w, commands (m w).2 = commands w) -> records commands P m.
Proof. intros Hm w. exists []. by rewrite Hm, app_nil_r. Qed.

Ltac head_of t :=
  match t with
  | ?f _ => head_of f
  | _ => t
  end.

Ltac appends_step :=
  match goal with
  | |- appends _ _ => unfold appends
  | |- records _ _ (bind _ _) => apply records_bind; [| intros ?]
  | |- records _ _ (ret _) => apply records_ret
  | |- records _ _ (abort _) => apply records_abort
  | |- records _ _ (fail _) => apply records_fail
  | |- records _ _ (ASSERT _ _) => apply records_ASSERT
  | |- records _ _ (forEach _ _) => apply records_forEach; intros ? _
  | |- records _ _ (foldRec _ _ _) => apply records_foldRec; intros ? ? _
  | |- records _ _ (emit _) => by apply records_emit_vk
  | |- records _ _ (Buffer_TransitionUsageNow _ _) =>
    by apply records_Buffer_TransitionUsageNow
  | |- records _ _ (Texture_TransitionUsageNow _ _) =>
    by apply records_Texture_TransitionUsageNow
  | |- records _ _ (if ?c then _ else _) => destruct c
  | |- records _ _ (match ?x with _ => _ end) => destruct x
  | |- records _ _ _ => apply records_silent_vk; intros ?; reflexivity
  | |- records _ _ ?m => let h := head_of m in unfold h
  end.

Ltac appends_auto := repeat appends_step.

Lemma appends_recordStep usages loop cmd : appends commands (recordStep usages loop cmd).
Proof.
  destruct loop; destruct cmd; unfold recordStep; appends_auto.
Qed.

Lemma appends_recordFrom usages loop cmds : appends commands (recordFrom usages loop cmds).
Proof.
  revert loop. induction cmds as [| cmd cmds IH]; intros loop.
  - destruct loop; appends_auto.
  - cbn [recordFrom]. apply records_bind; [apply appends_recordStep | exact IH].
Qed.

(** What recording a prefix of the stream appended stays where it is when
    the rest of the stream is recorded. *)
Lemma recordFrom_keeps_order usages loop (pre rest : list Command) (w : World) :
  exists chunk tail,
    commands (foldRec pre (recordStep usages) loop w).2 = commands w ++ chunk
    /\ commands (recordFrom usages loop (pre ++ rest) w).2 = commands w ++ chunk ++ tail.
Proof.
  assert (Hpre : appends commands (foldRec pre (recordStep usages) loop)).
  { apply records_foldRec. intros loop' cmd _. apply appends_recordStep. }
  destruct (Hpre w) as (chunk & Hchunk & _).
  rewrite recordFrom_app. unfold bind.
  destruct (foldRec pre (recordStep usages) loop w) as [[loop' | msg | why] w1];
    cbn [snd] in *.
  - destruct (appends_recordFrom usages loop' rest w1) as (tail & Htail & _).
    exists chunk, tail. split; [done |]. by rewrite Htail, Hchunk, <- app_assoc.
  - exists chunk, []. by rewrite app_nil_r.
  - exists chunk, []. by rewrite app_nil_r.
Qed.

(** Beginning a render pass records no barrier. *)
Lemma RecordRenderPass_begin_no_barrier renderPassCmd :
  records commands (fun e => isBarrierCall e = false)
    (RecordRenderPass_begin renderPassCmd).
Proof. unfold RecordRenderPass_begin. appends_auto. Qed.

(** The barrier calls of a record that begins a pass are those of
    [TransitionForPass]: one for each transition the pass needs. *)
Lemma begin_pass_barriers usagesList top cmd usages (w : World) :
  usagesList !! nextPassNumber top = Some usages ->
  match cmd with
  | BeginComputePass | BeginRayTracingPass | BeginRenderPass _ => True
  | _ => False
  end ->
  exists new,
    commands (recordStep usagesList (InRecordCommands top) cmd w).2 = commands w ++ new
    /\ List.filter isBarrierCall new = passBarrierCalls w usages.
Proof.
  intros Husages Hcmd.
  destruct (TransitionForPass_spec usages w) as (w1 & new & Hrun & Htrace & Hnew).
  destruct cmd; try done; cbn [recordStep RecordCommands_step]; rewrite Husages;
    (erewrite bind_Ok; [| reflexivity]); (erewrite bind_Ok; [| exact Hrun]).
  - exists new. by split.
  - exists new. by split.
  - assert (Hbegin : records commands (fun e => isBarrierCall e = false)
                       (bind (RecordRenderPass_begin cmd)
                          (fun pass => ret (InRecordRenderPass top pass)))).
    { apply records_bind; [apply RecordRenderPass_begin_no_barrier |].
      intros pass. apply records_ret. }
    destruct (Hbegin w1) as (tail & Htail & Hall).
    exists (new ++ tail). split; [by rewrite Htail, Htrace, <- app_assoc |].
    by rewrite List.filter_app, Hnew, (filter_none _ _ Hall), app_nil_r.
Qed.

(** What [TransitionForPass] records are barriers, tracker calls and lazy
    clears only. *)
Lemma TransitionForPass_preparation usages :
  records commands (fun e => isPreparationCall e = true) (TransitionForPass usages).
Proof. unfold TransitionForPass. appends_auto. Qed.

(** A render pass that begins well has recorded [vkCmdBeginRenderPass]. *)
Lemma RecordRenderPass_begin_trace renderPassCmd (w : World) pass w' :
  RecordRenderPass_begin renderPassCmd w = (Ok pass, w') ->
  exists before info after,
    commands w' = commands w ++ before ++ CmdBeginRenderPass info :: after.
Proof.
  intros Hrun. unfold RecordRenderPass_begin in Hrun.
  apply bind_inv_Ok in Hrun as (renderPassCmd' & wa & Hbegin & Hrest).
  unfold RecordBeginRenderPass in Hbegin.
  apply bind_inv_Ok in Hbegin as ([renderPass1 query] & wb & Hquery & Hbegin).
  assert (Hmarks : appends commands (buildRenderPassQuery renderPassCmd))
    by (unfold buildRenderPassQuery; appends_auto).
  destruct (Hmarks w) as (marks & Htrace & _). rewrite Hquery in Htrace. cbn [snd] in Htrace.
  unfold lift, bind in Hbegin. cbn beta iota in Hbegin.
  destruct (GetRenderPass query) as [renderPassVK | msg]; cbn [try] in Hbegin; [| done].
  destruct (CreateFramebuffer _) as [framebuffer | msg]; cbn [try] in Hbegin; [| done].
  cbn -[framebufferClearValues framebufferAttachments] in Hbegin.
  injection Hbegin as <- <-.
  cbn -[framebufferClearValues framebufferAttachments] in Hrest.
  injection Hrest as _ <-.
  cbn -[framebufferClearValues framebufferAttachments]. rewrite Htrace.
  eexists (marks ++ [_]), _, _. rewrite <- !app_assoc. cbn [app]. reflexivity.
Qed.

(** The record that begins a pass records first what [TransitionForPass]
    records, the barrier calls of the pass among it, and then, with no
    barrier call, what begins the pass itself. *)
Lemma begin_pass_barriers_first usagesList top cmd usages (w : World) :
  usagesList !! nextPassNumber top = Some usages ->
  match cmd with
  | BeginComputePass | BeginRayTracingPass | BeginRenderPass _ => True
  | _ => False
  end ->
  exists prep tail,
    commands (recordStep usagesList (InRecordCommands top) cmd w).2
    = commands w ++ prep ++ tail
    /\ List.filter isBarrierCall prep = passBarrierCalls w usages
    /\ Forall (fun e => isPreparationCall e = true) prep
    /\ Forall (fun e => isBarrierCall e = false) tail
    /\ (forall loop' w',
          recordStep usagesList (InRecordCommands top) cmd w = (Ok loop', w') ->
          forall renderPassCmd,
            cmd = BeginRenderPass renderPassCmd ->
            exists info, CmdBeginRenderPass info ∈ tail)
    /\ ((forall renderPassCmd, cmd <> BeginRenderPass renderPassCmd) -> tail = []).
Proof.
  intros Husages Hcmd.
  destruct (TransitionForPass_spec usages w) as (w1 & prep & Hrun & Htrace & Hprep).
  destruct (TransitionForPass_preparation usages w) as (prep' & Htrace' & Hall).
  rewrite Hrun in Htrace'. cbn [snd] in Htrace'.
  rewrite Htrace in Htrace'. apply app_inv_head in Htrace' as <-.
  destruct cmd as
    [| | renderPassCmd | | | | | | | | | | | | | | | | | | | | | | | | | | | | | | |];
    try done; cbn [recordStep RecordCommands_step]; rewrite Husages;
    (erewrite bind_Ok; [| reflexivity]); (erewrite bind_Ok; [| exact Hrun]).
  1, 2: exists prep, []; rewrite app_nil_r;
        (split; [exact Htrace |]); (split; [exact Hprep |]); (split; [exact Hall |]);
        (split; [done |]); split; [by intros ? ? _ ? ? | done].
  assert (Hbegin : records commands (fun e => isBarrierCall e = false)
                     (bind (RecordRenderPass_begin renderPassCmd)
                        (fun pass => ret (InRecordRenderPass top pass)))).
  { apply records_bind; [apply RecordRenderPass_begin_no_barrier |].
    intros pass. apply records_ret. }
  destruct (Hbegin w1) as (tail & Htail & Htailall).
  exists prep, tail. split; [by rewrite Htail, Htrace, <- app_assoc |].
  split; [exact Hprep |]. split; [exact Hall |]. split; [exact Htailall |].
  split.
  - intros loop' w' Hok _ _. rewrite Hok in Htail. cbn [snd] in Htail.
    apply bind_inv_Ok in Hok as (pass & w2 & Hpass & Hret). injection Hret as _ <-.
    apply RecordRenderPass_begin_trace in Hpass as (before & info & after & Hpass).
    rewrite Hpass in Htail. apply app_inv_head in Htail as <-.
    exists info. apply elem_of_app. right. by left.
  - intros Hother. by destruct (Hother renderPassCmd).
Qed.

End VulkanOrder.

Section D3D12Order.
Import D3D12.
Context `{Constants}.
Context `{Device}.
Context {A : Type} `{ShaderVisibleDescriptorAllocator A}.
Context {B : Type} `{RenderPassBuilder B}.

Local Abbreviation World := (World (A := A)).

Lemma appends_silent_d3d12 {X} (m : Rec World X) :
  (forall w, commandList (m w).2 = commandList w) -> appends commandList m.
Proof. intros Hm w. exists []. by rewrite Hm, app_nil_r. Qed.

Lemma appends_callAllocator {X} (f : A -> ResultOrError X * A) log :
  appends commandList (callAllocator f log).
Proof.
  intros w. unfold callAllocator. destruct (f (mAllocator w)) as [result allocator].
  eexists [_]. split; [done |]. by constructor.
Qed.

Lemma appends_Track_buffer buffer usage :
  appends commandList (Buffer_TrackUsageAndGetResourceBarrier (A := A) buffer usage).
Proof.
  apply appends_silent_d3d12. intros w. unfold Buffer_TrackUsageAndGetResourceBarrier.
  by destruct (_ =? _).
Qed.

Lemma appends_Track_texture texture usage :
  appends commandList (Texture_TrackUsageAndGetResourceBarrier (A := A) texture usage).
Proof.
  apply appends_silent_d3d12. intros w. unfold Texture_TrackUsageAndGetResourceBarrier.
  by destruct (_ =? _).
Qed.

Lemma appends_populateDirtyBindGroups (t : BindGroupTracker) indices :
  appends commandList (populateDirtyBindGroups (A := A) t indices).
Proof.
  induction indices as [| index rest IH]; [apply records_ret |].
  cbn [populateDirtyBindGroups]. apply records_bind.
  - unfold PopulateBindGroup. apply records_bind; [apply records_deref |].
    intros group. apply appends_callAllocator.
  - intros [|]; [exact IH | apply records_ret].
Qed.

Ltac head_of t :=
  match t with
  | ?f _ => head_of f
  | _ => t
  end.

Ltac appends_step :=
  match goal with
  | |- appends _ _ => unfold appends
  | |- records _ _ (bind _ _) => apply records_bind; [| intros ?]
  | |- records _ _ (ret _) => apply records_ret
  | |- records _ _ (abort _) => apply records_abort
  | |- records _ _ (fail _) => apply records_fail
  | |- records _ _ (ASSERT _ _) => apply records_ASSERT
  | |- records _ _ (forEach _ _) => apply records_forEach; intros ? _
  | |- records _ _ (foldRec _ _ _) => apply records_foldRec; intros ? ? _
  | |- records _ _ (emit _) => by apply records_emit
  | |- records _ _ (callAllocator _ _) => apply appends_callAllocator
  | |- records _ _ (populateDirtyBindGroups _ _) => apply appends_populateDirtyBindGroups
  | |- records _ _ (Buffer_TrackUsageAndGetResourceBarrier _ _) => apply appends_Track_buffer
  | |- records _ _ (Texture_TrackUsageAndGetResourceBarrier _ _) =>
    apply appends_Track_texture
  | |- records _ _ (if ?c then _ else _) => destruct c
  | |- records _ _ (match ?x with _ => _ end) => destruct x
  | |- records _ _ _ => apply appends_silent_d3d12; intros ?; reflexivity
  | |- records _ _ ?m => let h := head_of m in unfold h
  end.

Ltac appends_auto := repeat appends_step.

Lemma appends_recordStep_d3d12 usages loop cmd :
  appends commandList (recordStep (B := B) usages loop cmd).
Proof.
  destruct loop; destruct cmd; unfold recordStep; appends_auto.
Qed.

Lemma appends_recordFrom_d3d12 usages loop cmds :
  appends commandList (recordFrom (B := B) usages loop cmds).
Proof.
  revert loop. induction cmds as [| cmd cmds IH]; intros loop.
  - apply records_ret.
  - cbn [recordFrom]. apply records_bind; [apply appends_recordStep_d3d12 | exact IH].
Qed.

Lemma recordFrom_app_d3d12 usages loop (pre rest : list Command) (w : World) :
  recordFrom (B := B) usages loop (pre ++ rest) w
  = bind (foldRec pre (recordStep usages) loop)
      (fun loop' => recordFrom usages loop' rest) w.
Proof.
  revert loop w. induction pre as [| cmd pre IH]; intros loop w; [reflexivity |].
  change (recordFrom usages loop ((cmd :: pre) ++ rest) w)
    with (bind (recordStep usages loop cmd)
            (fun loop' => recordFrom usages loop' (pre ++ rest)) w).
  change (foldRec (cmd :: pre) (recordStep usages) loop)
    with (bind (recordStep (B := B) usages loop cmd)
            (fun loop' => foldRec pre (recordStep usages) loop')).
  unfold bind at 1 2 3.
  destruct (recordStep usages loop cmd w) as [[loop' | msg | why] w1];
    [| reflexivity | reflexivity].
  rewrite IH. reflexivity.
Qed.

Lemma recordFrom_keeps_order_d3d12 usages loop (pre rest : list Command) (w : World) :
  exists chunk tail,
    commandList (foldRec pre (recordStep (B := B) usages) loop w).2
    = commandList w ++ chunk
    /\ commandList (recordFrom (B := B) usages loop (pre ++ rest) w).2
       = commandList w ++ chunk ++ tail.
Proof.
  assert (Hpre : appends commandList (foldRec pre (recordStep (B := B) usages) loop)).
  { apply records_foldRec. intros loop' cmd _. apply appends_recordStep_d3d12. }
  destruct (Hpre w) as (chunk & Hchunk & _).
  rewrite recordFrom_app_d3d12. unfold bind.
  destruct (foldRec pre (recordStep usages) loop w) as [[loop' | msg | why] w1];
    cbn [snd] in *.
  - destruct (appends_recordFrom_d3d12 usages loop' rest w1) as (tail & Htail & _).
    exists chunk, tail. split; [done |]. by rewrite Htail, Hchunk, <- app_assoc.
  - exists chunk, []. by rewrite app_nil_r.
  - exists chunk, []. by rewrite app_nil_r.
Qed.

(** A record that begins a pass first records the lazy clears and the one
    barrier call of [PrepareResourcesForSubmission]; what else it records
    comes after. *)
Lemma begin_pass_barrier_d3d12 usagesList top cmd usages (w : World) :
  usagesList !! nextPassNumber top = Some usages ->
  match cmd with
  | BeginComputePass | BeginRenderPass _ => True
  | _ => False
  end ->
  exists clears tail,
    commandList (recordStep (B := B) usagesList (InRecordCommands top) cmd w).2
    = commandList w ++ clears ++ passBarrierCalls w usages ++ tail
    /\ Forall (fun e => isBarrierCall e = false) clears
    /\ (cmd = BeginComputePass -> tail = []).
Proof.
  intros Husages Hcmd.
  destruct (PrepareResourcesForSubmission_spec usages w)
    as (passHasUAV & w1 & clears & Hrun & Htrace & Hclears).
  destruct cmd; try done; cbn [recordStep RecordCommands_step]; rewrite Husages;
    (erewrite bind_Ok; [| reflexivity]); (erewrite bind_Ok; [| exact Hrun]).
  - exists clears, []. rewrite app_nil_r. by split.
  - match goal with
    | |- context [commandList (?m w1).2] => assert (Hbegin : appends commandList m)
    end.
    { appends_auto. }
    destruct (Hbegin w1) as (tail & Htail & _).
    exists clears, tail. split; [| by split].
    by rewrite Htail, Htrace, <- !app_assoc.
Qed.

End D3D12Order.

(** ** Both back ends: the transitions of a pass, and the copies *)
Section BothBackEnds.
Context `{Constants}.
Context {vulkanDevice : Vulkan.Device} {d3d12Device : D3D12.Device}.
Context {A : Type} `{D3D12.ShaderVisibleDescriptorAllocator A}.
Context {B : Type} `{D3D12.RenderPassBuilder B}.

(** C3 (amended). For a record [cmd] that begins a pass (a compute, a
    render or, in the Vulkan back end, a ray-tracing pass) whose resource
    usages are [usages]:
    - D3D12: the transitions are found by comparing the tracked state of
      each resource of [usages], buffers first, with the state the pass
      requires.  The record first records the lazy clears of the textures of
      the pass and then, when a transition is needed, one [ResourceBarrier]
      call that holds all of them; whatever else it records comes after.
    - Vulkan: the transitions are found in the same way.  The record
      first records what [TransitionForPass] records, which are barrier
      calls, tracker calls and lazy clears only, and the barrier calls among
      them are one [vkCmdPipelineBarrier] for each transition that is
      needed, in the order of the resources.  What it records afterwards
      holds no barrier call, is empty for a compute or ray-tracing pass and,
      for a render pass that begins well, holds [vkCmdBeginRenderPass]: the
      barriers come before the pass begins.
    - In both back ends, what recording a prefix of the command stream
      appended to the command list stays in place, as it is, when the rest
      of the stream is recorded. *)
Theorem pass_transitions_recorded_before_pass
    (usagesList : list PassResourceUsage) (usages : PassResourceUsage) (cmd : Command) :
  match cmd with
  | BeginComputePass | BeginRenderPass _ | BeginRayTracingPass => True
  | _ => False
  end ->
  (cmd <> BeginRayTracingPass ->
   forall top (w : D3D12.World (A := A)),
     usagesList !! D3D12.nextPassNumber top = Some usages ->
     exists clears tail,
       D3D12.commandList
         (D3D12.recordStep (B := B) usagesList (D3D12.InRecordCommands top) cmd w).2
       = D3D12.commandList w ++ clears ++ D3D12.passBarrierCalls w usages ++ tail
       /\ Forall (fun e => D3D12.isBarrierCall e = false) clears
       /\ (cmd = BeginComputePass -> tail = []))
  /\ (forall top (w : Vulkan.World),
        usagesList !! Vulkan.nextPassNumber top = Some usages ->
        exists prep tail,
          Vulkan.commands
            (Vulkan.recordStep usagesList (Vulkan.InRecordCommands top) cmd w).2
          = Vulkan.commands w ++ prep ++ tail
          /\ List.filter Vulkan.isBarrierCall prep = Vulkan.passBarrierCalls w usages
          /\ Forall (fun e => Vulkan.isPreparationCall e = true) prep
          /\ Forall (fun e => Vulkan.isBarrierCall e = false) tail
          /\ (forall loop' w',
                Vulkan.recordStep usagesList (Vulkan.InRecordCommands top) cmd w
                = (Ok loop', w') ->
                forall renderPassCmd,
                  cmd = BeginRenderPass renderPassCmd ->
                  exists info, Vulkan.CmdBeginRenderPass info ∈ tail)
          /\ ((forall renderPassCmd, cmd <> BeginRenderPass renderPassCmd) ->
              tail = []))
  /\ (forall loop pre rest (w : D3D12.World (A := A)),
        exists chunk tail,
          D3D12.commandList
            (foldRec pre (D3D12.recordStep (B := B) usagesList) loop w).2
          = D3D12.commandList w ++ chunk
          /\ D3D12.commandList
               (D3D12.recordFrom (B := B) usagesList loop (pre ++ rest) w).2
             = D3D12.commandList w ++ chunk ++ tail)
  /\ (forall loop pre rest (w : Vulkan.World),
        exists chunk tail,
          Vulkan.commands (foldRec pre (Vulkan.recordStep usagesList) loop w).2
          = Vulkan.commands w ++ chunk
          /\ Vulkan.commands (Vulkan.recordFrom usagesList loop (pre ++ rest) w).2
             = Vulkan.commands w ++ chunk ++ tail).
Proof.
  intros Hcmd. split; [| split; [| split]].
  - intros Hcmd' top w Husages. apply begin_pass_barrier_d3d12; [done |].
    by destruct cmd.
  - intros top w Husages. apply begin_pass_barriers_first; [done |]. by destruct cmd.
  - intros loop pre rest w. apply recordFrom_keeps_order_d3d12.
  - intros loop pre rest w. apply recordFrom_keeps_order.
Qed.


End BothBackEnds.

Section BothBackEndsSample.
Import Samples.
#[local] Existing Instance dawnConstants.
#[local] Existing Instance vulkanDevice.
#[local] Existing Instance d3d12Device.
#[local] Existing Instance poolAllocator.
#[local] Existing Instance unitBuilder.

(** C3, where the specification as worded fails: a compute pass that
    uses two buffers as storage buffers, both last used as the destination
    of a copy.  The Vulkan recorder records two barrier calls before the pass
    body, one for each buffer, not one call for both. *)
Lemma vulkan_pass_records_one_barrier_per_resource :
  exists w',
    Vulkan.RecordCommands [twoBufferUsages]
      [BeginComputePass; EndComputePass] copiedBuffersWorld
    = (Ok tt, w')
    /\ Vulkan.commands w'
       = [Vulkan.CmdPipelineBarrier (Vulkan.BufferMemoryBarrier 11 8 128);
          Vulkan.CmdPipelineBarrier (Vulkan.BufferMemoryBarrier 12 8 128)].
Proof. eexists. split; vm_compute; reflexivity. Qed.

(** The same pass on D3D12: one call with both transitions. *)
Lemma pass_transitions_recorded_before_pass_sample :
  exists clears,
    D3D12.commandList
      (D3D12.recordStep (B := unit) [twoBufferUsages]
         (D3D12.InRecordCommands d3d12FirstPass) BeginComputePass (emptyWorld 8)).2
    = clears
      ++ [D3D12.ResourceBarrier
            [D3D12.BufferTransition 11 0 128; D3D12.BufferTransition 12 0 128]]
    /\ Forall (fun e => D3D12.isBarrierCall e = false) clears.
Proof.
  destruct (pass_transitions_recorded_before_pass (A := PoolAllocator) (B := unit)
              [twoBufferUsages] twoBufferUsages BeginComputePass I)
    as (Hd3d12 & _).
  assert (Hcmd : BeginComputePass <> BeginRayTracingPass) by discriminate.
  destruct (Hd3d12 Hcmd d3d12FirstPass (emptyWorld 8) eq_refl)
    as (clears & tail & Htrace & Hclears & Htail).
  rewrite (Htail eq_refl), app_nil_r in Htrace.
  exists clears. split; [exact Htrace | exact Hclears].
Defined.

End BothBackEndsSample.

(** ** Invariants along a stream *)
Section Preserves.
Context {W : Type} (R : W -> W -> Prop) `{!Reflexive R} `{!Transitive R}.

Lemma preserves_ret {X} (x : X) : preserves R (ret x).
Proof. intros w. reflexivity. Qed.

Lemma preserves_fail {X} msg : preserves R (fail (A := X) msg).
Proof. intros w. reflexivity. Qed.

Lemma preserves_abort {X} why : preserves R (abort (A := X) why).
Proof. intros w. reflexivity. Qed.

Lemma preserves_ASSERT condition what : preserves R (ASSERT condition what).
Proof. destruct condition; [apply preserves_ret | apply preserves_abort]. Qed.

Lemma preserves_bind {X Y} (m : Rec W X) (k : X -> Rec W Y) :
  preserves R m -> (forall x, preserves R (k x)) -> preserves R (bind m k).
Proof.
  intros Hm Hk w. specialize (Hm w). unfold bind.
  destruct (m w) as [[x | e | y] w']; cbn [snd] in *; [| done | done].
  by etrans; [| apply Hk].
Qed.

Lemma preserves_forEach {X} (xs : list X) (body : X -> Rec W unit) :
  (forall x, preserves R (body x)) -> preserves R (forEach xs body).
Proof.
  intros Hbody. induction xs as [| x xs IH]; simpl.
  - apply preserves_ret.
  - apply preserves_bind; [apply Hbody | intros _; apply IH].
Qed.

Lemma preserves_foldRec {X S} (xs : list X) (body : S -> X -> Rec W S) acc :
  (forall acc x, preserves R (body acc x)) -> preserves R (foldRec xs body acc).
Proof.
  intros Hbody. revert acc. induction xs as [| x xs IH]; intros acc; simpl.
  - apply preserves_ret.
  - apply preserves_bind; [apply Hbody | intros acc'; apply IH].
Qed.

End Preserves.

Lemma foldRec_app {W X S} (pre rest : list X) (body : S -> X -> Rec W S) acc (w : W) :
  foldRec (pre ++ rest) body acc w
  = bind (foldRec pre body acc) (fun acc' => foldRec rest body acc') w.
Proof.
  revert acc w. induction pre as [| x pre IH]; intros acc w; [reflexivity |].
  cbn [app foldRec]. unfold bind at 1 2 3.
  destruct (body acc x w) as [[acc' | msg | why] w1]; [| reflexivity | reflexivity].
  rewrite IH. reflexivity.
Qed.

Section VulkanStreams.
Import Vulkan.
Context `{Constants}.
Context `{Device}.

#[local] Instance containerStatesKept_refl : Reflexive containerStatesKept.
Proof. by intros w. Qed.

#[local] Instance containerStatesKept_trans : Transitive containerStatesKept.
Proof.
  intros w1 w2 w3 [Hb12 Hu12] [Hb23 Hu23]. split; intros container Hstate.
  - by apply Hb23, Hb12.
  - by apply Hu23, Hu12.
Qed.

Lemma preserves_same {X} (m : Rec World X) :
  (forall w, buildState (m w).2 = buildState w /\ updateState (m w).2 = updateState w) ->
  preserves containerStatesKept m.
Proof. intros Hm w. destruct (Hm w) as [Hb Hu]. split; intros c; by rewrite ?Hb, ?Hu. Qed.

Lemma preserves_Buffer_TransitionUsageNow buffer usage :
  preserves containerStatesKept (Buffer_TransitionUsageNow buffer usage).
Proof.
  apply preserves_same. intros w. unfold Buffer_TransitionUsageNow. by destruct (_ =? _).
Qed.

Lemma preserves_Texture_TransitionUsageNow texture usage :
  preserves containerStatesKept (Texture_TransitionUsageNow texture usage).
Proof.
  apply preserves_same. intros w. unfold Texture_TransitionUsageNow. by destruct (_ =? _).
Qed.

Lemma preserves_SetBuildState container :
  preserves containerStatesKept (SetBuildState container true).
Proof.
  intros w. split; intros c Hstate; cbn; [| done].
  destruct (decide (c = container_addr container)) as [-> | Hne].
  - by rewrite lookup_insert_eq.
  - by rewrite lookup_insert_ne.
Qed.

Lemma preserves_SetUpdateState container :
  preserves containerStatesKept (SetUpdateState container true).
Proof.
  intros w. split; intros c Hstate; cbn; [done |].
  destruct (decide (c = container_addr container)) as [-> | Hne].
  - by rewrite lookup_insert_eq.
  - by rewrite lookup_insert_ne.
Qed.

Ltac head_of t :=
  match t with
  | ?f _ => head_of f
  | _ => t
  end.

Ltac stream_step :=
  match goal with
  | |- records _ _ (bind _ _) => apply records_bind; [| intros ?]
  | |- records _ _ (ret _) => apply records_ret
  | |- records _ _ (abort _) => apply records_abort
  | |- records _ _ (fail _) => apply records_fail
  | |- records _ _ (ASSERT _ _) => apply records_ASSERT
  | |- records _ _ (forEach _ _) => apply records_forEach; intros ? _
  | |- records _ _ (foldRec _ _ _) => apply records_foldRec; intros ? ? _
  | |- records _ _ (emit _) => by apply records_emit_vk
  | |- records _ _ (Buffer_TransitionUsageNow _ _) =>
    by apply records_Buffer_TransitionUsageNow
  | |- records _ _ (Texture_TransitionUsageNow _ _) =>
    by apply records_Texture_TransitionUsageNow
  | |- records _ _ (if ?c then _ else _) => destruct c
  | |- records _ _ (match ?x with _ => _ end) => destruct x
  | |- records _ _ _ => apply records_silent_vk; intros ?; reflexivity
  | |- records _ _ ?m => let h := head_of m in unfold h
  | |- preserves _ (bind _ _) => apply preserves_bind; [apply _ | | intros ?]
  | |- preserves _ (ret _) => apply preserves_ret; apply _
  | |- preserves _ (abort _) => apply preserves_abort; apply _
  | |- preserves _ (fail _) => apply preserves_fail; apply _
  | |- preserves _ (ASSERT _ _) => apply preserves_ASSERT; apply _
  | |- preserves _ (forEach _ _) => apply preserves_forEach; [apply _ | apply _ | intros ?]
  | |- preserves _ (foldRec _ _ _) =>
    apply preserves_foldRec; [apply _ | apply _ | intros ? ?]
  | |- preserves _ (Buffer_TransitionUsageNow _ _) =>
    apply preserves_Buffer_TransitionUsageNow
  | |- preserves _ (Texture_TransitionUsageNow _ _) =>
    apply preserves_Texture_TransitionUsageNow
  | |- preserves _ (SetBuildState _ true) => apply preserves_SetBuildState
  | |- preserves _ (SetUpdateState _ true) => apply preserves_SetUpdateState
  | |- preserves _ (if ?c then _ else _) => destruct c
  | |- preserves _ (match ?x with _ => _ end) => destruct x
  | |- preserves _ _ => apply preserves_same; intros ?; split; reflexivity
  | |- preserves _ ?m => let h := head_of m in unfold h
  end.

Ltac stream_auto := repeat stream_step.

Lemma preserves_recordStep usages loop cmd :
  preserves containerStatesKept (recordStep usages loop cmd).
Proof. destruct loop; destruct cmd; unfold recordStep; stream_auto. Qed.

Lemma preserves_prefix usages loop cmds :
  preserves containerStatesKept (foldRec cmds (recordStep usages) loop).
Proof. apply preserves_foldRec; [apply _ .. |]. intros. apply preserves_recordStep. Qed.

(** *** The locals of RecordCommands *)

Ltac invert_Ok H :=
  repeat (let x := fresh "x" in
          let w := fresh "w" in
          let Hm := fresh "Hm" in
          apply bind_inv_Ok in H as (x & w & Hm & H));
  unfold ret in H; injection H as <- <-.

Lemma RecordBuildRayTracingAccelerationContainer_flag container hasBuild (w : World)
    hasBuild' w' :
  RecordBuildRayTracingAccelerationContainer container hasBuild w = (Ok hasBuild', w') ->
  hasBuild'
  = hasBuild || (GetLevel container =? VK_ACCELERATION_STRUCTURE_TYPE_BOTTOM_LEVEL_NV).
Proof.
  unfold RecordBuildRayTracingAccelerationContainer, bind, IsBuilt. cbn.
  destruct (default false _); [done |].
  destruct (GetLevel container =? _); [intros [= <- _]; by rewrite orb_true_r |].
  rewrite orb_false_r.
  destruct (GetLevel container =? _); [| by intros [= <- _]].
  destruct hasBuild; by intros [= <- _].
Qed.

Lemma RecordUpdateRayTracingAccelerationContainer_flag container hasUpdate (w : World)
    hasUpdate' w' :
  RecordUpdateRayTracingAccelerationContainer container hasUpdate w = (Ok hasUpdate', w') ->
  hasUpdate'
  = hasUpdate || (GetLevel container =? VK_ACCELERATION_STRUCTURE_TYPE_BOTTOM_LEVEL_NV).
Proof.
  unfold RecordUpdateRayTracingAccelerationContainer, bind, IsBuilt, IsUpdated. cbn.
  destruct (Z.land _ _ =? 0); [done |].
  destruct (default false (buildState w !! _)); [| done]. cbn [negb andb].
  destruct (default false (updateState w !! _)); cbn [negb];
    (destruct (GetLevel container =? _); [intros [= <- _]; by rewrite orb_true_r |]);
    rewrite orb_false_r;
    (destruct (GetLevel container =? _); [| by intros [= <- _]]);
    destruct hasUpdate; by intros [= <- _].
Qed.

(** One turn of any of the loops: the pass counter moves at the record that
    ends a pass, and the two flags are raised by the bottom-level builds and
    updates. *)
Lemma recordStep_topOf usages loop cmd (w : World) loop' w' :
  recordStep usages loop cmd w = (Ok loop', w') ->
  nextPassNumber (topOf loop')
  = (nextPassNumber (topOf loop) + (if endsPass cmd then 1 else 0))%nat
  /\ hasBottomLevelContainerBuild (topOf loop')
     = hasBottomLevelContainerBuild (topOf loop) || buildsBottomLevel cmd
  /\ hasBottomLevelContainerUpdate (topOf loop')
     = hasBottomLevelContainerUpdate (topOf loop) || updatesBottomLevel cmd.
Proof.
  intros Hrun.
  destruct loop as [top | top pass | top sets | top sets used];
    destruct top as [number hasBuild hasUpdate];
    destruct cmd;
    unfold recordStep, RecordCommands_step, RecordRenderPass_step, RecordComputePass_step,
      RecordRayTracingPass_step, passEnded in Hrun;
    cbv beta iota zeta in Hrun;
    try (unfold abort in Hrun; discriminate Hrun);
    invert_Ok Hrun;
    cbn [topOf nextPassNumber hasBottomLevelContainerBuild hasBottomLevelContainerUpdate
         endsPass buildsBottomLevel updatesBottomLevel];
    rewrite ?orb_false_r, ?Nat.add_0_r, ?Nat.add_1_r;
    try done.
  - by rewrite (RecordBuildRayTracingAccelerationContainer_flag _ _ _ _ _ Hm).
  - by rewrite (RecordUpdateRayTracingAccelerationContainer_flag _ _ _ _ _ Hm).
Qed.

Lemma prefix_topOf usages loop pre (w : World) loop' w' :
  foldRec pre (recordStep usages) loop w = (Ok loop', w') ->
  nextPassNumber (topOf loop')
  = (nextPassNumber (topOf loop) + length (List.filter endsPass pre))%nat
  /\ hasBottomLevelContainerBuild (topOf loop')
     = hasBottomLevelContainerBuild (topOf loop) || existsb buildsBottomLevel pre
  /\ hasBottomLevelContainerUpdate (topOf loop')
     = hasBottomLevelContainerUpdate (topOf loop) || existsb updatesBottomLevel pre.
Proof.
  revert loop w. induction pre as [| cmd pre IH]; intros loop w Hrun.
  - injection Hrun as <- <-. cbn. by rewrite !orb_false_r, Nat.add_0_r.
  - cbn [foldRec] in Hrun. apply bind_inv_Ok in Hrun as (loop1 & w1 & Hstep & Hrun).
    apply recordStep_topOf in Hstep as (Hnumber & Hbuild & Hupdate).
    apply IH in Hrun as (-> & -> & ->).
    rewrite Hnumber, Hbuild, Hupdate. cbn [List.filter existsb].
    rewrite !orb_assoc. split; [| done].
    destruct (endsPass cmd); cbn [length]; lia.
Qed.

(** X2. Vulkan, [RecordCommands], at a build or update of a top-level
    acceleration container met by the top-level loop after the records
    [pre].  The build is recorded between two barriers when a bottom-level
    container was built by a record of [pre] (or the flag was raised
    before), and is followed by a barrier only when none was; the same holds
    of an update and the bottom-level updates of [pre], after the scratch
    build memory is destroyed on the first update of the container. *)
Theorem top_level_build_waits_for_bottom_level_builds usages top0 pre top container
    (w w1 : World) :
  foldRec pre (recordStep usages) (InRecordCommands top0) w
  = (Ok (InRecordCommands top), w1) ->
  GetLevel container = VK_ACCELERATION_STRUCTURE_TYPE_TOP_LEVEL_NV ->
  (containerBuilt w1 container = false ->
   exists loop' w2,
     recordStep usages (InRecordCommands top)
       (BuildRayTracingAccelerationContainer container) w1 = (Ok loop', w2)
     /\ commands w2
        = commands w1
          ++ (if hasBottomLevelContainerBuild top0 || existsb buildsBottomLevel pre
              then [CmdPipelineBarrier (AccelerationStructureBarrier false)]
              else [])
          ++ [CmdBuildAccelerationStructureNV
                VK_ACCELERATION_STRUCTURE_TYPE_TOP_LEVEL_NV (GetFlags container)
                (GetInstances_size container) 0 true false
                (container_addr container) None false;
              CmdPipelineBarrier (AccelerationStructureBarrier true)])
  /\ (allowsUpdate container = true ->
      containerBuilt w1 container = true ->
      exists loop' w2,
        recordStep usages (InRecordCommands top)
          (UpdateRayTracingAccelerationContainer container) w1 = (Ok loop', w2)
        /\ commands w2
           = commands w1
             ++ (if default false (updateState w1 !! container_addr container)
                 then []
                 else [Call_DestroyScratchBuildMemory (container_addr container)])
             ++ (if hasBottomLevelContainerUpdate top0 || existsb updatesBottomLevel pre
                 then [CmdPipelineBarrier (AccelerationStructureBarrier false)]
                 else [])
             ++ [CmdBuildAccelerationStructureNV
                   VK_ACCELERATION_STRUCTURE_TYPE_TOP_LEVEL_NV (GetFlags container)
                   (GetInstances_size container) 0 true true
                   (container_addr container) (Some (container_addr container)) true;
                 CmdPipelineBarrier (AccelerationStructureBarrier true)]).
Proof.
  intros Hpre Hlevel.
  apply prefix_topOf in Hpre as (_ & Hbuild & Hupdate). cbn [topOf] in Hbuild, Hupdate.
  rewrite <- Hbuild, <- Hupdate. split.
  - intros Hbuilt. unfold containerBuilt in Hbuilt.
    cbn [recordStep RecordCommands_step].
    unfold RecordBuildRayTracingAccelerationContainer, bind, IsBuilt.
    rewrite Hbuilt, Hlevel. cbn.
    destruct (hasBottomLevelContainerBuild top); eexists _, _; split; try reflexivity;
      cbn; by rewrite <- ?app_assoc.
  - intros Hallowed Hbuilt. unfold containerBuilt in Hbuilt. unfold allowsUpdate in Hallowed.
    apply negb_true_iff in Hallowed.
    cbn [recordStep RecordCommands_step].
    unfold RecordUpdateRayTracingAccelerationContainer, bind, IsBuilt, IsUpdated.
    rewrite Hallowed, Hbuilt, Hlevel. cbn.
    destruct (default false (updateState w1 !! container_addr container));
      destruct (hasBottomLevelContainerUpdate top); eexists _, _; split; try reflexivity;
      cbn; by rewrite <- ?app_assoc.
Qed.

(** X3. Vulkan, [RecordCommands].  After the records [pre], read from the
    top-level loop back to the top-level loop, [nextPassNumber] has grown by
    the number of records of [pre] that end a pass.  So the record that
    begins the next pass is prepared from the usage summary at that index:
    the barriers it records are those the summary needs. *)
Theorem passes_take_usages_in_order usages top0 pre top cmd summary (w w1 : World) :
  foldRec pre (recordStep usages) (InRecordCommands top0) w
  = (Ok (InRecordCommands top), w1) ->
  beginsPass cmd = true ->
  usages !! (nextPassNumber top0 + length (List.filter endsPass pre))%nat = Some summary ->
  nextPassNumber top = (nextPassNumber top0 + length (List.filter endsPass pre))%nat
  /\ exists new,
       commands (recordStep usages (InRecordCommands top) cmd w1).2 = commands w1 ++ new
       /\ List.filter isBarrierCall new = passBarrierCalls w1 summary.
Proof.
  intros Hpre Hbegins Hsummary.
  apply prefix_topOf in Hpre as (Hnumber & _). cbn [topOf] in Hnumber.
  split; [exact Hnumber |].
  apply begin_pass_barriers; [by rewrite Hnumber | by destruct cmd].
Qed.

(** *** The pipeline held by the loop of RecordRayTracingPass *)

Lemma RecordRayTracingPass_step_usedPipeline top sets used cmd (w : World) loop' w' :
  cmd <> EndRayTracingPass ->
  RecordRayTracingPass_step top sets used cmd w = (Ok loop', w') ->
  exists sets',
    loop' = InRecordRayTracingPass top sets' (usedRayTracingPipeline used [cmd]).
Proof.
  intros Hcmd Hrun.
  destruct cmd; try done; unfold RecordRayTracingPass_step in Hrun;
    cbv beta iota zeta in Hrun;
    try (unfold abort in Hrun; discriminate Hrun);
    invert_Ok Hrun; by eexists.
Qed.

Lemma rayTracingPass_loop_usedPipeline usages top sets used cmds (w : World) loop' w' :
  EndRayTracingPass ∉ cmds ->
  foldRec cmds (recordStep usages) (InRecordRayTracingPass top sets used) w
  = (Ok loop', w') ->
  exists sets',
    loop' = InRecordRayTracingPass top sets' (usedRayTracingPipeline used cmds).
Proof.
  revert sets used w. induction cmds as [| cmd cmds IH]; intros sets used w Hend Hrun.
  - injection Hrun as <- <-. by exists sets.
  - apply not_elem_of_cons in Hend as [Hcmd Hend].
    cbn [foldRec] in Hrun. apply bind_inv_Ok in Hrun as (loop1 & w1 & Hstep & Hrun).
    cbn [recordStep] in Hstep.
    apply RecordRayTracingPass_step_usedPipeline in Hstep as (sets1 & ->); [| done].
    by apply IH in Hrun.
Qed.

(** X4. Vulkan, [RecordRayTracingPass].  The pass starts with no pipeline
    in [usedPipeline], and after the records [pre] of the pass it holds the
    pipeline of the last [SetRayTracingPipeline] among them.  A [TraceRays]
    met when no [SetRayTracingPipeline] came before it in the pass stops
    recording on [ASSERT(usedPipeline != nullptr)]: no error is handed to
    the caller and nothing is recorded for it. *)
Theorem trace_rays_requires_pipeline usages top pre width height depth rest
    (w w1 : World) loop1 :
  EndRayTracingPass ∉ pre ->
  foldRec (BeginRayTracingPass :: pre) (recordStep usages) (InRecordCommands top) w
  = (Ok loop1, w1) ->
  (exists sets,
     loop1 = InRecordRayTracingPass top sets (usedRayTracingPipeline None pre))
  /\ (usedRayTracingPipeline None pre = None ->
      recordFrom usages (InRecordCommands top)
        (BeginRayTracingPass :: pre ++ TraceRays width height depth :: rest) w
      = (Fatal "ASSERT(usedPipeline != nullptr)", w1)).
Proof.
  intros Hend Hpre.
  assert (Hloop : exists sets,
            loop1 = InRecordRayTracingPass top sets (usedRayTracingPipeline None pre)).
  { cbn [foldRec] in Hpre. apply bind_inv_Ok in Hpre as (loop0 & w0 & Hbegin & Hpre).
    cbn [recordStep RecordCommands_step] in Hbegin. invert_Ok Hbegin.
    by apply rayTracingPass_loop_usedPipeline in Hpre. }
  split; [exact Hloop |]. intros Hnone.
  destruct Hloop as (sets & ->). rewrite Hnone in Hpre.
  change (BeginRayTracingPass :: pre ++ TraceRays width height depth :: rest)
    with ((BeginRayTracingPass :: pre) ++ TraceRays width height depth :: rest).
  rewrite recordFrom_app. erewrite bind_Ok; [| exact Hpre].
  reflexivity.
Qed.

(** *** The build state of a container along a stream *)

Lemma RecordBuildRayTracingAccelerationContainer_built container hasBuild (w : World)
    hasBuild' w' :
  RecordBuildRayTracingAccelerationContainer container hasBuild w = (Ok hasBuild', w') ->
  GetLevel container = VK_ACCELERATION_STRUCTURE_TYPE_BOTTOM_LEVEL_NV
  \/ GetLevel container = VK_ACCELERATION_STRUCTURE_TYPE_TOP_LEVEL_NV ->
  buildState w' !! container_addr container = Some true.
Proof.
  unfold RecordBuildRayTracingAccelerationContainer, bind, IsBuilt. cbn.
  destruct (default false _); [done |].
  intros Hrun [Hlevel | Hlevel]; rewrite Hlevel in Hrun; cbn in Hrun.
  - injection Hrun as _ <-. cbn. by rewrite lookup_insert_eq.
  - destruct hasBuild; injection Hrun as _ <-; cbn; by rewrite lookup_insert_eq.
Qed.

(** X5. Vulkan, [RecordCommands].  A container built by a record of the
    stream stays built for the rest of it, whatever is recorded in between:
    a later build record for the same container ends recording with the
    error "Acceleration Container is already built", and a later update
    record for it, if its flags allow updates, passes validation. *)
Theorem container_built_once usages loop pre container mid top other rest
    (w w1 : World) :
  foldRec (pre ++ BuildRayTracingAccelerationContainer container :: mid)
    (recordStep usages) loop w = (Ok (InRecordCommands top), w1) ->
  GetLevel container = VK_ACCELERATION_STRUCTURE_TYPE_BOTTOM_LEVEL_NV
  \/ GetLevel container = VK_ACCELERATION_STRUCTURE_TYPE_TOP_LEVEL_NV ->
  container_addr other = container_addr container ->
  containerBuilt w1 other = true
  /\ recordFrom usages loop
       (pre ++ BuildRayTracingAccelerationContainer container
            :: mid ++ BuildRayTracingAccelerationContainer other :: rest) w
     = (Err "Acceleration Container is already built", w1)
  /\ (allowsUpdate other = true ->
      exists hasUpdate w2,
        RecordUpdateRayTracingAccelerationContainer other
          (hasBottomLevelContainerUpdate top) w1 = (Ok hasUpdate, w2)).
Proof.
  intros Hrun Hlevel Hsame.
  assert (Hbuilt : containerBuilt w1 other = true).
  { rewrite foldRec_app in Hrun. apply bind_inv_Ok in Hrun as (loopA & wA & _ & Hrun).
    cbn [foldRec] in Hrun. apply bind_inv_Ok in Hrun as (loopB & wB & Hstep & Hmid).
    assert (Hstate : buildState wB !! container_addr container = Some true).
    { destruct loopA; cbn [recordStep] in Hstep;
        [| destruct pass; unfold RecordRenderPass_step, EncodeRenderBundleCommand in Hstep
         | | ]; try (by unfold bind, abort in Hstep).
      cbn [RecordCommands_step] in Hstep.
      apply bind_inv_Ok in Hstep as (hasBuild & wC & Hbuild & Hret).
      injection Hret as _ <-.
      by eapply RecordBuildRayTracingAccelerationContainer_built. }
    pose proof (preserves_prefix usages loopB mid wB) as [Hkept _].
    rewrite Hmid in Hkept. cbn [snd] in Hkept.
    unfold containerBuilt. rewrite Hsame. by rewrite (Hkept _ Hstate). }
  split; [exact Hbuilt |]. split.
  - replace (pre ++ BuildRayTracingAccelerationContainer container
                 :: mid ++ BuildRayTracingAccelerationContainer other :: rest)
      with ((pre ++ BuildRayTracingAccelerationContainer container :: mid)
              ++ BuildRayTracingAccelerationContainer other :: rest)
      by (by rewrite <- app_assoc).
    rewrite recordFrom_app. erewrite bind_Ok; [| exact Hrun].
    pose proof (RecordBuildRayTracingAccelerationContainer_spec other
                  (hasBottomLevelContainerBuild top) w1) as Hbuild.
    rewrite Hbuilt in Hbuild.
    cbn [recordFrom recordStep RecordCommands_step].
    erewrite bind_Err; [done |]. by erewrite bind_Err; [| exact Hbuild].
  - intros Hallowed.
    pose proof (RecordUpdateRayTracingAccelerationContainer_spec other
                  (hasBottomLevelContainerUpdate top) w1) as Hupdate.
    by rewrite Hallowed, Hbuilt in Hupdate.
Qed.

(** *** The scratch build memory of a container *)

Lemma scratchStep_quiet {X} container (m : Rec World X) :
  records commands (fun e => isScratchDestroy container e = false) m ->
  preserves containerStatesKept m ->
  scratchStep container m.
Proof.
  intros Hrecords Hkept w. destruct (Hrecords w) as (new & Htrace & Hall).
  exists new. rewrite (filter_none _ _ Hall). cbn [length].
  split; [done |]. split; [lia |]. split; [done |]. split; [done |].
  apply (Hkept w).
Qed.

Lemma scratchStep_update container usages top updated :
  scratchStep container
    (recordStep usages (InRecordCommands top)
       (UpdateRayTracingAccelerationContainer updated)).
Proof.
  intros w. cbn [recordStep RecordCommands_step].
  unfold RecordUpdateRayTracingAccelerationContainer, bind, fail, IsBuilt, IsUpdated.
  destruct (Z.land _ _ =? 0).
  { exists []. cbn. rewrite app_nil_r. repeat split; try done; lia. }
  cbn.
  destruct (default false (buildState w !! _)); cbn [negb andb].
  2: { exists []. cbn. rewrite app_nil_r. repeat split; try done; lia. }
  destruct (default false (updateState w !! container_addr updated)) eqn:Hupdated;
    cbn [negb].
  - destruct (GetLevel updated =? _); [| destruct (GetLevel updated =? _);
      [destruct (hasBottomLevelContainerUpdate top) |]];
      cbn; eexists;
      (split; [first [by rewrite <- ?app_assoc | symmetry; apply app_nil_r] |]);
      cbn; repeat split; try done; lia.
  - assert (Hmark : List.filter (isScratchDestroy container)
                      [Call_DestroyScratchBuildMemory (container_addr updated)] <> [] ->
                    <[container_addr updated := true]> (updateState w) !! container
                    = Some true).
    { intros Hdestroyed. cbn in Hdestroyed. case_bool_decide as Hsame; [| done].
      subst container. apply lookup_insert_eq. }
    assert (Hfresh : updateState w !! container = Some true ->
                     container_addr updated <> container).
    { intros Hstate Hsame. subst container. by rewrite Hstate in Hupdated. }
    destruct (GetLevel updated =? _); [| destruct (GetLevel updated =? _);
      [destruct (hasBottomLevelContainerUpdate top) |]];
      cbn; eexists; (split; [by rewrite <- ?app_assoc |]);
      cbn; (split; [case_bool_decide; cbn; lia |]);
      (split; [intros Hstate; by rewrite bool_decide_false by auto |]);
      (split; [intros Hdestroyed; apply Hmark;
               cbn; intros Hnone; apply Hdestroyed; by destruct (bool_decide _) |]);
      intros Hstate; rewrite lookup_insert_ne by auto; done.
Qed.

Lemma scratchStep_recordStep container usages loop cmd :
  scratchStep container (recordStep usages loop cmd).
Proof.
  destruct loop; destruct cmd; try apply scratchStep_update;
    (apply scratchStep_quiet; [| apply preserves_recordStep]);
    unfold recordStep; stream_auto.
Qed.

(** X6. Vulkan, [RecordCommands].  Whatever the stream, recording it
    destroys the scratch build memory of a container at most once, and not
    at all when the container was already marked updated. *)
Theorem scratch_memory_destroyed_once usages loop cmds container (w : World) :
  exists new,
    commands (recordFrom usages loop cmds w).2 = commands w ++ new
    /\ (length (List.filter (isScratchDestroy container) new) <= 1)%nat
    /\ (updateState w !! container = Some true ->
        List.filter (isScratchDestroy container) new = []).
Proof.
  revert loop w. induction cmds as [| cmd cmds IH]; intros loop w.
  - exists []. split; [destruct loop; cbn; by rewrite app_nil_r |]. cbn. split; [lia | done].
  - cbn [recordFrom].
    destruct (scratchStep_recordStep container usages loop cmd w)
      as (new1 & Htrace1 & Hcount1 & Hnone1 & Hmark1 & Hkept1).
    unfold bind.
    destruct (recordStep usages loop cmd w) as [[loop' | msg | why] w1]; cbn [snd] in *;
      [| by exists new1 | by exists new1].
    destruct (IH loop' w1) as (new2 & Htrace2 & Hcount2 & Hnone2).
    exists (new1 ++ new2). split; [by rewrite Htrace2, Htrace1, app_assoc |].
    rewrite List.filter_app, length_app.
    destruct (List.filter (isScratchDestroy container) new1) as [| e es] eqn:Hfirst.
    + split; [cbn; lia |]. intros Hstate. cbn. auto.
    + rewrite (Hnone2 (Hmark1 ltac:(done))). cbn [length] in *.
      split; [lia |]. intros Hstate. by specialize (Hnone1 Hstate).
Qed.

End VulkanStreams.

Section VulkanStreamsSample.
Import Vulkan Samples MoreSamples.
#[local] Existing Instance dawnConstants.
#[local] Existing Instance vulkanDevice.

(** A top-level build after a bottom-level build: it is recorded between
    two barriers. *)
Lemma top_level_build_waits_for_bottom_level_builds_sample :
  exists loop' w2,
    recordStep []
      (InRecordCommands
         {| nextPassNumber := 0;
            hasBottomLevelContainerBuild := true;
            hasBottomLevelContainerUpdate := false |})
      (BuildRayTracingAccelerationContainer topContainer)
      (foldRec [BuildRayTracingAccelerationContainer bottomContainer]
         (recordStep []) (InRecordCommands firstPass) vulkanWorld).2
    = (Ok loop', w2)
    /\ commands w2
       = [CmdBuildAccelerationStructureNV 1 0 0 1 false false 81 None false;
          CmdPipelineBarrier (AccelerationStructureBarrier false);
          CmdBuildAccelerationStructureNV 0 1 1 0 true false 82 None false;
          CmdPipelineBarrier (AccelerationStructureBarrier true)].
Proof.
  set (w1 := (foldRec [BuildRayTracingAccelerationContainer bottomContainer]
                (recordStep []) (InRecordCommands firstPass) vulkanWorld).2).
  assert (Hpre : foldRec [BuildRayTracingAccelerationContainer bottomContainer]
                   (recordStep []) (InRecordCommands firstPass) vulkanWorld
                 = (Ok (InRecordCommands
                          {| nextPassNumber := 0;
                             hasBottomLevelContainerBuild := true;
                             hasBottomLevelContainerUpdate := false |}), w1))
    by (vm_compute; reflexivity).
  destruct (top_level_build_waits_for_bottom_level_builds [] firstPass
              [BuildRayTracingAccelerationContainer bottomContainer] _ topContainer
              vulkanWorld w1 Hpre eq_refl) as [Hbuild _].
  destruct (Hbuild eq_refl) as (loop' & w2 & Hstep & Htrace).
  exists loop', w2. split; [exact Hstep | exact Htrace].
Defined.

(** The second pass of a stream is prepared from the second summary. *)
Lemma passes_take_usages_in_order_sample :
  exists new,
    commands
      (recordStep [noUsages; twoBufferUsages]
         (InRecordCommands
            {| nextPassNumber := 1;
               hasBottomLevelContainerBuild := false;
               hasBottomLevelContainerUpdate := false |})
         BeginComputePass copiedBuffersWorld).2
    = commands copiedBuffersWorld ++ new
    /\ List.filter isBarrierCall new
       = [CmdPipelineBarrier (BufferMemoryBarrier 11 8 128);
          CmdPipelineBarrier (BufferMemoryBarrier 12 8 128)].
Proof.
  assert (Hpre : foldRec [BeginComputePass; EndComputePass]
                   (recordStep [noUsages; twoBufferUsages])
                   (InRecordCommands firstPass) copiedBuffersWorld
                 = (Ok (InRecordCommands
                          {| nextPassNumber := 1;
                             hasBottomLevelContainerBuild := false;
                             hasBottomLevelContainerUpdate := false |}),
                    copiedBuffersWorld))
    by (vm_compute; reflexivity).
  destruct (passes_take_usages_in_order [noUsages; twoBufferUsages] firstPass
              [BeginComputePass; EndComputePass] _ BeginComputePass twoBufferUsages
              copiedBuffersWorld copiedBuffersWorld Hpre eq_refl eq_refl)
    as (_ & new & Htrace & Hbarriers).
  exists new. split; [exact Htrace | exact Hbarriers].
Defined.

(** A ray-tracing pass that traces rays first: recording stops on the
    assertion. *)
Lemma trace_rays_requires_pipeline_sample :
  RecordCommands [noUsages]
    [BeginRayTracingPass; TraceRays 1 1 1; EndRayTracingPass] vulkanWorld
  = (Fatal "ASSERT(usedPipeline != nullptr)", vulkanWorld).
Proof.
  assert (Hpre : foldRec [BeginRayTracingPass] (recordStep [noUsages])
                   (InRecordCommands firstPass) vulkanWorld
                 = (Ok (InRecordRayTracingPass firstPass BindGroupTracker_init None),
                    vulkanWorld))
    by (vm_compute; reflexivity).
  destruct (trace_rays_requires_pipeline [noUsages] firstPass [] 1 1 1
              [EndRayTracingPass] vulkanWorld vulkanWorld _
              (not_elem_of_nil _) Hpre) as (_ & Hstop).
  exact (Hstop eq_refl).
Defined.

(** A container built before a compute pass and again after it: the second
    build ends recording with the error. *)
Lemma container_built_once_sample :
  exists w1,
    RecordCommands [noUsages]
      [BuildRayTracingAccelerationContainer bottomContainer;
       BeginComputePass; EndComputePass;
       BuildRayTracingAccelerationContainer bottomContainer] vulkanWorld
    = (Err "Acceleration Container is already built", w1).
Proof.
  set (run := foldRec [BuildRayTracingAccelerationContainer bottomContainer;
                       BeginComputePass; EndComputePass]
                (recordStep [noUsages]) (InRecordCommands firstPass) vulkanWorld).
  assert (Hpre : run = (Ok (InRecordCommands
                              {| nextPassNumber := 1;
                                 hasBottomLevelContainerBuild := true;
                                 hasBottomLevelContainerUpdate := false |}), run.2))
    by (vm_compute; reflexivity).
  destruct (container_built_once [noUsages] (InRecordCommands firstPass) []
              bottomContainer [BeginComputePass; EndComputePass] _ bottomContainer []
              vulkanWorld run.2 Hpre (or_introl eq_refl) eq_refl)
    as (_ & Hsecond & _).
  exists run.2. exact Hsecond.
Defined.

End VulkanStreamsSample.

(** ** Vulkan: the copy records *)
Section VulkanCopies.
Import Vulkan.
Context `{Constants}.
Context `{Device}.

Lemma Forall_bufferBarrier (P : Event -> Prop) transitions :
  (forall barrier, P (CmdPipelineBarrier barrier)) -> Forall P (map bufferBarrier transitions).
Proof.
  intros HP. apply Forall_forall. intros e Hin.
  apply list_elem_of_fmap in Hin as ([[buffer lastUsage] usage] & -> & _). apply HP.
Qed.

Lemma Forall_imageBarrier (P : Event -> Prop) transitions :
  (forall barrier, P (CmdPipelineBarrier barrier)) -> Forall P (map imageBarrier transitions).
Proof.
  intros HP. apply Forall_forall. intros e Hin.
  apply list_elem_of_fmap in Hin as ([[texture lastUsage] usage] & -> & _). apply HP.
Qed.

(** A [CopyTextureToBuffer] record ends well: the source subresource is
    handed to [EnsureSubresourceContentInitialized] first, and the one copy
    call comes last. *)
Lemma RecordCopyTextureToBuffer_trace_vk src dst copySize (w : World) :
  let region := ComputeBufferImageCopyRegion dst src copySize in
  exists w' before,
    RecordCopyTextureToBuffer src dst copySize w = (Ok tt, w')
    /\ commands w'
       = commands w
         ++ Call_EnsureSubresourceContentInitialized (texture_addr (tc_texture src))
              (imageSubresource_mipLevel region) 1
              (imageSubresource_baseArrayLayer region) 1
            :: before
         ++ [CmdCopyImageToBuffer (texture_addr (tc_texture src))
               (buffer_addr (bc_buffer dst)) region]
    /\ Forall (fun e => isTrackerCall e = false /\ isCopyCall e = false) before.
Proof.
  intros region. unfold RecordCopyTextureToBuffer. fold region.
  destruct (EnsureSubresourceContentInitialized_spec (tc_texture src)
              (imageSubresource_mipLevel region) 1
              (imageSubresource_baseArrayLayer region) 1 w)
    as (w0 & clears & Hrun0 & Htrace0 & Hclears & _).
  erewrite bind_Ok; [| exact Hrun0].
  destruct (Texture_TransitionUsageNow_spec (tc_texture src) TextureUsage_CopySrc w0)
    as (w1 & Hrun1 & Htrace1 & _).
  erewrite bind_Ok; [| exact Hrun1].
  destruct (Buffer_TransitionUsageNow_spec (bc_buffer dst) BufferUsage_CopyDst w1)
    as (w2 & Hrun2 & Htrace2 & _).
  erewrite bind_Ok; [| exact Hrun2].
  set (images := map imageBarrier _) in Htrace1.
  set (buffers := map bufferBarrier _) in Htrace2.
  eexists _, (clears ++ images ++ buffers). split; [reflexivity |]. split.
  - cbn [commands appendCommands]. rewrite Htrace2, Htrace1, Htrace0.
    rewrite <- !app_assoc. cbn [app]. by rewrite <- ?app_assoc.
  - apply Forall_app. split.
    + eapply Forall_impl; [exact Hclears |]. by intros e (_ & ? & ?).
    + apply Forall_app. split; [by apply Forall_imageBarrier | by apply Forall_bufferBarrier].
Qed.

(** X7. Vulkan, [CopyTextureToTexture].  Once the tracker calls and the
    transitions of the two textures are recorded, none of them a copy call,
    the record takes one of three ways.  With equal copy extents it records
    one [vkCmdCopyImage] and ends well.  With different extents it copies
    through a temporary buffer if the workaround toggle is on and the source
    format is compressed, and otherwise stops on the assertion of
    [ComputeImageCopyRegion], having copied nothing. *)
Theorem texture_to_texture_copy_paths src dst copySize (w : World) :
  exists w3 new,
    commands w3 = commands w ++ new
    /\ Forall (fun e => isCopyCall e = false) new
    /\ RecordCopyTextureToTexture src dst copySize w
       = if HasSameTextureCopyExtent src dst copySize
         then (Ok tt,
               appendCommands w3
                 [CmdCopyImage (texture_addr (tc_texture src))
                    (texture_addr (tc_texture dst))
                    {| srcSubresource_aspectMask := GetVkAspectMask (tc_texture src);
                       srcSubresource_mipLevel := tc_mipLevel src;
                       srcSubresource_baseArrayLayer := tc_arrayLayer src;
                       srcOffset := tc_origin src;
                       dstSubresource_aspectMask := GetVkAspectMask (tc_texture dst);
                       dstSubresource_mipLevel := tc_mipLevel dst;
                       dstSubresource_baseArrayLayer := tc_arrayLayer dst;
                       dstOffset := tc_origin dst;
                       extent := ComputeTextureCopyExtent dst copySize |}])
         else if UseTemporaryBufferInCompressedTextureToTextureCopy
                 && isCompressed (GetFormat (tc_texture src))
         then RecordCopyImageWithTemporaryBuffer src dst copySize w3
         else (Fatal "ASSERT(HasSameTextureCopyExtent(srcCopy, dstCopy, copySize))", w3).
Proof.
  unfold RecordCopyTextureToTexture.
  destruct (EnsureSubresourceContentInitialized_spec (tc_texture src)
              (tc_mipLevel src) 1 (tc_arrayLayer src) 1 w)
    as (w0 & clears & Hrun0 & Htrace0 & Hclears & _).
  erewrite bind_Ok; [| exact Hrun0].
  destruct (destination_step_spec (tc_texture dst) copySize
              (tc_mipLevel dst) (tc_arrayLayer dst) w0)
    as (w1 & before & Hrun1 & Htrace1 & _ & Hbefore).
  erewrite bind_Ok; [| exact Hrun1].
  destruct (Texture_TransitionUsageNow_spec (tc_texture src) TextureUsage_CopySrc w1)
    as (w2 & Hrun2 & Htrace2 & _).
  erewrite bind_Ok; [| exact Hrun2].
  destruct (Texture_TransitionUsageNow_spec (tc_texture dst) TextureUsage_CopyDst w2)
    as (w3 & Hrun3 & Htrace3 & _).
  erewrite bind_Ok; [| exact Hrun3].
  set (sources := map imageBarrier _) in Htrace2.
  set (destinations := map imageBarrier _) in Htrace3.
  exists w3.
  exists (Call_EnsureSubresourceContentInitialized (texture_addr (tc_texture src))
            (tc_mipLevel src) 1 (tc_arrayLayer src) 1
          :: clears ++ before ++ sources ++ destinations).
  split; [| split].
  - rewrite Htrace3, Htrace2, Htrace1, Htrace0.
    rewrite <- !app_assoc. cbn [app]. by rewrite <- ?app_assoc.
  - constructor; [done |]. apply Forall_app. split.
    { eapply Forall_impl; [exact Hclears |]. by intros e (_ & _ & ?). }
    apply Forall_app. split; [exact Hbefore |].
    apply Forall_app. split; by apply Forall_imageBarrier.
  - unfold ComputeImageCopyRegion.
    destruct (HasSameTextureCopyExtent src dst copySize);
      destruct (UseTemporaryBufferInCompressedTextureToTextureCopy
                && isCompressed (GetFormat (tc_texture src))); reflexivity.
Qed.

Lemma u32_small (z : Z) : 0 <= z < 2 ^ 32 -> u32 z = z.
Proof. intros Hz. unfold u32. by apply Z.mod_small. Qed.

(** The size computed for the temporary buffer, when the height is a whole
    number of blocks and nothing overflows. *)
Lemma temporary_buffer_size_exact (w h bw bh bs : Z) :
  0 < bw -> 0 < bh -> 0 <= bs -> 0 <= w -> 0 <= h ->
  h mod bh = 0 ->
  w / bw * h < 2 ^ 32 ->
  w / bw * (h / bh) * bs < 2 ^ 32 ->
  u32 (u32 (u32 (w / bw * h) / bh) * bs) = w / bw * (h / bh) * bs.
Proof.
  intros Hbw Hbh Hbs Hw Hh Hblocks Hfit1 Hfit2.
  assert (Hp : 0 <= w / bw) by (by apply Z.div_pos).
  assert (Hr : 0 <= h / bh) by (by apply Z.div_pos).
  assert (Hexact : h = bh * (h / bh)) by (apply Z.div_exact; lia).
  revert Hp Hr Hexact Hfit1 Hfit2. generalize (w / bw) (h / bh). intros p r Hp Hr -> Hfit1 Hfit2.
  change (2 ^ 32) with 4294967296 in *.
  assert (Hpr : 0 <= p * r) by (by apply Z.mul_nonneg_nonneg).
  rewrite (u32_small (p * (bh * r)))
    by (change (2 ^ 32) with 4294967296; split; [apply Z.mul_nonneg_nonneg; lia | done]).
  replace (p * (bh * r)) with (p * r * bh) in * by lia.
  rewrite Z.div_mul by lia.
  rewrite (u32_small (p * r)) by (change (2 ^ 32) with 4294967296; nia).
  apply u32_small. change (2 ^ 32) with 4294967296. split; [| done].
  by apply Z.mul_nonneg_nonneg.
Qed.

(** X8. Vulkan, [RecordCopyImageWithTemporaryBuffer].  When its three
    assertions hold and the sizes fit 32 bits, the temporary buffer is
    created with one block size for each block of the copy, rows packed
    without padding; the image is copied into it and from it, in that
    order, and the buffer is kept in [tempBuffers] of the recording
    context. *)
Theorem temporary_buffer_holds_the_copied_blocks src dst copySize (w : World) :
  let fmt := GetFormat (tc_texture src) in
  let blocksPerRow := width copySize / blockWidth fmt in
  let blockRows := height copySize / blockHeight fmt in
  let tempBuffer :=
    CreateBuffer (blocksPerRow * blockRows * blockByteSize fmt)
      (Z.lor BufferUsage_CopySrc BufferUsage_CopyDst) in
  let tempBufferCopy :=
    {| bc_buffer := tempBuffer;
       bc_offset := 0;
       bc_rowPitch := blocksPerRow * blockByteSize fmt;
       bc_imageHeight := height copySize |} in
  format fmt = format (GetFormat (tc_texture dst)) ->
  0 < blockWidth fmt -> 0 < blockHeight fmt -> 0 <= blockByteSize fmt ->
  0 <= width copySize -> 0 <= height copySize ->
  width copySize mod blockWidth fmt = 0 ->
  height copySize mod blockHeight fmt = 0 ->
  blocksPerRow * height copySize < 2 ^ 32 ->
  blocksPerRow * blockByteSize fmt < 2 ^ 32 ->
  blocksPerRow * blockRows * blockByteSize fmt < 2 ^ 32 ->
  exists w' new,
    RecordCopyImageWithTemporaryBuffer src dst copySize w = (Ok tt, w')
    /\ commands w' = commands w ++ new
    /\ List.filter (fun e => negb (isBarrierCall e)) new
       = [CmdCopyImageToBuffer (texture_addr (tc_texture src)) (buffer_addr tempBuffer)
            (ComputeBufferImageCopyRegion tempBufferCopy src copySize);
          CmdCopyBufferToImage (buffer_addr tempBuffer) (texture_addr (tc_texture dst))
            (ComputeBufferImageCopyRegion tempBufferCopy dst copySize);
          Call_tempBuffers_emplace_back (buffer_addr tempBuffer)].
Proof.
  intros fmt blocksPerRow blockRows tempBuffer tempBufferCopy
    Hformat HblockWidth HblockHeight HblockBytes Hwidth Hheight HwidthBlocks HheightBlocks
    Hfit1 Hfit2 Hfit3.
  assert (Hrow : 0 <= blocksPerRow) by (by apply Z.div_pos).
  assert (Hsize : u32 (u32 (u32 (width copySize / blockWidth fmt * height copySize)
                            / blockHeight fmt) * blockByteSize fmt)
                  = blocksPerRow * blockRows * blockByteSize fmt)
    by (by apply temporary_buffer_size_exact).
  assert (Hpitch : u32 (width copySize / blockWidth fmt * blockByteSize fmt)
                   = blocksPerRow * blockByteSize fmt).
  { apply u32_small. split; [by apply Z.mul_nonneg_nonneg | done]. }
  unfold RecordCopyImageWithTemporaryBuffer. fold fmt.
  rewrite Hsize, Hpitch. fold tempBuffer. fold tempBufferCopy.
  rewrite bool_decide_true by exact Hformat.
  rewrite HwidthBlocks, HheightBlocks. cbn [Z.eqb ASSERT].
  erewrite bind_Ok; [| reflexivity]. erewrite bind_Ok; [| reflexivity].
  erewrite bind_Ok; [| reflexivity].
  destruct (Buffer_TransitionUsageNow_spec tempBuffer BufferUsage_CopyDst w)
    as (w1 & Hrun1 & Htrace1 & _).
  erewrite bind_Ok; [| exact Hrun1].
  erewrite bind_Ok; [| reflexivity].
  match goal with
  | |- context [appendCommands w1 ?new] => set (w2 := appendCommands w1 new)
  end.
  destruct (Buffer_TransitionUsageNow_spec tempBuffer BufferUsage_CopySrc w2)
    as (w3 & Hrun3 & Htrace3 & _).
  erewrite bind_Ok; [| exact Hrun3].
  erewrite bind_Ok; [| reflexivity].
  set (first := map bufferBarrier _) in Htrace1.
  set (second := map bufferBarrier _) in Htrace3.
  eexists _, (first ++ [_] ++ second ++ [_; _]). split; [reflexivity |]. split.
  - cbn [commands appendCommands]. rewrite Htrace3. subst w2. cbn [commands appendCommands].
    rewrite Htrace1. rewrite <- !app_assoc. reflexivity.
  - rewrite !List.filter_app.
    rewrite (filter_none (fun e => negb (isBarrierCall e)) first)
      by (by apply Forall_bufferBarrier).
    rewrite (filter_none (fun e => negb (isBarrierCall e)) second)
      by (by apply Forall_bufferBarrier).
    reflexivity.
Qed.

End VulkanCopies.

(** ** D3D12: the copy from a texture to a buffer *)
Section D3D12Copies.
Import D3D12.
Context `{Constants}.
Context `{Device}.
Context {A : Type} `{ShaderVisibleDescriptorAllocator A}.

Local Abbreviation World := (World (A := A)).

Lemma forEach_emit_d3d12 {X} (xs : list X) (call : X -> Event) (w : World) :
  exists w',
    forEach xs (fun x => emit (call x)) w = (Ok tt, w')
    /\ commandList w' = commandList w ++ map call xs.
Proof.
  revert w. induction xs as [| x xs IH]; intros w.
  - exists w. split; [done |]. cbn. by rewrite app_nil_r.
  - destruct (IH (appendCommands w [call x])) as (w' & Hrun & Htrace).
    exists w'. split; [exact Hrun |]. rewrite Htrace. cbn. by rewrite <- app_assoc.
Qed.

Lemma Texture_TrackUsageAndTransitionNow_spec texture usage (w : World) :
  exists w' barriers,
    Texture_TrackUsageAndTransitionNow texture usage w = (Ok tt, w')
    /\ commandList w' = commandList w ++ barriers
    /\ Forall (fun e => isTrackerCall e = false /\ isCopyCall e = false) barriers.
Proof.
  unfold Texture_TrackUsageAndTransitionNow, bind, Texture_TrackUsageAndGetResourceBarrier.
  destruct (_ =? _).
  - exists w, []. split; [done |]. split; [by rewrite app_nil_r | done].
  - eexists _, [_]. split; [reflexivity |]. split; [reflexivity |]. by repeat constructor.
Qed.

Lemma Buffer_TrackUsageAndTransitionNow_spec buffer usage (w : World) :
  exists w' barriers,
    Buffer_TrackUsageAndTransitionNow buffer usage w = (Ok tt, w')
    /\ commandList w' = commandList w ++ barriers
    /\ Forall (fun e => isTrackerCall e = false /\ isCopyCall e = false) barriers.
Proof.
  unfold Buffer_TrackUsageAndTransitionNow, bind, Buffer_TrackUsageAndGetResourceBarrier.
  destruct (_ =? _).
  - exists w, []. split; [done |]. split; [by rewrite app_nil_r | done].
  - eexists _, [_]. split; [reflexivity |]. split; [reflexivity |]. by repeat constructor.
Qed.

(** A [CopyTextureToBuffer] record ends well: the source subresource is
    handed to [EnsureSubresourceContentInitialized] first, and the copy
    calls, one for each part of the split, come last. *)
Lemma RecordCopyTextureToBuffer_trace_d3d12 source destination copySize (w : World) :
  let copySplit :=
    ComputeTextureCopySplit (tc_origin source) copySize (GetFormat (tc_texture source))
      (bc_offset destination) (bc_rowPitch destination) (bc_imageHeight destination) in
  exists w' before,
    RecordCopyTextureToBuffer source destination copySize w = (Ok tt, w')
    /\ commandList w'
       = commandList w
         ++ Call_EnsureSubresourceContentInitialized (texture_addr (tc_texture source))
              (tc_mipLevel source) 1 (tc_arrayLayer source) 1
            :: before
         ++ map (fun info =>
                   CopyTextureRegionToBuffer
                     (buffer_addr (bc_buffer destination)) (info_bufferSize info)
                     (split_offset copySplit) (bc_rowPitch destination)
                     (info_bufferOffset info)
                     (texture_addr (tc_texture source)) (tc_mipLevel source)
                     (tc_arrayLayer source) (info_textureOffset info) (info_copySize info))
              (split_copies copySplit)
    /\ Forall (fun e => isTrackerCall e = false /\ isCopyCall e = false) before.
Proof.
  intros copySplit. unfold RecordCopyTextureToBuffer. fold copySplit.
  destruct (EnsureSubresourceContentInitialized_spec_d3d12 (tc_texture source)
              (tc_mipLevel source) 1 (tc_arrayLayer source) 1 w)
    as (w0 & clears & Hrun0 & Htrace0 & Hclears & _).
  erewrite bind_Ok; [| exact Hrun0].
  destruct (Texture_TrackUsageAndTransitionNow_spec (tc_texture source)
              TextureUsage_CopySrc w0) as (w1 & barriers1 & Hrun1 & Htrace1 & Hbarriers1).
  erewrite bind_Ok; [| exact Hrun1].
  destruct (Buffer_TrackUsageAndTransitionNow_spec (bc_buffer destination)
              BufferUsage_CopyDst w1) as (w2 & barriers2 & Hrun2 & Htrace2 & Hbarriers2).
  erewrite bind_Ok; [| exact Hrun2].
  match goal with
  | |- context [forEach ?xs (fun info => emit (@?call info)) w2] =>
    destruct (forEach_emit_d3d12 xs call w2) as (w3 & Hrun3 & Htrace3)
  end.
  exists w3, (clears ++ barriers1 ++ barriers2). split; [exact Hrun3 |]. split.
  - rewrite Htrace3, Htrace2, Htrace1, Htrace0.
    rewrite <- !app_assoc. cbn [app]. by rewrite <- ?app_assoc.
  - apply Forall_app. split.
    + eapply Forall_impl; [exact Hclears |]. by intros e (_ & ? & ?).
    + by apply Forall_app.
Qed.

End D3D12Copies.

Section CopiesBothBackEnds.
Context `{Constants}.
Context {vulkanDevice : Vulkan.Device} {d3d12Device : D3D12.Device}.
Context {A : Type} `{D3D12.ShaderVisibleDescriptorAllocator A}.

(** X9. A [CopyTextureToBuffer] record, in both back ends, ends well.  The
    first thing it does is to hand the subresource it reads to
    [EnsureSubresourceContentInitialized]; there is no other call on the
    initialisation tracker, and the copy calls are the last calls recorded:
    one [vkCmdCopyImageToBuffer] in the Vulkan back end, one
    [CopyTextureRegion] for each part of the copy split in the D3D12 back
    end. *)
Theorem texture_read_by_copy_is_initialized_first
    (source : TextureCopy) (destination : BufferCopy) (copySize : Extent3D) :
  (forall w : Vulkan.World,
     let region := Vulkan.ComputeBufferImageCopyRegion destination source copySize in
     exists w' before,
       Vulkan.RecordCopyTextureToBuffer source destination copySize w = (Ok tt, w')
       /\ Vulkan.commands w'
          = Vulkan.commands w
            ++ Vulkan.Call_EnsureSubresourceContentInitialized
                 (texture_addr (tc_texture source))
                 (Vulkan.imageSubresource_mipLevel region) 1
                 (Vulkan.imageSubresource_baseArrayLayer region) 1
               :: before
            ++ [Vulkan.CmdCopyImageToBuffer (texture_addr (tc_texture source))
                  (buffer_addr (bc_buffer destination)) region]
       /\ Forall (fun e => Vulkan.isTrackerCall e = false /\ Vulkan.isCopyCall e = false)
            before)
  /\ (forall w : D3D12.World (A := A),
        let copySplit :=
          D3D12.ComputeTextureCopySplit (tc_origin source) copySize
            (GetFormat (tc_texture source))
            (bc_offset destination) (bc_rowPitch destination)
            (bc_imageHeight destination) in
        exists w' before,
          D3D12.RecordCopyTextureToBuffer source destination copySize w = (Ok tt, w')
          /\ D3D12.commandList w'
             = D3D12.commandList w
               ++ D3D12.Call_EnsureSubresourceContentInitialized
                    (texture_addr (tc_texture source))
                    (tc_mipLevel source) 1 (tc_arrayLayer source) 1
                  :: before
               ++ map (fun info =>
                         D3D12.CopyTextureRegionToBuffer
                           (buffer_addr (bc_buffer destination))
                           (D3D12.info_bufferSize info)
                           (D3D12.split_offset copySplit) (bc_rowPitch destination)
                           (D3D12.info_bufferOffset info)
                           (texture_addr (tc_texture source)) (tc_mipLevel source)
                           (tc_arrayLayer source) (D3D12.info_textureOffset info)
                           (D3D12.info_copySize info))
                    (D3D12.split_copies copySplit)
          /\ Forall (fun e => D3D12.isTrackerCall e = false /\ D3D12.isCopyCall e = false)
               before).
Proof.
  split.
  - intros w. apply RecordCopyTextureToBuffer_trace_vk.
  - intros w. apply RecordCopyTextureToBuffer_trace_d3d12.
Qed.

End CopiesBothBackEnds.

Section CopiesSample.
Import Vulkan Samples MoreSamples.
#[local] Existing Instance dawnConstants.
#[local] Existing Instance vulkanDevice.

(** Two rows of two blocks of 8 bytes: a temporary buffer of 32 bytes,
    read with a row pitch of 16. *)
Lemma temporary_buffer_holds_the_copied_blocks_sample :
  exists w' new,
    RecordCopyImageWithTemporaryBuffer compressedSource compressedDestination extent8
      vulkanWorld = (Ok tt, w')
    /\ commands w' = commands vulkanWorld ++ new
    /\ List.filter (fun e => negb (isBarrierCall e)) new
       = [CmdCopyImageToBuffer 54 73
            {| region_bufferOffset := 0;
               region_bufferRowLength := 16;
               region_bufferImageHeight := 8;
               imageSubresource_mipLevel := 0;
               imageSubresource_baseArrayLayer := 0;
               region_imageOffset := {| x := 0; y := 0; z := 0 |};
               region_imageExtent := extent8 |};
          CmdCopyBufferToImage 73 55
            {| region_bufferOffset := 0;
               region_bufferRowLength := 16;
               region_bufferImageHeight := 8;
               imageSubresource_mipLevel := 0;
               imageSubresource_baseArrayLayer := 0;
               region_imageOffset := {| x := 0; y := 0; z := 0 |};
               region_imageExtent := extent8 |};
          Call_tempBuffers_emplace_back 73].
Proof.
  pose proof (temporary_buffer_holds_the_copied_blocks compressedSource
                compressedDestination extent8 vulkanWorld) as Hsample.
  cbv zeta in Hsample.
  repeat match type of Hsample with
         | ?P -> _ =>
           let Hp := fresh "Hp" in
           assert (Hp : P) by (by vm_compute); specialize (Hsample Hp); clear Hp
         end.
  exact Hsample.
Defined.

End CopiesSample.

(** ** D3D12: Apply when the dirty groups fit, and where its errors come from *)
Section D3D12Apply.
Import D3D12.
Context `{Constants}.
Context `{Device}.
Context {A : Type} `{ShaderVisibleDescriptorAllocator A}.

Local Abbreviation World := (World (A := A)).

(** The first loop of [Apply], read off the populations it logged. *)
Lemma populateDirtyBindGroups_spec (t : BindGroupTracker) indices (w : World) :
  exists r w' pops,
    populateDirtyBindGroups t indices w = (r, w') /\
    commandList w' = commandList w ++ pops /\
    match r with
    | Ok true =>
      exists groups, groupsAt t indices = Some groups /\ pops = populatedGroup <$> groups
    | Ok false =>
      exists groups g, pops = (populatedGroup <$> groups) ++ [Call_Populate g (Success false)]
    | Err msg =>
      exists groups g, pops = (populatedGroup <$> groups) ++ [Call_Populate g (Error msg)]
    | Fatal why => exists groups, pops = populatedGroup <$> groups
    end.
Proof.
  revert w. induction indices as [| index rest IH]; intros w.
  - exists (Ok true), w, []. split; [done |]. split; [by rewrite app_nil_r |].
    by exists [].
  - unfold groupsAt in *. cbn [populateDirtyBindGroups mapM].
    pose proof (PopulateBindGroup_spec t index w) as Hpop.
    destruct (mjoin (at_ (mBindGroups t) index)) as [group |].
    + destruct Hpop as (result & w1 & Hpop & Htrace1).
      destruct result as [[|] | msg]; simpl in Hpop.
      * destruct (IH w1) as (r & w' & pops & Hrest & Htrace & Hr).
        exists r, w', (populatedGroup group :: pops).
        split; [| split].
        -- by erewrite bind_Ok; [| exact Hpop].
        -- by rewrite Htrace, Htrace1, <- app_assoc.
        -- destruct r as [[|] | msg | why].
           ++ destruct Hr as (groups & -> & ->). by exists (group :: groups).
           ++ destruct Hr as (groups & g & ->). by exists (group :: groups), g.
           ++ destruct Hr as (groups & g & ->). by exists (group :: groups), g.
           ++ destruct Hr as (groups & ->). by exists (group :: groups).
      * exists (Ok false), w1, [Call_Populate (group_addr group) (Success false)].
        split; [| split; [done |]].
        -- by erewrite bind_Ok; [| exact Hpop].
        -- by exists [], (group_addr group).
      * exists (Err msg), w1, [Call_Populate (group_addr group) (Error msg)].
        split; [| split; [done |]].
        -- by erewrite bind_Err; [| exact Hpop].
        -- by exists [], (group_addr group).
    + exists (Fatal "mBindGroups[index] is null"), w, [].
      split; [| split; [by rewrite app_nil_r |]].
      * by erewrite bind_Fatal; [| exact Hpop].
      * by exists [].
Qed.

(** X10. D3D12, [BindGroupStateTracker::Apply], when every dirty bind
    group fits in the shader-visible heaps (the first loop ends with
    [didCreateBindGroups = true]).  The dirty groups, and no others, were
    populated, each once, in the order of their slots.  No heap is allocated
    or switched and no group is populated again: what follows is the binding
    of the groups, from the tracker as it was, and Apply returns no error. *)
Theorem groups_that_fit_need_no_heap_switch (t : BindGroupStateTracker) (w w1 : World) :
  let dirtyIndices := IterateBitSet kMaxBindGroups (mDirtyBindGroups (base t)) in
  populateDirtyBindGroups (base t) dirtyIndices w = (Ok true, w1) ->
  (exists groups,
     groupsAt (base t) dirtyIndices = Some groups
     /\ commandList w1 = commandList w ++ (populatedGroup <$> groups))
  /\ Apply t w = bindingPhase t w1
  /\ (exists bindings,
        commandList (Apply t w).2 = commandList w1 ++ bindings
        /\ Forall notAllocatorCall bindings)
  /\ forall msg, (Apply t w).1 <> Err msg.
Proof.
  intros dirtyIndices Hfirst.
  assert (Hphase : Apply t w = bindingPhase t w1).
  { unfold Apply. fold dirtyIndices. erewrite bind_Ok; [| exact Hfirst].
    by erewrite bind_Ok; [| reflexivity]. }
  split; [| split; [exact Hphase | split]].
  - destruct (populateDirtyBindGroups_spec (base t) dirtyIndices w)
      as (r & w' & pops & Hrun & Htrace & Hr).
    rewrite Hfirst in Hrun. injection Hrun as <- <-.
    destruct Hr as (groups & Hgroups & ->). by exists groups.
  - rewrite Hphase. destruct (records_bindingPhase t w1) as (bindings & Htrace & Hall).
    by exists bindings.
  - intros msg. rewrite Hphase. apply errorFree_bindingPhase.
Qed.

(** X11. D3D12, [BindGroupStateTracker::Apply] hands an error to its
    caller only when the allocator reported it: the last call recorded is
    then the population, or the allocation of new heaps, that answered with
    this error. *)
Theorem apply_errors_come_from_the_allocator (t : BindGroupStateTracker) (w : World) msg :
  (Apply t w).1 = Err msg ->
  exists before failed,
    commandList (Apply t w).2 = commandList w ++ before ++ [failed]
    /\ ((exists group, failed = Call_Populate group (Error msg))
        \/ failed = Call_AllocateAndSwitchShaderVisibleHeaps (Error msg)).
Proof.
  intros Herror. unfold Apply in *.
  destruct (populateDirtyBindGroups_spec (base t)
              (IterateBitSet kMaxBindGroups (mDirtyBindGroups (base t))) w)
    as (r & w1 & pops & Hfirst & Htrace1 & Hr).
  destruct r as [[|] | msg1 | why].
  - exfalso. erewrite bind_Ok in Herror; [| exact Hfirst].
    erewrite bind_Ok in Herror; [| reflexivity].
    by apply (errorFree_bindingPhase t w1 msg).
  - erewrite bind_Ok in Herror; [| exact Hfirst]. erewrite bind_Ok; [| exact Hfirst].
    destruct (switchHeapsAndRepopulate_spec t w1) as (r2 & w2 & rest & Hswitch & Htrace2 & Hr2).
    destruct r2 as [t2 | msg2 | why2].
    + exfalso. erewrite bind_Ok in Herror; [| exact Hswitch].
      by apply (errorFree_bindingPhase t2 w2 msg).
    + erewrite bind_Err in Herror; [| exact Hswitch].
      injection Herror as Hmsg. subst msg2.
      erewrite bind_Err; [| exact Hswitch]. cbn [snd]. rewrite Htrace2, Htrace1.
      destruct (AllocateAndSwitchShaderVisibleHeaps (mAllocator w1)).1 as [[] | msg3].
      * destruct Hr2 as [(heap0 & heap1 & groups & _ & _ & _ & Hresult)
                        | [(heaps & groups & g & _ & Hresult)
                          | [(heaps & groups & g & msg4 & -> & Hresult)
                            | (why & Hresult & _)]]]; try discriminate Hresult.
        injection Hresult as Hmsg. subst msg4.
        eexists (pops ++ _ :: _ :: (populatedGroup <$> groups)), _.
        split; [| left; by eexists].
        rewrite <- !app_assoc. cbn [app]. by rewrite <- ?app_assoc.
      * destruct Hr2 as [Hresult ->]. injection Hresult as Hmsg. subst msg3.
        exists pops, (Call_AllocateAndSwitchShaderVisibleHeaps (Error msg)).
        split; [by rewrite <- app_assoc | by right].
    + by erewrite bind_Fatal in Herror; [| exact Hswitch].
  - erewrite bind_Err in Herror; [| exact Hfirst].
    injection Herror as Hmsg. subst msg1.
    erewrite bind_Err; [| exact Hfirst]. cbn [snd]. rewrite Htrace1.
    destruct Hr as (groups & g & ->).
    exists (populatedGroup <$> groups), (Call_Populate g (Error msg)).
    split; [done | left; by eexists].
  - by erewrite bind_Fatal in Herror; [| exact Hfirst].
Qed.

End D3D12Apply.

Section D3D12ApplySample.
Import D3D12 Samples MoreSamples.
#[local] Existing Instance dawnConstants.

(** One dirty group and room for it: it is populated, then bound. *)
Lemma groups_that_fit_need_no_heap_switch_sample :
  exists bindings,
    commandList (Apply (H1 := poolAllocator) trackerWithGroup (emptyWorld 8)).2
    = [Call_Populate 41 (Success true)] ++ bindings
    /\ Forall notAllocatorCall bindings.
Proof.
  set (w1 := (populateDirtyBindGroups (H1 := poolAllocator) (base trackerWithGroup)
                (IterateBitSet kMaxBindGroups (mDirtyBindGroups (base trackerWithGroup)))
                (emptyWorld 8)).2).
  assert (Hfirst : populateDirtyBindGroups (H1 := poolAllocator) (base trackerWithGroup)
                     (IterateBitSet kMaxBindGroups
                        (mDirtyBindGroups (base trackerWithGroup)))
                     (emptyWorld 8) = (Ok true, w1)) by (vm_compute; reflexivity).
  destruct (groups_that_fit_need_no_heap_switch (H1 := poolAllocator)
              trackerWithGroup (emptyWorld 8) w1 Hfirst)
    as (_ & _ & (bindings & Htrace & Hall) & _).
  exists bindings. split; [exact Htrace | exact Hall].
Defined.

(** The allocator is out of memory: Apply hands its error back, and the
    failed population is the last call recorded. *)
Lemma apply_errors_come_from_the_allocator_sample :
  exists before failed,
    commandList (Apply (H1 := failingAllocator) trackerWithGroup failingWorld).2
    = commandList failingWorld ++ before ++ [failed]
    /\ ((exists group, failed = Call_Populate group (Error "out of descriptor memory"))
        \/ failed = Call_AllocateAndSwitchShaderVisibleHeaps
                      (Error "out of descriptor memory")).
Proof.
  apply (apply_errors_come_from_the_allocator (H1 := failingAllocator)
           trackerWithGroup failingWorld "out of descriptor memory").
  vm_compute. reflexivity.
Defined.

End D3D12ApplySample.

(** ** D3D12: what PrepareResourcesForSubmission answers *)
Section D3D12Prepare.
Import D3D12.
Context `{Constants}.
Context `{Device}.
Context {A : Type} `{ShaderVisibleDescriptorAllocator A}.

Local Abbreviation World := (World (A := A)).

Lemma land_lor_eqb_0 (usages usage flag : Z) :
  (Z.land (Z.lor usages usage) flag =? 0)
  = (Z.land usages flag =? 0) && (Z.land usage flag =? 0).
Proof.
  rewrite Z.land_lor_distr_l.
  destruct (Z.land usages flag =? 0) eqn:Hfirst;
    destruct (Z.land usage flag =? 0) eqn:Hsecond; cbn [andb];
    rewrite ?Z.eqb_eq, ?Z.eqb_neq in *; rewrite ?Z.lor_eq_0_iff; tauto.
Qed.

Lemma collected_buffer_usages (entries : list (Buffer * Z)) barriers bufferUsages flag
    (w : World) barriers' bufferUsages' w' :
  foldRec entries collectBufferBarrier (barriers, bufferUsages) w
  = (Ok (barriers', bufferUsages'), w') ->
  (Z.land bufferUsages' flag =? 0)
  = (Z.land bufferUsages flag =? 0)
    && negb (existsb (fun entry => negb (Z.land entry.2 flag =? 0)) entries).
Proof.
  revert barriers bufferUsages w.
  induction entries as [| [buffer usage] rest IH]; intros barriers bufferUsages w Hrun.
  - injection Hrun as _ <- _. cbn. by rewrite andb_true_r.
  - rewrite foldRec_cons in Hrun.
    destruct (collectBufferBarrier_spec barriers bufferUsages buffer usage w)
      as (w1 & Hstep & _).
    erewrite bind_Ok in Hrun; [| exact Hstep].
    apply IH in Hrun as ->. cbn [existsb snd].
    rewrite land_lor_eqb_0, negb_orb, negb_involutive. by rewrite andb_assoc.
Qed.

Lemma collected_texture_usages (entries : list (Texture * Z)) barriers textureUsages flag
    (w : World) barriers' textureUsages' w' :
  foldRec entries collectTextureBarrier (barriers, textureUsages) w
  = (Ok (barriers', textureUsages'), w') ->
  (Z.land textureUsages' flag =? 0)
  = (Z.land textureUsages flag =? 0)
    && negb (existsb (fun entry => negb (Z.land entry.2 flag =? 0)) entries).
Proof.
  revert barriers textureUsages w.
  induction entries as [| [texture usage] rest IH]; intros barriers textureUsages w Hrun.
  - injection Hrun as _ <- _. cbn. by rewrite andb_true_r.
  - rewrite foldRec_cons in Hrun.
    destruct (collectTextureBarrier_spec barriers textureUsages texture usage w)
      as (w1 & Hstep & _).
    erewrite bind_Ok in Hrun; [| exact Hstep].
    apply IH in Hrun as ->. cbn [existsb snd].
    rewrite land_lor_eqb_0, negb_orb, negb_involutive. by rewrite andb_assoc.
Qed.

(** X12. D3D12, the lambda [PrepareResourcesForSubmission] of
    [RecordCommands]: it always returns, and what it returns (the
    [passHasUAV] given to the render pass builder) is true exactly when some
    buffer of the pass is used with the storage bit set or some texture of
    the pass is. *)
Theorem pass_has_uav_when_a_resource_is_storage (usages : PassResourceUsage) (w : World) :
  (PrepareResourcesForSubmission usages w).1
  = Ok (existsb (fun entry => negb (Z.land entry.2 BufferUsage_Storage =? 0))
          (usage_buffers usages)
        || existsb (fun entry => negb (Z.land entry.2 TextureUsage_Storage =? 0))
             (usage_textures usages)).
Proof.
  unfold PrepareResourcesForSubmission.
  destruct (collect_buffers_spec (usage_buffers usages) [] 0 w)
    as (bufferUsages & w1 & Hrun1 & _).
  erewrite bind_Ok; [| exact Hrun1]. cbn beta iota.
  destruct (ensure_textures_spec (usage_textures usages) w1) as (w2 & clears & Hrun2 & _).
  erewrite bind_Ok; [| exact Hrun2].
  match goal with
  | |- context [foldRec (usage_textures usages) collectTextureBarrier (?barriers, 0)] =>
    destruct (collect_textures_spec (usage_textures usages) barriers 0 w2)
      as (textureUsages & w3 & Hrun3 & _)
  end.
  erewrite bind_Ok; [| exact Hrun3]. cbn beta iota.
  rewrite (collected_buffer_usages _ _ _ BufferUsage_Storage _ _ _ _ Hrun1).
  rewrite (collected_texture_usages _ _ _ TextureUsage_Storage _ _ _ _ Hrun3).
  rewrite !Z.land_0_l. cbn [Z.eqb andb]. rewrite !negb_involutive.
  by destruct (0 <? _).
Qed.

End D3D12Prepare.

(** ** D3D12: the descriptors of a render pass, and its resolves *)
Section D3D12RenderPass.
Import D3D12.
Context `{Constants}.
Context `{Device}.
Context {A : Type} `{ShaderVisibleDescriptorAllocator A}.

Local Abbreviation World := (World (A := A)).

(** The loop of [GetSubpassOMSetRenderTargetArgs]: while the views still to
    create fit in the [rtvCount] descriptors of the heap, the assertion
    holds at each turn and the views take the next descriptors in order. *)
Lemma createRenderTargetViews_spec (renderPass : BeginRenderPassCmd) rtvHeap rtvCount
    (indices : list Z) (rtvs : list (positive * Z)) (w : World) :
  Z.of_nat (length rtvs + length indices) <= rtvCount ->
  foldRec indices
    (fun rtvs i =>
       let rtvIndex := Z.of_nat (length rtvs) in
       let view := ca_view (colorAttachments renderPass i) in
       (ASSERT (rtvIndex <? rtvCount) "ASSERT(rtvIndex < rtvCount)" ;'
        emit (Call_CreateRenderTargetView (texture_addr (GetTexture view))
                (view_addr view) rtvHeap rtvIndex) ;'
        ret (rtvs ++ [(rtvHeap, rtvIndex)]))%rec)
    rtvs w
  = (Ok (rtvs ++ imap (fun k _ => (rtvHeap, Z.of_nat (length rtvs + k))) indices),
     appendCommands w
       (imap (fun k i =>
                let view := ca_view (colorAttachments renderPass i) in
                Call_CreateRenderTargetView (texture_addr (GetTexture view))
                  (view_addr view) rtvHeap (Z.of_nat (length rtvs + k)))
          indices)).
Proof.
  revert rtvs w. induction indices as [| i indices IH]; intros rtvs w Hfit.
  - cbn. by rewrite app_nil_r, appendCommands_nil.
  - cbn [foldRec]. cbn [length] in Hfit.
    assert (Hnext : (Z.of_nat (length rtvs) <? rtvCount) = true) by (apply Z.ltb_lt; lia).
    cbv zeta. rewrite Hnext. cbn [ASSERT].
    erewrite bind_Ok; [| reflexivity].
    rewrite IH by (rewrite length_app; cbn [length]; lia).
    rewrite appendCommands_app, length_app. cbn [length imap].
    rewrite Nat.add_0_r, <- app_assoc. cbn [app].
    match goal with
    | |- (Ok (_ ++ _ :: imap ?f1 _), appendCommands _ (_ :: imap ?f2 _))
         = (Ok (_ ++ _ :: imap ?g1 _), appendCommands _ (_ :: imap ?g2 _)) =>
      rewrite (imap_ext f1 g1 indices) by (intros k j _; cbn; f_equal; lia);
      rewrite (imap_ext f2 g2 indices) by (intros k j _; cbn; f_equal; lia)
    end.
    reflexivity.
Qed.

(** X13. D3D12, [GetSubpassOMSetRenderTargetArgs].  The heap is asked for
    as many descriptors as the pass has colour attachments, and the view of
    the k-th attachment of the mask, in ascending order, is created in
    descriptor k: [ASSERT(rtvIndex < rtvCount)] never fails, [numRTVs] is
    the number of attachments and [RTVs] are the descriptors 0, 1, ... of
    that heap.  The depth-stencil view, if the pass has one, takes
    descriptor 0 of a heap of its own.  The function does not end well in
    four cases only: an allocation reports an error, which is handed to the
    caller, or an allocation hands back a handle without a heap, which
    fails [ASSERT(rtvHeap.Get() != nullptr)] or
    [ASSERT(dsvHeap.Get() != nullptr)]; the colour views are created before
    the depth-stencil heap is asked for. *)
Theorem render_target_views_fill_the_heap (renderPass : BeginRenderPassCmd) (w : World) :
  let colorIndices :=
    IterateBitSet kMaxColorAttachments
      (GetColorAttachmentsMask (attachmentState renderPass)) in
  let rtvCount := Z.of_nat (length colorIndices) in
  match AllocateCPUHeap D3D12_DESCRIPTOR_HEAP_TYPE_RTV rtvCount with
  | Error msg => GetSubpassOMSetRenderTargetArgs renderPass w = (Err msg, w)
  | Success None =>
    GetSubpassOMSetRenderTargetArgs renderPass w
    = (Fatal "ASSERT(rtvHeap.Get() != nullptr)", w)
  | Success (Some rtvHeap) =>
    let created :=
      imap (fun k i =>
              let view := ca_view (colorAttachments renderPass i) in
              Call_CreateRenderTargetView (texture_addr (GetTexture view))
                (view_addr view) rtvHeap (Z.of_nat k))
        colorIndices in
    let rtvs := imap (fun k _ => (rtvHeap, Z.of_nat k)) colorIndices in
    if HasDepthStencilAttachment (attachmentState renderPass) then
      match AllocateCPUHeap D3D12_DESCRIPTOR_HEAP_TYPE_DSV 1 with
      | Error msg =>
        GetSubpassOMSetRenderTargetArgs renderPass w = (Err msg, appendCommands w created)
      | Success None =>
        GetSubpassOMSetRenderTargetArgs renderPass w
        = (Fatal "ASSERT(dsvHeap.Get() != nullptr)", appendCommands w created)
      | Success (Some dsvHeap) =>
        let view := ds_view (depthStencilAttachment renderPass) in
        GetSubpassOMSetRenderTargetArgs renderPass w
        = (Ok {| numRTVs := rtvCount; RTVs := rtvs; dsv := Some (dsvHeap, 0) |},
           appendCommands w
             (created
              ++ [Call_CreateDepthStencilView (texture_addr (GetTexture view))
                    (view_addr view) dsvHeap 0]))
      end
    else
      GetSubpassOMSetRenderTargetArgs renderPass w
      = (Ok {| numRTVs := rtvCount; RTVs := rtvs; dsv := None |},
         appendCommands w created)
  end.
Proof.
  intros colorIndices rtvCount. unfold GetSubpassOMSetRenderTargetArgs.
  fold colorIndices. fold rtvCount. unfold lift.
  destruct (AllocateCPUHeap D3D12_DESCRIPTOR_HEAP_TYPE_RTV rtvCount)
    as [[rtvHeap |] | msg]; [| reflexivity | reflexivity].
  cbv zeta.
  assert (Hfit : Z.of_nat (length (@nil (positive * Z)) + length colorIndices) <= rtvCount)
    by (subst rtvCount; cbn [length]; lia).
  destruct (HasDepthStencilAttachment (attachmentState renderPass));
    [destruct (AllocateCPUHeap D3D12_DESCRIPTOR_HEAP_TYPE_DSV 1) as [[dsvHeap |] | msg] |];
    (erewrite bind_Ok; [| reflexivity]); (erewrite bind_Ok; [| reflexivity]);
    (erewrite bind_Ok;
       [| exact (createRenderTargetViews_spec renderPass rtvHeap rtvCount colorIndices
                   [] w Hfit)]);
    cbn [length Nat.add app].
  - erewrite bind_Ok; [| reflexivity]. erewrite bind_Ok; [| reflexivity].
    erewrite bind_Ok; [| reflexivity].
    unfold ret. by rewrite appendCommands_app.
  - erewrite bind_Ok; [| reflexivity]. by erewrite bind_Fatal; [| reflexivity].
  - by erewrite bind_Err; [| reflexivity].
  - reflexivity.
Qed.

End D3D12RenderPass.
